(* ===== verification/_CoqProject ===== *)
-Q . S2P
Prelude.v
Settings.v
Errors.v
RateLimiter.v
ThrottleSpec.v
Models.v
State.v
Paths.v
Http.v
Router.v
Crud.v
Users.v
Fixtures.v
Auth.v
AuthRoutes.v
Migration.v
ThreadService.v
ChatService.v
TokenUtils.v
Dict.v
DictSpec.v
FileService.v
FileRoutes.v
ThreadRoutes.v
Schemas.v
ChatRoutes.v
App.v
Wiring.v
Monitor.v
Config.v
Deploy.v
Cors.v
Sse.v
TestRunner.v
