(* ===== verification/Prelude.v ===== *)
(** * g-chat backend: a verification development

    The program is a FastAPI backend (Python, [src/backend]) that
    authenticates users, stores chat threads and messages in a relational
    database, forwards questions to a hosted language model and streams the
    answer back as server-sent events while it accounts tokens against a
    per-minute budget.  Two parts carry state and ordering and are the core of
    this development: the usage throttle ([app/utils/rate_limiter.py]) and the
    streaming chat orchestrator ([app/chat/chat_service.py]) with the thread
    and message persistence it writes to ([app/threads/thread_service.py],
    [app/crud/chat.py]).  Around them are authentication ([app/auth/auth.py],
    [app/api/routes/auth.py]), the route handlers ([app/api/routes]), the
    token accounting queries ([app/utils/token_utils.py]), the file store
    ([app/file_management/file_service.py]), the application that
    [app/main.py] assembles from them, and the scripts that sit beside the
    application: the migration to a second database
    ([migrate_to_supabase.py]), the declaration of the deployment
    ([cdk_ecs_deployment.py], [app.py]), the monitor of what the
    deployment uses ([monitor_free_tier.py]) and the script that runs the
    tests ([run_tests.py]).

    ** Files, in dependency order

    - [Prelude] (this file): the [result] type; the state-and-exception
      effect [Eff] with [bind], [try_except], [zoom] (a computation on a part
      of the state), [total], the loop [for_each] and the unit of work
      [atomically], and its [let*] notation (scope [eff_scope]); how a
      script ends ([ending]); the Python idioms the sources rely on
      ([py_or], [py_int], [py_len], [py_truthy], [split_char] and the other
      string functions); labelled executions [lstar] of a step relation;
      the shared lemmas on the effect, strings, lists and keyed tables; the
      tactics [inv], [break_match], [eff_simpl], [eff_preserves_step],
      [zbool], [zcompute] and the hint databases [gchat] and [gchat_rw].
    - [Settings]: [app/config/settings.py], the configuration record and the
      defaults the code falls back to when the environment is silent.
    - [Errors]: [app/utils/errors.py], the [APIError] hierarchy, the
      framework's [HTTPException], the exception sum [exn] the handlers
      dispatch on, and [str] and [int] between integers and strings.
    - [RateLimiter]: [app/utils/rate_limiter.py].  The module-level dict
      [usage_tracking] is the record [UsageTracking]; every function of the
      file is a definition of the same name that takes the clock reading(s)
      it performs as arguments and returns the new state.  [track_request]
      raises, so it lives in [Eff]: the state it returns on the error path is
      the state after the lazy reset, as in the code, where a raise does not
      undo the assignment to the global.  Sequences of calls are lists of
      [op], run by [run_ops].
    - [ThrottleSpec]: the throttle's contract as the specification words it
      (section 4.1), as the class [Throttle]; the instance for [RateLimiter];
      the client lemmas proved against the class only; the reference model
      [Ledger], which keeps the list of what the window admitted, and the
      refinement of the ledger by the code's two counters.
    - [Models]: [app/models/chat.py], [app/models/user.py] and the create
      and update schemas of [app/schemas/chat.py]: rows as records in a
      module of the class's name, the database [Db] as a record of tables
      (lists in insertion order), the constraints as [db_ok].
    - [State]: the [World] a request acts on, the pair of the throttle's
      dict and the database, with the lifts [on_usage] and [on_db].
    - [Paths]: what the file service calls of [os.path] and of strings:
      [splitext] (with its scan over leading dots), [path_join] on POSIX
      paths, [str_join], [startswith] and the [.1f] format.
    - [Http]: [handle_rate_limit] and the status the framework answers with
      for what a handler returns or raises ([respond]).
    - [Router]: the route table of [app/main.py] in registration order
      ([app_routes], built with [include_router] from the routers of the
      six route modules) and the framework's lookup [route_for]; the audit
      [shadowed] of a table.
    - [Crud]: [app/crud/chat.py], one definition per function, in the module
      [chat_crud].
    - [Users]: [app/schemas/user.py] with the constraints pydantic
      enforces, the users table, and the functions of the absent
      [app/crud/user.py] and [app/utils/password.py] as the handlers call
      them (module [user_crud], class [PasswordHasher]).
    - [Fixtures]: the concrete database, users and worlds of the witnesses.
    - [Auth]: [app/auth/auth.py]: [create_access_token],
      [get_current_user], [get_current_active_user] and the bearer scheme,
      over the class [Jwt] of the token library.
    - [AuthRoutes]: [app/api/routes/auth.py] (module [auth_routes]) and the
      two unmounted routers of [app/api/endpoints] (modules
      [auth_endpoints], [users_endpoints]).
    - [Migration]: [migrate_to_supabase.py] (module [migrate_to_supabase]):
      the three merge loops with their commits and the rollback, the
      verification by row counts, [main] with its exits.
    - [ThreadService]: [app/threads/thread_service.py], one definition per
      function, in the module [thread_service].
    - [ChatService]: [app/chat/chat_service.py].  The async generator
      [stream_response] is modelled twice: as the total function
      [stream_response] on the model's stream, and as the labelled step
      relation [step] on the generator's configurations [gen], one rule per
      path between two suspension points.
    - [TokenUtils]: [app/utils/token_utils.py], one definition per
      function, in the module [token_utils]; the average of the statistics
      is an exact rational.
    - [Dict]: Python's insertion-ordered [dict] with string keys, as an
      association list with [dict_get], [dict_set], [dict_del] and the
      invariant [dict_ok] (no key twice).
    - [DictSpec]: what a dict promises to a client that only looks keys up:
      [to_gmap] takes a dict to a finite map, and every operation of [Dict]
      is the map's operation.
    - [FileService]: [app/file_management/file_service.py].  The state
      [FileState] is the dict [uploaded_files] and the disk, a finite map
      from path to bytes; [save_uploaded_file] with its write loop
      [write_chunks] on the sequence of what [file.read] gives,
      [get_file_info], [list_files], [delete_file], [prepare_file_parts].
    - [FileRoutes]: [app/api/routes/files.py], the four handlers on the
      pair [FileWorld] of the throttle's counters and the file state, and
      the router [handle_file] on a [file_request].
    - [ThreadRoutes]: [app/api/routes/threads.py], the eight handlers, and
      the router as the dispatch [handle] on a [request].
    - [Schemas]: the response schemas of [app/schemas/chat.py] and the
      selection [body_of] of the fields a thread route answers with; the
      models of [app/models/base.py] (module [base]).
    - [ChatRoutes]: [app/api/routes/chat.py], [rate_limits.py], [models.py].
    - [App]: the application, one request at a time: [serve] looks the
      request up in the table, resolves the dependency on the current user
      from the [Authorization] header, checks path parameters and body and
      calls the handler, on the state [AppState] of counters, database and
      file store; [serve_all] serves a sequence.
    - [Wiring]: the start-up hook of [app/main.py], [init_db] and
      [scripts/create_tables.py], the entry point [main.py], the two
      calls that configure the root logger (module [logging]), and the
      request logging middleware of [app/utils/middleware.py] (module
      [RequestLoggingMiddleware]).
    - [Monitor]: [monitor_free_tier.py] (module [monitor_free_tier]): the
      five checks and the run, on the answers of the AWS clients, printing
      [Line]s.
    - [Config]: the process environment as a dict and [environ_of], the
      reading of it [Settings.load_settings] starts from; the origin lists
      of [settings.py] (module [settings]) and the CORS middleware
      [app/main.py] installs; the database URL and the banner of
      [app/database/database.py] (module [database]).
    - [Deploy]: [cdk_ecs_deployment.py] (module [cdk_ecs_deployment]): the
      stack as records, the placeholder parameters as a computation on the
      parameter store, [main]; and the declaration checked against
      [Settings], [Auth], [App], [Config] and [Monitor].
    - [Cors]: the application behind the CORS middleware ([cors_app]): the
      headers the middleware prepares and adds ([simple_headers],
      [preflight_headers], [send]), the answer to a preflight request, and
      which outcomes of the application leave through it ([escapes]).
    - [Sse]: the framing of the events of a chat as server-sent events
      ([sse], with [json.dumps] as [escape]), the body of the response
      ([body_text], [wire]) and the reading a client makes of it
      ([parse_stream]).
    - [TestRunner]: [run_tests.py] (module [run_tests]): the three runs
      and the dispatch on the argument, over the file name match
      [fnmatch] of the test loader.

    ** Modelling choices

    - Integers are Python's unbounded [int]: [Z].  [//] is [Z.div] (floor),
      [int(x)] on a float is truncation toward zero ([Z.quot]).
    - [time.time()] returns float seconds.  Clock readings are integer
      multiples of a tick of [1/TICKS_PER_SECOND] seconds (a millisecond), so
      the code's [60] is [60 * TICKS_PER_SECOND] ticks.  Every call of
      [time.time()] is an argument of the definition that makes it; nothing
      assumes two readings are equal or ordered.  The [exp] claim of a token
      is in whole seconds, as the library writes it.
    - Strings are [string]; [len] is [String.length] (the model's characters
      are the code's code points, those below 256; the two pictographs of
      the notices the code yields are written as their UTF-8 bytes).
    - External libraries are interfaces with the laws the program relies
      on: [Tokenizer] for [tiktoken] (an encoder that may raise), [Jwt] and
      [JwtSound] for the token library (a signed payload verifies to
      itself; a token that verifies was signed), [PasswordHasher] (a hash
      verifies its password) and [EmailValidator].  The theorems are proved
      against the classes; the witnesses use reference instances.
    - UUIDs are integers.  [uuid.uuid4()], the salt of a hash and the
      database's [now()] are choices of the environment: arguments of the
      operations that insert rows.  A primary key that repeats, a foreign
      key that points nowhere, a unique column that repeats and a null in a
      [NOT NULL] column are the engine's integrity error, a value of [exn];
      the operation that meets one leaves the tables as they were.
    - A SQLAlchemy session is the [Db] record passed through; [commit] is
      the point at which a definition returns the new record, and a
      rollback gives back the record of the last commit ([atomically]).
    - The model client and the limiter library's decorator are outside the
      program: the stream of chunks the client gives (or the exception it
      raises) and the decorator's verdict are arguments.
    - A handler is a computation of [Eff World exn] (of [Eff FileWorld
      exn] for the file routes, of [Eff Db exn] for the authentication
      routes); what it raises is what leaves the Python function.  In the
      component files the authenticated user, or the outcome of the
      dependency on it, is an argument; [App] computes it from the header.
    - A request arrives with its body decoded ([Body]); a path is compared
      with a pattern piece by piece, and a path parameter is parsed by
      [uuid_param] where the handler declares a UUID.  The framework
      resolves dependencies before it validates arguments, so a refused
      caller gets 401 before 422.
    - The file system is a finite map from path to content ([gmap]); the
      operating system's own failures ([open], [write], [remove]) are not
      modelled.  An upload is the list of what the successive calls of
      [file.read] give: chunks, the empty chunk that ends the data, or an
      exception.  The timestamp, the id hashed from it and from [uuid4],
      the type [mimetypes] guesses and the order in which the set of
      allowed extensions is listed are arguments ([UploadDraw]).
    - [MAX_UPLOAD_SIZE / (1024 * 1024)] is formatted from the exact
      quotient; the rounding error of the float division is not modelled.
      Costs in [Monitor] are exact rationals, sizes are bytes and durations
      microseconds where the script prints their quotients.
    - What a script prints is the list of the lines printed, one
      constructor per [print] statement with the values it interpolates.
      What an AWS client answers, whether an engine connects and whether
      the tables can be created are arguments: a record of answers or
      exceptions.
    - [datetime] is a record of its fields; the instant it stands for is
      computed with the proleptic Gregorian ordinal of the standard
      library.
    - The process environment is a dict from names to strings;
      [Config.environ_of] is [None] where an [int(...)] of [settings.py]
      raises.
    - Fuel: the loops are folds over finite lists (the chunk sequence, the
      reads of an upload, the tables, the rows to merge, the resources to
      report), structurally recursive; the step machine is a relation and
      its executions are finite by construction.  The one counted loop is
      the scan of [splitext] over the dots that begin a file name, [while
      filenameIndex < dotIndex]: its fuel is [dotIndex - (sepIndex + 1)],
      the number of times the test can hold, so the scan never stops for
      lack of fuel.  [ChatService.steps_left] measures the resumptions a
      generator has left.

    ** What the theorems show

    - Throttle ([RateLimiter], [ThrottleSpec]): the counters stay within
      their limits on every reachable state; a call after the window has
      passed sees only itself in the counters; [n] unit admissions inside
      one window succeed exactly [min n room] times whatever their clock
      readings; inside a window the counters are the sums of what was
      admitted; a rejected [track_request] inside the window raises the
      rate-limit error and changes nothing; the status report is idempotent
      inside a window and its figures are bounded; the code refines the
      ledger; whatever the state, a request that waits long enough is
      admitted.
    - Orchestrator ([ChatService]): the function and the machine agree;
      every run ends with the terminal marker and holds it once; no
      execution writes to the database before the marker; a run with no
      truncation and no failure writes exactly one model row whose content
      is the concatenation of the fragments; a rejected chunk ends the
      stream with the notice and nothing is written; an upstream failure is
      reported in-band; a reply to a missing thread is dropped; the
      invariants of the counters and of the database hold along every
      execution; every resumption leaves fewer to come, and every
      generator finishes.  On the wire ([Sse]): reading the body gives back
      the events, whatever the model wrote, so a client sees the terminal
      marker once and last; the dictionary of a request that could not be
      started is not a stream.
    - Persistence ([Crud], [ThreadService], [Users]): every write keeps
      the database well-formed; [add_messages_to_thread] appends the rows
      in order and touches the thread, and on a missing thread changes
      nothing; deleting a thread removes its messages and nothing else; the
      user writes keep keys, unique e-mails and user names, and the field
      constraints of the schemas.
    - Authentication ([Auth], [AuthRoutes]): a token issued for a stored
      user authenticates as that user until it expires and not after; a
      token that is accepted was signed with the configured key for a
      stored user; registration followed by login with the same password
      gives a token for the new user; login refuses an unknown e-mail and a
      wrong password alike; the reported expiry is off by the server's UTC
      offset; a taken user name is answered 500.
    - Token accounting ([TokenUtils]): the four routines that total a
      thread's stored counts agree; without a thread id and with an empty
      id list the total is that of the whole table; the statistics are
      consistent with the thread's total; adding messages raises the total
      by their counts.
    - File store ([Paths], [Dict], [DictSpec], [FileService],
      [FileRoutes]): [splitext] splits a path into two parts that
      concatenate to it, and the extension holds no separator, so a stored
      file is a direct child of [UPLOAD_DIR] whatever the client names it;
      a served upload within the limit is stored byte for byte and
      registered under its id; an upload over the limit leaves nothing; a
      read that raises leaves an unregistered partial file; an extension
      that is not allowed is refused before anything is written; uploads
      and deletions keep the registry well-formed; upload then lookup,
      list, prepare and delete round-trip; the delete route serves callers
      without credentials; a throttled file route answers 500; every file
      route keeps the counters and the registry well-formed.
    - Handlers ([ThreadRoutes], [ChatRoutes]): a caller who does not own a
      thread gets 403 and the database is unchanged; a missing thread gets
      404; a rate-limit rejection surfaces as 500; reading routes do not
      write; every route keeps the world well-formed; the archive flag of
      a thread is stored and never shown ([Schemas]); the chat route stores
      the question first, has no ownership or existence check, and never
      counts a request; the status route counts itself.
    - Application ([Router], [App]): the route a request is given to is a
      declared one that fits it, the first that does; every declared route
      can be reached, the previews route because it is declared before the
      route of a single thread; whatever requests are served, in whatever
      order and with whatever credentials, the three stores stay
      well-formed; a route that declares the current user does nothing for
      a caller the dependency refuses; the other routes answer every
      caller alike; a request for a thread with a token issued to its
      owner is the call of the handler with that thread and that user.
    - Wiring ([Wiring]): the start-up hook never fails; the logging
      middleware is transparent and logs two records per request; the
      second configuration of the root logger has no effect.
    - Behind the CORS middleware ([Cors]): a request that is not a
      preflight request is served whatever origin it names, with the
      outcome and the state of the application alone; a preflight request
      never reaches the application, and is answered 200 for the origins
      and methods of the settings with the origin repeated; the response
      to an exception no handler is registered for leaves without the CORS
      headers, every other response to an allowed origin with them; two of
      the allowed methods have no route.
    - Test runner ([TestRunner]): on the patterns of the script the match
      is the wildcard's relation (the name is the text before, anything,
      the text after); the run of all the tests covers the two others; the
      script exits with 0 or 1 and prints only for an unknown argument.
    - Migration ([Migration]): the target stays well-formed and keeps
      every row it held, whatever the local database holds and whether the
      migration succeeds or not; a migration that succeeded writes nothing
      when run again; into an empty target it copies the tables row for
      row; it commits table by table, so a failure leaves the tables
      before it in the target; the verification compares counts only.
    - Monitor ([Monitor]): the resource checks contain every failure of a
      client call and the cost summary only client errors; the load
      balancer warning cannot be reached; a service warns exactly when it
      runs two tasks or more; repositories without a size field total
      zero; an empty cost report reads as a failure.
    - Configuration and deployment ([Config], [Deploy]): which URL the
      engine is created with; what the banner prints of it, with and
      without an [@] in the password; the preflight answer of the CORS
      middleware as installed; the placeholder parameters never replace a
      value, are complete when no call fails, and fail the stack when a
      creation fails; the stack needs an account; the container's
      SECRET_KEY is not read, so tokens made with the default key of the
      source are accepted by the deployed program; the health check is
      answered 200 in every state.

    ** Not modelled

    The encoding of the response bodies other than the chat's (the
    schemas select the fields; their JSON text is the framework's); the
    headers of a response other than those the CORS middleware adds; the
    bracket expressions of [fnmatch], which no pattern of the program
    uses; code points above 255 in the text of an event; the failures of
    the operating system under the file store; the libraries themselves
    (the engine and session factory of [app/database/database.py], the
    limiter object of [app/main.py], the synthesis of the deployment
    template, the AWS services behind the clients, the test loader and
    runner); and the tests, which are read for what the code is meant to
    do: of a test module the runner's model keeps the name and the
    verdict. *)

From Stdlib Require Import ZArith List Lia String Bool Ascii.
Import ListNotations.

Set Implicit Arguments.
Set Default Goal Selector "!".

Declare Scope eff_scope.
Delimit Scope eff_scope with eff.

(** ** Results *)

Inductive result (E A : Type) : Type :=
| Ok (a : A)
| Err (e : E).

Arguments Ok {E A} a.
Arguments Err {E A} e.

Definition is_ok {E A} (r : result E A) : bool :=
  match r with Ok _ => true | Err _ => false end.

Definition result_map {E A B} (f : A -> B) (r : result E A) : result E B :=
  match r with Ok a => Ok (f a) | Err e => Err e end.

Definition result_bind {E A B} (r : result E A) (f : A -> result E B) : result E B :=
  match r with Ok a => f a | Err e => Err e end.

(** ** State with exceptions

    A computation over a mutable global: it returns a value or raises, and
    in both cases the state it leaves behind.  Python does not undo
    assignments made before a [raise]. *)

Definition Eff (S E A : Type) : Type := S -> result E A * S.

Definition ret {S E A} (a : A) : Eff S E A := fun s => (Ok a, s).

Definition raise {S E A} (e : E) : Eff S E A := fun s => (Err e, s).

Definition bind {S E A B} (m : Eff S E A) (k : A -> Eff S E B) : Eff S E B :=
  fun s => match m s with
           | (Ok a, s') => k a s'
           | (Err e, s') => (Err e, s')
           end.

Definition get {S E} : Eff S E S := fun s => (Ok s, s).

Definition put {S E} (s : S) : Eff S E unit := fun _ => (Ok tt, s).

Definition modify {S E} (f : S -> S) : Eff S E unit := fun s => (Ok tt, f s).

(** [try: m except h]: the handler runs in the state the body left. *)
Definition try_except {S E E' A} (m : Eff S E A) (h : E -> Eff S E' A) : Eff S E' A :=
  fun s => match m s with
           | (Ok a, s') => (Ok a, s')
           | (Err e, s') => h e s'
           end.

(** A state transformer that cannot raise, as a computation. *)
Definition total {S E A} (f : S -> A * S) : Eff S E A :=
  fun s => let (a, s') := f s in (Ok a, s').

(** A computation on a part of the state, run on the whole: [proj] reads
    the part, [upd] writes it back. *)
Definition zoom {S T E A} (proj : T -> S) (upd : T -> S -> T) (m : Eff S E A) : Eff T E A :=
  fun t => let (r, s) := m (proj t) in (r, upd t s).

Notation "'let*' x ':=' m 'in' k" := (bind m (fun x => k))
  (at level 10, x name, m at level 100, k at level 200) : eff_scope.
Notation "m1 ';;;' m2" := (bind m1 (fun _ => m2))
  (at level 100, m2 at level 200, right associativity) : eff_scope.

(** [for x in l: f(x)]: the calls in order, up to the first that raises. *)
Fixpoint for_each {S E A} (f : A -> Eff S E unit) (l : list A) : Eff S E unit :=
  match l with
  | [] => ret tt
  | x :: rest => bind (f x) (fun _ => for_each f rest)
  end.

(** A unit of work that is rolled back when it raises: the state is the
    one it began with. *)
Definition atomically {S E A} (m : Eff S E A) : Eff S E A :=
  fun s =>
    match m s with
    | (Ok a, s') => (Ok a, s')
    | (Err e, _) => (Err e, s)
    end.

(** ** Python idioms *)

(** How a script ends: [sys.exit(code)], or the end of [main]. *)
Inductive ending : Type :=
| Exit (code : Z)
| Completed.

(** [a or b] on an optional integer: [None] and [0] are falsy. *)
Definition py_or (a : option Z) (b : Z) : Z :=
  match a with
  | Some v => if Z.eqb v 0 then b else v
  | None => b
  end.

(** [int(x)] for a quotient of tick counts: truncation toward zero. *)
Definition py_int (num den : Z) : Z := Z.quot num den.

(** [len(s)] as an integer. *)
Definition py_len (s : string) : Z := Z.of_nat (String.length s).

(** Truthiness of a string: the empty string is falsy. *)
Definition py_truthy (s : string) : bool :=
  match s with EmptyString => false | String _ _ => true end.

(** [s.partition(c)] for a one-character separator: the part before the
    first [c] and the part after it; the whole and the empty string when
    there is none. *)
Fixpoint partition_char (c : ascii) (s : string) : string * string :=
  match s with
  | EmptyString => (EmptyString, EmptyString)
  | String a s' =>
      if Ascii.eqb a c
      then (EmptyString, s')
      else let (before, after) := partition_char c s' in (String a before, after)
  end.

(** [s.removeprefix(p)] when [s.startswith(p)], and [None] otherwise. *)
Fixpoint strip_prefix (p s : string) : option string :=
  match p, s with
  | EmptyString, _ => Some s
  | String a p', String b s' => if Ascii.eqb a b then strip_prefix p' s' else None
  | String _ _, EmptyString => None
  end.

(** [s.split(c)] for a one-character separator: the pieces between the
    occurrences of [c], one more than there are occurrences. *)
Fixpoint split_char (c : ascii) (s : string) : list string :=
  match s with
  | EmptyString => [EmptyString]
  | String a s' =>
      if Ascii.eqb a c then EmptyString :: split_char c s'
      else match split_char c s' with
           | first :: rest => String a first :: rest
           | [] => [String a EmptyString]
           end
  end.

(** [s.rstrip(c)] for a one-character set. *)
Fixpoint rstrip_char (c : ascii) (s : string) : string :=
  match s with
  | EmptyString => EmptyString
  | String a s' =>
      match rstrip_char c s' with
      | EmptyString => if Ascii.eqb a c then EmptyString else String a EmptyString
      | rest => String a rest
      end
  end.

(** ** Sums and counts over lists *)

Definition sumZ {A} (f : A -> Z) (l : list A) : Z :=
  fold_right (fun a acc => (f a + acc)%Z) 0%Z l.

Definition count {A} (p : A -> bool) (l : list A) : nat :=
  List.length (filter p l).

(** ** Executions of a labelled transition system

    A step is silent ([None]) or emits a label; [lstar] collects the labels
    of a finite execution in order. *)

Section LabelledStar.
Variables (C L : Type).
Variable step : C -> option L -> C -> Prop.

Inductive lstar : C -> list L -> C -> Prop :=
| lstar_refl c : lstar c [] c
| lstar_tau c c' c'' ls : step c None c' -> lstar c' ls c'' -> lstar c ls c''
| lstar_emit c l c' c'' ls : step c (Some l) c' -> lstar c' ls c'' -> lstar c (l :: ls) c''.

End LabelledStar.

(** ** Tactics *)

Ltac inv H := inversion H; subst; clear H.

Ltac break_match :=
  match goal with
  | |- context [match ?x with _ => _ end] => destruct x eqn:?
  | H : context [match ?x with _ => _ end] |- _ => destruct x eqn:?
  end.

Ltac eff_simpl :=
  cbv [bind ret raise get put modify try_except zoom total] in *; cbn [fst snd] in *.

(** Closed goals on numbers, by evaluation. *)
Ltac zcompute := vm_compute; first [reflexivity | discriminate | intro; discriminate].

Ltac zbool :=
  repeat match goal with
  | H : (_ <? _)%Z = true |- _ => apply Z.ltb_lt in H
  | H : (_ <? _)%Z = false |- _ => apply Z.ltb_ge in H
  | H : (_ <=? _)%Z = true |- _ => apply Z.leb_le in H
  | H : (_ <=? _)%Z = false |- _ => apply Z.leb_gt in H
  | H : (_ >? _)%Z = true |- _ => rewrite Z.gtb_ltb in H; apply Z.ltb_lt in H
  | H : (_ >? _)%Z = false |- _ => rewrite Z.gtb_ltb in H; apply Z.ltb_ge in H
  | H : (_ >=? _)%Z = true |- _ => rewrite Z.geb_leb in H; apply Z.leb_le in H
  | H : (_ >=? _)%Z = false |- _ => rewrite Z.geb_leb in H; apply Z.leb_gt in H
  | H : (_ =? _)%Z = true |- _ => apply Z.eqb_eq in H
  | H : (_ =? _)%Z = false |- _ => apply Z.eqb_neq in H
  end.

Create HintDb gchat discriminated.
Create Rewrite HintDb gchat_rw.

(** ** Laws of the effect *)

Section EffLaws.
Context {S E : Type}.

Lemma bind_ret_l {A B} (a : A) (k : A -> Eff S E B) s :
  bind (ret a) k s = k a s.
Proof. reflexivity. Qed.

Lemma bind_ret_r {A} (m : Eff S E A) s :
  bind m ret s = m s.
Proof. unfold bind, ret. destruct (m s) as [[a|e] s']; reflexivity. Qed.

Lemma bind_assoc {A B C} (m : Eff S E A) (k : A -> Eff S E B) (h : B -> Eff S E C) s :
  bind (bind m k) h s = bind m (fun a => bind (k a) h) s.
Proof. unfold bind. destruct (m s) as [[a|e] s']; reflexivity. Qed.

Lemma bind_raise {A B} (e : E) (k : A -> Eff S E B) s :
  bind (raise e) k s = (Err e, s).
Proof. reflexivity. Qed.

(** A predicate of the state that every part of a sequence keeps is kept
    by the sequence, whether it returns or raises. *)
Lemma bind_preserves {A B} (P : S -> Prop) (m : Eff S E A) (k : A -> Eff S E B) s :
  P (snd (m s)) -> (forall a s', P s' -> P (snd (k a s'))) -> P (snd (bind m k s)).
Proof. unfold bind. intros Hm Hk. destruct (m s) as [[a|e] s']; cbn [snd] in *; auto. Qed.

Lemma try_except_preserves {E' A} (P : S -> Prop) (m : Eff S E A) (h : E -> Eff S E' A) s :
  P (snd (m s)) -> (forall e s', P s' -> P (snd (h e s'))) -> P (snd (try_except m h s)).
Proof. unfold try_except. intros Hm Hh. destruct (m s) as [[a|e] s']; cbn [snd] in *; auto. Qed.

Lemma zoom_ok {T A} (proj : T -> S) (upd : T -> S -> T) (m : Eff S E A) t a s :
  m (proj t) = (Ok a, s) -> zoom proj upd m t = (Ok a, upd t s).
Proof. unfold zoom. now intros ->. Qed.

Lemma zoom_err {T A} (proj : T -> S) (upd : T -> S -> T) (m : Eff S E A) t e s :
  m (proj t) = (Err e, s) -> zoom proj upd m t = (Err e, upd t s).
Proof. unfold zoom. now intros ->. Qed.

Lemma try_except_ok {E' A} (m : Eff S E A) (h : E -> Eff S E' A) s a s' :
  m s = (Ok a, s') -> try_except m h s = (Ok a, s').
Proof. unfold try_except. intros ->. reflexivity. Qed.

Lemma try_except_err {E' A} (m : Eff S E A) (h : E -> Eff S E' A) s e s' :
  m s = (Err e, s') -> try_except m h s = h e s'.
Proof. unfold try_except. intros ->. reflexivity. Qed.

(** ** Computations that return *)

Lemma bind_ok_inv {A B} (m : Eff S E A) (k : A -> Eff S E B) s b s' :
  bind m k s = (Ok b, s') -> exists a s1, m s = (Ok a, s1) /\ k a s1 = (Ok b, s').
Proof. unfold bind. destruct (m s) as [[a|e] s1]; [eauto | discriminate]. Qed.

Lemma bind_is_ok {A B} (m : Eff S E A) (k : A -> Eff S E B) s :
  is_ok (fst (m s)) = true -> (forall a s', is_ok (fst (k a s')) = true) ->
  is_ok (fst (bind m k s)) = true.
Proof. unfold bind. destruct (m s) as [[a|e] s1]; cbn; [auto | discriminate]. Qed.

Lemma try_except_is_ok {E' A} (m : Eff S E A) (h : E -> Eff S E' A) s :
  (forall e s', is_ok (fst (h e s')) = true) -> is_ok (fst (try_except m h s)) = true.
Proof. unfold try_except. destruct (m s) as [[a|e] s1]; cbn; auto. Qed.

Lemma is_ok_unit (r : result E unit) : is_ok r = true -> r = Ok tt.
Proof. destruct r as [[]|e]; [reflexivity | discriminate]. Qed.

End EffLaws.

Section Loops.
Context {S E : Type}.

Lemma for_each_preserves {A} (P : S -> Prop) (f : A -> Eff S E unit) l s :
  (forall x s', In x l -> P s' -> P (snd (f x s'))) -> P s -> P (snd (for_each f l s)).
Proof.
  revert s. induction l as [|x l IH]; intros s Hf Hs; cbn [for_each]; [exact Hs|].
  apply bind_preserves; [apply Hf; [now left | exact Hs]|].
  intros _ s' Hs'. apply IH; [|exact Hs']. intros y s'' Hin. apply Hf. now right.
Qed.

(** A loop whose every call returns is the fold of what the calls do. *)
Lemma for_each_ok {A} (f : A -> Eff S E unit) (g : A -> S -> S) l s :
  (forall x s', In x l -> f x s' = (Ok tt, g x s')) ->
  for_each f l s = (Ok tt, fold_left (fun s x => g x s) l s).
Proof.
  revert s. induction l as [|x l IH]; intros s Hf; cbn [for_each fold_left]; [reflexivity|].
  unfold bind. rewrite Hf by now left. apply IH. intros y s' Hin. apply Hf. now right.
Qed.

Lemma for_each_is_ok {A} (f : A -> Eff S E unit) l s :
  (forall x s', In x l -> is_ok (fst (f x s')) = true) -> is_ok (fst (for_each f l s)) = true.
Proof.
  revert s. induction l as [|x l IH]; intros s Hf; cbn [for_each]; [reflexivity|].
  apply bind_is_ok; [apply Hf; now left|]. intros _ s'. apply IH. intros y s'' Hin. apply Hf. now right.
Qed.

Lemma atomically_preserves {A} (P : S -> Prop) (m : Eff S E A) s :
  P s -> P (snd (m s)) -> P (snd (atomically m s)).
Proof. unfold atomically. destruct (m s) as [[a|e] s']; cbn; auto. Qed.

Lemma atomically_err {A} (m : Eff S E A) s e s' :
  atomically m s = (Err e, s') -> s' = s.
Proof. unfold atomically. destruct (m s) as [[a|e0] s0]; congruence. Qed.

End Loops.

(** One step of showing that a computation keeps a predicate [P] of the
    state: through a sequence, a handler, a return, a raise, a case. *)
Ltac eff_preserves_step P :=
  match goal with
  | |- P (snd (bind _ _ _)) => apply (bind_preserves P); [|intros ? ? ?]
  | |- P (snd (try_except _ _ _)) => apply (try_except_preserves P); [|intros ? ? ?]
  | |- P (snd (ret _ _)) => cbn [ret snd]
  | |- P (snd (raise _ _)) => cbn [raise snd]
  | |- P (snd (get _)) => cbn [get snd]
  | |- P (snd (match ?x with _ => _ end _)) => destruct x
  end.

(** ** Executions *)

Section LabelledStarLemmas.
Context {C L : Type} (step : C -> option L -> C -> Prop).

Lemma lstar_trans c1 c2 c3 l1 l2 :
  lstar step c1 l1 c2 -> lstar step c2 l2 c3 -> lstar step c1 (l1 ++ l2) c3.
Proof.
  induction 1 as [c|c c' c'' ls Hs _ IH|c l c' c'' ls Hs _ IH]; intros H2; cbn.
  - exact H2.
  - eapply lstar_tau; eauto.
  - eapply lstar_emit; eauto.
Qed.

Lemma lstar_one_emit c l c' : step c (Some l) c' -> lstar step c [l] c'.
Proof. intros H. eapply lstar_emit; [exact H | apply lstar_refl]. Qed.

Lemma lstar_one_tau c c' : step c None c' -> lstar step c [] c'.
Proof. intros H. eapply lstar_tau; [exact H | apply lstar_refl]. Qed.

(** A property of configurations kept by every step holds along every
    execution. *)
Lemma lstar_invariant (P : C -> Prop) :
  (forall c l c', step c l c' -> P c -> P c') ->
  forall c ls c', lstar step c ls c' -> P c -> P c'.
Proof. intros Hstep c ls c' H. induction H; eauto. Qed.

(** A preorder on configurations that contains every step contains every
    execution. *)
Lemma lstar_related (R : C -> C -> Prop) :
  (forall c, R c c) ->
  (forall c1 c2 c3, R c1 c2 -> R c2 c3 -> R c1 c3) ->
  (forall c l c', step c l c' -> R c c') ->
  forall c ls c', lstar step c ls c' -> R c c'.
Proof. intros Hrefl Htrans Hstep c ls c' H. induction H; eauto. Qed.

End LabelledStarLemmas.

(** ** Shared lemmas *)

Lemma py_or_some_nonzero v b : v <> 0%Z -> py_or (Some v) b = v.
Proof. intros H. unfold py_or. destruct (Z.eqb_spec v 0); congruence. Qed.

Lemma py_or_none b : py_or None b = b.
Proof. reflexivity. Qed.

Lemma py_or_zero b : py_or (Some 0%Z) b = b.
Proof. reflexivity. Qed.

Lemma py_int_floor num den :
  (0 <= num)%Z -> (0 < den)%Z -> py_int num den = (num / den)%Z.
Proof. apply Z.quot_div_nonneg. Qed.

Lemma py_len_nonneg s : (0 <= py_len s)%Z.
Proof. unfold py_len. lia. Qed.

Lemma py_truthy_length s : py_truthy s = true <-> (0 < py_len s)%Z.
Proof. unfold py_len. destruct s; cbn; split; intros; try lia; congruence. Qed.

Lemma partition_char_concat c s :
  let (before, after) := partition_char c s in
  s = before \/ s = (before ++ String c after)%string.
Proof.
  induction s as [|a s IH]; cbn [partition_char]; [now left|].
  destruct (Ascii.eqb_spec a c) as [->|Hne]; [now right|].
  destruct (partition_char c s) as [before after]. cbn. destruct IH as [->| ->]; auto.
Qed.

(** The first separator is the one that splits. *)
Lemma partition_char_app c s1 s2 :
  ~ In c (list_ascii_of_string s1) ->
  partition_char c (s1 ++ String c s2)%string = (s1, s2).
Proof.
  induction s1 as [|a s1 IH]; cbn [append partition_char list_ascii_of_string];
    intros Hn; [now rewrite Ascii.eqb_refl|].
  destruct (Ascii.eqb_spec a c) as [->|Hne]; [exfalso; apply Hn; now left|].
  rewrite IH; [reflexivity | intros Hin; apply Hn; now right].
Qed.

Lemma strip_prefix_app p s : strip_prefix p (p ++ s)%string = Some s.
Proof.
  induction p as [|a p IH]; cbn [append strip_prefix]; [now destruct s|].
  now rewrite Ascii.eqb_refl.
Qed.

Lemma strip_prefix_Some p s rest : strip_prefix p s = Some rest -> s = (p ++ rest)%string.
Proof.
  revert s. induction p as [|a p IH]; intros [|b s]; cbn [strip_prefix append];
    try discriminate; try (now intros [= ->]).
  destruct (Ascii.eqb_spec a b) as [->|]; [|discriminate]. intros Hs. now rewrite (IH _ Hs).
Qed.

Lemma split_char_cons c s : exists first rest, split_char c s = first :: rest.
Proof.
  destruct s as [|a s]; cbn [split_char]; [eauto|].
  destruct (Ascii.eqb a c); [eauto|]. destruct (split_char c s); eauto.
Qed.

(** No piece of a split holds the separator. *)
Lemma split_char_no_sep c s piece :
  In piece (split_char c s) -> ~ In c (list_ascii_of_string piece).
Proof.
  revert piece. induction s as [|a s IH]; cbn [split_char]; intros piece.
  - intros [<-|[]] [].
  - destruct (Ascii.eqb_spec a c) as [->|Hne].
    + intros [<-|Hin]; [intros [] | now apply IH].
    + destruct (split_char c s) as [|first rest]; cbn [In list_ascii_of_string].
      * intros [<-|[]] [?|[]]; congruence.
      * intros [<-|Hin]; [|apply IH; now right].
        intros [?|Hin]; [congruence | apply (IH first); [now left | exact Hin]].
Qed.

(** A string without the separator is its own single piece. *)
Lemma split_char_none c s : ~ In c (list_ascii_of_string s) -> split_char c s = [s].
Proof.
  induction s as [|a s IH]; cbn [split_char list_ascii_of_string]; intros Hn; [reflexivity|].
  destruct (Ascii.eqb_spec a c) as [->|Hne]; [exfalso; apply Hn; now left|].
  rewrite IH; [reflexivity | intros Hin; apply Hn; now right].
Qed.

(** The pieces of two strings joined by the separator are the pieces of
    the one followed by the pieces of the other. *)
Lemma split_char_app c s1 s2 :
  split_char c (s1 ++ String c s2)%string = split_char c s1 ++ split_char c s2.
Proof.
  induction s1 as [|a s1 IH]; cbn [append split_char]; [now rewrite Ascii.eqb_refl|].
  destruct (Ascii.eqb a c); rewrite IH; [reflexivity|].
  destruct (split_char_cons c s1) as (first & rest & ->). reflexivity.
Qed.

Lemma append_nil_r s : (s ++ "")%string = s.
Proof. induction s as [|c s IH]; cbn; [reflexivity | now rewrite IH]. Qed.

Lemma append_assoc s1 s2 s3 : ((s1 ++ s2) ++ s3)%string = (s1 ++ (s2 ++ s3))%string.
Proof. induction s1 as [|c s1 IH]; cbn; [reflexivity | now rewrite IH]. Qed.

Lemma append_length s1 s2 :
  String.length (s1 ++ s2) = String.length s1 + String.length s2.
Proof. induction s1 as [|c s1 IH]; cbn; [reflexivity | now rewrite IH]. Qed.

Lemma sumZ_nil {A} (f : A -> Z) : sumZ f [] = 0%Z.
Proof. reflexivity. Qed.

Lemma sumZ_cons {A} (f : A -> Z) a l : sumZ f (a :: l) = (f a + sumZ f l)%Z.
Proof. reflexivity. Qed.

Lemma sumZ_app {A} (f : A -> Z) l1 l2 :
  sumZ f (l1 ++ l2) = (sumZ f l1 + sumZ f l2)%Z.
Proof.
  induction l1 as [|a l1 IH]; cbn [app]; [reflexivity|].
  rewrite !sumZ_cons, IH. lia.
Qed.

Lemma sumZ_nonneg {A} (f : A -> Z) l :
  Forall (fun a => 0 <= f a)%Z l -> (0 <= sumZ f l)%Z.
Proof. induction 1; rewrite ?sumZ_cons; [reflexivity | lia]. Qed.

Lemma sumZ_filter_le {A} (f : A -> Z) (p : A -> bool) l :
  Forall (fun a => 0 <= f a)%Z l -> (sumZ f (filter p l) <= sumZ f l)%Z.
Proof.
  induction 1 as [|a l Ha _ IH]; cbn [filter]; [lia|].
  destruct (p a); rewrite !sumZ_cons; lia.
Qed.

Lemma count_app {A} (p : A -> bool) l1 l2 :
  count p (l1 ++ l2) = count p l1 + count p l2.
Proof. unfold count. rewrite filter_app, length_app. reflexivity. Qed.

Lemma count_cons {A} (p : A -> bool) a l :
  count p (a :: l) = (if p a then 1 else 0) + count p l.
Proof. unfold count. cbn. destruct (p a); reflexivity. Qed.

Lemma count_le_length {A} (p : A -> bool) l : count p l <= List.length l.
Proof. unfold count. apply filter_length_le. Qed.

(** ** Columns of a filtered table *)

Section Mapped.
Context {A B : Type} (key : A -> B).

Lemma In_map_filter (p : A -> bool) l k :
  In k (map key (filter p l)) -> In k (map key l).
Proof.
  rewrite !in_map_iff. intros (x & Hk & Hx). apply filter_In in Hx. exists x. tauto.
Qed.

Lemma NoDup_map_filter (p : A -> bool) l :
  NoDup (map key l) -> NoDup (map key (filter p l)).
Proof.
  induction l as [|a l IH]; cbn [map filter]; intros H; [constructor|].
  inv H. destruct (p a); cbn [map]; [constructor|]; auto.
  intros Hin. now apply In_map_filter in Hin.
Qed.

End Mapped.

(** ** Keyed lists *)

Section Keyed.
Context {A : Type} (key : A -> Z).

Lemma NoDup_snoc {B} (l : list B) x : NoDup l -> ~ In x l -> NoDup (l ++ [x]).
Proof.
  intros Hl Hx. apply NoDup_app; [assumption | repeat constructor; intros [] |].
  intros a Ha [<-|[]]. contradiction.
Qed.

Lemma find_key_Some k l x :
  find (fun y => Z.eqb (key y) k) l = Some x -> In x l /\ key x = k.
Proof. intros H. apply find_some in H. now rewrite Z.eqb_eq in H. Qed.

Lemma find_key_None k l :
  find (fun y => Z.eqb (key y) k) l = None <-> ~ In k (map key l).
Proof.
  split.
  - intros H Hin. apply in_map_iff in Hin as (x & Hk & Hx).
    pose proof (find_none _ _ H x Hx) as Hf. cbn in Hf. apply Z.eqb_neq in Hf. congruence.
  - intros H. destruct (find _ l) as [x|] eqn:Hf; [|reflexivity].
    apply find_key_Some in Hf as [Hx Hk]. exfalso. apply H. subst k. now apply in_map.
Qed.

Lemma find_key_unique l x :
  NoDup (map key l) -> In x l -> find (fun y => Z.eqb (key y) (key x)) l = Some x.
Proof.
  induction l as [|a l IH]; cbn [map find]; intros Hnd Hin; [destruct Hin|].
  inv Hnd. destruct Hin as [->|Hin].
  - now rewrite Z.eqb_refl.
  - destruct (Z.eqb_spec (key a) (key x)) as [Heq|_]; [|auto].
    exfalso. apply H1. rewrite Heq. now apply in_map.
Qed.

Lemma find_app_l (p : A -> bool) l1 l2 x :
  find p l1 = Some x -> find p (l1 ++ l2) = Some x.
Proof.
  induction l1 as [|a l1 IH]; cbn; [discriminate|]. destruct (p a); auto.
Qed.

Lemma find_app_r (p : A -> bool) l1 l2 :
  find p l1 = None -> find p (l1 ++ l2) = find p l2.
Proof.
  induction l1 as [|a l1 IH]; cbn; [reflexivity|]. destruct (p a); [discriminate | auto].
Qed.

End Keyed.

(** The same for lists keyed by a string (an e-mail address, a name). *)
Section Named.
Context {A : Type} (name : A -> string).

Lemma find_name_Some k l x :
  find (fun y => String.eqb (name y) k) l = Some x -> In x l /\ name x = k.
Proof. intros H. apply find_some in H. now rewrite String.eqb_eq in H. Qed.

Lemma find_name_None k l :
  find (fun y => String.eqb (name y) k) l = None <-> ~ In k (map name l).
Proof.
  split.
  - intros H Hin. apply in_map_iff in Hin as (x & Hk & Hx).
    pose proof (find_none _ _ H x Hx) as Hf. cbn in Hf. apply String.eqb_neq in Hf. congruence.
  - intros H. destruct (find _ l) as [x|] eqn:Hf; [|reflexivity].
    apply find_name_Some in Hf as [Hx Hk]. exfalso. apply H. subst k. now apply in_map.
Qed.

Lemma find_name_unique l x :
  NoDup (map name l) -> In x l -> find (fun y => String.eqb (name y) (name x)) l = Some x.
Proof.
  induction l as [|a l IH]; cbn [map find]; intros Hnd Hin; [destruct Hin|].
  inv Hnd. destruct Hin as [->|Hin].
  - now rewrite String.eqb_refl.
  - destruct (String.eqb_spec (name a) (name x)) as [Heq|_]; [|auto].
    exfalso. match goal with H : ~ In _ _ |- _ => apply H end. rewrite Heq. now apply in_map.
Qed.

Lemma existsb_name k l :
  existsb (fun y => String.eqb (name y) k) l = true <-> In k (map name l).
Proof.
  rewrite existsb_exists, in_map_iff. split; intros (x & H1 & H2).
  - apply String.eqb_eq in H2. eauto.
  - exists x. split; [assumption | now apply String.eqb_eq].
Qed.

End Named.

Lemma In_firstn {A} n (l : list A) x : In x (firstn n l) -> In x l.
Proof.
  revert l. induction n as [|n IH]; intros [|a l]; cbn; try tauto.
  intros [->|H]; [now left | right; auto].
Qed.

Lemma In_skipn {A} n (l : list A) x : In x (skipn n l) -> In x l.
Proof.
  revert l. induction n as [|n IH]; intros [|a l]; cbn; try tauto. intros H. right; auto.
Qed.

Lemma filter_filter_negb_nil {A} (p : A -> bool) l :
  filter p (filter (fun a => negb (p a)) l) = [].
Proof.
  induction l as [|a l IH]; cbn; [reflexivity|].
  destruct (p a) eqn:Hp; cbn; [assumption | now rewrite Hp].
Qed.

Lemma filter_comm {A} (p q : A -> bool) l :
  filter p (filter q l) = filter q (filter p l).
Proof.
  induction l as [|a l IH]; cbn; [reflexivity|].
  destruct (p a) eqn:Hp, (q a) eqn:Hq; cbn; rewrite ?Hp, ?Hq, IH; reflexivity.
Qed.

Lemma filter_id {A} (p : A -> bool) l :
  Forall (fun a => p a = true) l -> filter p l = l.
Proof. induction 1 as [|a l Ha _ IH]; cbn; [reflexivity | now rewrite Ha, IH]. Qed.

Lemma filter_none {A} (p : A -> bool) l :
  Forall (fun a => p a = false) l -> filter p l = [].
Proof. induction 1 as [|a l Ha _ IH]; cbn; [reflexivity | now rewrite Ha]. Qed.

#[export] Hint Rewrite @sumZ_nil @sumZ_cons @sumZ_app : gchat_rw.
#[export] Hint Rewrite @count_app @count_cons : gchat_rw.
#[export] Hint Rewrite py_or_none py_or_zero : gchat_rw.
#[export] Hint Resolve py_len_nonneg : gchat.
#[export] Hint Resolve sumZ_nonneg : gchat.
