(* ===== verification/Settings.v ===== *)
(** * Settings: [app/config/settings.py]

    The module reads the process environment once at import time and binds
    module-level constants.  The environment is the record [Environ] (a
    variable that is unset is [None]; numeric variables are held as the
    integer [int(...)] parses them to), [load_settings] is the module body,
    and [Settings] the constants the rest of the program imports. *)

From Stdlib Require Import ZArith List String Ascii Bool.
From S2P Require Import Prelude.
Import ListNotations.

Local Open Scope string_scope.
Local Open Scope Z_scope.

Record Environ : Type := {
  env_PORT : option Z;
  env_HOST : option string;
  env_DEBUG : option string;
  env_DEFAULT_MODEL : option string;
  env_GOOGLE_API_KEY : option string;
  env_REQUESTS_PER_MINUTE : option Z;
  env_TOKENS_PER_MINUTE : option Z;
  env_JWT_SECRET_KEY : option string;
  env_UPLOAD_DIR : option string;
  env_MAX_UPLOAD_SIZE : option Z
}.

Record ModelInfo : Type := {
  model_id : string;
  model_name : string;
  model_description : string
}.

Record Settings : Type := {
  PORT : Z;
  HOST : string;
  DEBUG : bool;
  DEFAULT_MODEL : string;
  GOOGLE_API_KEY : option string;
  REQUESTS_PER_MINUTE : Z;
  TOKENS_PER_MINUTE : Z;
  JWT_SECRET_KEY : string;
  JWT_ALGORITHM : string;
  JWT_ACCESS_TOKEN_EXPIRE_MINUTES : Z;
  UPLOAD_DIR : string;
  MAX_UPLOAD_SIZE : Z;
  ALLOWED_EXTENSIONS : list string;
  AVAILABLE_MODELS : list ModelInfo
}.

(** [os.environ.get(key, default)] *)
Definition environ_get {A} (v : option A) (default : A) : A :=
  match v with Some x => x | None => default end.

(** [str.lower()] on the ASCII letters. *)
Definition ascii_lower (c : ascii) : ascii :=
  let n := nat_of_ascii c in
  if (Nat.leb 65 n && Nat.leb n 90)%bool then ascii_of_nat (n + 32) else c.

Fixpoint lower (s : string) : string :=
  match s with
  | EmptyString => EmptyString
  | String c s' => String (ascii_lower c) (lower s')
  end.

(** [x in (a, b, c)] on strings. *)
Definition str_in (x : string) (l : list string) : bool :=
  existsb (String.eqb x) l.

Definition allowed_extensions : list string :=
  [".jpg"; ".jpeg"; ".png"; ".gif"; ".bmp"; ".webp";
   ".pdf"; ".doc"; ".docx"; ".txt"; ".md"; ".csv"; ".xlsx"; ".xls";
   ".py"; ".js"; ".html"; ".css"; ".json"; ".xml"; ".yaml"; ".yml"].

Definition available_models : list ModelInfo :=
  [ {| model_id := "gemini-2.0-flash-lite";
       model_name := "Gemini 2.0 Flash Lite";
       model_description := "Fastest and most efficient text-only model" |};
    {| model_id := "gemini-2.0-flash";
       model_name := "Gemini 2.0 Flash";
       model_description := "Fast and efficient text-only model" |};
    {| model_id := "gemini-2.5-flash-preview-04-17";
       model_name := "Gemini 2.5 Flash Preview";
       model_description := "Fast and efficient text-only model with improved performance" |};
    {| model_id := "gemini-2.5-pro-exp-03-25";
       model_name := "Gemini 2.5 Pro Experimental";
       model_description := "Experimental model with advanced features" |} ].

Definition load_settings (env : Environ) : Settings :=
  {| PORT := environ_get (env_PORT env) 8000;
     HOST := environ_get (env_HOST env) "0.0.0.0";
     DEBUG := str_in (lower (environ_get (env_DEBUG env) "False")) ["true"; "1"; "t"];
     DEFAULT_MODEL := environ_get (env_DEFAULT_MODEL env) "gemini-2.0-flash";
     GOOGLE_API_KEY := env_GOOGLE_API_KEY env;
     REQUESTS_PER_MINUTE := environ_get (env_REQUESTS_PER_MINUTE env) 60;
     TOKENS_PER_MINUTE := environ_get (env_TOKENS_PER_MINUTE env) 60000;
     JWT_SECRET_KEY :=
       environ_get (env_JWT_SECRET_KEY env) "a_very_secret_key_please_change_in_production";
     JWT_ALGORITHM := "HS256";
     JWT_ACCESS_TOKEN_EXPIRE_MINUTES := 30;
     UPLOAD_DIR := environ_get (env_UPLOAD_DIR env) "uploads";
     MAX_UPLOAD_SIZE := environ_get (env_MAX_UPLOAD_SIZE env) (10 * 1024 * 1024);
     ALLOWED_EXTENSIONS := allowed_extensions;
     AVAILABLE_MODELS := available_models |}.

(** The environment with nothing set. *)
Definition empty_environ : Environ :=
  {| env_PORT := None; env_HOST := None; env_DEBUG := None;
     env_DEFAULT_MODEL := None; env_GOOGLE_API_KEY := None;
     env_REQUESTS_PER_MINUTE := None; env_TOKENS_PER_MINUTE := None;
     env_JWT_SECRET_KEY := None; env_UPLOAD_DIR := None; env_MAX_UPLOAD_SIZE := None |}.

Definition default_settings : Settings := load_settings empty_environ.

(** The environment that sets the two rate limits and nothing else. *)
Definition limits_environ (rpm tpm : Z) : Environ :=
  {| env_PORT := None; env_HOST := None; env_DEBUG := None;
     env_DEFAULT_MODEL := None; env_GOOGLE_API_KEY := None;
     env_REQUESTS_PER_MINUTE := Some rpm; env_TOKENS_PER_MINUTE := Some tpm;
     env_JWT_SECRET_KEY := None; env_UPLOAD_DIR := None; env_MAX_UPLOAD_SIZE := None |}.

Definition settings_with_limits (rpm tpm : Z) : Settings :=
  load_settings (limits_environ rpm tpm).

(** ** Properties *)

Lemma lower_length s : String.length (lower s) = String.length s.
Proof. induction s as [|c s IH]; cbn; [reflexivity | now rewrite IH]. Qed.

Lemma ascii_lower_idem c : ascii_lower (ascii_lower c) = ascii_lower c.
Proof.
  destruct c as [[] [] [] [] [] [] [] []]; vm_compute; reflexivity.
Qed.

Lemma lower_idem s : lower (lower s) = lower s.
Proof.
  induction s as [|c s IH]; cbn; [reflexivity|].
  now rewrite ascii_lower_idem, IH.
Qed.

Lemma default_limits :
  REQUESTS_PER_MINUTE default_settings = 60 /\
  TOKENS_PER_MINUTE default_settings = 60000 /\
  MAX_UPLOAD_SIZE default_settings = 10485760.
Proof. repeat split. Qed.

Lemma default_model_available :
  In (DEFAULT_MODEL default_settings) (map model_id (AVAILABLE_MODELS default_settings)).
Proof. cbn. auto. Qed.

Lemma debug_flag_spellings env v :
  env_DEBUG env = Some v ->
  DEBUG (load_settings env) = true <->
  lower v = "true" \/ lower v = "1" \/ lower v = "t".
Proof.
  intros Hv. unfold load_settings; cbn [DEBUG]. rewrite Hv. cbn [environ_get].
  unfold str_in. cbn [existsb].
  rewrite !orb_true_iff, !String.eqb_eq. intuition congruence.
Qed.

Lemma debug_default_off env : env_DEBUG env = None -> DEBUG (load_settings env) = false.
Proof. intros Hv. unfold load_settings; cbn [DEBUG]. rewrite Hv. reflexivity. Qed.
