(* ===== verification/Errors.v ===== *)
(** * Errors: [app/utils/errors.py]

    The [APIError] hierarchy as a record with one smart constructor per
    subclass, the web framework's [HTTPException], and [exn], the sum of
    what a handler's [except] clauses tell apart: an [APIError], an
    [HTTPException], the limiter library's [RateLimitExceeded], or any
    other exception (carried as its [str]). *)

From Stdlib Require Import ZArith List String DecimalString DecimalZ DecimalPos.
From S2P Require Import Prelude.
Import ListNotations.

Local Open Scope string_scope.
Local Open Scope Z_scope.

(** [str(n)] for an integer. *)
Definition str_of_Z (n : Z) : string := NilZero.string_of_int (Z.to_int n).

(** [int(s)] for a decimal string, [None] where Python raises [ValueError]. *)
Definition Z_of_str (s : string) : option Z :=
  option_map Z.of_int (NilZero.int_of_string s).

Inductive detail : Type :=
| DStr (s : string)
| DInt (n : Z).

Record APIError : Type := {
  status_code : Z;
  message : string;
  details : list (string * detail)
}.

Definition ModelNotFoundError (model_name : string) : APIError :=
  {| status_code := 404;
     message := "Model '" ++ model_name ++ "' not found";
     details := [("requested_model", DStr model_name)] |}.

Definition RateLimitError (limit_type : string) (limit : Z) : APIError :=
  {| status_code := 429;
     message := limit_type ++ " rate limit exceeded: " ++ str_of_Z limit ++ " per minute";
     details := [("limit_type", DStr limit_type); ("limit", DInt limit)] |}.

Definition APIKeyMissingError : APIError :=
  {| status_code := 500;
     message := "API key is not configured";
     details := [("environment_variable", DStr "GOOGLE_API_KEY")] |}.

Record HTTPException : Type := {
  http_status : Z;
  http_detail : string
}.

Inductive exn : Type :=
| ApiExn (e : APIError)
| HttpExn (e : HTTPException)
| LimiterExn (detail : string)
| OtherExn (msg : string).

(** [str(e)]: [APIError.__init__] passes [message] to [Exception]. *)
Definition exn_str (e : exn) : string :=
  match e with
  | ApiExn a => message a
  | HttpExn h => str_of_Z (http_status h) ++ ": " ++ http_detail h
  | LimiterExn detail => "429: " ++ detail
  | OtherExn msg => msg
  end.

(** [isinstance(e, HTTPException)]; the limiter's exception is a subclass. *)
Definition is_http (e : exn) : bool :=
  match e with HttpExn _ | LimiterExn _ => true | _ => false end.

(** [HTTPException(status_code=..., detail=...)] *)
Definition http_error (status : Z) (detail : string) : exn :=
  HttpExn {| http_status := status; http_detail := detail |}.

(** [isinstance(exc, RateLimitExceeded)] *)
Definition is_limiter (e : exn) : bool :=
  match e with LimiterExn _ => true | _ => false end.

(** [isinstance(e, RateLimitError)]: the subclass is told by its status. *)
Definition is_rate_limit (e : exn) : bool :=
  match e with
  | ApiExn a => Z.eqb (status_code a) 429
  | _ => false
  end.

(** ** Properties *)

Lemma to_int_not_nil n :
  Z.to_int n <> Decimal.Pos Decimal.Nil /\ Z.to_int n <> Decimal.Neg Decimal.Nil.
Proof.
  destruct n as [|p|p]; cbn; split; try discriminate; intros [= H];
    now apply (DecimalPos.Unsigned.to_uint_nonnil p).
Qed.

(** [str(n)] is written with digits and a sign, and is not empty. *)
Lemma digits_chars d c :
  In c (list_ascii_of_string (NilEmpty.string_of_uint d)) ->
  In c (list_ascii_of_string "0123456789").
Proof. induction d; cbn; intuition (subst; auto 12). Qed.

Lemma unsigned_chars d c :
  In c (list_ascii_of_string (NilZero.string_of_uint d)) ->
  In c (list_ascii_of_string "0123456789").
Proof.
  unfold NilZero.string_of_uint. destruct d; try apply digits_chars.
  cbn. intuition.
Qed.

Lemma str_of_Z_chars n c :
  In c (list_ascii_of_string (str_of_Z n)) -> In c (list_ascii_of_string "-0123456789").
Proof.
  unfold str_of_Z, NilZero.string_of_int.
  destruct (Z.to_int n) as [d|d]; [|intros [<-|Hin]; [now left|]];
    right; now apply (unsigned_chars d).
Qed.

Lemma str_of_Z_not_nil n : str_of_Z n <> "".
Proof.
  unfold str_of_Z, NilZero.string_of_int, NilZero.string_of_uint.
  destruct (Z.to_int n) as [d|d]; destruct d; discriminate.
Qed.

(** [int(str(n)) == n] *)
Lemma Z_of_str_of_Z n : Z_of_str (str_of_Z n) = Some n.
Proof.
  unfold Z_of_str, str_of_Z. destruct (to_int_not_nil n) as [H1 H2].
  rewrite NilZero.isi by assumption. cbn. now rewrite DecimalZ.of_to.
Qed.

Lemma str_of_Z_inj n m : str_of_Z n = str_of_Z m -> n = m.
Proof. intros H. apply (f_equal Z_of_str) in H. rewrite !Z_of_str_of_Z in H. congruence. Qed.

Lemma RateLimitError_status limit_type limit :
  status_code (RateLimitError limit_type limit) = 429.
Proof. reflexivity. Qed.

Lemma RateLimitError_is_rate_limit limit_type limit :
  is_rate_limit (ApiExn (RateLimitError limit_type limit)) = true.
Proof. reflexivity. Qed.

Lemma RateLimitError_request_60 :
  message (RateLimitError "Request" 60) = "Request rate limit exceeded: 60 per minute".
Proof. reflexivity. Qed.

Lemma api_errors_distinct_status model_name limit_type limit :
  status_code (ModelNotFoundError model_name) <> status_code (RateLimitError limit_type limit) /\
  status_code (RateLimitError limit_type limit) <> status_code APIKeyMissingError.
Proof. split; discriminate. Qed.

Lemma exn_str_api a : exn_str (ApiExn a) = message a.
Proof. reflexivity. Qed.

Lemma is_http_not_rate_limit e : is_http e = true -> is_rate_limit e = false.
Proof. destruct e; cbn; congruence. Qed.

#[export] Hint Rewrite RateLimitError_status exn_str_api : gchat_rw.
