(* ===== verification/RateLimiter.v ===== *)
(** * RateLimiter: [app/utils/rate_limiter.py]

    The process-wide dict [usage_tracking] is the record [UsageTracking].
    Each function of the file is a definition of the same name; a call of
    [time.time()] is an argument.  [track_request] raises, so it is an
    [Eff] computation; [check_token_rate_limit] reports by its boolean.
    The second half of the file runs sequences of calls ([run_ops]) and
    states the invariants of the reachable states. *)

From Stdlib Require Import ZArith List Lia String Bool.
From S2P Require Import Prelude.
From S2P Require Import Settings.
From S2P Require Import Errors.
Import ListNotations.

Local Open Scope Z_scope.

(** ** Clock *)

Definition TICKS_PER_SECOND : Z := 1000.

(** The code's [60] (seconds), in ticks. *)
Definition WINDOW : Z := 60 * TICKS_PER_SECOND.

(** ** State *)

Record UsageTracking : Type := {
  last_reset : Z;
  tokens_used : Z;
  requests_used : Z
}.

(** The dict literal evaluated at import time. *)
Definition initial_usage (now : Z) : UsageTracking :=
  {| last_reset := now; tokens_used := 0; requests_used := 0 |}.

Definition set_tokens_used (u : UsageTracking) (n : Z) : UsageTracking :=
  {| last_reset := last_reset u; tokens_used := n; requests_used := requests_used u |}.

Definition set_requests_used (u : UsageTracking) (n : Z) : UsageTracking :=
  {| last_reset := last_reset u; tokens_used := tokens_used u; requests_used := n |}.

(** ** Tokenizer

    [tiktoken.get_encoding("cl100k_base").encode(text)]: a list of token ids,
    or an exception ([None]). *)

Class Tokenizer : Type := {
  encode : string -> option (list Z)
}.

Definition count_tokens `{Tokenizer} (text : string) : Z :=
  match encode text with
  | Some toks => Z.of_nat (List.length toks)
  | None => py_len text / 4
  end.

(** The library missing or failing: the fallback is always taken. *)
Definition failing_tokenizer : Tokenizer := {| encode := fun _ => None |}.

(** One token per character, the tokenizer of the specification's tests. *)
Definition char_tokenizer : Tokenizer :=
  {| encode := fun s => Some (repeat 0 (String.length s)) |}.

(** ** Operations *)

Definition check_and_reset_counters (current_time : Z) (u : UsageTracking) : UsageTracking :=
  if current_time - last_reset u >? WINDOW
  then {| last_reset := current_time; tokens_used := 0; requests_used := 0 |}
  else u.

Record LimitInfo : Type := {
  limit : Z;
  used : Z;
  remaining : Z;
  reset_after_seconds : Z
}.

Record RateLimitStatus : Type := {
  requests : LimitInfo;
  tokens : LimitInfo
}.

Section WithSettings.
Context (cfg : Settings).

Definition check_token_rate_limit (now token_count : Z) (u : UsageTracking)
  : bool * UsageTracking :=
  let u := check_and_reset_counters now u in
  if tokens_used u + token_count >? TOKENS_PER_MINUTE cfg
  then (false, u)
  else (true, set_tokens_used u (tokens_used u + token_count)).

Definition track_request (now : Z) : Eff UsageTracking exn unit :=
  (modify (check_and_reset_counters now) ;;;
   let* u := get in
   if requests_used u >=? REQUESTS_PER_MINUTE cfg
   then raise (ApiExn (RateLimitError "Request" (REQUESTS_PER_MINUTE cfg)))
   else put (set_requests_used u (requests_used u + 1)))%eff.

(** [now] is the reading inside [check_and_reset_counters], [now'] the
    second reading, for [time_until_reset]. *)
Definition get_rate_limit_status (now now' : Z) (u : UsageTracking)
  : RateLimitStatus * UsageTracking :=
  let u := check_and_reset_counters now u in
  let time_until_reset := Z.max 0 (WINDOW - (now' - last_reset u)) in
  let remaining_requests := Z.max 0 (REQUESTS_PER_MINUTE cfg - requests_used u) in
  ({| requests := {| limit := REQUESTS_PER_MINUTE cfg;
                     used := requests_used u;
                     remaining := remaining_requests;
                     reset_after_seconds := py_int time_until_reset TICKS_PER_SECOND |};
      tokens := {| limit := TOKENS_PER_MINUTE cfg;
                   used := tokens_used u;
                   remaining := TOKENS_PER_MINUTE cfg - tokens_used u;
                   reset_after_seconds := py_int time_until_reset TICKS_PER_SECOND |} |},
   u).

(** ** Sequences of calls *)

Inductive op : Type :=
| OpTokens (now token_count : Z)
| OpRequest (now : Z)
| OpStatus (now now' : Z).

Inductive outcome : Type :=
| OutTokens (admitted : bool)
| OutRequest (r : result exn unit)
| OutStatus (s : RateLimitStatus).

Definition op_time (o : op) : Z :=
  match o with
  | OpTokens now _ => now
  | OpRequest now => now
  | OpStatus now _ => now
  end.

Definition apply_op (o : op) (u : UsageTracking) : outcome * UsageTracking :=
  match o with
  | OpTokens now n =>
      let (b, u') := check_token_rate_limit now n u in (OutTokens b, u')
  | OpRequest now =>
      let (r, u') := track_request now u in (OutRequest r, u')
  | OpStatus now now' =>
      let (s, u') := get_rate_limit_status now now' u in (OutStatus s, u')
  end.

Fixpoint run_ops (os : list op) (u : UsageTracking) : list outcome * UsageTracking :=
  match os with
  | [] => ([], u)
  | o :: os' =>
      let (out, u') := apply_op o u in
      let (outs, u'') := run_ops os' u' in
      (out :: outs, u'')
  end.

(** The calls the program makes: token counts come from [count_tokens]. *)
Definition op_wf (o : op) : Prop :=
  match o with
  | OpTokens _ n => 0 <= n
  | _ => True
  end.

Inductive reachable : UsageTracking -> Prop :=
| reach_init now : reachable (initial_usage now)
| reach_step u o : reachable u -> op_wf o -> reachable (snd (apply_op o u)).

(** The counters are within their limits. *)
Definition usage_ok (u : UsageTracking) : Prop :=
  0 <= tokens_used u <= TOKENS_PER_MINUTE cfg /\
  0 <= requests_used u <= REQUESTS_PER_MINUTE cfg.

Definition usage_okb (u : UsageTracking) : bool :=
  (0 <=? tokens_used u) && (tokens_used u <=? TOKENS_PER_MINUTE cfg) &&
  (0 <=? requests_used u) && (requests_used u <=? REQUESTS_PER_MINUTE cfg).

Definition admitted (out : outcome) : bool :=
  match out with
  | OutTokens b => b
  | OutRequest r => is_ok r
  | OutStatus _ => true
  end.

End WithSettings.

(** Tokens charged and requests counted by a run: what the admitted calls
    asked for. *)
Fixpoint charged (os : list op) (outs : list outcome) : Z :=
  match os, outs with
  | OpTokens _ n :: os', OutTokens true :: outs' => n + charged os' outs'
  | _ :: os', _ :: outs' => charged os' outs'
  | _, _ => 0
  end.

Fixpoint counted (os : list op) (outs : list outcome) : Z :=
  match os, outs with
  | OpRequest _ :: os', OutRequest (Ok _) :: outs' => 1 + counted os' outs'
  | _ :: os', _ :: outs' => counted os' outs'
  | _, _ => 0
  end.

(** No call of the run finds the window expired. *)
Definition in_window (u : UsageTracking) (os : list op) : Prop :=
  Forall (fun o => op_time o - last_reset u <= WINDOW) os.

(** The tokens a list of calls asks for. *)
Definition requested (os : list op) : Z :=
  sumZ (fun o => match o with OpTokens _ n => n | _ => 0 end) os.

(** The requests counter is where it was, or was zeroed by a reset. *)
Definition requests_kept (u u' : UsageTracking) : Prop :=
  requests_used u' = requests_used u \/ requests_used u' = 0.

(** [n] calls of [check_token_rate_limit(1)] at the given clock readings. *)
Definition unit_calls (times : list Z) : list op :=
  map (fun t => OpTokens t 1) times.

(** ** Tactics of this file *)

Ltac rl_unfold :=
  unfold check_token_rate_limit, track_request, get_rate_limit_status,
    check_and_reset_counters, set_tokens_used, set_requests_used, initial_usage in *;
  eff_simpl; cbn [last_reset tokens_used requests_used] in *.

Ltac rl_cases :=
  repeat match goal with
  | |- context [if ?b then _ else _] => destruct b eqn:?
  | H : context [if ?b then _ else _] |- _ => destruct b eqn:?
  end; zbool.

Ltac rl_simpl :=
  cbn [fst snd charged counted admitted tokens_used requests_used last_reset
       set_tokens_used set_requests_used initial_usage] in *.

Ltac rl_crush := rl_unfold; rl_cases; cbn in *; try (unfold WINDOW, TICKS_PER_SECOND in *); try lia; auto.

(** ** The tokenizer *)

Lemma count_tokens_nonneg `{Tokenizer} text : 0 <= count_tokens text.
Proof.
  unfold count_tokens. destruct (encode text); [lia|].
  apply Z.div_pos; [apply py_len_nonneg | lia].
Qed.

Lemma count_tokens_fallback text :
  @count_tokens failing_tokenizer text = py_len text / 4.
Proof. reflexivity. Qed.

Lemma count_tokens_char text : @count_tokens char_tokenizer text = py_len text.
Proof. unfold count_tokens, py_len; cbn. now rewrite repeat_length. Qed.

Lemma count_tokens_fallback_le_len text :
  @count_tokens failing_tokenizer text <= py_len text.
Proof.
  rewrite count_tokens_fallback. pose proof (py_len_nonneg text).
  apply Z.div_le_upper_bound; lia.
Qed.

(** ** The lazy reset *)

Lemma reset_fires now u :
  now - last_reset u > WINDOW ->
  check_and_reset_counters now u = initial_usage now.
Proof. intros. rl_crush. Qed.

Lemma reset_idle now u :
  now - last_reset u <= WINDOW -> check_and_reset_counters now u = u.
Proof. intros. rl_crush. Qed.

Lemma reset_idem now u :
  check_and_reset_counters now (check_and_reset_counters now u)
  = check_and_reset_counters now u.
Proof. rl_crush. Qed.

Lemma reset_last_reset_le now u :
  last_reset u <= now ->
  last_reset u <= last_reset (check_and_reset_counters now u) <= now.
Proof. intros. rl_crush. Qed.

Lemma reset_window_fresh now u :
  last_reset u <= now ->
  0 <= now - last_reset (check_and_reset_counters now u) <= WINDOW.
Proof. intros. rl_crush. Qed.

Section Properties.
Context (cfg : Settings).
Hypothesis tokens_limit_nonneg : 0 <= TOKENS_PER_MINUTE cfg.
Hypothesis requests_limit_nonneg : 0 <= REQUESTS_PER_MINUTE cfg.

Lemma usage_okb_spec u : usage_okb cfg u = true <-> usage_ok cfg u.
Proof.
  unfold usage_okb, usage_ok. rewrite !andb_true_iff, !Z.leb_le. tauto.
Qed.

Lemma initial_usage_ok now : usage_ok cfg (initial_usage now).
Proof. unfold usage_ok; cbn; lia. Qed.

Lemma reset_ok now u : usage_ok cfg u -> usage_ok cfg (check_and_reset_counters now u).
Proof. unfold usage_ok. intros. rl_crush. Qed.

(** *** [check_token_rate_limit] on each branch *)

Lemma check_token_admits now n u :
  let u0 := check_and_reset_counters now u in
  tokens_used u0 + n <= TOKENS_PER_MINUTE cfg ->
  check_token_rate_limit cfg now n u = (true, set_tokens_used u0 (tokens_used u0 + n)).
Proof.
  cbv zeta. intros. unfold check_token_rate_limit.
  destruct (Z.gtb_spec (tokens_used (check_and_reset_counters now u) + n)
              (TOKENS_PER_MINUTE cfg)); [lia | reflexivity].
Qed.

Lemma check_token_rejects now n u :
  let u0 := check_and_reset_counters now u in
  tokens_used u0 + n > TOKENS_PER_MINUTE cfg ->
  check_token_rate_limit cfg now n u = (false, u0).
Proof.
  cbv zeta. intros. unfold check_token_rate_limit.
  destruct (Z.gtb_spec (tokens_used (check_and_reset_counters now u) + n)
              (TOKENS_PER_MINUTE cfg)); [reflexivity | lia].
Qed.

Lemma check_token_ok now n u :
  0 <= n -> usage_ok cfg u ->
  usage_ok cfg (snd (check_token_rate_limit cfg now n u)).
Proof. unfold usage_ok. intros. rl_crush. Qed.

(** *** [track_request] on each branch *)

Lemma track_request_admits now u :
  let u0 := check_and_reset_counters now u in
  requests_used u0 < REQUESTS_PER_MINUTE cfg ->
  track_request cfg now u = (Ok tt, set_requests_used u0 (requests_used u0 + 1)).
Proof.
  cbv zeta. intros. unfold track_request; eff_simpl.
  destruct (Z.geb_spec (requests_used (check_and_reset_counters now u))
              (REQUESTS_PER_MINUTE cfg)); [lia | reflexivity].
Qed.

Lemma track_request_rejects now u :
  let u0 := check_and_reset_counters now u in
  requests_used u0 >= REQUESTS_PER_MINUTE cfg ->
  track_request cfg now u
  = (Err (ApiExn (RateLimitError "Request" (REQUESTS_PER_MINUTE cfg))), u0).
Proof.
  cbv zeta. intros. unfold track_request; eff_simpl.
  destruct (Z.geb_spec (requests_used (check_and_reset_counters now u))
              (REQUESTS_PER_MINUTE cfg)); [reflexivity | lia].
Qed.

Lemma track_request_ok now u :
  usage_ok cfg u -> usage_ok cfg (snd (track_request cfg now u)).
Proof. unfold usage_ok. intros. rl_crush. Qed.

Lemma status_state now now' u :
  snd (get_rate_limit_status cfg now now' u) = check_and_reset_counters now u.
Proof. reflexivity. Qed.

Lemma apply_op_ok o u :
  op_wf o -> usage_ok cfg u -> usage_ok cfg (snd (apply_op cfg o u)).
Proof.
  destruct o as [now n|now|now now']; cbn [op_wf apply_op]; intros Hwf Hu.
  - pose proof (check_token_ok now n u Hwf Hu).
    destruct (check_token_rate_limit cfg now n u); assumption.
  - pose proof (track_request_ok now u Hu).
    destruct (track_request cfg now u); assumption.
  - apply reset_ok, Hu.
Qed.

End Properties.

(** ** Runs of calls *)

Section Runs.
Context (cfg : Settings).
Hypothesis tokens_limit_nonneg : 0 <= TOKENS_PER_MINUTE cfg.
Hypothesis requests_limit_nonneg : 0 <= REQUESTS_PER_MINUTE cfg.

Lemma run_ops_cons o os u :
  run_ops cfg (o :: os) u
  = (fst (apply_op cfg o u) :: fst (run_ops cfg os (snd (apply_op cfg o u))),
     snd (run_ops cfg os (snd (apply_op cfg o u)))).
Proof.
  cbn [run_ops]. destruct (apply_op cfg o u) as [out u'].
  cbn [fst snd]. destruct (run_ops cfg os u'); reflexivity.
Qed.

Lemma run_ops_app os1 os2 u :
  run_ops cfg (os1 ++ os2) u
  = (fst (run_ops cfg os1 u) ++ fst (run_ops cfg os2 (snd (run_ops cfg os1 u))),
     snd (run_ops cfg os2 (snd (run_ops cfg os1 u)))).
Proof.
  revert u. induction os1 as [|o os1 IH]; intros u.
  - cbn. destruct (run_ops cfg os2 u); reflexivity.
  - cbn [app]. rewrite !run_ops_cons, IH. reflexivity.
Qed.

Lemma run_ops_length os u : List.length (fst (run_ops cfg os u)) = List.length os.
Proof.
  revert u. induction os as [|o os IH]; intros u; [reflexivity|].
  rewrite run_ops_cons. cbn. now rewrite IH.
Qed.

Lemma run_ops_ok os u :
  Forall op_wf os -> usage_ok cfg u -> usage_ok cfg (snd (run_ops cfg os u)).
Proof.
  intros Hwf. revert u. induction Hwf as [|o os Ho _ IH]; intros u Hu; [exact Hu|].
  rewrite run_ops_cons. cbn [snd]. apply IH, apply_op_ok; assumption.
Qed.

Lemma run_ops_reachable os u :
  Forall op_wf os -> reachable cfg u -> reachable cfg (snd (run_ops cfg os u)).
Proof.
  intros Hwf. revert u. induction Hwf as [|o os Ho _ IH]; intros u Hu; [exact Hu|].
  rewrite run_ops_cons. cbn [snd]. apply IH. now constructor.
Qed.

(** An operation inside the window keeps the window's start. *)
Lemma apply_op_last_reset o u :
  op_time o - last_reset u <= WINDOW ->
  last_reset (snd (apply_op cfg o u)) = last_reset u.
Proof.
  intros Hw. destruct o as [now n|now|now now']; cbn [apply_op op_time] in *.
  - unfold check_token_rate_limit. rewrite (reset_idle _ _ Hw).
    destruct (_ >? _); reflexivity.
  - unfold track_request; eff_simpl. rewrite (reset_idle _ _ Hw).
    destruct (_ >=? _); reflexivity.
  - cbn. now rewrite (reset_idle _ _ Hw).
Qed.

Lemma in_window_step o os u :
  in_window u (o :: os) -> in_window (snd (apply_op cfg o u)) os.
Proof.
  unfold in_window. intros H. inv H.
  rewrite apply_op_last_reset by assumption. assumption.
Qed.

(** An operation that finds the window expired behaves as on a fresh state. *)
Lemma apply_op_after_window o u :
  op_time o - last_reset u > WINDOW ->
  apply_op cfg o u = apply_op cfg o (initial_usage (op_time o)).
Proof.
  intros Hw.
  assert (Hf : check_and_reset_counters (op_time o) (initial_usage (op_time o))
               = initial_usage (op_time o)).
  { apply reset_idle. cbn. unfold WINDOW, TICKS_PER_SECOND. lia. }
  destruct o as [now n|now|now now']; cbn [apply_op op_time] in *.
  - unfold check_token_rate_limit. now rewrite Hf, (reset_fires _ _ Hw).
  - unfold track_request; eff_simpl. now rewrite Hf, (reset_fires _ _ Hw).
  - unfold get_rate_limit_status. now rewrite Hf, (reset_fires _ _ Hw).
Qed.

End Runs.

(** ** Main theorems *)

Section Throttle.
Context (cfg : Settings).
Hypothesis tokens_limit_nonneg : 0 <= TOKENS_PER_MINUTE cfg.
Hypothesis requests_limit_nonneg : 0 <= REQUESTS_PER_MINUTE cfg.

(** C1. On every state the program can reach from the import-time dict by
    calls of [check_token_rate_limit] (with the non-negative counts
    [count_tokens] yields), [track_request] and [get_rate_limit_status], at
    any clock readings, both counters are between zero and their limit. *)
Theorem usage_invariant u : reachable cfg u -> usage_ok cfg u.
Proof.
  induction 1 as [now|u o _ IH Hwf].
  - now apply initial_usage_ok.
  - now apply apply_op_ok.
Qed.

(** One unit admission inside the window: admitted iff there is room. *)
Lemma unit_call_in_window t u :
  t - last_reset u <= WINDOW ->
  apply_op cfg (OpTokens t 1) u
  = if tokens_used u + 1 >? TOKENS_PER_MINUTE cfg
    then (OutTokens false, u)
    else (OutTokens true, set_tokens_used u (tokens_used u + 1)).
Proof.
  intros Hw. cbn [apply_op]. unfold check_token_rate_limit.
  rewrite (reset_idle _ _ Hw). destruct (_ >? _); reflexivity.
Qed.

(** C2. [n] calls [check_token_rate_limit(1)] that fall in one window, at
    whatever clock readings and in whatever order the scheduler runs them,
    are admitted exactly [min n room] times, [room] being what the budget
    has left: no over-admission and no lost update. *)
Theorem unit_admissions_count times u :
  usage_ok cfg u ->
  in_window u (unit_calls times) ->
  Z.of_nat (count admitted (fst (run_ops cfg (unit_calls times) u)))
  = Z.min (Z.of_nat (List.length times)) (TOKENS_PER_MINUTE cfg - tokens_used u).
Proof.
  revert u. induction times as [|t ts IH]; intros u Hu Hw.
  - cbn. unfold usage_ok in Hu. lia.
  - change (unit_calls (t :: ts)) with (OpTokens t 1 :: unit_calls ts) in *.
    pose proof (in_window_step cfg _ _ _ Hw) as Hw'.
    assert (Hu' : usage_ok cfg (snd (apply_op cfg (OpTokens t 1) u)))
      by (apply apply_op_ok; cbn; auto; lia).
    specialize (IH _ Hu' Hw').
    rewrite run_ops_cons. cbn [fst]. rewrite count_cons, Nat2Z.inj_add, IH.
    inv Hw. cbn [op_time] in *. rewrite unit_call_in_window by assumption.
    unfold usage_ok in Hu.
    destruct (Z.gtb_spec (tokens_used u + 1) (TOKENS_PER_MINUTE cfg));
      cbn [fst snd admitted set_tokens_used tokens_used List.length]; lia.
Qed.

(** C6. A run whose first call finds the window expired is the run from the
    fresh state of that instant: outcomes and final counters owe nothing to
    what was counted before the boundary. *)
Theorem window_reset_forgets o os u :
  op_time o - last_reset u > WINDOW ->
  run_ops cfg (o :: os) u = run_ops cfg (o :: os) (initial_usage (op_time o)).
Proof.
  intros Hw. rewrite !run_ops_cons, (apply_op_after_window cfg o u Hw). reflexivity.
Qed.

(** Inside the window the counters are exact: after a run that meets no
    reset, [tokens_used] has grown by the counts of the admitted token calls
    and [requests_used] by the number of admitted requests. *)
Theorem counters_exact os u :
  in_window u os ->
  let (outs, u') := run_ops cfg os u in
  tokens_used u' = tokens_used u + charged os outs /\
  requests_used u' = requests_used u + counted os outs /\
  last_reset u' = last_reset u.
Proof.
  revert u. induction os as [|o os IH]; intros u Hw.
  - cbn. lia.
  - pose proof (in_window_step cfg _ _ _ Hw) as Hw'. specialize (IH _ Hw').
    rewrite run_ops_cons.
    destruct (run_ops cfg os (snd (apply_op cfg o u))) as [outs u''].
    cbn [fst snd] in *. destruct IH as (Ht & Hr & Hl).
    rewrite Ht, Hr, Hl. inv Hw.
    rewrite (apply_op_last_reset cfg o u) by assumption.
    destruct o as [now n|now|now now']; cbn [apply_op op_time] in *.
    + unfold check_token_rate_limit. rewrite reset_idle by assumption.
      destruct (_ >? _); rl_simpl; lia.
    + unfold track_request; eff_simpl. rewrite reset_idle by assumption.
      destruct (_ >=? _); rl_simpl; lia.
    + unfold get_rate_limit_status. rewrite reset_idle by assumption. rl_simpl; lia.
Qed.

End Throttle.

(** ** Admission with room to spare *)

Section Room.
Context (cfg : Settings).

Lemma check_token_in_window now n u :
  now - last_reset u <= WINDOW ->
  tokens_used u + n <= TOKENS_PER_MINUTE cfg ->
  check_token_rate_limit cfg now n u = (true, set_tokens_used u (tokens_used u + n)).
Proof.
  intros Hw Hr. rewrite check_token_admits; rewrite (reset_idle _ _ Hw); [reflexivity | exact Hr].
Qed.

Lemma check_token_over now n u :
  now - last_reset u <= WINDOW ->
  tokens_used u + n > TOKENS_PER_MINUTE cfg ->
  check_token_rate_limit cfg now n u = (false, u).
Proof.
  intros Hw Hr. rewrite check_token_rejects; rewrite (reset_idle _ _ Hw); [reflexivity | exact Hr].
Qed.

Lemma requested_cons o os :
  requested (o :: os) = match o with OpTokens _ n => n | _ => 0 end + requested os.
Proof. reflexivity. Qed.

End Room.

(** ** Recovery *)

Section Recovery.
Context (cfg : Settings).

(** C29. The throttle recovers: whatever the counters hold, there is a time
    after which every request is admitted and so is every chunk that fits
    the token budget, provided the configured limits leave room for one
    request at all.  No call has to be made in between: the first call
    after the window opens the new one. *)
Theorem throttle_recovers u n :
  0 < REQUESTS_PER_MINUTE cfg -> 0 <= n <= TOKENS_PER_MINUTE cfg ->
  exists T, forall now, T < now ->
    fst (track_request cfg now u) = Ok tt /\
    fst (check_token_rate_limit cfg now n u) = true.
Proof.
  intros Hr Hn. exists (last_reset u + WINDOW). intros now Hnow.
  assert (Hf : check_and_reset_counters now u = initial_usage now)
    by (apply reset_fires; lia).
  rewrite track_request_admits, check_token_admits; rewrite Hf; cbn; auto; lia.
Qed.

End Recovery.

Lemma requests_kept_refl u : requests_kept u u.
Proof. now left. Qed.

Lemma requests_kept_trans u1 u2 u3 :
  requests_kept u1 u2 -> requests_kept u2 u3 -> requests_kept u1 u3.
Proof. unfold requests_kept. intros [H1|H1] [H2|H2]; rewrite ?H2, ?H1; auto. Qed.

Lemma check_token_requests_kept cfg now n u :
  requests_kept u (snd (check_token_rate_limit cfg now n u)).
Proof.
  unfold requests_kept, check_token_rate_limit, check_and_reset_counters.
  destruct (now - last_reset u >? WINDOW);
    destruct (_ >? TOKENS_PER_MINUTE cfg); cbn; auto.
Qed.

(** Counters within their limits: the limits are not negative. *)
Lemma usage_ok_limits cfg u :
  usage_ok cfg u -> 0 <= TOKENS_PER_MINUTE cfg /\ 0 <= REQUESTS_PER_MINUTE cfg.
Proof. unfold usage_ok. lia. Qed.

(** ** Rejections and the status report *)

Section Status.
Context (cfg : Settings).

(** When the request limit is positive, a [track_request] that raises
    leaves [usage_tracking] exactly as it found it, the exception is the
    429 [RateLimitError("Request", limit)], and the rejection happened
    because the counter had reached the limit inside a live window. *)
Theorem track_request_rejection now u e u' :
  0 < REQUESTS_PER_MINUTE cfg ->
  track_request cfg now u = (Err e, u') ->
  u' = u /\
  e = ApiExn (RateLimitError "Request" (REQUESTS_PER_MINUTE cfg)) /\
  requests_used u >= REQUESTS_PER_MINUTE cfg /\
  now - last_reset u <= WINDOW.
Proof.
  intros Hlim. unfold track_request, check_and_reset_counters; eff_simpl.
  destruct (Z.gtb_spec (now - last_reset u) WINDOW);
    cbn [requests_used];
    match goal with |- context [?a >=? ?b] => destruct (Z.geb_spec a b) end;
    intros Heq; inv Heq; repeat split; lia.
Qed.

(** With a limit of zero or less the same call can raise after the lazy
    reset has replaced the dict: the state does change on that error path. *)
Lemma track_request_rejection_resets now u :
  REQUESTS_PER_MINUTE cfg <= 0 ->
  now - last_reset u > WINDOW ->
  track_request cfg now u
  = (Err (ApiExn (RateLimitError "Request" (REQUESTS_PER_MINUTE cfg))), initial_usage now).
Proof.
  intros Hlim Hw. rewrite track_request_rejects; rewrite (reset_fires _ _ Hw);
    [reflexivity | cbn; lia].
Qed.

(** A rejected token check leaves the state as the lazy reset left it. *)
Lemma check_token_rejection now n u u' :
  check_token_rate_limit cfg now n u = (false, u') ->
  u' = check_and_reset_counters now u /\
  tokens_used u' + n > TOKENS_PER_MINUTE cfg.
Proof.
  unfold check_token_rate_limit.
  destruct (Z.gtb_spec (tokens_used (check_and_reset_counters now u) + n)
              (TOKENS_PER_MINUTE cfg)); intros Heq; inv Heq. split; [reflexivity | lia].
Qed.

Lemma check_token_admission now n u u' :
  check_token_rate_limit cfg now n u = (true, u') ->
  tokens_used u' = tokens_used (check_and_reset_counters now u) + n /\
  tokens_used u' <= TOKENS_PER_MINUTE cfg /\
  requests_used u' = requests_used (check_and_reset_counters now u) /\
  last_reset u' = last_reset (check_and_reset_counters now u).
Proof.
  unfold check_token_rate_limit.
  destruct (Z.gtb_spec (tokens_used (check_and_reset_counters now u) + n)
              (TOKENS_PER_MINUTE cfg)); intros Heq; inv Heq. cbn. repeat split; lia.
Qed.

(** [get_rate_limit_status] is a read inside a live window: it returns
    the state unchanged, and a second call before the window ends reports
    the same [used] and [remaining] figures for requests and for tokens. *)
Theorem status_idempotent t1 t1' t2 t2' u :
  t1 - last_reset u <= WINDOW ->
  t2 - last_reset u <= WINDOW ->
  let (s1, u1) := get_rate_limit_status cfg t1 t1' u in
  let (s2, u2) := get_rate_limit_status cfg t2 t2' u1 in
  u1 = u /\ u2 = u /\
  used (requests s2) = used (requests s1) /\
  used (tokens s2) = used (tokens s1) /\
  remaining (requests s2) = remaining (requests s1) /\
  remaining (tokens s2) = remaining (tokens s1).
Proof.
  intros H1 H2. unfold get_rate_limit_status.
  rewrite (reset_idle _ _ H1), (reset_idle _ _ H2). repeat split.
Qed.

(** The figures of the status report: with a monotone clock
    [reset_after_seconds] is between 0 and 60 and is the whole seconds left
    in the window; [remaining] requests is floored at zero; [remaining]
    tokens is [limit - used], which is non-negative on the states the
    invariant describes. *)
Theorem status_bounds now now' u :
  usage_ok cfg u ->
  last_reset u <= now -> now <= now' ->
  let s := fst (get_rate_limit_status cfg now now' u) in
  let u0 := check_and_reset_counters now u in
  0 <= reset_after_seconds (requests s) <= 60 /\
  reset_after_seconds (tokens s) = reset_after_seconds (requests s) /\
  reset_after_seconds (requests s) = Z.max 0 (WINDOW - (now' - last_reset u0)) / TICKS_PER_SECOND /\
  remaining (requests s) = REQUESTS_PER_MINUTE cfg - used (requests s) /\
  0 <= remaining (tokens s) /\
  remaining (tokens s) = TOKENS_PER_MINUTE cfg - used (tokens s).
Proof.
  intros Hu Hl Hm. cbv zeta. pose proof (reset_last_reset_le now u Hl) as Hr.
  assert (Hok : usage_ok cfg (check_and_reset_counters now u)).
  { unfold usage_ok in *. rl_crush. }
  unfold get_rate_limit_status; cbn [fst requests tokens reset_after_seconds remaining used].
  set (u0 := check_and_reset_counters now u) in *.
  rewrite py_int_floor by (unfold TICKS_PER_SECOND; lia).
  unfold usage_ok in Hok. unfold WINDOW, TICKS_PER_SECOND.
  repeat split; try lia.
  - apply Z.div_pos; lia.
  - apply Z.div_le_upper_bound; lia.
Qed.

End Status.

(** The tokens figure is not floored: with a negative configured limit the
    report of a fresh state is negative. *)
Lemma status_tokens_remaining_negative :
  remaining (tokens (fst (get_rate_limit_status (settings_with_limits 60 (-5)) 0 0
                            (initial_usage 0)))) = -5.
Proof. reflexivity. Qed.

(** ** Witnesses *)

Lemma usage_invariant_witness :
  usage_ok default_settings
    (snd (run_ops default_settings [OpTokens 5 10; OpRequest 7] (initial_usage 0))).
Proof.
  apply usage_invariant; [zcompute | zcompute |].
  apply run_ops_reachable; [repeat constructor; zcompute | apply reach_init].
Defined.

Lemma unit_admissions_count_witness :
  Z.of_nat (count admitted
    (fst (run_ops (settings_with_limits 60 3) (unit_calls [40; 10; 30; 20]) (initial_usage 0))))
  = Z.min 4 (3 - 0).
Proof.
  apply (unit_admissions_count (settings_with_limits 60 3));
    [zcompute | zcompute | split; split; zcompute | repeat constructor; zcompute].
Defined.

Lemma window_reset_forgets_witness :
  run_ops default_settings [OpTokens 70000 5; OpRequest 70001]
    {| last_reset := 0; tokens_used := 59999; requests_used := 60 |}
  = run_ops default_settings [OpTokens 70000 5; OpRequest 70001] (initial_usage 70000).
Proof. apply (window_reset_forgets default_settings). zcompute. Defined.

Lemma counters_exact_witness :
  let (outs, u') :=
    run_ops default_settings [OpTokens 10 7; OpRequest 20; OpStatus 30 31; OpTokens 40 60000]
      (initial_usage 0) in
  tokens_used u' = 0 + charged [OpTokens 10 7; OpRequest 20; OpStatus 30 31; OpTokens 40 60000] outs /\
  requests_used u' = 0 + counted [OpTokens 10 7; OpRequest 20; OpStatus 30 31; OpTokens 40 60000] outs /\
  last_reset u' = 0.
Proof.
  apply (counters_exact default_settings
           [OpTokens 10 7; OpRequest 20; OpStatus 30 31; OpTokens 40 60000] (initial_usage 0)).
  repeat constructor; zcompute.
Defined.

Lemma track_request_rejection_witness :
  {| last_reset := 0; tokens_used := 0; requests_used := 60 |}
  = {| last_reset := 0; tokens_used := 0; requests_used := 60 |} /\
  ApiExn (RateLimitError "Request" 60) = ApiExn (RateLimitError "Request" 60) /\
  60 >= 60 /\ 100 - 0 <= WINDOW.
Proof.
  apply (track_request_rejection default_settings 100
           {| last_reset := 0; tokens_used := 0; requests_used := 60 |});
    zcompute.
Defined.

Lemma status_idempotent_witness :
  let (s1, u1) := get_rate_limit_status default_settings 10 11 (initial_usage 0) in
  let (s2, u2) := get_rate_limit_status default_settings 20 21 u1 in
  u1 = initial_usage 0 /\ u2 = initial_usage 0 /\
  used (requests s2) = used (requests s1) /\
  used (tokens s2) = used (tokens s1) /\
  remaining (requests s2) = remaining (requests s1) /\
  remaining (tokens s2) = remaining (tokens s1).
Proof.
  apply (status_idempotent default_settings 10 11 20 21 (initial_usage 0)); zcompute.
Defined.

Lemma status_bounds_witness :
  let s := fst (get_rate_limit_status default_settings 1500 2500 (initial_usage 0)) in
  let u0 := check_and_reset_counters 1500 (initial_usage 0) in
  0 <= reset_after_seconds (requests s) <= 60 /\
  reset_after_seconds (tokens s) = reset_after_seconds (requests s) /\
  reset_after_seconds (requests s) = Z.max 0 (WINDOW - (2500 - last_reset u0)) / TICKS_PER_SECOND /\
  remaining (requests s) = 60 - used (requests s) /\
  0 <= remaining (tokens s) /\
  remaining (tokens s) = 60000 - used (tokens s).
Proof.
  apply (status_bounds default_settings 1500 2500 (initial_usage 0));
    [split; split; zcompute | zcompute | zcompute].
Defined.

Lemma throttle_recovers_witness :
  exists T, forall now, T < now ->
    fst (track_request default_settings now
           {| last_reset := 0; tokens_used := 60000; requests_used := 60 |}) = Ok tt /\
    fst (check_token_rate_limit default_settings now 5
           {| last_reset := 0; tokens_used := 60000; requests_used := 60 |}) = true.
Proof.
  apply (throttle_recovers default_settings
           {| last_reset := 0; tokens_used := 60000; requests_used := 60 |} 5);
    [zcompute | split; zcompute].
Defined.
