(* ===== verification/ThrottleSpec.v ===== *)
(** * ThrottleSpec: what the usage throttle promises

    Two abstractions of [RateLimiter].

    - [Throttle] is the contract a client sees (section 4.1 of the
      specification): a window start, two counters, two budgets, and the
      behaviour of an admission inside a live window and after an expired
      one.  [rate_limiter_throttle] shows the code meets it; the lemmas of
      section [Client] are proved from the contract alone.
    - [Ledger] is a reference model that keeps the admitted calls of the
      current window as a list and derives the counters by summation.
      [abs] maps a ledger to the code's counters and the [_refines] lemmas
      show every operation of the code commutes with it. *)

From Stdlib Require Import ZArith List Lia String Bool.
From S2P Require Import Prelude.
From S2P Require Import Settings.
From S2P Require Import Errors.
From S2P Require Import RateLimiter.
Import ListNotations.

Local Open Scope Z_scope.

(** ** The contract *)

Class Throttle (St : Type) : Type := {
  window_start : St -> Z;
  tokens_spent : St -> Z;
  requests_spent : St -> Z;
  token_budget : Z;
  request_budget : Z;
  fresh : Z -> St;
  admit_tokens : Z -> Z -> St -> bool * St;
  admit_request : Z -> St -> result exn unit * St;

  fresh_spec : forall now,
    window_start (fresh now) = now /\
    tokens_spent (fresh now) = 0 /\ requests_spent (fresh now) = 0;

  admit_tokens_live : forall now n s,
    now - window_start s <= WINDOW ->
    let (b, s') := admit_tokens now n s in
    b = (tokens_spent s + n <=? token_budget) /\
    tokens_spent s' = (if b then tokens_spent s + n else tokens_spent s) /\
    requests_spent s' = requests_spent s /\
    window_start s' = window_start s;

  admit_tokens_expired : forall now n s,
    now - window_start s > WINDOW ->
    admit_tokens now n s = admit_tokens now n (fresh now);

  admit_request_live : forall now s,
    now - window_start s <= WINDOW ->
    let (r, s') := admit_request now s in
    is_ok r = (requests_spent s <? request_budget) /\
    requests_spent s' = (if is_ok r then requests_spent s + 1 else requests_spent s) /\
    tokens_spent s' = tokens_spent s /\
    window_start s' = window_start s;

  admit_request_expired : forall now s,
    now - window_start s > WINDOW ->
    admit_request now s = admit_request now (fresh now)
}.

(** Admit the counts of a list of fragments in order, stopping at the first
    rejection: the shape of the orchestrator's loop.  Returns how many
    fragments were admitted. *)
Fixpoint admit_prefix {St} `{Throttle St} (calls : list (Z * Z)) (s : St) : nat * St :=
  match calls with
  | [] => (0%nat, s)
  | (now, n) :: rest =>
      let (b, s') := admit_tokens now n s in
      if b then let (k, s'') := admit_prefix rest s' in (S k, s'') else (0%nat, s')
  end.

(** ** The ledger model *)

Module Ledger.

Inductive entry : Type :=
| Tokens (n : Z)
| Request.

Record state : Type := {
  start : Z;
  entries : list entry
}.

Definition entry_tokens (e : entry) : Z :=
  match e with Tokens n => n | Request => 0 end.

Definition entry_requests (e : entry) : Z :=
  match e with Tokens _ => 0 | Request => 1 end.

Definition tokens_total (s : state) : Z := sumZ entry_tokens (entries s).
Definition requests_total (s : state) : Z := sumZ entry_requests (entries s).

Definition init (now : Z) : state := {| start := now; entries := [] |}.

(** The window rolls over: the ledger is emptied. *)
Definition roll (now : Z) (s : state) : state :=
  if now - start s >? WINDOW then init now else s.

Definition record (e : entry) (s : state) : state :=
  {| start := start s; entries := entries s ++ [e] |}.

Section WithSettings.
Context (cfg : Settings).

Definition admit_tokens (now n : Z) (s : state) : bool * state :=
  let s := roll now s in
  if tokens_total s + n <=? TOKENS_PER_MINUTE cfg
  then (true, record (Tokens n) s)
  else (false, s).

Definition admit_request (now : Z) (s : state) : result exn unit * state :=
  let s := roll now s in
  if requests_total s <? REQUESTS_PER_MINUTE cfg
  then (Ok tt, record Request s)
  else (Err (ApiExn (RateLimitError "Request" (REQUESTS_PER_MINUTE cfg))), s).

End WithSettings.

(** The abstraction function: a ledger seen as the code's dict. *)
Definition abs (s : state) : UsageTracking :=
  {| last_reset := start s;
     tokens_used := tokens_total s;
     requests_used := requests_total s |}.

(** A status read rolls the window and reports the sums. *)
Definition status (cfg : Settings) (now now' : Z) (s : state) : RateLimitStatus * state :=
  (fst (get_rate_limit_status cfg now now' (abs s)), roll now s).

Definition apply (cfg : Settings) (o : op) (s : state) : outcome * state :=
  match o with
  | OpTokens now n => let (b, s') := admit_tokens cfg now n s in (OutTokens b, s')
  | OpRequest now => let (r, s') := admit_request cfg now s in (OutRequest r, s')
  | OpStatus now now' => let (r, s') := status cfg now now' s in (OutStatus r, s')
  end.

Fixpoint run (cfg : Settings) (os : list op) (s : state) : list outcome * state :=
  match os with
  | [] => ([], s)
  | o :: os' =>
      let (out, s') := apply cfg o s in
      let (outs, s'') := run cfg os' s' in
      (out :: outs, s'')
  end.

End Ledger.

(** ** The code meets the contract *)

Section Instance.
Context (cfg : Settings).

Lemma rl_admit_tokens_live now n u :
  now - last_reset u <= WINDOW ->
  let (b, u') := check_token_rate_limit cfg now n u in
  b = (tokens_used u + n <=? TOKENS_PER_MINUTE cfg) /\
  tokens_used u' = (if b then tokens_used u + n else tokens_used u) /\
  requests_used u' = requests_used u /\
  last_reset u' = last_reset u.
Proof.
  intros Hw. unfold check_token_rate_limit. rewrite (reset_idle _ _ Hw).
  rewrite Z.gtb_ltb, Z.ltb_antisym.
  destruct (tokens_used u + n <=? TOKENS_PER_MINUTE cfg); cbn; auto.
Qed.

Lemma rl_admit_tokens_expired now n u :
  now - last_reset u > WINDOW ->
  check_token_rate_limit cfg now n u = check_token_rate_limit cfg now n (initial_usage now).
Proof.
  intros Hw.
  pose proof (apply_op_after_window cfg (OpTokens now n) u Hw) as H.
  cbn [apply_op op_time] in H.
  destruct (check_token_rate_limit cfg now n u),
           (check_token_rate_limit cfg now n (initial_usage now)).
  congruence.
Qed.

Lemma rl_admit_request_live now u :
  now - last_reset u <= WINDOW ->
  let (r, u') := track_request cfg now u in
  is_ok r = (requests_used u <? REQUESTS_PER_MINUTE cfg) /\
  requests_used u' = (if is_ok r then requests_used u + 1 else requests_used u) /\
  tokens_used u' = tokens_used u /\
  last_reset u' = last_reset u.
Proof.
  intros Hw. unfold track_request; eff_simpl. rewrite (reset_idle _ _ Hw).
  rewrite Z.geb_leb, Z.leb_antisym.
  destruct (requests_used u <? REQUESTS_PER_MINUTE cfg); cbn; auto.
Qed.

Lemma rl_admit_request_expired now u :
  now - last_reset u > WINDOW ->
  track_request cfg now u = track_request cfg now (initial_usage now).
Proof.
  intros Hw.
  pose proof (apply_op_after_window cfg (OpRequest now) u Hw) as H.
  cbn [apply_op op_time] in H.
  destruct (track_request cfg now u), (track_request cfg now (initial_usage now)).
  congruence.
Qed.

#[export] Instance rate_limiter_throttle : Throttle UsageTracking := {|
  window_start := last_reset;
  tokens_spent := tokens_used;
  requests_spent := requests_used;
  token_budget := TOKENS_PER_MINUTE cfg;
  request_budget := REQUESTS_PER_MINUTE cfg;
  fresh := initial_usage;
  admit_tokens := check_token_rate_limit cfg;
  admit_request := track_request cfg;
  fresh_spec := fun now => conj eq_refl (conj eq_refl eq_refl);
  admit_tokens_live := rl_admit_tokens_live;
  admit_tokens_expired := rl_admit_tokens_expired;
  admit_request_live := rl_admit_request_live;
  admit_request_expired := rl_admit_request_expired
|}.

End Instance.

(** ** Lemmas of a client, from the contract alone *)

Section Client.
Context {St : Type} `{T : Throttle St}.
Hypothesis token_budget_nonneg : 0 <= token_budget.
Hypothesis request_budget_nonneg : 0 <= request_budget.

Definition within_budget (s : St) : Prop :=
  0 <= tokens_spent s <= token_budget /\ 0 <= requests_spent s <= request_budget.

Lemma fresh_within_budget now : within_budget (fresh now).
Proof. unfold within_budget. destruct (fresh_spec now) as (_ & -> & ->). lia. Qed.

Lemma admit_tokens_live_budget now n s :
  0 <= n -> within_budget s -> now - window_start s <= WINDOW ->
  within_budget (snd (admit_tokens now n s)).
Proof.
  intros Hn [Ht Hr] Hw. pose proof (admit_tokens_live now n s Hw) as H.
  destruct (admit_tokens now n s) as [b s']. destruct H as (Hb & Ht' & Hr' & _).
  cbn [snd]. unfold within_budget. rewrite Ht', Hr', Hb.
  destruct (Z.leb_spec (tokens_spent s + n) token_budget); lia.
Qed.

Lemma admit_tokens_budget now n s :
  0 <= n -> within_budget s -> within_budget (snd (admit_tokens now n s)).
Proof.
  intros Hn Hs. destruct (Z_le_gt_dec (now - window_start s) WINDOW) as [Hw|Hw].
  - now apply admit_tokens_live_budget.
  - rewrite (admit_tokens_expired _ _ _ Hw).
    apply admit_tokens_live_budget; [assumption | apply fresh_within_budget |].
    destruct (fresh_spec now) as (Hs0 & _). rewrite Hs0. unfold WINDOW, TICKS_PER_SECOND. lia.
Qed.

Lemma admit_request_live_budget now s :
  within_budget s -> now - window_start s <= WINDOW ->
  within_budget (snd (admit_request now s)).
Proof.
  intros [Ht Hr] Hw. pose proof (admit_request_live now s Hw) as H.
  destruct (admit_request now s) as [r s']. destruct H as (Hb & Hr' & Ht' & _).
  cbn [snd]. unfold within_budget. rewrite Ht', Hr', Hb.
  destruct (Z.ltb_spec (requests_spent s) request_budget); lia.
Qed.

Lemma admit_request_budget now s :
  within_budget s -> within_budget (snd (admit_request now s)).
Proof.
  intros Hs. destruct (Z_le_gt_dec (now - window_start s) WINDOW) as [Hw|Hw].
  - now apply admit_request_live_budget.
  - rewrite (admit_request_expired _ _ Hw).
    apply admit_request_live_budget; [apply fresh_within_budget |].
    destruct (fresh_spec now) as (Hs0 & _). rewrite Hs0. unfold WINDOW, TICKS_PER_SECOND. lia.
Qed.

(** The fragments a loop gets through never push the counter past the
    budget, whatever the clock did in between. *)
Lemma admit_prefix_budget calls s :
  Forall (fun c => 0 <= snd c) calls ->
  within_budget s -> within_budget (snd (admit_prefix calls s)).
Proof.
  intros Hc. revert s. induction Hc as [|[now n] rest Hn _ IH]; intros s Hs; [exact Hs|].
  cbn [admit_prefix]. pose proof (admit_tokens_budget now n s Hn Hs) as Hs'.
  destruct (admit_tokens now n s) as [[] s']; cbn [snd] in *; [|exact Hs'].
  specialize (IH s' Hs'). destruct (admit_prefix rest s'); exact IH.
Qed.

Lemma admit_prefix_le calls s :
  (fst (admit_prefix calls s) <= List.length calls)%nat.
Proof.
  revert s. induction calls as [|[now n] rest IH]; intros s; cbn [admit_prefix]; [cbn; lia|].
  destruct (admit_tokens now n s) as [[] s']; [|cbn; lia].
  specialize (IH s'). destruct (admit_prefix rest s'); cbn [fst List.length] in *; lia.
Qed.

End Client.

(** ** The code refines the ledger *)

Section Refinement.
Context (cfg : Settings).

Lemma abs_init now : Ledger.abs (Ledger.init now) = initial_usage now.
Proof. reflexivity. Qed.

Lemma abs_roll now s :
  Ledger.abs (Ledger.roll now s) = check_and_reset_counters now (Ledger.abs s).
Proof.
  unfold Ledger.roll, check_and_reset_counters. cbn [Ledger.abs last_reset].
  destruct (_ >? _); reflexivity.
Qed.

Lemma abs_record_tokens n s :
  Ledger.abs (Ledger.record (Ledger.Tokens n) s)
  = set_tokens_used (Ledger.abs s) (tokens_used (Ledger.abs s) + n).
Proof.
  unfold Ledger.abs, Ledger.record, set_tokens_used, Ledger.tokens_total,
    Ledger.requests_total;
    cbn [Ledger.entries Ledger.start last_reset tokens_used requests_used].
  rewrite !sumZ_app, !sumZ_cons, !sumZ_nil.
  cbn [Ledger.entry_tokens Ledger.entry_requests]. f_equal; lia.
Qed.

Lemma abs_record_request s :
  Ledger.abs (Ledger.record Ledger.Request s)
  = set_requests_used (Ledger.abs s) (requests_used (Ledger.abs s) + 1).
Proof.
  unfold Ledger.abs, Ledger.record, set_requests_used, Ledger.tokens_total,
    Ledger.requests_total;
    cbn [Ledger.entries Ledger.start last_reset tokens_used requests_used].
  rewrite !sumZ_app, !sumZ_cons, !sumZ_nil.
  cbn [Ledger.entry_tokens Ledger.entry_requests]. f_equal; lia.
Qed.

(** [check_token_rate_limit] run on the counters of a ledger answers as the
    ledger does and leaves the counters of the ledger's next state. *)
Lemma check_token_refines now n s :
  check_token_rate_limit cfg now n (Ledger.abs s)
  = (fst (Ledger.admit_tokens cfg now n s), Ledger.abs (snd (Ledger.admit_tokens cfg now n s))).
Proof.
  unfold check_token_rate_limit, Ledger.admit_tokens. rewrite <- abs_roll.
  set (s' := Ledger.roll now s). change (tokens_used (Ledger.abs s')) with (Ledger.tokens_total s').
  rewrite Z.gtb_ltb, Z.ltb_antisym.
  destruct (Ledger.tokens_total s' + n <=? TOKENS_PER_MINUTE cfg); cbn [negb fst snd];
    [now rewrite abs_record_tokens | reflexivity].
Qed.

(** The same for [track_request], on the success path and on the raising
    path alike. *)
Lemma track_request_refines now s :
  track_request cfg now (Ledger.abs s)
  = (fst (Ledger.admit_request cfg now s), Ledger.abs (snd (Ledger.admit_request cfg now s))).
Proof.
  unfold track_request, Ledger.admit_request; eff_simpl. rewrite <- abs_roll.
  set (s' := Ledger.roll now s).
  change (requests_used (Ledger.abs s')) with (Ledger.requests_total s').
  rewrite Z.geb_leb, Z.leb_antisym.
  destruct (Ledger.requests_total s' <? REQUESTS_PER_MINUTE cfg); cbn [negb fst snd];
    [now rewrite abs_record_request | reflexivity].
Qed.

Lemma apply_op_refines o s :
  apply_op cfg o (Ledger.abs s)
  = (fst (Ledger.apply cfg o s), Ledger.abs (snd (Ledger.apply cfg o s))).
Proof.
  destruct o as [now n|now|now now']; cbn [apply_op Ledger.apply].
  - rewrite check_token_refines. now destruct (Ledger.admit_tokens cfg now n s).
  - rewrite track_request_refines. now destruct (Ledger.admit_request cfg now s).
  - unfold Ledger.status, get_rate_limit_status. cbn [fst snd]. now rewrite abs_roll.
Qed.

(** C7. The throttle refines the ledger: any sequence of calls run on the
    counters of a ledger gives the outcomes the ledger gives and ends on the
    counters of the ledger's final state.  So at every moment [tokens_used]
    is the sum of the counts admitted since the window opened and
    [requests_used] the number of requests admitted since then. *)
Theorem throttle_refines_ledger os s :
  run_ops cfg os (Ledger.abs s)
  = (fst (Ledger.run cfg os s), Ledger.abs (snd (Ledger.run cfg os s))).
Proof.
  revert s. induction os as [|o os IH]; intros s; [reflexivity|].
  cbn [run_ops Ledger.run]. rewrite apply_op_refines.
  destruct (Ledger.apply cfg o s) as [out s']. cbn [fst snd]. rewrite IH.
  now destruct (Ledger.run cfg os s').
Qed.

End Refinement.
