(* ===== verification/Models.v ===== *)
(** * Models: the tables and the request schemas

    [app/models/user.py], [app/models/chat.py]: one record per mapped class,
    in a module of the class's name so that columns keep their names
    ([Thread.id], [Conversation.thread_id]).  [app/schemas/chat.py]: the
    create and update schemas the CRUD layer receives.

    The database is the record [Db] of three tables, each a list of rows in
    insertion order.  Identifiers are UUIDs, here integers; timestamps are
    clock ticks.  A nullable column is an [option].  The constraints the
    engine enforces (primary keys, [NOT NULL], foreign keys) are the
    predicates of [db_ok]; an operation that would break one raises
    [IntegrityError] instead. *)

From Stdlib Require Import ZArith List Lia String Bool.
From S2P Require Import Prelude.
From S2P Require Import Errors.
Import ListNotations.

Local Open Scope Z_scope.

Abbreviation UUID := Z (only parsing).

(** [str(uuid)], as it appears in messages. *)
Definition uuid_str (u : UUID) : string := str_of_Z u.

Module User.
Record t : Type := {
  id : UUID;
  email : string;
  username : string;
  hashed_password : string;
  created_at : Z;
  updated_at : option Z;
  is_active : bool;
  is_admin : bool
}.
End User.

Module Thread.
Record t : Type := {
  id : UUID;
  title : string;
  user_id : UUID;
  created_at : Z;
  updated_at : option Z;
  is_archived : option bool
}.

Definition set_updated_at (th : t) (now : Z) : t :=
  {| id := id th; title := title th; user_id := user_id th;
     created_at := created_at th; updated_at := Some now;
     is_archived := is_archived th |}.

Definition set_title (th : t) (s : string) : t :=
  {| id := id th; title := s; user_id := user_id th;
     created_at := created_at th; updated_at := updated_at th;
     is_archived := is_archived th |}.

Definition set_is_archived (th : t) (b : option bool) : t :=
  {| id := id th; title := title th; user_id := user_id th;
     created_at := created_at th; updated_at := updated_at th;
     is_archived := b |}.
End Thread.

Module Conversation.
Record t : Type := {
  id : UUID;
  thread_id : UUID;
  role : string;
  content : string;
  created_at : Z;
  model : option string;
  token_count : option Z
}.
End Conversation.

(** ** Schemas *)

Record ThreadCreate : Type := {
  tc_title : string
}.

(** A field of an update schema: left unset, or set (possibly to null).
    [model_dump(exclude_unset=True)] keeps the fields that were set. *)
Record ThreadUpdate : Type := {
  tu_title : option (option string);
  tu_is_archived : option (option bool)
}.

Record ConversationCreate : Type := {
  cc_thread_id : UUID;
  cc_role : string;
  cc_content : string;
  cc_model : option string;
  cc_token_count : option Z
}.

(** ** The database *)

Record Db : Type := {
  users : list User.t;
  threads : list Thread.t;
  conversations : list Conversation.t
}.

Definition empty_db : Db := {| users := []; threads := []; conversations := [] |}.

Definition set_threads (db : Db) (ts : list Thread.t) : Db :=
  {| users := users db; threads := ts; conversations := conversations db |}.

Definition set_conversations (db : Db) (cs : list Conversation.t) : Db :=
  {| users := users db; threads := threads db; conversations := cs |}.

Definition user_ids (db : Db) : list UUID := map User.id (users db).
Definition thread_ids (db : Db) : list UUID := map Thread.id (threads db).
Definition conversation_ids (db : Db) : list UUID := map Conversation.id (conversations db).

(** [id in column] *)
Definition mem (x : UUID) (l : list UUID) : bool := existsb (Z.eqb x) l.

(** What the engine raises on a violated constraint. *)
Definition IntegrityError (msg : string) : exn := OtherExn msg.

(** ** Well-formed databases *)

Record db_ok (db : Db) : Prop := {
  users_pk : NoDup (user_ids db);
  threads_pk : NoDup (thread_ids db);
  conversations_pk : NoDup (conversation_ids db);
  threads_fk : forall th, In th (threads db) -> In (Thread.user_id th) (user_ids db);
  conversations_fk :
    forall c, In c (conversations db) -> In (Conversation.thread_id c) (thread_ids db)
}.

Arguments users_pk {db} _.
Arguments threads_pk {db} _.
Arguments conversations_pk {db} _.
Arguments threads_fk {db} _ th _.
Arguments conversations_fk {db} _ c _.

(** The same, as a check that runs. *)
Fixpoint nodupb (l : list UUID) : bool :=
  match l with
  | [] => true
  | x :: xs => negb (mem x xs) && nodupb xs
  end.

Definition db_okb (db : Db) : bool :=
  nodupb (user_ids db) && nodupb (thread_ids db) && nodupb (conversation_ids db)
  && forallb (fun th => mem (Thread.user_id th) (user_ids db)) (threads db)
  && forallb (fun c => mem (Conversation.thread_id c) (thread_ids db)) (conversations db).

(** Rows of one thread, in table order. *)
Definition of_thread (thread_id : UUID) (c : Conversation.t) : bool :=
  Z.eqb (Conversation.thread_id c) thread_id.

Definition thread_rows (db : Db) (thread_id : UUID) : list Conversation.t :=
  filter (of_thread thread_id) (conversations db).

(** ** Properties *)

Lemma mem_In x l : mem x l = true <-> In x l.
Proof.
  unfold mem. rewrite existsb_exists. split.
  - intros (y & Hy & Heq). apply Z.eqb_eq in Heq. now subst.
  - intros H. exists x. split; [assumption | apply Z.eqb_refl].
Qed.

Lemma mem_false x l : mem x l = false <-> ~ In x l.
Proof.
  rewrite <- mem_In. destruct (mem x l); split; intros; congruence.
Qed.

Lemma nodupb_spec l : nodupb l = true <-> NoDup l.
Proof.
  induction l as [|x xs IH]; cbn.
  - split; [constructor | reflexivity].
  - rewrite andb_true_iff, negb_true_iff, mem_false, IH. split.
    + intros [? ?]. now constructor.
    + intros Hn. inv Hn. auto.
Qed.

Lemma db_okb_spec db : db_okb db = true <-> db_ok db.
Proof.
  unfold db_okb. rewrite !andb_true_iff, !nodupb_spec, !forallb_forall. split.
  - intros ((((Hu & Ht) & Hc) & Htf) & Hcf). constructor; try assumption.
    + intros th Hin. now apply mem_In, Htf.
    + intros c Hin. now apply mem_In, Hcf.
  - intros [Hu Ht Hc Htf Hcf]. repeat split; try assumption.
    + intros th Hin. now apply mem_In, Htf.
    + intros c Hin. now apply mem_In, Hcf.
Qed.

Lemma empty_db_ok : db_ok empty_db.
Proof. constructor; cbn; try constructor; intros ? []. Qed.

Lemma of_thread_true thread_id c :
  of_thread thread_id c = true <-> Conversation.thread_id c = thread_id.
Proof. unfold of_thread. apply Z.eqb_eq. Qed.

Lemma thread_rows_In db thread_id c :
  In c (thread_rows db thread_id) <->
  In c (conversations db) /\ Conversation.thread_id c = thread_id.
Proof. unfold thread_rows. now rewrite filter_In, of_thread_true. Qed.

Lemma thread_rows_app db cs thread_id :
  thread_rows (set_conversations db (conversations db ++ cs)) thread_id
  = thread_rows db thread_id ++ filter (of_thread thread_id) cs.
Proof. unfold thread_rows. cbn. apply filter_app. Qed.

Lemma thread_rows_set_threads db ts thread_id :
  thread_rows (set_threads db ts) thread_id = thread_rows db thread_id.
Proof. reflexivity. Qed.

#[export] Hint Rewrite thread_rows_set_threads thread_rows_app : gchat_rw.
#[export] Hint Resolve empty_db_ok : gchat.
