(* ===== verification/State.v ===== *)
(** * State: what a request acts on

    A request handler reads and writes two things: the throttle's
    module-level dict ([app/utils/rate_limiter.py], [usage_tracking]) and
    the database behind its session.  [World] is the pair; [on_usage] and
    [on_db] run a computation of one component on the pair. *)

From Stdlib Require Import ZArith List String.
From S2P Require Import Prelude.
From S2P Require Import Settings.
From S2P Require Import Errors.
From S2P Require Import RateLimiter.
From S2P Require Import Models.
Import ListNotations.

Local Open Scope Z_scope.

Record World : Type := {
  usage : UsageTracking;
  db : Db
}.

Definition set_usage (w : World) (u : UsageTracking) : World :=
  {| usage := u; db := db w |}.

Definition set_db (w : World) (d : Db) : World :=
  {| usage := usage w; db := d |}.

Definition on_usage {A} (m : Eff UsageTracking exn A) : Eff World exn A :=
  zoom usage set_usage m.

Definition on_db {A} (m : Eff Db exn A) : Eff World exn A :=
  zoom db set_db m.

(** Counters within their limits, tables within their constraints. *)
Definition world_ok (cfg : Settings) (w : World) : Prop :=
  usage_ok cfg (usage w) /\ db_ok (db w).

Definition world_okb (cfg : Settings) (w : World) : bool :=
  usage_okb cfg (usage w) && db_okb (db w).

(** The users table of a world, named so that it can be followed through
    a handler. *)
Definition users_are (us : list User.t) (w : World) : Prop := users (db w) = us.

(** ** Properties *)

Lemma world_okb_spec cfg w : world_okb cfg w = true <-> world_ok cfg w.
Proof.
  unfold world_okb, world_ok.
  now rewrite Bool.andb_true_iff, usage_okb_spec, db_okb_spec.
Qed.

Lemma set_usage_same w : set_usage w (usage w) = w.
Proof. now destruct w. Qed.

Lemma set_db_same w : set_db w (db w) = w.
Proof. now destruct w. Qed.

Section Lifts.
Context {A : Type}.

Lemma on_usage_db (m : Eff UsageTracking exn A) w : db (snd (on_usage m w)) = db w.
Proof. unfold on_usage, zoom. now destruct (m (usage w)). Qed.

Lemma on_db_usage (m : Eff Db exn A) w : usage (snd (on_db m w)) = usage w.
Proof. unfold on_db, zoom. now destruct (m (db w)). Qed.

Lemma on_usage_fst (m : Eff UsageTracking exn A) w : fst (on_usage m w) = fst (m (usage w)).
Proof. unfold on_usage, zoom. now destruct (m (usage w)). Qed.

Lemma on_db_fst (m : Eff Db exn A) w : fst (on_db m w) = fst (m (db w)).
Proof. unfold on_db, zoom. now destruct (m (db w)). Qed.

Lemma on_usage_ok cfg (m : Eff UsageTracking exn A) w :
  usage_ok cfg (snd (m (usage w))) -> world_ok cfg w -> world_ok cfg (snd (on_usage m w)).
Proof. unfold on_usage, zoom, world_ok. destruct (m (usage w)); cbn. tauto. Qed.

Lemma on_db_ok cfg (m : Eff Db exn A) w :
  db_ok (snd (m (db w))) -> world_ok cfg w -> world_ok cfg (snd (on_db m w)).
Proof. unfold on_db, zoom, world_ok. destruct (m (db w)); cbn. tauto. Qed.

Lemma on_usage_users us (m : Eff UsageTracking exn A) w :
  users_are us w -> users_are us (snd (on_usage m w)).
Proof. unfold users_are. now rewrite on_usage_db. Qed.

Lemma on_db_users us (m : Eff Db exn A) w :
  users (snd (m (db w))) = users (db w) -> users_are us w -> users_are us (snd (on_db m w)).
Proof. unfold on_db, zoom, users_are. destruct (m (db w)); cbn. congruence. Qed.

End Lifts.

#[export] Hint Rewrite set_usage_same set_db_same : gchat_rw.
