(* ===== verification/Paths.v ===== *)
(** * Paths: the path and string functions the file service calls

    [os.path.splitext], [os.path.join] (the POSIX flavour, separator [/]),
    [str.startswith] and [str.join], written after the library's
    definitions: [splitext] splits at the last dot of the last component
    unless that component is all leading dots up to it.  The scan over the
    leading dots is the library's [while] loop; it runs at most once per
    character between the separator and the dot, which is its fuel. *)

From Stdlib Require Import ZArith List Lia String Ascii Bool.
From S2P Require Import Prelude.
From S2P Require Import Errors.
Import ListNotations.

Local Open Scope string_scope.
Local Open Scope Z_scope.
Local Open Scope list_scope.

Definition sep : ascii := "/"%char.
Definition extsep : ascii := "."%char.

(** [p.rfind(c)]: the index of the last [c], or [-1]. *)
Fixpoint rfind_from (c : ascii) (l : list ascii) (i last : Z) : Z :=
  match l with
  | [] => last
  | a :: l' => rfind_from c l' (i + 1) (if Ascii.eqb a c then i else last)
  end.

Definition rfind (c : ascii) (l : list ascii) : Z := rfind_from c l 0 (-1).

(** [p[i:i+1] != extsep] *)
Definition not_dot_at (l : list ascii) (i : Z) : bool :=
  match nth_error l (Z.to_nat i) with
  | Some a => negb (Ascii.eqb a extsep)
  | None => true
  end.

(** The loop that skips the leading dots: [true] when it meets another
    character before [dotIndex]. *)
Fixpoint scan_leading_dots (l : list ascii) (filenameIndex : Z) (fuel : nat) : bool :=
  match fuel with
  | O => false
  | S fuel' =>
      if not_dot_at l filenameIndex then true
      else scan_leading_dots l (filenameIndex + 1) fuel'
  end.

Definition splitext (p : string) : string * string :=
  let l := list_ascii_of_string p in
  let sepIndex := rfind sep l in
  let dotIndex := rfind extsep l in
  if (dotIndex >? sepIndex)
     && scan_leading_dots l (sepIndex + 1) (Z.to_nat (dotIndex - (sepIndex + 1)))
  then (string_of_list_ascii (firstn (Z.to_nat dotIndex) l),
        string_of_list_ascii (skipn (Z.to_nat dotIndex) l))
  else (p, "").

(** [s.startswith(prefix)] *)
Definition startswith (prefix s : string) : bool := String.prefix prefix s.

(** [s.endswith(c)] for a one-character suffix. *)
Definition endswith_char (c : ascii) (s : string) : bool :=
  match rev (list_ascii_of_string s) with
  | a :: _ => Ascii.eqb a c
  | [] => false
  end.

(** [os.path.join(a, b)] *)
Definition path_join (a b : string) : string :=
  if startswith "/" b then b
  else if negb (py_truthy a) || endswith_char sep a then (a ++ b)%string
  else (a ++ "/" ++ b)%string.

(** [sep.join(items)] *)
Fixpoint str_join (sep : string) (items : list string) : string :=
  match items with
  | [] => ""
  | [x] => x
  | x :: rest => (x ++ sep ++ str_join sep rest)%string
  end.

(** [f"{num / den:.1f}"] for a positive [den]: the quotient rounded to one
    decimal, ties to even, on the exact quotient (the float's own rounding
    error is not modelled). *)
Definition round_half_even (num den : Z) : Z :=
  let q := num / den in
  let r := num mod den in
  if (2 * r >? den) || ((2 * r =? den) && Z.odd q) then q + 1 else q.

Definition format_1f (num den : Z) : string :=
  let tenths := round_half_even (10 * Z.abs num) den in
  let sign := if num <? 0 then "-" else "" in
  (sign ++ str_of_Z (tenths / 10) ++ "." ++ str_of_Z (tenths mod 10))%string.

(** ** Properties *)

Lemma rfind_from_bounds c l i last :
  -1 <= last < i -> -1 <= rfind_from c l i last < i + Z.of_nat (List.length l).
Proof.
  revert i last. induction l as [|a l IH]; intros i last H; cbn [rfind_from List.length].
  - lia.
  - specialize (IH (i + 1) (if Ascii.eqb a c then i else last)).
    destruct (Ascii.eqb a c); lia.
Qed.

Lemma rfind_bounds c l : -1 <= rfind c l < Z.of_nat (List.length l).
Proof. unfold rfind. pose proof (rfind_from_bounds c l 0 (-1)). lia. Qed.

(** The last occurrence: [c] is there, and nowhere after. *)
Lemma rfind_from_spec c l i last :
  0 <= i ->
  let r := rfind_from c l i last in
  (r = last /\ ~ In c l) \/
  (i <= r /\ nth_error l (Z.to_nat (r - i)) = Some c /\ ~ In c (skipn (S (Z.to_nat (r - i))) l)).
Proof.
  revert i last. induction l as [|a l IH]; intros i last Hi; cbn [rfind_from].
  - left. split; [reflexivity | intros []].
  - destruct (IH (i + 1) (if Ascii.eqb a c then i else last)) as [[Hr Hn]|(Hle & Hnth & Hafter)];
      [lia| |].
    + destruct (Ascii.eqb_spec a c) as [->|Hne].
      * right. cbv zeta. rewrite Hr. replace (i - i) with 0 by lia. cbn. auto using Z.le_refl.
      * left. cbv zeta. split; [exact Hr | intros [?|?]; auto].
    + right. cbv zeta. split; [lia|].
      replace (Z.to_nat (rfind_from c l (i + 1) (if Ascii.eqb a c then i else last) - i))
        with (S (Z.to_nat (rfind_from c l (i + 1) (if Ascii.eqb a c then i else last) - (i + 1))))
        by lia.
      cbn [nth_error skipn]. auto.
Qed.

Lemma rfind_spec c l :
  (rfind c l = -1 /\ ~ In c l) \/
  (0 <= rfind c l /\ nth_error l (Z.to_nat (rfind c l)) = Some c /\
   ~ In c (skipn (S (Z.to_nat (rfind c l))) l)).
Proof.
  unfold rfind. destruct (rfind_from_spec c l 0 (-1)) as [H|(H1 & H2 & H3)]; [lia | auto |].
  right. rewrite Z.sub_0_r in *. auto.
Qed.

Lemma string_of_list_ascii_app l1 l2 :
  string_of_list_ascii (l1 ++ l2)
  = (string_of_list_ascii l1 ++ string_of_list_ascii l2)%string.
Proof. induction l1 as [|a l1 IH]; cbn; [reflexivity | now rewrite IH]. Qed.

Lemma skipn_at {A} (l : list A) n a :
  nth_error l n = Some a -> exists l2, skipn n l = a :: l2 /\ skipn (S n) l = l2.
Proof.
  revert n. induction l as [|x l IH]; intros [|n]; cbn; try discriminate.
  - intros [= ->]. eauto.
  - apply IH.
Qed.

Lemma In_skipn_le {A} (l : list A) m n x : (m <= n)%nat -> In x (skipn n l) -> In x (skipn m l).
Proof.
  intros Hle. replace n with ((n - m) + m)%nat by lia. rewrite <- skipn_skipn. apply In_skipn.
Qed.

Section Splitext.
Context (p : string).

Abbreviation root := (fst (splitext p)).
Abbreviation ext := (snd (splitext p)).

(** The two parts put together are the path. *)
Lemma splitext_concat : (root ++ ext)%string = p.
Proof.
  unfold splitext. destruct (_ && _); cbn [fst snd].
  - now rewrite <- string_of_list_ascii_app, firstn_skipn, string_of_list_ascii_of_string.
  - apply append_nil_r.
Qed.

(** The extension is empty or begins with the only dot it has, and holds
    no separator. *)
Lemma splitext_ext_shape :
  ext = "" \/
  exists rest, ext = String extsep (string_of_list_ascii rest) /\
               ~ In extsep rest /\ ~ In sep rest.
Proof.
  unfold splitext. destruct (Z.gtb_spec (rfind extsep (list_ascii_of_string p))
                              (rfind sep (list_ascii_of_string p))) as [Hgt|Hle];
    cbn [andb]; [|now left].
  destruct (scan_leading_dots _ _ _); cbn [snd]; [|now left]. right.
  set (l := list_ascii_of_string p) in *.
  destruct (rfind_spec extsep l) as [[Hd _]|(Hd & Hnth & Hafter)];
    [pose proof (rfind_bounds sep l); lia|].
  destruct (skipn_at _ _ _ Hnth) as (l2 & Hskip & Htail). rewrite Hskip.
  exists l2. rewrite <- Htail. split; [reflexivity|]. split; [exact Hafter|].
  destruct (rfind_spec sep l) as [[_ Hn]|(Hs & _ & Hsafter)].
  - intros Hin. apply Hn. eapply In_skipn, Hin.
  - intros Hin. apply Hsafter. eapply In_skipn_le; [|exact Hin]. lia.
Qed.

End Splitext.

Lemma list_ascii_of_string_app s1 s2 :
  list_ascii_of_string (s1 ++ s2)%string = list_ascii_of_string s1 ++ list_ascii_of_string s2.
Proof. induction s1 as [|a s1 IH]; cbn; [reflexivity | now rewrite IH]. Qed.

(** The extension holds no separator, whatever the path. *)
Lemma splitext_ext_no_sep p : ~ In sep (list_ascii_of_string (snd (splitext p))).
Proof.
  destruct (splitext_ext_shape p) as [->|(rest & -> & _ & Hs)]; [intros []|].
  cbn [list_ascii_of_string]. rewrite list_ascii_of_string_of_list_ascii.
  intros [Hd|Hin]; [discriminate Hd | exact (Hs Hin)].
Qed.

Lemma startswith_no_sep s : ~ In sep (list_ascii_of_string s) -> startswith "/" s = false.
Proof.
  destruct s as [|a s]; [reflexivity|]. intros Hn. unfold startswith.
  change (String.prefix "/" (String a s))
    with (if ascii_dec "/" a then String.prefix "" s else false).
  destruct (ascii_dec "/" a) as [<-|]; [exfalso; apply Hn; now left | reflexivity].
Qed.

Lemma str_join_single s x : str_join s [x] = x.
Proof. reflexivity. Qed.

Lemma path_join_relative a b :
  startswith "/" b = false -> py_truthy a = true -> endswith_char sep a = false ->
  path_join a b = (a ++ "/" ++ b)%string.
Proof. unfold path_join. now intros -> -> ->. Qed.

Example format_default_limit : format_1f (10 * 1024 * 1024) (1024 * 1024) = "10.0".
Proof. reflexivity. Qed.

Example format_tie_to_even : format_1f 1 4 = "0.2" /\ format_1f 3 4 = "0.8".
Proof. split; reflexivity. Qed.

Example splitext_png : splitext "photo.PNG" = ("photo", ".PNG").
Proof. reflexivity. Qed.

Example splitext_hidden : splitext ".bashrc" = (".bashrc", "").
Proof. reflexivity. Qed.

Example splitext_dir_dot : splitext "a.b/c" = ("a.b/c", "").
Proof. reflexivity. Qed.

Example splitext_two : splitext "archive.tar.gz" = ("archive.tar", ".gz").
Proof. reflexivity. Qed.

Example splitext_dots : splitext "...txt" = ("...txt", "").
Proof. reflexivity. Qed.

(** ** Splitting and joining *)

(** [sep.join(s.split(sep)) == s] *)
Lemma str_join_split c s : str_join (String c "") (split_char c s) = s.
Proof.
  induction s as [|a s IH]; [reflexivity|]. cbn [split_char].
  destruct (split_char_cons c s) as (first & rest & Hs). rewrite Hs in *.
  destruct (Ascii.eqb_spec a c) as [->|Hne].
  - change (str_join (String c "") ("" :: first :: rest))
      with (String c (str_join (String c "") (first :: rest))). now rewrite IH.
  - rewrite <- IH. now destruct rest.
Qed.

(** Two strings with the same pieces are the same string. *)
Lemma split_char_inj c s1 s2 : split_char c s1 = split_char c s2 -> s1 = s2.
Proof. intros Hs. now rewrite <- (str_join_split c s1), Hs, str_join_split. Qed.
