(* ===== verification/Http.v ===== *)
(** * Http: what becomes of a handler's outcome

    [handle_rate_limit] of [app/utils/rate_limiter.py], the one exception
    handler [app/main.py] registers, and the status the web framework
    answers with: the handler's own for a returned value, the exception's
    for an [HTTPException], the registered handler's for the limiter's
    exception, and 500 for anything else that escapes. *)

From Stdlib Require Import ZArith List String.
From S2P Require Import Prelude.
From S2P Require Import Errors.
Import ListNotations.

Local Open Scope string_scope.
Local Open Scope Z_scope.

Record JSONResponse : Type := {
  resp_status : Z;
  resp_content : list (string * string)
}.

(** Re-raises what is not the limiter's exception. *)
Definition handle_rate_limit (exc : exn) : result exn JSONResponse :=
  if negb (is_limiter exc) then Err exc
  else Ok {| resp_status := 429;
             resp_content := [("error", "Rate limit exceeded"); ("detail", exn_str exc)] |}.

(** The status line of the response to a request whose handler ended in
    [r]. *)
Definition respond {A} (r : result exn A) : Z :=
  match r with
  | Ok _ => 200
  | Err (HttpExn h) => http_status h
  | Err (LimiterExn detail) =>
      match handle_rate_limit (LimiterExn detail) with
      | Ok j => resp_status j
      | Err _ => 500
      end
  | Err _ => 500
  end.

(** ** Properties *)

Lemma handle_rate_limit_limiter detail :
  handle_rate_limit (LimiterExn detail)
  = Ok {| resp_status := 429;
          resp_content := [("error", "Rate limit exceeded"); ("detail", "429: " ++ detail)%string] |}.
Proof. reflexivity. Qed.

Lemma handle_rate_limit_other exc :
  is_limiter exc = false -> handle_rate_limit exc = Err exc.
Proof. unfold handle_rate_limit. now intros ->. Qed.

Lemma respond_http_error A status detail :
  respond (Err (A:=A) (http_error status detail)) = status.
Proof. reflexivity. Qed.

(** The application's own rate-limit error has no registered handler. *)
Lemma respond_rate_limit_error A limit_type limit :
  respond (Err (A:=A) (ApiExn (RateLimitError limit_type limit))) = 500.
Proof. reflexivity. Qed.

Lemma respond_ok A (a : A) : respond (Ok (E:=exn) a) = 200.
Proof. reflexivity. Qed.

#[export] Hint Rewrite respond_http_error respond_rate_limit_error respond_ok : gchat_rw.
