(* ===== verification/Router.v ===== *)
(** * Router: the path operations of the application and how a request finds one

    [app/main.py] builds the application from six routers: each route
    module declares its path operations with [@router.get(...)] and the
    like, [api_router] includes them under [/api] (the thread routes under
    [/api/threads], the authentication routes under [/api/auth]), and the
    application adds [/] and [/health].  This file holds that table, in the
    order the decorators and the [include_router] calls give it, and the
    lookup the framework runs on it: the first route whose path and method
    both fit handles the request; a route whose path fits and whose method
    does not answers 405; a path that fits once its trailing slash is added
    or removed is redirected; anything else is 404.

    A path pattern is compared piece by piece, the pieces being what lies
    between the slashes: a piece [{name}] takes any piece that is not
    empty, any other piece takes itself.  Every pattern of the application
    has this shape. *)

From Stdlib Require Import ZArith List Lia String Bool Ascii.
From S2P Require Import Prelude.
From S2P Require Import Paths.
Import ListNotations.

Local Open Scope string_scope.
Local Open Scope list_scope.

(** ** Methods and patterns *)

Inductive Method : Type := GET | POST | PUT | DELETE | PATCH | HEAD | OPTIONS.

Definition method_eqb (a b : Method) : bool :=
  match a, b with
  | GET, GET | POST, POST | PUT, PUT | DELETE, DELETE
  | PATCH, PATCH | HEAD, HEAD | OPTIONS, OPTIONS => true
  | _, _ => false
  end.

(** One piece of a compiled path: literal text, or a parameter. *)
Inductive Segment : Type :=
| Lit (text : string)
| Param (name : string).

(** [path.split("/")] *)
Definition split_path (path : string) : list string := split_char "/" path.

(** The name between the braces of a piece [{name}]. *)
Definition param_name (piece : string) : option string :=
  match piece with
  | String "{" rest =>
      if endswith_char "}" rest
      then Some (String.substring 0 (String.length rest - 1) rest)
      else None
  | _ => None
  end.

Definition segment_of (piece : string) : Segment :=
  match param_name piece with
  | Some name => Param name
  | None => Lit piece
  end.

(** [compile_path(path)] *)
Definition compile_path (path : string) : list Segment := map segment_of (split_path path).

(** The match of a compiled path against the pieces of a request path: the
    parameters it binds, when every piece fits and none is left over. *)
Fixpoint match_segments (pattern : list Segment) (pieces : list string)
  : option (list (string * string)) :=
  match pattern, pieces with
  | [], [] => Some []
  | Lit text :: pattern', piece :: pieces' =>
      if String.eqb text piece then match_segments pattern' pieces' else None
  | Param name :: pattern', piece :: pieces' =>
      if py_truthy piece
      then option_map (cons (name, piece)) (match_segments pattern' pieces')
      else None
  | _, _ => None
  end.

(** ** Routes *)

Section Routes.
Context {Endpoint : Type}.

(** What [@router.get(path)] and the like register. *)
Record APIRoute : Type := {
  route_path : string;
  route_methods : list Method;
  endpoint : Endpoint
}.

Definition APIRouter : Type := list APIRoute.

(** [self.include_router(router, prefix=prefix)] of a router whose own
    prefix is [own]: every route of [router] under [own + prefix]. *)
Definition include_router (own prefix : string) (router : APIRouter) : APIRouter :=
  map (fun r => {| route_path := own ++ prefix ++ route_path r;
                   route_methods := route_methods r;
                   endpoint := endpoint r |}) router.

(** [starlette.routing.Match] *)
Inductive Match : Type := NONE | PARTIAL | FULL.

(** [Route.matches]: the path decides between [NONE] and a match, the
    method between [PARTIAL] and [FULL]. *)
Definition matches (r : APIRoute) (method : Method) (path : string)
  : Match * list (string * string) :=
  match match_segments (compile_path (route_path r)) (split_path path) with
  | None => (NONE, [])
  | Some path_params =>
      if existsb (method_eqb method) (route_methods r)
      then (FULL, path_params)
      else (PARTIAL, path_params)
  end.

Definition is_full (r : APIRoute) (method : Method) (path : string) : bool :=
  match fst (matches r method path) with FULL => true | _ => false end.

Definition is_match (r : APIRoute) (method : Method) (path : string) : bool :=
  match fst (matches r method path) with NONE => false | _ => true end.

(** Where a request goes. *)
Inductive Routed : Type :=
| Found (r : APIRoute) (path_params : list (string * string))
| MethodNotAllowed
| Redirect (url : string)
| NotFound.

(** The path [redirect_slashes] tries: without its trailing slashes, or
    with one added. *)
Definition redirect_path (path : string) : string :=
  if endswith_char "/" path then rstrip_char "/" path else path ++ "/".

(** [Router.app]: the first full match; else the first partial one, which
    answers 405; else the redirect; else 404. *)
Definition route_for (routes : APIRouter) (method : Method) (path : string) : Routed :=
  match find (fun r => is_full r method path) routes with
  | Some r => Found r (snd (matches r method path))
  | None =>
      match find (fun r => is_match r method path) routes with
      | Some _ => MethodNotAllowed
      | None =>
          if negb (String.eqb path "/")
             && existsb (fun r => is_match r method (redirect_path path)) routes
          then Redirect (redirect_path path)
          else NotFound
      end
  end.

(** Two compiled paths that some request path fits both. *)
Fixpoint overlap (p q : list Segment) : bool :=
  match p, q with
  | [], [] => true
  | Lit a :: p', Lit b :: q' => String.eqb a b && overlap p' q'
  | Lit a :: p', Param _ :: q' | Param _ :: p', Lit a :: q' => py_truthy a && overlap p' q'
  | Param _ :: p', Param _ :: q' => overlap p' q'
  | _, _ => false
  end.

Definition clashes (r r' : APIRoute) : bool :=
  existsb (fun m => existsb (method_eqb m) (route_methods r)) (route_methods r')
  && overlap (compile_path (route_path r')) (compile_path (route_path r)).

(** The pairs of routes of a table of which the first is declared before
    the second and can take a request the second would take. *)
Fixpoint shadowed (routes : APIRouter) : list (APIRoute * APIRoute) :=
  match routes with
  | [] => []
  | r' :: rest => map (pair r') (filter (fun r => clashes r r') rest) ++ shadowed rest
  end.

End Routes.

Arguments APIRoute : clear implicits.
Arguments APIRouter : clear implicits.
Arguments Routed : clear implicits.

(** ** The table of the application *)

Module Endpoint.

(** The path operation functions, by their names in the route modules, and
    the four documentation routes the framework registers. *)
Inductive t : Type :=
| openapi | swagger_ui_html | swagger_ui_redirect | redoc_html
| chat_with_thread
| upload_file | get_files | get_file_by_id | remove_file
| get_models
| get_rate_limits
| create_new_thread | list_all_threads | get_thread_previews | get_thread_by_id
| update_thread_by_id | delete_thread_by_id | get_messages_for_thread | clear_thread_messages
| register_user | login_for_access_token | read_users_me
| root | health_check.

End Endpoint.

Definition api_route (method : Method) (path : string) (e : Endpoint.t) : APIRoute Endpoint.t :=
  {| route_path := path; route_methods := [method]; endpoint := e |}.

(** [FastAPI(...)]: the schema and the two documentation pages, as plain
    routes, which answer [HEAD] as well. *)
Definition docs_routes : APIRouter Endpoint.t :=
  map (fun pe => {| route_path := fst pe; route_methods := [GET; HEAD]; endpoint := snd pe |})
    [ ("/openapi.json", Endpoint.openapi);
      ("/docs", Endpoint.swagger_ui_html);
      ("/docs/oauth2-redirect", Endpoint.swagger_ui_redirect);
      ("/redoc", Endpoint.redoc_html) ].

Definition chat_router : APIRouter Endpoint.t :=
  [ api_route POST "/chat/{thread_id}" Endpoint.chat_with_thread ].

Definition files_router : APIRouter Endpoint.t :=
  [ api_route POST "/upload" Endpoint.upload_file;
    api_route GET "/files" Endpoint.get_files;
    api_route GET "/files/{file_id}" Endpoint.get_file_by_id;
    api_route DELETE "/files/{file_id}" Endpoint.remove_file ].

Definition models_router : APIRouter Endpoint.t :=
  [ api_route GET "/models" Endpoint.get_models ].

Definition rate_limits_router : APIRouter Endpoint.t :=
  [ api_route GET "/rate-limits" Endpoint.get_rate_limits ].

Definition threads_router : APIRouter Endpoint.t :=
  [ api_route POST "" Endpoint.create_new_thread;
    api_route GET "" Endpoint.list_all_threads;
    api_route GET "/previews" Endpoint.get_thread_previews;
    api_route GET "/{thread_id}" Endpoint.get_thread_by_id;
    api_route PUT "/{thread_id}" Endpoint.update_thread_by_id;
    api_route DELETE "/{thread_id}" Endpoint.delete_thread_by_id;
    api_route GET "/{thread_id}/messages" Endpoint.get_messages_for_thread;
    api_route DELETE "/{thread_id}/messages" Endpoint.clear_thread_messages ].

Definition auth_router : APIRouter Endpoint.t :=
  [ api_route POST "/register" Endpoint.register_user;
    api_route POST "/token" Endpoint.login_for_access_token;
    api_route GET "/me" Endpoint.read_users_me ].

(** [api_router = APIRouter(prefix="/api")] and its six [include_router]
    calls. *)
Definition api_router : APIRouter Endpoint.t :=
  include_router "/api" "" chat_router
  ++ include_router "/api" "" files_router
  ++ include_router "/api" "" models_router
  ++ include_router "/api" "" rate_limits_router
  ++ include_router "/api" "/threads" threads_router
  ++ include_router "/api" "/auth" auth_router.

(** The routes of [app], in the order they are registered. *)
Definition app_routes : APIRouter Endpoint.t :=
  docs_routes
  ++ include_router "" "" api_router
  ++ [ api_route GET "/" Endpoint.root;
       api_route GET "/health" Endpoint.health_check ].

(** The routes [app/api/__init__.py] would give: the same but for the
    prefix of the rate-limit router. *)
Definition package_api_router : APIRouter Endpoint.t :=
  include_router "/api" "" chat_router
  ++ include_router "/api" "" files_router
  ++ include_router "/api" "" models_router
  ++ include_router "/api" "/rate-limits" rate_limits_router
  ++ include_router "/api" "/threads" threads_router
  ++ include_router "/api" "/auth" auth_router.

(** The paths of a table. *)
Definition paths_of {E} (routes : APIRouter E) : list string := map route_path routes.

(** ** Matching *)

Lemma method_eqb_eq a b : method_eqb a b = true <-> a = b.
Proof. destruct a, b; cbn; split; congruence. Qed.

Lemma existsb_method m l : existsb (method_eqb m) l = true <-> In m l.
Proof.
  rewrite existsb_exists. split.
  - intros (x & Hin & Heq). apply method_eqb_eq in Heq. now subst.
  - intros Hin. exists m. split; [assumption | now apply method_eqb_eq].
Qed.

(** A pattern without parameters takes its own pieces and no others. *)
Lemma match_literals texts pieces path_params :
  match_segments (map Lit texts) pieces = Some path_params -> pieces = texts.
Proof.
  revert pieces. induction texts as [|text texts IH]; intros [|piece pieces];
    cbn [map match_segments]; try discriminate; [reflexivity|].
  destruct (String.eqb_spec text piece) as [->|]; [|discriminate].
  intros Hm. now rewrite (IH _ Hm).
Qed.

(** Two patterns the same pieces fit overlap. *)
Lemma match_overlap p q pieces a b :
  match_segments p pieces = Some a -> match_segments q pieces = Some b -> overlap p q = true.
Proof.
  revert q pieces a b.
  induction p as [|[text|name] p IH]; intros [|[text'|name'] q] [|piece pieces] a b;
    cbn [match_segments overlap]; try discriminate; try reflexivity;
    repeat match goal with
      | |- context [String.eqb ?x piece] => destruct (String.eqb_spec x piece) as [->|]
      | |- context [py_truthy piece] => destruct (py_truthy piece) eqn:?
      end; try discriminate;
    rewrite ?String.eqb_refl; cbn [andb];
    repeat match goal with
      | |- context [option_map _ ?m] => destruct m eqn:?; cbn [option_map]
      end; try discriminate; intros; eapply IH; eassumption.
Qed.

Section Lookup.
Context {Endpoint : Type} (method : Method) (path : string).

Abbreviation Route := (APIRoute Endpoint).

Lemma is_full_iff (r : Route) :
  is_full r method path = true <->
  In method (route_methods r) /\
  exists path_params,
    match_segments (compile_path (route_path r)) (split_path path) = Some path_params.
Proof.
  unfold is_full, matches. rewrite <- existsb_method.
  destruct (match_segments _ _) as [ps|]; [|cbn; split; [discriminate | intros (_ & ? & [=])]].
  destruct (existsb _ _); cbn; split; try discriminate; eauto. now intros [[=] _].
Qed.

Lemma is_match_iff (r : Route) :
  is_match r method path = true <->
  exists path_params,
    match_segments (compile_path (route_path r)) (split_path path) = Some path_params.
Proof.
  unfold is_match, matches. destruct (match_segments _ _) as [ps|];
    [destruct (existsb _ _); cbn; split; eauto | cbn; split; [discriminate | intros (? & [=])]].
Qed.

Lemma is_full_match (r : Route) : is_full r method path = true -> is_match r method path = true.
Proof. rewrite is_full_iff, is_match_iff. tauto. Qed.

Lemma matches_params (r : Route) path_params :
  match_segments (compile_path (route_path r)) (split_path path) = Some path_params ->
  snd (matches r method path) = path_params.
Proof. unfold matches. intros ->. now destruct (existsb _ _). Qed.

(** Two routes that take the same request clash. *)
Lemma full_clash (r r' : Route) :
  is_full r method path = true -> is_full r' method path = true -> clashes r r' = true.
Proof.
  rewrite !is_full_iff. intros (Hm & ps & Hp) (Hm' & ps' & Hp'). unfold clashes.
  apply andb_true_iff. split; [|eapply match_overlap; eassumption].
  apply existsb_exists. exists method. now rewrite existsb_method.
Qed.

(** The route that takes a request a declared route fits is that route, or
    one the table's audit lists as shadowing it. *)
Lemma find_full_shadowed (routes : list Route) r :
  In r routes -> is_full r method path = true ->
  exists r', find (fun r => is_full r method path) routes = Some r' /\
             (r' = r \/ In (r', r) (shadowed routes)).
Proof.
  intros Hin Hfull. induction routes as [|r0 rest IH]; [destruct Hin|].
  cbn [find shadowed]. destruct (is_full r0 method path) eqn:H0.
  - exists r0. split; [reflexivity|]. destruct Hin as [->|Hin]; [now left|right].
    apply in_or_app; left. apply in_map, filter_In. split; [assumption | now apply full_clash].
  - destruct Hin as [->|Hin]; [congruence|]. destruct (IH Hin) as (r' & Hf & Hr').
    exists r'. split; [assumption|]. destruct Hr'; [now left | right; apply in_or_app; now right].
Qed.

End Lookup.

(** ** The lookup *)

Section RouteFor.
Context {Endpoint : Type} (routes : APIRouter Endpoint) (method : Method) (path : string).

Abbreviation full := (fun r : APIRoute Endpoint => is_full r method path).
Abbreviation fits := (fun r : APIRoute Endpoint => is_match r method path).

Lemma route_for_found r :
  find full routes = Some r -> route_for routes method path = Found r (snd (matches r method path)).
Proof. unfold route_for. now intros ->. Qed.

Lemma route_for_unmatched :
  find full routes = None ->
  route_for routes method path
  = match find fits routes with
    | Some _ => MethodNotAllowed
    | None =>
        if negb (String.eqb path "/")
           && existsb (fun r => is_match r method (redirect_path path)) routes
        then Redirect (redirect_path path)
        else NotFound
    end.
Proof. unfold route_for. now intros ->. Qed.

(** The route a request is given to is a declared one, declares the
    request's method, and its path pattern takes the request's path with
    the parameters handed to the handler. *)
Theorem route_for_sound r path_params :
  route_for routes method path = Found r path_params ->
  In r routes /\ In method (route_methods r) /\
  match_segments (compile_path (route_path r)) (split_path path) = Some path_params.
Proof.
  unfold route_for. destruct (find full routes) as [r0|] eqn:Hf.
  - intros [= <- <-]. apply find_some in Hf as [Hin Hfull].
    apply is_full_iff in Hfull as (Hm & ps & Hp). now rewrite (matches_params _ _ _ _ Hp).
  - destruct (find fits routes); [discriminate|]. now destruct (_ && _).
Qed.

(** Routes are tried in the order they were declared: a route takes
    the request when it fits and no route declared before it does. *)
Theorem route_for_first before r after :
  routes = before ++ r :: after ->
  (forall r', In r' before -> is_full r' method path = false) ->
  is_full r method path = true ->
  route_for routes method path = Found r (snd (matches r method path)).
Proof.
  intros Hr Hbefore Hfull. apply route_for_found. rewrite Hr. clear Hr.
  induction before as [|r0 before IH]; cbn [app find]; [now rewrite Hfull|].
  rewrite (Hbefore r0) by now left. apply IH. intros r' Hin. apply Hbefore. now right.
Qed.

(** The answer is 405 exactly when some route's path takes the
    request's path and no such route declares its method. *)
Theorem method_not_allowed_iff :
  route_for routes method path = MethodNotAllowed <->
  (exists r, In r routes /\ is_match r method path = true) /\
  (forall r, In r routes -> is_full r method path = false).
Proof.
  unfold route_for. destruct (find full routes) as [r0|] eqn:Hf.
  - split; [discriminate|]. intros (_ & Hnone). apply find_some in Hf as [Hin Hfull].
    rewrite (Hnone _ Hin) in Hfull. discriminate.
  - pose proof (find_none _ _ Hf) as Hnone. destruct (find fits routes) as [r1|] eqn:Hp.
    + apply find_some in Hp. split; eauto.
    + pose proof (find_none _ _ Hp) as Hno. split; [now destruct (_ && _)|].
      intros ((r & Hin & Hm) & _). rewrite (Hno _ Hin) in Hm. discriminate.
Qed.

(** The answer is 404 only when no declared path takes the request's
    path, nor the path with its trailing slash added or removed. *)
Theorem not_found_unmatched :
  route_for routes method path = NotFound ->
  forall r, In r routes ->
    is_match r method path = false /\
    (path <> "/" -> is_match r method (redirect_path path) = false).
Proof.
  unfold route_for. destruct (find full routes); [discriminate|].
  destruct (find fits routes) eqn:Hp; [discriminate|].
  destruct (String.eqb_spec path "/") as [->|Hne]; cbn [negb andb].
  - intros _ r Hin. split; [exact (find_none _ _ Hp r Hin) | congruence].
  - destruct (existsb _ routes) eqn:He; [discriminate|]. intros _ r Hin.
    split; [exact (find_none _ _ Hp r Hin)|]. intros _.
    destruct (is_match r method (redirect_path path)) eqn:Hm; [|reflexivity].
    assert (existsb (fun r => is_match r method (redirect_path path)) routes = true)
      by (apply existsb_exists; eauto). congruence.
Qed.

End RouteFor.

(** ** The application's table *)

Definition previews_route : APIRoute Endpoint.t :=
  api_route GET "/api/threads/previews" Endpoint.get_thread_previews.

Definition thread_route : APIRoute Endpoint.t :=
  api_route GET "/api/threads/{thread_id}" Endpoint.get_thread_by_id.

(** The audit of the table: one pair. *)
Lemma app_routes_shadowed : shadowed app_routes = [ (previews_route, thread_route) ].
Proof. vm_compute. reflexivity. Qed.

Lemma previews_path m path :
  is_full previews_route m path = true -> path = "/api/threads/previews".
Proof.
  rewrite is_full_iff. intros (_ & ps & Hp).
  change (compile_path (route_path previews_route))
    with (map Lit (split_path "/api/threads/previews")) in Hp.
  apply match_literals in Hp. now apply (split_char_inj "/").
Qed.

(** C20. Every path operation of the application can be reached: a request
    that fits a declared route is given to that route, with one
    exception, [GET /api/threads/previews], which fits the route of a
    single thread too and is given to the previews route declared before
    it. *)
Theorem declared_route_reached r method path :
  In r app_routes -> is_full r method path = true ->
  exists r',
    route_for app_routes method path = Found r' (snd (matches r' method path)) /\
    (r' = r \/
     r' = previews_route /\ r = thread_route /\ path = "/api/threads/previews").
Proof.
  intros Hin Hfull.
  destruct (find_full_shadowed method path app_routes r Hin Hfull) as (r' & Hfind & Hr').
  exists r'. split; [now apply route_for_found|].
  destruct Hr' as [->|Hs]; [now left|right].
  rewrite app_routes_shadowed in Hs. destruct Hs as [[= <- <-]|[]].
  apply find_some in Hfind as [_ Hp]. repeat split. exact (previews_path _ _ Hp).
Qed.

Lemma declared_route_reached_witness :
  exists r',
    route_for app_routes DELETE "/api/files/abc"
    = Found r' (snd (matches r' DELETE "/api/files/abc")) /\
    (r' = api_route DELETE "/api/files/{file_id}" Endpoint.remove_file \/
     r' = previews_route /\
     api_route DELETE "/api/files/{file_id}" Endpoint.remove_file = thread_route /\
     "/api/files/abc" = "/api/threads/previews").
Proof.
  apply (declared_route_reached
           (api_route DELETE "/api/files/{file_id}" Endpoint.remove_file) DELETE "/api/files/abc");
    [vm_compute; tauto | reflexivity].
Defined.

Lemma route_for_sound_witness :
  In thread_route app_routes /\ In GET (route_methods thread_route) /\
  match_segments (compile_path (route_path thread_route)) (split_path "/api/threads/42")
  = Some [("thread_id", "42")].
Proof.
  apply (route_for_sound app_routes GET "/api/threads/42" thread_route [("thread_id", "42")]).
  reflexivity.
Defined.

Lemma route_for_first_witness :
  route_for app_routes GET "/api/threads/previews"
  = Found previews_route (snd (matches previews_route GET "/api/threads/previews")).
Proof.
  apply (route_for_first app_routes GET "/api/threads/previews"
           (firstn 13 app_routes) previews_route (skipn 14 app_routes));
    [reflexivity | | reflexivity].
  intros r' Hin. vm_compute in Hin. intuition (subst; reflexivity).
Defined.

Lemma method_not_allowed_iff_witness :
  route_for app_routes HEAD "/health" = MethodNotAllowed.
Proof.
  apply (method_not_allowed_iff app_routes HEAD "/health"). split.
  - exists (api_route GET "/health" Endpoint.health_check). split; [vm_compute; tauto | reflexivity].
  - intros r Hin. vm_compute in Hin. intuition (subst; reflexivity).
Defined.

Lemma not_found_unmatched_witness :
  forall r, In r app_routes ->
    is_match r GET "/api/rate-limits/rate-limits" = false /\
    ("/api/rate-limits/rate-limits" <> "/" ->
     is_match r GET (redirect_path "/api/rate-limits/rate-limits") = false).
Proof.
  apply (not_found_unmatched app_routes GET "/api/rate-limits/rate-limits"). reflexivity.
Defined.

(** The status route answers under [/api/rate-limits]; under the table of
    [app/api/__init__.py] it would answer under
    [/api/rate-limits/rate-limits] and not there. *)
Example rate_limits_paths :
  route_for app_routes GET "/api/rate-limits"
  = Found (api_route GET "/api/rate-limits" Endpoint.get_rate_limits) [] /\
  route_for package_api_router GET "/api/rate-limits" = NotFound /\
  route_for package_api_router GET "/api/rate-limits/rate-limits"
  = Found (api_route GET "/api/rate-limits/rate-limits" Endpoint.get_rate_limits) [].
Proof. repeat split. Qed.

(** *** Paths with a parameter *)

Lemma param_path_pieces prefix x :
  ~ In "/"%char (list_ascii_of_string x) ->
  split_path (prefix ++ String "/" x) = split_path prefix ++ [x].
Proof.
  intros Hx. unfold split_path. now rewrite split_char_app, (split_char_none _ x Hx).
Qed.

(** What stands for [{thread_id}] in a request for one thread is handed to
    the handler as it stands. *)
Lemma thread_path_routed x :
  x <> "" -> x <> "previews" -> ~ In "/"%char (list_ascii_of_string x) ->
  route_for app_routes GET ("/api/threads" ++ String "/" x)
  = Found thread_route [("thread_id", x)].
Proof.
  intros Hx Hp Hs.
  assert (Ht : py_truthy x = true) by (destruct x; [congruence | reflexivity]).
  assert (He : String.eqb "previews" x = false) by (apply String.eqb_neq; congruence).
  unfold route_for, is_full, is_match, matches. rewrite (param_path_pieces _ _ Hs).
  cbn -[String.eqb py_truthy]. rewrite ?He, ?Ht. vm_compute.
  destruct x; [contradiction | reflexivity].
Qed.

(** A trailing slash on the thread collection is redirected. *)
Example threads_slash_redirected :
  route_for app_routes GET "/api/threads/" = Redirect "/api/threads".
Proof. reflexivity. Qed.
