(* ===== verification/Crud.v ===== *)
(** * Crud: [app/crud/chat.py]

    One definition per function.  A function that writes is an [Eff]
    computation on [Db]: it returns the committed database, or raises and
    leaves the database as the last commit left it.  The identifier
    [uuid.uuid4()] draws and the timestamp the server assigns are
    arguments.  The definitions live in the module [chat_crud], the name the
    service layer imports the file under.  [ORDER BY created_at] is a stable insertion sort: rows with
    equal timestamps keep their table order. *)

From Stdlib Require Import ZArith List Lia String Bool Sorted Permutation.
From S2P Require Import Prelude.
From S2P Require Import Errors.
From S2P Require Import Models.
Import ListNotations.

Local Open Scope Z_scope.

Module chat_crud.

(** ** Queries *)

Definition has_id (thread_id : UUID) (th : Thread.t) : bool :=
  Z.eqb (Thread.id th) thread_id.

(** [db.query(Thread).filter(Thread.id == thread_id).first()] *)
Definition get_thread (db : Db) (thread_id : UUID) : option Thread.t :=
  find (has_id thread_id) (threads db).

(** [db.query(Thread).filter(Thread.user_id == user_id).all()] *)
Definition get_user_threads (db : Db) (user_id : UUID) : list Thread.t :=
  filter (fun th => Z.eqb (Thread.user_id th) user_id) (threads db).

Fixpoint insert_by_created_at (c : Conversation.t) (l : list Conversation.t)
  : list Conversation.t :=
  match l with
  | [] => [c]
  | x :: xs =>
      if Conversation.created_at c <=? Conversation.created_at x
      then c :: l
      else x :: insert_by_created_at c xs
  end.

(** [.order_by(Conversation.created_at.asc())] *)
Definition order_by_created_at (l : list Conversation.t) : list Conversation.t :=
  fold_right insert_by_created_at [] l.

Definition get_thread_conversations (db : Db) (thread_id : UUID) (skip limit : nat)
  : list Conversation.t :=
  firstn limit (skipn skip (order_by_created_at (thread_rows db thread_id))).

(** ** Writes *)

Definition new_thread (thread : ThreadCreate) (user_id new_id : UUID) (now : Z) : Thread.t :=
  {| Thread.id := new_id;
     Thread.title := tc_title thread;
     Thread.user_id := user_id;
     Thread.created_at := now;
     Thread.updated_at := None;
     Thread.is_archived := Some false |}.

Definition create_thread (thread : ThreadCreate) (user_id new_id : UUID) (now : Z)
  : Eff Db exn Thread.t :=
  fun db =>
    if mem new_id (thread_ids db)
    then (Err (IntegrityError "duplicate key value violates unique constraint threads_pkey"), db)
    else if negb (mem user_id (user_ids db))
    then (Err (IntegrityError "insert on table threads violates foreign key constraint"), db)
    else
      let db_thread := new_thread thread user_id new_id now in
      (Ok db_thread, set_threads db (threads db ++ [db_thread])).

(** [setattr] of the fields the request set; [None] when [title] would
    become null, which the column forbids. *)
Definition apply_update (db_thread : Thread.t) (thread : ThreadUpdate) : option Thread.t :=
  let with_title :=
    match tu_title thread with
    | None => Some db_thread
    | Some (Some s) => Some (Thread.set_title db_thread s)
    | Some None => None
    end in
  match with_title with
  | None => None
  | Some th =>
      match tu_is_archived thread with
      | None => Some th
      | Some b => Some (Thread.set_is_archived th b)
      end
  end.

Definition option_bool_eqb (a b : option bool) : bool :=
  match a, b with
  | Some x, Some y => Bool.eqb x y
  | None, None => true
  | _, _ => false
  end.

(** Whether the unit of work holds a net change for the row. *)
Definition thread_changed (old new : Thread.t) : bool :=
  negb (String.eqb (Thread.title old) (Thread.title new)
        && option_bool_eqb (Thread.is_archived old) (Thread.is_archived new)).

Definition replace_thread (th : Thread.t) (ts : list Thread.t) : list Thread.t :=
  map (fun x => if has_id (Thread.id th) x then th else x) ts.

Definition update_thread (thread_id : UUID) (thread : ThreadUpdate) (now : Z)
  : Eff Db exn (option Thread.t) :=
  fun db =>
    match get_thread db thread_id with
    | None => (Ok None, db)
    | Some db_thread =>
        match apply_update db_thread thread with
        | None =>
            (Err (IntegrityError "null value in column title violates not-null constraint"), db)
        | Some th =>
            let th' := if thread_changed db_thread th
                       then Thread.set_updated_at th now else th in
            (Ok (Some th'), set_threads db (replace_thread th' (threads db)))
        end
    end.

(** The row goes, and with it the conversations that reference it
    ([cascade="all, delete-orphan"], [ondelete="CASCADE"]). *)
Definition delete_thread (thread_id : UUID) : Eff Db exn bool :=
  fun db =>
    match get_thread db thread_id with
    | None => (Ok false, db)
    | Some _ =>
        (Ok true,
         {| users := users db;
            threads := filter (fun th => negb (has_id thread_id th)) (threads db);
            conversations :=
              filter (fun c => negb (of_thread thread_id c)) (conversations db) |})
    end.

Definition new_conversation (conversation : ConversationCreate) (new_id : UUID) (now : Z)
  : Conversation.t :=
  {| Conversation.id := new_id;
     Conversation.thread_id := cc_thread_id conversation;
     Conversation.role := cc_role conversation;
     Conversation.content := cc_content conversation;
     Conversation.created_at := now;
     Conversation.model := cc_model conversation;
     Conversation.token_count := cc_token_count conversation |}.

Definition create_conversation (conversation : ConversationCreate) (new_id : UUID) (now : Z)
  : Eff Db exn Conversation.t :=
  fun db =>
    if mem new_id (conversation_ids db)
    then (Err (IntegrityError "duplicate key value violates unique constraint conversations_pkey"), db)
    else if negb (mem (cc_thread_id conversation) (thread_ids db))
    then (Err (IntegrityError "insert on table conversations violates foreign key constraint"), db)
    else
      let db_conversation := new_conversation conversation new_id now in
      (Ok db_conversation, set_conversations db (conversations db ++ [db_conversation])).

(** ** Chronological tables *)

Definition chrono (l : list Conversation.t) : Prop :=
  Sorted (fun a b => Conversation.created_at a <= Conversation.created_at b) l.

(** No row is later than [now]. *)
Definition before (now : Z) (l : list Conversation.t) : Prop :=
  Forall (fun c => Conversation.created_at c <= now) l.

End chat_crud.

Import chat_crud.

(** ** Tactics of this file *)

Ltac crud_unfold :=
  unfold create_thread, update_thread, delete_thread, create_conversation in *.

(** ** Ordering *)

Lemma insert_by_created_at_perm c l : Permutation (insert_by_created_at c l) (c :: l).
Proof.
  induction l as [|x xs IH]; cbn; [reflexivity|].
  destruct (_ <=? _); [reflexivity|]. rewrite IH. apply perm_swap.
Qed.

Lemma order_by_created_at_cons c l :
  order_by_created_at (c :: l) = insert_by_created_at c (order_by_created_at l).
Proof. reflexivity. Qed.

Lemma order_by_created_at_perm l : Permutation (order_by_created_at l) l.
Proof.
  induction l as [|c l IH]; [reflexivity|].
  rewrite order_by_created_at_cons, insert_by_created_at_perm. now constructor.
Qed.

Lemma insert_by_created_at_chrono c l : chrono l -> chrono (insert_by_created_at c l).
Proof.
  unfold chrono. induction 1 as [|x xs Hs IH Hd]; cbn.
  - repeat constructor.
  - destruct (Z.leb_spec (Conversation.created_at c) (Conversation.created_at x)).
    + repeat constructor; assumption.
    + constructor; [assumption|].
      destruct xs as [|y ys]; cbn in *; [constructor; lia|].
      destruct (_ <=? _); constructor; [lia | now inv Hd].
Qed.

Lemma order_by_created_at_chrono l : chrono (order_by_created_at l).
Proof.
  induction l as [|c l IH]; [constructor|].
  rewrite order_by_created_at_cons. now apply insert_by_created_at_chrono.
Qed.

(** On a table already in chronological order the sort changes nothing. *)
Lemma order_by_created_at_id l : chrono l -> order_by_created_at l = l.
Proof.
  unfold chrono. induction 1 as [|x xs Hs IH Hd]; [reflexivity|].
  rewrite order_by_created_at_cons, IH. destruct Hd as [|y ys Hxy]; cbn; [reflexivity|].
  destruct (Z.leb_spec (Conversation.created_at x) (Conversation.created_at y)); [reflexivity | lia].
Qed.

Lemma chrono_strong l :
  chrono l <-> StronglySorted (fun a b => Conversation.created_at a <= Conversation.created_at b) l.
Proof.
  split; [|apply StronglySorted_Sorted].
  apply Sorted_StronglySorted. intros a b c. lia.
Qed.

Lemma chrono_filter p l : chrono l -> chrono (filter p l).
Proof.
  rewrite !chrono_strong. induction 1 as [|x xs Hs IH Hall]; cbn; [constructor|].
  destruct (p x); [|assumption]. constructor; [assumption|].
  rewrite Forall_forall in *. intros y Hy. apply filter_In in Hy. now apply Hall.
Qed.

Lemma chrono_snoc now c l :
  chrono l -> before now l -> now <= Conversation.created_at c -> chrono (l ++ [c]).
Proof.
  rewrite !chrono_strong. unfold before. intros Hs Hb Hc.
  induction Hs as [|x xs Hs IH Hall]; cbn; [repeat constructor|].
  inv Hb. constructor; [auto|].
  rewrite Forall_app. split; [assumption | repeat constructor; lia].
Qed.

Lemma before_snoc now now' c l :
  before now l -> now <= now' -> Conversation.created_at c <= now' -> before now' (l ++ [c]).
Proof.
  unfold before. intros Hb Hn Hc. rewrite Forall_app. split; [|repeat constructor; assumption].
  eapply Forall_impl; [|exact Hb]. cbn. intros; lia.
Qed.

Lemma before_filter p now l : before now l -> before now (filter p l).
Proof.
  unfold before. rewrite !Forall_forall. intros H x Hx. apply filter_In in Hx. now apply H.
Qed.

(** ** Reads *)

Lemma get_thread_Some db thread_id th :
  get_thread db thread_id = Some th -> In th (threads db) /\ Thread.id th = thread_id.
Proof. apply (find_key_Some Thread.id). Qed.

Lemma get_thread_None db thread_id :
  get_thread db thread_id = None <-> ~ In thread_id (thread_ids db).
Proof. apply (find_key_None Thread.id). Qed.

Lemma get_thread_unique db th :
  db_ok db -> In th (threads db) -> get_thread db (Thread.id th) = Some th.
Proof. intros Hok. apply (find_key_unique Thread.id), (threads_pk Hok). Qed.

Lemma get_thread_mem db thread_id :
  mem thread_id (thread_ids db) = true <-> exists th, get_thread db thread_id = Some th.
Proof.
  rewrite mem_In. destruct (get_thread db thread_id) as [th|] eqn:Hg.
  - apply get_thread_Some in Hg as [Hin <-]. split; [eauto | intros _; now apply in_map].
  - apply get_thread_None in Hg. split; [contradiction | intros [? ?]; discriminate].
Qed.

Lemma get_thread_set_conversations db cs thread_id :
  get_thread (set_conversations db cs) thread_id = get_thread db thread_id.
Proof. reflexivity. Qed.

Lemma get_user_threads_owner db user_id th :
  In th (get_user_threads db user_id) <-> In th (threads db) /\ Thread.user_id th = user_id.
Proof. unfold get_user_threads. now rewrite filter_In, Z.eqb_eq. Qed.

Lemma get_thread_conversations_length db thread_id skip limit :
  (List.length (get_thread_conversations db thread_id skip limit) <= limit)%nat.
Proof. unfold get_thread_conversations. rewrite length_firstn. lia. Qed.

Lemma get_thread_conversations_In db thread_id skip limit c :
  In c (get_thread_conversations db thread_id skip limit) ->
  In c (conversations db) /\ Conversation.thread_id c = thread_id.
Proof.
  unfold get_thread_conversations. intros H.
  apply In_firstn, In_skipn in H.
  apply (Permutation_in _ (order_by_created_at_perm _)) in H.
  now apply thread_rows_In.
Qed.

Lemma get_thread_conversations_chrono db thread_id skip limit :
  chrono (get_thread_conversations db thread_id skip limit).
Proof.
  unfold get_thread_conversations.
  pose proof (order_by_created_at_chrono (thread_rows db thread_id)) as H.
  apply chrono_strong in H. apply chrono_strong.
  set (l := order_by_created_at _) in *. clearbody l. revert l H.
  assert (Hskip : forall n l, StronglySorted (fun a b => Conversation.created_at a <= Conversation.created_at b) l ->
                     StronglySorted (fun a b => Conversation.created_at a <= Conversation.created_at b) (skipn n l)).
  { induction n; intros l Hl; [exact Hl|]. destruct Hl; cbn; [constructor | auto]. }
  intros l Hl. apply Hskip with (n := skip) in Hl. revert Hl. generalize (skipn skip l).
  induction limit; intros l' Hl'; cbn; [constructor|].
  destruct Hl' as [|x xs Hs Hall]; constructor; [auto|].
  rewrite Forall_forall in *. intros y Hy. apply Hall. now apply In_firstn in Hy.
Qed.

(** ** Writes: each branch *)

Lemma create_thread_spec thread user_id new_id now db :
  ~ In new_id (thread_ids db) -> In user_id (user_ids db) ->
  create_thread thread user_id new_id now db
  = (Ok (new_thread thread user_id new_id now),
     set_threads db (threads db ++ [new_thread thread user_id new_id now])).
Proof.
  intros Hid Hu. unfold create_thread.
  apply mem_false in Hid. apply mem_In in Hu. now rewrite Hid, Hu.
Qed.

Lemma create_thread_err thread user_id new_id now db e db' :
  create_thread thread user_id new_id now db = (Err e, db') ->
  db' = db /\ (In new_id (thread_ids db) \/ ~ In user_id (user_ids db)).
Proof.
  unfold create_thread.
  destruct (mem new_id (thread_ids db)) eqn:Hid;
    [|destruct (mem user_id (user_ids db)) eqn:Hu]; cbn; intros H; inv H.
  - split; [reflexivity | left; now apply mem_In].
  - split; [reflexivity | right; now apply mem_false].
Qed.

Lemma create_conversation_spec conversation new_id now db :
  ~ In new_id (conversation_ids db) -> In (cc_thread_id conversation) (thread_ids db) ->
  create_conversation conversation new_id now db
  = (Ok (new_conversation conversation new_id now),
     set_conversations db (conversations db ++ [new_conversation conversation new_id now])).
Proof.
  intros Hid Ht. unfold create_conversation.
  apply mem_false in Hid. apply mem_In in Ht. now rewrite Hid, Ht.
Qed.

Lemma create_conversation_err conversation new_id now db e db' :
  create_conversation conversation new_id now db = (Err e, db') ->
  db' = db /\
  (In new_id (conversation_ids db) \/ ~ In (cc_thread_id conversation) (thread_ids db)).
Proof.
  unfold create_conversation.
  destruct (mem new_id (conversation_ids db)) eqn:Hid;
    [|destruct (mem (cc_thread_id conversation) (thread_ids db)) eqn:Ht]; cbn; intros H; inv H.
  - split; [reflexivity | left; now apply mem_In].
  - split; [reflexivity | right; now apply mem_false].
Qed.

Lemma create_conversation_threads conversation new_id now db :
  threads (snd (create_conversation conversation new_id now db)) = threads db.
Proof. unfold create_conversation. repeat (destruct (mem _ _); cbn); reflexivity. Qed.

(** No write of this module touches the users table. *)
Lemma create_thread_users thread user_id new_id now db :
  users (snd (create_thread thread user_id new_id now db)) = users db.
Proof. crud_unfold. repeat break_match; reflexivity. Qed.

Lemma update_thread_users thread_id data now db :
  users (snd (update_thread thread_id data now db)) = users db.
Proof. crud_unfold. repeat break_match; reflexivity. Qed.

Lemma delete_thread_users thread_id db : users (snd (delete_thread thread_id db)) = users db.
Proof. crud_unfold. repeat break_match; reflexivity. Qed.

Lemma create_conversation_users conversation new_id now db :
  users (snd (create_conversation conversation new_id now db)) = users db.
Proof. crud_unfold. repeat break_match; reflexivity. Qed.

#[export] Hint Rewrite create_thread_users update_thread_users delete_thread_users
  create_conversation_users : gchat_rw.

Lemma delete_thread_missing thread_id db :
  ~ In thread_id (thread_ids db) -> delete_thread thread_id db = (Ok false, db).
Proof. intros H. unfold delete_thread. apply get_thread_None in H. now rewrite H. Qed.

Lemma apply_update_keys db_thread thread th :
  apply_update db_thread thread = Some th ->
  Thread.id th = Thread.id db_thread /\
  Thread.user_id th = Thread.user_id db_thread /\
  Thread.created_at th = Thread.created_at db_thread /\
  Thread.updated_at th = Thread.updated_at db_thread.
Proof.
  unfold apply_update.
  destruct (tu_title thread) as [[s|]|], (tu_is_archived thread) as [b|];
    intros H; inv H; cbn; auto.
Qed.

Lemma replace_thread_ids th ts : map Thread.id (replace_thread th ts) = map Thread.id ts.
Proof.
  unfold replace_thread. rewrite map_map. apply map_ext. intros x.
  unfold has_id. destruct (Z.eqb_spec (Thread.id x) (Thread.id th)); congruence.
Qed.

Lemma replace_thread_In th ts x :
  In x (replace_thread th ts) -> x = th \/ In x ts.
Proof.
  unfold replace_thread. rewrite in_map_iff. intros (y & Hy & Hin).
  destruct (has_id (Thread.id th) y); subst; auto.
Qed.

Lemma replace_thread_get db th :
  In (Thread.id th) (thread_ids db) ->
  get_thread (set_threads db (replace_thread th (threads db))) (Thread.id th) = Some th.
Proof.
  unfold get_thread, thread_ids, replace_thread; cbn. generalize (threads db) as ts.
  assert (Hth : has_id (Thread.id th) th = true) by apply Z.eqb_refl.
  induction ts as [|x ts IH]; cbn [map In find]; [tauto|].
  destruct (has_id (Thread.id th) x) eqn:Hx.
  - intros _. now rewrite Hth.
  - rewrite Hx. intros [Heq|Hin]; [|auto].
    unfold has_id in Hx. rewrite Heq, Z.eqb_refl in Hx. discriminate.
Qed.

(** ** Writes preserve well-formedness *)

Section Preservation.
Context (db : Db) (Hok : db_ok db).

Lemma create_thread_db_ok thread user_id new_id now :
  db_ok (snd (create_thread thread user_id new_id now db)).
Proof.
  unfold create_thread.
  destruct (mem new_id (thread_ids db)) eqn:Hid; [exact Hok|].
  destruct (mem user_id (user_ids db)) eqn:Hu; [|exact Hok]. cbn [negb snd].
  apply mem_false in Hid. apply mem_In in Hu.
  destruct Hok as [Hupk Htpk Hcpk Htfk Hcfk].
  constructor; unfold thread_ids, user_ids, conversation_ids in *; cbn; try assumption.
  - rewrite map_app. apply NoDup_snoc; assumption.
  - intros th [Hin|[<-|[]]]%in_app_iff; [auto | exact Hu].
  - intros c Hc. rewrite map_app, in_app_iff. auto.
Qed.

Lemma create_conversation_db_ok conversation new_id now :
  db_ok (snd (create_conversation conversation new_id now db)).
Proof.
  unfold create_conversation.
  destruct (mem new_id (conversation_ids db)) eqn:Hid; [exact Hok|].
  destruct (mem (cc_thread_id conversation) (thread_ids db)) eqn:Ht; [|exact Hok].
  cbn [negb snd]. apply mem_false in Hid. apply mem_In in Ht.
  destruct Hok as [Hupk Htpk Hcpk Htfk Hcfk].
  constructor; unfold thread_ids, user_ids, conversation_ids in *; cbn; try assumption.
  - rewrite map_app. apply NoDup_snoc; assumption.
  - intros c [Hin|[<-|[]]]%in_app_iff; [auto | exact Ht].
Qed.

Lemma delete_thread_db_ok thread_id : db_ok (snd (delete_thread thread_id db)).
Proof.
  unfold delete_thread. destruct (get_thread db thread_id); [|exact Hok]. cbn [snd].
  destruct Hok as [Hupk Htpk Hcpk Htfk Hcfk].
  constructor; unfold thread_ids, user_ids, conversation_ids in *; cbn; try assumption.
  - now apply NoDup_map_filter.
  - now apply NoDup_map_filter.
  - intros th Hin. apply filter_In in Hin. now apply Htfk.
  - intros c Hin. apply filter_In in Hin as [Hin Hne].
    apply Hcfk in Hin. apply in_map_iff in Hin as (th & Hid & Hin).
    apply in_map_iff. exists th. split; [assumption|]. apply filter_In. split; [assumption|].
    unfold has_id, of_thread in *. rewrite Hid. exact Hne.
Qed.

Lemma update_thread_db_ok thread_id thread now :
  db_ok (snd (update_thread thread_id thread now db)).
Proof.
  unfold update_thread. destruct (get_thread db thread_id) as [old|] eqn:Hg; [|exact Hok].
  destruct (apply_update old thread) as [th|] eqn:Hu; [|exact Hok]. cbn [snd].
  apply get_thread_Some in Hg as [Hin Hid]. apply apply_update_keys in Hu as (Hi & Hown & _).
  set (th' := if thread_changed old th then Thread.set_updated_at th now else th).
  assert (Hown' : Thread.user_id th' = Thread.user_id old)
    by (subst th'; destruct (thread_changed old th); cbn; exact Hown).
  destruct Hok as [Hupk Htpk Hcpk Htfk Hcfk].
  constructor; unfold thread_ids, user_ids, conversation_ids in *; cbn; try assumption.
  - now rewrite replace_thread_ids.
  - intros x [->|Hx]%replace_thread_In; [rewrite Hown' |]; auto.
  - intros c Hc. rewrite replace_thread_ids. auto.
Qed.

End Preservation.

(** ** What a delete leaves *)

Lemma delete_thread_gone thread_id db :
  db_ok db ->
  let db' := snd (delete_thread thread_id db) in
  get_thread db' thread_id = None /\ thread_rows db' thread_id = [].
Proof.
  intros Hok. cbv zeta. unfold delete_thread.
  destruct (get_thread db thread_id) as [th|] eqn:Hg; cbn [snd].
  - split.
    + apply get_thread_None. unfold thread_ids; cbn. intros Hin.
      apply in_map_iff in Hin as (x & Hid & Hx). apply filter_In in Hx as [_ Hne].
      unfold has_id in Hne. rewrite Hid, Z.eqb_refl in Hne. discriminate.
    + unfold thread_rows; cbn. apply filter_filter_negb_nil.
  - split; [assumption|]. unfold thread_rows. apply filter_none.
    apply Forall_forall. intros c Hc. unfold of_thread.
    apply Z.eqb_neq. intros Heq. apply get_thread_None in Hg.
    apply Hg. rewrite <- Heq. now apply (conversations_fk Hok).
Qed.

(** Rows of other threads survive a delete, in their order. *)
Lemma delete_thread_frame thread_id other db :
  other <> thread_id ->
  let db' := snd (delete_thread thread_id db) in
  get_thread db' other = get_thread db other /\
  thread_rows db' other = thread_rows db other.
Proof.
  intros Hne. cbv zeta. unfold delete_thread.
  destruct (get_thread db thread_id) as [th|]; cbn [snd]; [|split; reflexivity].
  unfold get_thread, thread_rows; cbn. split.
  - induction (threads db) as [|x ts IH]; cbn [filter find]; [reflexivity|].
    destruct (has_id thread_id x) eqn:H1, (has_id other x) eqn:H2;
      cbn [negb find]; rewrite ?H2; auto.
    unfold has_id in *. apply Z.eqb_eq in H1, H2. congruence.
  - rewrite filter_comm. apply filter_id, Forall_forall.
    intros c Hc. apply filter_In in Hc as [_ Hc]. apply of_thread_true in Hc.
    unfold of_thread. rewrite Hc. apply negb_true_iff, Z.eqb_neq, Hne.
Qed.
