(* ===== verification/Users.v ===== *)
(** * Users: the user schemas and the user table

    [app/schemas/user.py] and the [Token] of [app/models/base.py]: the
    request and response models of the authentication and user routes, with
    the field constraints pydantic enforces ([min_length], [max_length],
    [EmailStr]).

    The handlers import [app.crud.user] and [app.utils.password], which are
    not among the sources.  Their functions are modelled here from the way
    the handlers call them and from the columns and constraints of
    [app/models/user.py] (primary key, unique e-mail, unique user name,
    cascade to the threads): the module [user_crud] and the class
    [PasswordHasher].  What the environment draws for an insertion (the
    salt, the identifier, the timestamp) is an argument. *)

From Stdlib Require Import ZArith List Lia String Bool Ascii FinFun.
From S2P Require Import Prelude.
From S2P Require Import Errors.
From S2P Require Import Models.
Import ListNotations.

Local Open Scope string_scope.
Local Open Scope Z_scope.
Local Open Scope list_scope.

(** ** Schemas *)

Record UserCreate : Type := {
  uc_email : string;
  uc_username : string;
  uc_password : string
}.

(** Every field is optional; a field left out is [None]. *)
Record UserUpdate : Type := {
  uu_email : option string;
  uu_username : option string;
  uu_password : option string;
  uu_is_active : option bool;
  uu_is_admin : option bool
}.

(** The [User] of [app/schemas/user.py]: what the routes answer with and
    what the authentication dependency hands to a handler.  It has no
    password hash. *)
Module UserSchema.
Record t : Type := {
  id : UUID;
  email : string;
  name : string;
  created_at : string;
  is_active : bool;
  is_admin : bool
}.
End UserSchema.

Record Token : Type := {
  access_token : string;
  token_type : string;
  expires_at : Z
}.

(** [datetime.isoformat()]: a rendering of the timestamp; here the decimal
    of its tick count. *)
Definition isoformat (t : Z) : string := str_of_Z t.

(** [User(id=..., email=..., name=user.username, created_at=...isoformat(),
    is_active=..., is_admin=...)] *)
Definition user_out (user : User.t) : UserSchema.t :=
  {| UserSchema.id := User.id user;
     UserSchema.email := User.email user;
     UserSchema.name := User.username user;
     UserSchema.created_at := isoformat (User.created_at user);
     UserSchema.is_active := User.is_active user;
     UserSchema.is_admin := User.is_admin user |}.

(** ** Field constraints *)

(** [EmailStr]: the check of the [email-validator] library. *)
Class EmailValidator : Type := {
  is_email : string -> bool
}.

(** [Field(..., min_length=min, max_length=max)] *)
Definition length_between (min max : Z) (s : string) : bool :=
  (min <=? py_len s) && (py_len s <=? max).

(** [Field(..., min_length=min)] *)
Definition length_at_least (min : Z) (s : string) : bool := min <=? py_len s.

(** The value of a field of an update: the one given, or else the one the
    row has. *)
Definition or_keep {A} (field : option A) (current : A) : A :=
  match field with
  | Some a => a
  | None => current
  end.

(** An optional field is checked when it is given. *)
Definition when_given {A} (check : A -> bool) (field : option A) : bool :=
  match field with
  | Some a => check a
  | None => true
  end.

Section Validation.
Context `{EmailValidator}.

Definition user_create_valid (user : UserCreate) : bool :=
  is_email (uc_email user)
  && length_between 3 50 (uc_username user)
  && length_at_least 8 (uc_password user).

Definition user_update_valid (user : UserUpdate) : bool :=
  when_given is_email (uu_email user)
  && when_given (length_between 3 50) (uu_username user)
  && when_given (length_at_least 8) (uu_password user).

(** What the constraints of the schemas leave of a stored row. *)
Definition row_valid (u : User.t) : bool :=
  is_email (User.email u) && length_between 3 50 (User.username u).

End Validation.

(** ** Passwords *)

(** [app.utils.password]: a salted hash and its check.  The one law is
    that a password verifies against its own hash. *)
Class PasswordHasher : Type := {
  get_password_hash : string -> string -> string;
  verify_password : string -> string -> bool;
  verify_password_hash :
    forall salt plain, verify_password plain (get_password_hash salt plain) = true
}.

(** ** The users table *)

Definition set_users (db : Db) (us : list User.t) : Db :=
  {| users := us; threads := threads db; conversations := conversations db |}.

Definition emails (db : Db) : list string := map User.email (users db).
Definition usernames (db : Db) : list string := map User.username (users db).

(** [unique=True] on [email] and on [username]. *)
Record users_ok (db : Db) : Prop := {
  emails_unique : NoDup (emails db);
  usernames_unique : NoDup (usernames db)
}.

Arguments emails_unique {db} _.
Arguments usernames_unique {db} _.

Module user_crud.

(** ** Queries *)

Definition has_user_id (user_id : string) (u : User.t) : bool :=
  String.eqb (uuid_str (User.id u)) user_id.

Definition has_email (email : string) (u : User.t) : bool :=
  String.eqb (User.email u) email.

Definition has_username (username : string) (u : User.t) : bool :=
  String.eqb (User.username u) username.

(** [db.query(User).filter(User.id == user_id).first()], the id a string *)
Definition get_user (db : Db) (user_id : string) : option User.t :=
  find (has_user_id user_id) (users db).

Definition get_user_by_email (db : Db) (email : string) : option User.t :=
  find (has_email email) (users db).

Definition get_user_by_username (db : Db) (username : string) : option User.t :=
  find (has_username username) (users db).

(** [db.query(User).offset(skip).limit(limit).all()] *)
Definition get_users (db : Db) (skip limit : nat) : list User.t :=
  firstn limit (skipn skip (users db)).

(** ** Writes *)

Section Writes.
Context `{PasswordHasher}.

Definition new_user (user : UserCreate) (salt : string) (new_id : UUID) (now : Z) : User.t :=
  {| User.id := new_id;
     User.email := uc_email user;
     User.username := uc_username user;
     User.hashed_password := get_password_hash salt (uc_password user);
     User.created_at := now;
     User.updated_at := None;
     User.is_active := true;
     User.is_admin := false |}.

Definition create_user (user : UserCreate) (salt : string) (new_id : UUID) (now : Z)
  : Eff Db exn User.t :=
  fun db =>
    if mem new_id (user_ids db)
    then (Err (IntegrityError "duplicate key value violates unique constraint users_pkey"), db)
    else if existsb (has_email (uc_email user)) (users db)
    then (Err (IntegrityError "duplicate key value violates unique constraint ix_users_email"), db)
    else if existsb (has_username (uc_username user)) (users db)
    then (Err (IntegrityError "duplicate key value violates unique constraint ix_users_username"),
          db)
    else
      let db_user := new_user user salt new_id now in
      (Ok db_user, set_users db (users db ++ [db_user])).

(** [setattr] of the fields the request gave; a password is stored hashed. *)
Definition apply_user_update (db_user : User.t) (user : UserUpdate) (salt : string) (now : Z)
  : User.t :=
  {| User.id := User.id db_user;
     User.email := or_keep (uu_email user) (User.email db_user);
     User.username := or_keep (uu_username user) (User.username db_user);
     User.hashed_password :=
       match uu_password user with
       | Some plain => get_password_hash salt plain
       | None => User.hashed_password db_user
       end;
     User.created_at := User.created_at db_user;
     User.updated_at := Some now;
     User.is_active := or_keep (uu_is_active user) (User.is_active db_user);
     User.is_admin := or_keep (uu_is_admin user) (User.is_admin db_user) |}.

Definition replace_user (u : User.t) (us : list User.t) : list User.t :=
  map (fun x => if Z.eqb (User.id x) (User.id u) then u else x) us.

(** The rows other than the one with this id. *)
Definition others (user_id : UUID) (us : list User.t) : list User.t :=
  filter (fun x => negb (Z.eqb (User.id x) user_id)) us.

Definition update_user (user_id : string) (user : UserUpdate) (salt : string) (now : Z)
  : Eff Db exn (option User.t) :=
  fun db =>
    match get_user db user_id with
    | None => (Ok None, db)
    | Some db_user =>
        let u := apply_user_update db_user user salt now in
        let rest := others (User.id db_user) (users db) in
        if existsb (has_email (User.email u)) rest
        then (Err (IntegrityError "duplicate key value violates unique constraint ix_users_email"),
              db)
        else if existsb (has_username (User.username u)) rest
        then (Err (IntegrityError
                     "duplicate key value violates unique constraint ix_users_username"), db)
        else (Ok (Some u), set_users db (replace_user u (users db)))
    end.

(** The threads of a user. *)
Definition owned_by (user_id : UUID) (th : Thread.t) : bool :=
  Z.eqb (Thread.user_id th) user_id.

(** The row goes, and with it the user's threads and their conversations
    ([cascade="all, delete-orphan"], [ondelete="CASCADE"]). *)
Definition delete_user (user_id : string) : Eff Db exn (option User.t) :=
  fun db =>
    match get_user db user_id with
    | None => (Ok None, db)
    | Some db_user =>
        let gone := map Thread.id (filter (owned_by (User.id db_user)) (threads db)) in
        (Ok (Some db_user),
         {| users := others (User.id db_user) (users db);
            threads := filter (fun th => negb (owned_by (User.id db_user) th)) (threads db);
            conversations :=
              filter (fun c => negb (mem (Conversation.thread_id c) gone)) (conversations db) |})
    end.

End Writes.

End user_crud.

(** A write on the users table. *)
Inductive user_write : Type :=
| WCreateUser (user : UserCreate) (salt : string) (new_id : UUID) (now : Z)
| WUpdateUser (user_id : string) (user : UserUpdate) (salt : string) (now : Z)
| WDeleteUser (user_id : string).

Definition apply_user_write `{PasswordHasher} (w : user_write) (db : Db) : Db :=
  match w with
  | WCreateUser user salt new_id now => snd (user_crud.create_user user salt new_id now db)
  | WUpdateUser user_id user salt now => snd (user_crud.update_user user_id user salt now db)
  | WDeleteUser user_id => snd (user_crud.delete_user user_id db)
  end.

(** The request a write carries satisfies its schema. *)
Definition user_write_valid `{EmailValidator} (w : user_write) : bool :=
  match w with
  | WCreateUser user _ _ _ => user_create_valid user
  | WUpdateUser _ user _ _ => user_update_valid user
  | WDeleteUser _ => true
  end.

(** Every stored row satisfies the constraints of the schemas. *)
Definition users_typed `{EmailValidator} (db : Db) : Prop :=
  Forall (fun u => row_valid u = true) (users db).

(** Tables within their constraints, the unique columns included. *)
Definition store_ok (db : Db) : Prop := db_ok db /\ users_ok db.

(** ** Tactics of this file *)

Ltac users_unfold :=
  unfold user_crud.get_user, user_crud.get_user_by_email, user_crud.get_user_by_username,
    user_crud.has_user_id, user_crud.has_email, user_crud.has_username in *.

(** ** Queries *)

Lemma uuid_str_inj a b : uuid_str a = uuid_str b -> a = b.
Proof. apply str_of_Z_inj. Qed.

Lemma get_user_Some db user_id u :
  user_crud.get_user db user_id = Some u -> In u (users db) /\ uuid_str (User.id u) = user_id.
Proof. users_unfold. apply (find_name_Some (fun u => uuid_str (User.id u))). Qed.

Lemma get_user_of_row db u :
  db_ok db -> In u (users db) -> user_crud.get_user db (uuid_str (User.id u)) = Some u.
Proof.
  intros Hok Hin. users_unfold.
  apply (find_name_unique (fun u => uuid_str (User.id u))); [|exact Hin].
  rewrite <- (map_map User.id uuid_str).
  apply Injective_map_NoDup; [exact uuid_str_inj | exact (users_pk Hok)].
Qed.

Lemma get_user_by_email_Some db email u :
  user_crud.get_user_by_email db email = Some u -> In u (users db) /\ User.email u = email.
Proof. users_unfold. apply (find_name_Some User.email). Qed.

Lemma get_user_by_email_None db email :
  user_crud.get_user_by_email db email = None <-> ~ In email (emails db).
Proof. users_unfold. apply (find_name_None User.email). Qed.

Lemma get_user_by_email_of_row db u :
  users_ok db -> In u (users db) -> user_crud.get_user_by_email db (User.email u) = Some u.
Proof.
  intros Hok Hin. users_unfold. apply (find_name_unique User.email); [|exact Hin].
  exact (emails_unique Hok).
Qed.

Lemma get_user_by_username_None db username :
  user_crud.get_user_by_username db username = None <-> ~ In username (usernames db).
Proof. users_unfold. apply (find_name_None User.username). Qed.

Lemma get_users_In db skip limit u : In u (user_crud.get_users db skip limit) -> In u (users db).
Proof. unfold user_crud.get_users. intros Hin. eapply In_skipn, In_firstn, Hin. Qed.

(** ** Replacing a row *)

Section Replace.
Context {A B : Type} (key : A -> Z) (name : A -> B) (u : A).

Abbreviation replaced := (map (fun x => if Z.eqb (key x) (key u) then u else x)).
Abbreviation rest := (filter (fun x => negb (Z.eqb (key x) (key u)))).

Lemma replaced_keys l : map key (replaced l) = map key l.
Proof.
  induction l as [|a l IH]; cbn [map]; [reflexivity|]. rewrite IH.
  now destruct (Z.eqb_spec (key a) (key u)) as [->|].
Qed.

Lemma replaced_absent l : ~ In (key u) (map key l) -> replaced l = l /\ rest l = l.
Proof.
  induction l as [|a l IH]; cbn [map filter]; intros Hn; [auto|].
  destruct (Z.eqb_spec (key a) (key u)) as [Heq|Hne]; [exfalso; apply Hn; now left|].
  destruct IH as [-> ->]; [intros Hin; apply Hn; now right | auto].
Qed.

Lemma replaced_In l x : In x (replaced l) -> x = u \/ In x (rest l).
Proof.
  rewrite in_map_iff, filter_In. intros (a & Ha & Hin).
  destruct (Z.eqb_spec (key a) (key u)) as [Heq|Hne]; subst; [now left | right].
  split; [assumption | now apply negb_true_iff, Z.eqb_neq].
Qed.

(** A column without repetition stays so when the new row's value is not
    that of another row. *)
Lemma replaced_unique l :
  NoDup (map key l) -> NoDup (map name l) -> ~ In (name u) (map name (rest l)) ->
  NoDup (map name (replaced l)).
Proof.
  induction l as [|a l IH]; cbn [map filter]; intros Hk Hn Hu; [constructor|].
  inv Hk. inv Hn. destruct (Z.eqb_spec (key a) (key u)) as [Heq|Hne]; cbn [negb map] in *.
  - rewrite Heq in *. destruct (replaced_absent l) as [-> Hr]; [assumption|].
    rewrite Hr in Hu. now constructor.
  - constructor; [|apply IH; [assumption | assumption | intros Hin; apply Hu; now right]].
    intros Hin. apply in_map_iff in Hin as (x & Hx & Hin).
    apply replaced_In in Hin as [->|Hin]; [apply Hu; now left|].
    apply filter_In in Hin as [Hin _].
    match goal with H : ~ In (name a) _ |- _ => apply H end. rewrite <- Hx. now apply in_map.
Qed.

End Replace.

(** ** Writes *)

(** The uniqueness of e-mails and names is a property of the users table
    alone. *)
Lemma users_ok_ext d d' : users d' = users d -> users_ok d -> users_ok d'.
Proof. intros He [He1 He2]. split; unfold emails, usernames in *; now rewrite He. Qed.

Section Writes.
Context `{PasswordHasher}.

Lemma existsb_has_email email us :
  existsb (user_crud.has_email email) us = true <-> In email (map User.email us).
Proof. apply (existsb_name User.email). Qed.

Lemma existsb_has_username username us :
  existsb (user_crud.has_username username) us = true <-> In username (map User.username us).
Proof. apply (existsb_name User.username). Qed.

(** The three ways an insertion is refused. *)
Definition taken (user : UserCreate) (new_id : UUID) (db : Db) : Prop :=
  In new_id (user_ids db) \/ In (uc_email user) (emails db)
  \/ In (uc_username user) (usernames db).

Lemma create_user_cases user salt new_id now db :
  (taken user new_id db /\
   exists msg, user_crud.create_user user salt new_id now db = (Err (IntegrityError msg), db)) \/
  (~ taken user new_id db /\
   user_crud.create_user user salt new_id now db
   = (Ok (user_crud.new_user user salt new_id now),
      set_users db (users db ++ [user_crud.new_user user salt new_id now]))).
Proof.
  unfold user_crud.create_user, taken, emails, usernames.
  destruct (mem new_id (user_ids db)) eqn:Hid; [apply mem_In in Hid; left; eauto|].
  destruct (existsb (user_crud.has_email _) _) eqn:He;
    [apply existsb_has_email in He; left; eauto|].
  destruct (existsb (user_crud.has_username _) _) eqn:Hu;
    [apply existsb_has_username in Hu; left; eauto|].
  right. split; [|reflexivity]. apply mem_false in Hid.
  rewrite <- existsb_has_email, <- existsb_has_username. intuition congruence.
Qed.

Lemma create_user_ok user salt new_id now db :
  ~ taken user new_id db ->
  user_crud.create_user user salt new_id now db
  = (Ok (user_crud.new_user user salt new_id now),
     set_users db (users db ++ [user_crud.new_user user salt new_id now])).
Proof. intros Hn. destruct (create_user_cases user salt new_id now db) as [[? _]|[_ ?]]; tauto. Qed.

Lemma create_user_taken user salt new_id now db :
  taken user new_id db ->
  exists msg, user_crud.create_user user salt new_id now db = (Err (IntegrityError msg), db).
Proof. intros Hn. destruct (create_user_cases user salt new_id now db) as [[_ ?]|[? _]]; tauto. Qed.

Lemma set_users_snoc_ok db u :
  ~ In (User.id u) (user_ids db) -> ~ In (User.email u) (emails db) ->
  ~ In (User.username u) (usernames db) ->
  store_ok db -> store_ok (set_users db (users db ++ [u])).
Proof.
  intros Hid He Hu [[Hpk Ht Hc Htf Hcf] [Hem Hun]]. split; constructor; try assumption;
    unfold user_ids, emails, usernames in *; cbn [set_users users threads];
    rewrite ?map_app; try (now apply NoDup_snoc).
  intros th Hin. apply in_or_app. left. now apply Htf.
Qed.

Lemma create_user_store_ok user salt new_id now db :
  store_ok db -> store_ok (snd (user_crud.create_user user salt new_id now db)).
Proof.
  intros Hok. destruct (create_user_cases user salt new_id now db) as [[_ [msg ->]]|[Hn ->]];
    [exact Hok|].
  unfold taken in Hn. apply set_users_snoc_ok; cbn; tauto.
Qed.

End Writes.

Section Updates.
Context `{PasswordHasher}.

Lemma replace_user_ids u us : map User.id (user_crud.replace_user u us) = map User.id us.
Proof. apply (replaced_keys User.id). Qed.

Lemma replace_user_store_ok db u :
  ~ In (User.email u) (map User.email (user_crud.others (User.id u) (users db))) ->
  ~ In (User.username u) (map User.username (user_crud.others (User.id u) (users db))) ->
  store_ok db -> store_ok (set_users db (user_crud.replace_user u (users db))).
Proof.
  intros He Hu [[Hpk Ht Hc Htf Hcf] [Hem Hun]].
  split; constructor; try assumption;
    unfold user_ids, emails, usernames in *; cbn [set_users users threads];
    rewrite ?replace_user_ids; try assumption.
  - now apply (replaced_unique User.id User.email).
  - now apply (replaced_unique User.id User.username).
Qed.

Lemma update_user_store_ok user_id user salt now db :
  store_ok db -> store_ok (snd (user_crud.update_user user_id user salt now db)).
Proof.
  intros Hok. unfold user_crud.update_user.
  destruct (user_crud.get_user db user_id) as [db_user|]; [|exact Hok]. cbv zeta.
  destruct (existsb (user_crud.has_email _) _) eqn:He; [exact Hok|].
  destruct (existsb (user_crud.has_username _) _) eqn:Hu; [exact Hok|].
  cbn [snd]. apply replace_user_store_ok; [| |exact Hok].
  - rewrite <- existsb_has_email. cbn [User.id user_crud.apply_user_update]. congruence.
  - rewrite <- existsb_has_username. cbn [User.id user_crud.apply_user_update]. congruence.
Qed.

(** The thread a conversation belongs to stays when its owner is another
    user. *)
Lemma kept_thread user_id db c :
  db_ok db -> In c (conversations db) ->
  mem (Conversation.thread_id c)
      (map Thread.id (filter (user_crud.owned_by user_id) (threads db))) = false ->
  In (Conversation.thread_id c)
     (map Thread.id (filter (fun th => negb (user_crud.owned_by user_id th)) (threads db))).
Proof.
  intros Hok Hin Hm. apply mem_false in Hm.
  apply (conversations_fk Hok) in Hin. apply in_map_iff in Hin as (th & Hid & Hth).
  apply in_map_iff. exists th. split; [exact Hid|]. apply filter_In. split; [exact Hth|].
  destruct (user_crud.owned_by user_id th) eqn:Ho; [|reflexivity].
  exfalso. apply Hm. rewrite <- Hid. apply in_map, filter_In. auto.
Qed.

Lemma delete_user_store_ok user_id db :
  store_ok db -> store_ok (snd (user_crud.delete_user user_id db)).
Proof.
  intros Hok. unfold user_crud.delete_user.
  destruct (user_crud.get_user db user_id) as [db_user|]; [|exact Hok].
  destruct Hok as [Hdb [Hem Hun]]. pose proof Hdb as [Hpk Ht Hc Htf Hcf].
  cbn [snd]. split; constructor; unfold user_ids, thread_ids, conversation_ids, emails,
    usernames, user_crud.others in *; cbn [users threads conversations];
    try (now apply NoDup_map_filter).
  - intros th Hin. apply filter_In in Hin as [Hin Ho].
    apply (Htf th) in Hin. apply in_map_iff in Hin as (u & Hu & Hin).
    apply in_map_iff. exists u. split; [exact Hu|]. apply filter_In. split; [exact Hin|].
    unfold user_crud.owned_by in Ho. now rewrite Hu.
  - intros c Hin. apply filter_In in Hin as [Hin Hm]. apply negb_true_iff in Hm.
    now apply kept_thread.
Qed.

End Updates.

(** ** The invariants of the users table *)

Section Invariants.
Context `{PasswordHasher} `{EmailValidator}.


Lemma new_user_valid user salt new_id now :
  user_create_valid user = true -> row_valid (user_crud.new_user user salt new_id now) = true.
Proof.
  unfold user_create_valid, row_valid. cbn. rewrite !andb_true_iff. tauto.
Qed.

Lemma apply_user_update_valid db_user user salt now :
  user_update_valid user = true -> row_valid db_user = true ->
  row_valid (user_crud.apply_user_update db_user user salt now) = true.
Proof.
  unfold user_update_valid, row_valid. cbn. rewrite !andb_true_iff.
  destruct (uu_email user), (uu_username user); cbn; tauto.
Qed.


End Invariants.

(** ** Reference instances

    A hasher and a validator that satisfy the interfaces, for the
    witnesses: the hash is the password between two marks, followed by the
    salt; an e-mail address is a string with an [@]. *)

Definition marked (plain : string) : string := ("$" ++ plain ++ "$")%string.

Definition reference_hash (salt plain : string) : string := (marked plain ++ salt)%string.

Definition reference_verify (plain hashed : string) : bool :=
  match strip_prefix (marked plain) hashed with
  | Some _ => true
  | None => false
  end.

Lemma reference_verify_hash salt plain :
  reference_verify plain (reference_hash salt plain) = true.
Proof. unfold reference_verify, reference_hash. now rewrite strip_prefix_app. Qed.

Definition reference_hasher : PasswordHasher :=
  {| get_password_hash := reference_hash;
     verify_password := reference_verify;
     verify_password_hash := reference_verify_hash |}.

Definition reference_emails : EmailValidator :=
  {| is_email s := existsb (Ascii.eqb "@"%char) (list_ascii_of_string s) |}.

(** ** Witnesses *)

Section Witnesses.
#[local] Existing Instance reference_hasher.
#[local] Existing Instance reference_emails.

Definition carol : UserCreate :=
  {| uc_email := "c@example.org"; uc_username := "carol"; uc_password := "open sesame" |}.

Definition one_user : Db :=
  snd (user_crud.create_user carol "s3" 3 50 empty_db).

Lemma empty_store_ok : store_ok empty_db.
Proof. split; [apply empty_db_ok | split; constructor]. Qed.



End Witnesses.
