(* ===== verification/Fixtures.v ===== *)
(** * Fixtures: the concrete states the witnesses run on

    A small database, two users, and two worlds over it: one with idle
    counters, one whose request counter is at the default limit. *)

From Stdlib Require Import ZArith List String.
From S2P Require Import Prelude.
From S2P Require Import Settings.
From S2P Require Import Errors.
From S2P Require Import RateLimiter.
From S2P Require Import Models.
From S2P Require Import State.
From S2P Require Import Crud.
From S2P Require Import Users.
Import ListNotations.

Local Open Scope string_scope.
Local Open Scope Z_scope.
Local Open Scope list_scope.

(** The row of the user of [demo_db], who owns its threads, and the row of
    a second user, who is not in it. *)
Definition ann_row : User.t :=
  {| User.id := 1; User.email := "a@example.org"; User.username := "ann";
     User.hashed_password := "$correct horse$s1"; User.created_at := 0;
     User.updated_at := None; User.is_active := true; User.is_admin := false |}.

Definition bob_row : User.t :=
  {| User.id := 2; User.email := "b@example.org"; User.username := "bob";
     User.hashed_password := "$battery staple$s2"; User.created_at := 0;
     User.updated_at := None; User.is_active := true; User.is_admin := false |}.

(** A database with one user (id 1) who owns one thread (id 10) that holds
    one message, and a second thread (id 11) with one message. *)
Definition demo_db : Db :=
  {| users := [ ann_row ];
     threads := [ chat_crud.new_thread {| tc_title := "first" |} 1 10 100;
                  chat_crud.new_thread {| tc_title := "second" |} 1 11 110 ];
     conversations :=
       [ {| Conversation.id := 20; Conversation.thread_id := 10;
            Conversation.role := "user"; Conversation.content := "hello";
            Conversation.created_at := 120; Conversation.model := None;
            Conversation.token_count := Some 1 |};
         {| Conversation.id := 21; Conversation.thread_id := 11;
            Conversation.role := "user"; Conversation.content := "bye";
            Conversation.created_at := 130; Conversation.model := None;
            Conversation.token_count := Some 1 |} ] |}.

(** The two users as the authentication dependency hands them to a
    handler. *)
Definition ann : UserSchema.t := user_out ann_row.
Definition bob : UserSchema.t := user_out bob_row.

Definition demo_world : World := {| usage := initial_usage 0; db := demo_db |}.

(** The counter at its limit, inside the window. *)
Definition full_world : World :=
  {| usage := {| last_reset := 0; tokens_used := 0; requests_used := 60 |}; db := demo_db |}.

Lemma demo_db_ok : db_ok demo_db.
Proof. apply db_okb_spec. reflexivity. Qed.

Lemma demo_world_ok : world_ok default_settings demo_world.
Proof. apply world_okb_spec. reflexivity. Qed.

Lemma demo_store_ok : store_ok demo_db.
Proof. split; [exact demo_db_ok | split; repeat constructor; intros []]. Qed.
