(* ===== verification/Auth.v ===== *)
(** * Auth: [app/auth/auth.py]

    Access tokens and the dependencies that turn a request's
    [Authorization] header into the current user.

    The JWT library is an interface, the class [Jwt]: signing a payload
    under a key and verifying a token, with the law that a signed payload
    verifies to itself.  [JwtSound] adds what the signature is for: a token
    that verifies is the signature of its payload.  [pyjwt_decode] is the
    library's [decode] on top of it, with the check of the [exp] claim
    against the clock.  Instants are clock ticks ([TICKS_PER_SECOND] to the
    second); the [exp] claim is in whole seconds, as the library writes it.
    The framework's [OAuth2PasswordBearer] is [oauth2_scheme]. *)

From Stdlib Require Import ZArith List Lia String Bool Ascii DecimalString.
From S2P Require Import Prelude.
From S2P Require Import Settings.
From S2P Require Import Errors.
From S2P Require Import RateLimiter.
From S2P Require Import Models.
From S2P Require Import Users.
From S2P Require Import Fixtures.
Import ListNotations.

Local Open Scope string_scope.
Local Open Scope Z_scope.
Local Open Scope list_scope.

(** ** The token library *)

(** The payload: the claims the program writes and reads. *)
Record Claims : Type := {
  sub : option string;
  exp : option Z
}.

Class Jwt : Type := {
  jwt_sign : Claims -> string -> string -> string;
  jwt_verify : string -> string -> list string -> option Claims;
  jwt_verify_sign :
    forall payload key algorithm,
      jwt_verify (jwt_sign payload key algorithm) key [algorithm] = Some payload
}.

(** A token that verifies under a key was signed under it. *)
Class JwtSound `{Jwt} : Prop := {
  jwt_verify_sound :
    forall token key algorithm payload,
      jwt_verify token key [algorithm] = Some payload ->
      token = jwt_sign payload key algorithm
}.

Inductive PyJWTError : Type :=
| InvalidTokenError
| ExpiredSignatureError.

(** [timedelta(minutes=m)] *)
Definition timedelta_minutes (m : Z) : Z := m * 60 * TICKS_PER_SECOND.

(** [timegm(t.utctimetuple())]: the whole seconds of an instant. *)
Definition timegm (t : Z) : Z := t / TICKS_PER_SECOND.

(** [int(t.timestamp())] of a naive [datetime]: the instant is read as
    local time, [utc_offset] ticks ahead of UTC. *)
Definition naive_timestamp (utc_offset t : Z) : Z := py_int (t - utc_offset) TICKS_PER_SECOND.

(** [payload["exp"] <= now]: the token has expired. *)
Definition expired (payload : Claims) (now : Z) : bool :=
  match exp payload with
  | Some e => e * TICKS_PER_SECOND <=? now
  | None => false
  end.

Section WithJwt.
Context `{Jwt}.

(** [pyjwt.decode(token, key, algorithms=[...])] at the instant [now] *)
Definition pyjwt_decode (token key : string) (algorithms : list string) (now : Z)
  : result PyJWTError Claims :=
  match jwt_verify token key algorithms with
  | None => Err InvalidTokenError
  | Some payload => if expired payload now then Err ExpiredSignatureError else Ok payload
  end.

Section WithSettings.
Context (cfg : Settings).

(** ** Issuing a token *)

(** [datetime.utcnow() + expires_delta], or the default lifetime when no
    delta is given or the delta is zero ([if expires_delta:]). *)
Definition expire_at (expires_delta : option Z) (utcnow : Z) : Z :=
  match expires_delta with
  | Some delta =>
      if delta =? 0
      then utcnow + timedelta_minutes (JWT_ACCESS_TOKEN_EXPIRE_MINUTES cfg)
      else utcnow + delta
  | None => utcnow + timedelta_minutes (JWT_ACCESS_TOKEN_EXPIRE_MINUTES cfg)
  end.

Definition create_access_token (data : Claims) (expires_delta : option Z) (utcnow : Z)
  : string :=
  let expire := expire_at expires_delta utcnow in
  let to_encode := {| sub := sub data; exp := Some (timegm expire) |} in
  jwt_sign to_encode (JWT_SECRET_KEY cfg) (JWT_ALGORITHM cfg).

(** ** The current user *)

Definition credentials_exception : exn :=
  http_error 401 "Invalid authentication credentials".

Definition get_current_user (token : string) (now : Z) (db : Db) : result exn UserSchema.t :=
  match pyjwt_decode token (JWT_SECRET_KEY cfg) [JWT_ALGORITHM cfg] now with
  | Err _ => Err credentials_exception
  | Ok payload =>
      match sub payload with
      | None => Err credentials_exception
      | Some user_id =>
          match user_crud.get_user db user_id with
          | None => Err credentials_exception
          | Some user => Ok (user_out user)
          end
      end
  end.

End WithSettings.
End WithJwt.

Definition get_current_active_user (current_user : UserSchema.t) : result exn UserSchema.t :=
  if negb (UserSchema.is_active current_user)
  then Err (http_error 400 "Inactive user")
  else Ok current_user.

(** ** The bearer scheme *)

(** [s.partition(" ")] *)
Definition partition_space (s : string) : string * string := partition_char " " s.

(** [OAuth2PasswordBearer.__call__]: the token of an [Authorization:
    Bearer <token>] header. *)
Definition oauth2_scheme (authorization : option string) : result exn string :=
  match authorization with
  | None => Err (http_error 401 "Not authenticated")
  | Some value =>
      let (scheme, param) := partition_space value in
      if negb (py_truthy value) || negb (String.eqb (lower scheme) "bearer")
      then Err (http_error 401 "Not authenticated")
      else Ok param
  end.

(** [Depends(get_current_active_user)], resolved: the header, the token,
    the user, the active user. *)
Definition current_active_user `{Jwt} (cfg : Settings) (authorization : option string)
    (now : Z) (db : Db) : result exn UserSchema.t :=
  match oauth2_scheme authorization with
  | Err e => Err e
  | Ok token =>
      match get_current_user cfg token now db with
      | Err e => Err e
      | Ok current_user => get_current_active_user current_user
      end
  end.

(** A parameter [current_user: User = Depends(...)]: the body runs on the
    user the dependency gave; what the dependency raised is the outcome
    otherwise. *)
Definition depends {S A} (credentials : result exn UserSchema.t) (body : UserSchema.t -> Eff S exn A)
  : Eff S exn A :=
  match credentials with
  | Ok current_user => body current_user
  | Err e => raise e
  end.

(** The payload the login routes sign for a user. *)
Definition subject (user : User.t) : Claims :=
  {| sub := Some (uuid_str (User.id user)); exp := None |}.

(** The header a client sends with a token. *)
Definition bearer (token : string) : option string := Some ("Bearer " ++ token)%string.

(** ** Tactics of this file *)

Ltac auth_unfold :=
  unfold current_active_user, get_current_active_user, get_current_user, pyjwt_decode,
    create_access_token, subject in *.

(** ** The bearer scheme *)

Lemma oauth2_scheme_bearer token : oauth2_scheme (bearer token) = Ok token.
Proof. reflexivity. Qed.

(** A header is accepted only if it begins with the word "bearer", in
    any case, and then gives what follows the first space. *)
Lemma oauth2_scheme_Ok authorization token :
  oauth2_scheme authorization = Ok token ->
  exists value, authorization = Some value /\
    lower (fst (partition_space value)) = "bearer" /\ snd (partition_space value) = token.
Proof.
  unfold oauth2_scheme. destruct authorization as [value|]; [|discriminate].
  destruct (partition_space value) as [scheme param] eqn:Hp.
  destruct (py_truthy value); cbn [negb orb]; [|discriminate].
  destruct (String.eqb_spec (lower scheme) "bearer"); cbn [negb]; [|discriminate].
  intros [= <-]. exists value. rewrite Hp. auto.
Qed.

(** ** Tokens *)

Section Tokens.
Context `{Jwt} (cfg : Settings).

Abbreviation key := (JWT_SECRET_KEY cfg).
Abbreviation algorithm := (JWT_ALGORITHM cfg).
Abbreviation get_current_user := (get_current_user cfg).
Abbreviation create_access_token := (create_access_token cfg).
Abbreviation expire_at := (expire_at cfg).

Lemma pyjwt_decode_sign payload now :
  pyjwt_decode (jwt_sign payload key algorithm) key [algorithm] now
  = if expired payload now then Err ExpiredSignatureError else Ok payload.
Proof. unfold pyjwt_decode. now rewrite jwt_verify_sign. Qed.

(** What [get_current_user] makes of a token the program signed. *)
Lemma get_current_user_signed payload now db :
  get_current_user (jwt_sign payload key algorithm) now db
  = if expired payload now then Err credentials_exception
    else match sub payload with
         | Some user_id =>
             match user_crud.get_user db user_id with
             | Some user => Ok (user_out user)
             | None => Err credentials_exception
             end
         | None => Err credentials_exception
         end.
Proof.
  unfold Auth.get_current_user. rewrite pyjwt_decode_sign. now destruct (expired payload now).
Qed.

(** Whatever the token, the answer is a stored user or the one 401. *)
Lemma get_current_user_cases token now db :
  get_current_user token now db = Err credentials_exception \/
  exists user, In user (users db) /\ get_current_user token now db = Ok (user_out user).
Proof.
  unfold Auth.get_current_user. destruct (pyjwt_decode _ _ _ _) as [payload|]; [|now left].
  destruct (sub payload) as [user_id|]; [|now left].
  destruct (user_crud.get_user db user_id) as [user|] eqn:Hg; [|now left].
  right. exists user. split; [now apply get_user_Some in Hg | reflexivity].
Qed.

Lemma expired_created data expires_delta utcnow now :
  expired {| sub := sub data; exp := Some (timegm (expire_at expires_delta utcnow)) |} now
  = (timegm (expire_at expires_delta utcnow) * TICKS_PER_SECOND <=? now).
Proof. reflexivity. Qed.

End Tokens.

(** ** Authentication *)

Section Authentication.
Context `{Jwt} (cfg : Settings).

Abbreviation expires expires_delta utcnow :=
  (timegm (expire_at cfg expires_delta utcnow) * TICKS_PER_SECOND).
Abbreviation issue user expires_delta utcnow :=
  (bearer (create_access_token cfg (subject user) expires_delta utcnow)).
Abbreviation inactive := (http_error 400 "Inactive user").

(** What the dependency makes of a token issued for a stored user. *)
Lemma issued_token user expires_delta utcnow now db :
  db_ok db -> In user (users db) ->
  current_active_user cfg (issue user expires_delta utcnow) now db
  = if expires expires_delta utcnow <=? now then Err (credentials_exception)
    else if User.is_active user then Ok (user_out user) else Err inactive.
Proof.
  intros Hok Hin. unfold current_active_user. rewrite oauth2_scheme_bearer.
  unfold create_access_token. rewrite get_current_user_signed, expired_created.
  destruct (_ <=? now); [reflexivity|]. cbn [sub subject].
  rewrite (get_user_of_row _ _ Hok Hin). unfold get_current_active_user. cbn.
  now destruct (User.is_active user).
Qed.

(** A token issued for a stored user authenticates as that user at
    every instant before its expiry: the dependency gives the user's
    public fields when the user is active, and 400 when not. *)
Theorem issued_token_authenticates user expires_delta utcnow now db :
  db_ok db -> In user (users db) ->
  now < expires expires_delta utcnow ->
  current_active_user cfg (issue user expires_delta utcnow) now db
  = if User.is_active user then Ok (user_out user) else Err inactive.
Proof.
  intros Hok Hin Hlt. rewrite issued_token by assumption.
  now destruct (Z.leb_spec (expires expires_delta utcnow) now); [lia|].
Qed.

(** A token is refused with 401 from its expiry on. *)
Lemma expired_token_rejected user expires_delta utcnow now db :
  db_ok db -> In user (users db) ->
  expires expires_delta utcnow <= now ->
  current_active_user cfg (issue user expires_delta utcnow) now db = Err credentials_exception.
Proof.
  intros Hok Hin Hle. rewrite issued_token by assumption.
  now destruct (Z.leb_spec (expires expires_delta utcnow) now); [|lia].
Qed.

(** The whole seconds of an instant are within a second of it. *)
Lemma timegm_bounds t :
  t - TICKS_PER_SECOND < timegm t * TICKS_PER_SECOND <= t.
Proof.
  unfold timegm, TICKS_PER_SECOND.
  pose proof (Z.mul_div_le t 1000 ltac:(lia)). pose proof (Z.mul_succ_div_gt t 1000 ltac:(lia)).
  lia.
Qed.

(** The lifetime of a token issued with no delta, or with a delta of
    zero: the token of an active user is accepted at every instant up to
    one second short of [JWT_ACCESS_TOKEN_EXPIRE_MINUTES] after it was
    issued, and refused with 401 from that many minutes on. *)
Theorem default_token_window user expires_delta utcnow now db :
  db_ok db -> In user (users db) -> User.is_active user = true ->
  expires_delta = None \/ expires_delta = Some 0 ->
  let lifetime := timedelta_minutes (JWT_ACCESS_TOKEN_EXPIRE_MINUTES cfg) in
  (now <= utcnow + lifetime - TICKS_PER_SECOND ->
   current_active_user cfg (issue user expires_delta utcnow) now db = Ok (user_out user)) /\
  (utcnow + lifetime <= now ->
   current_active_user cfg (issue user expires_delta utcnow) now db
   = Err credentials_exception).
Proof.
  intros Hok Hin Ha Hd. cbv zeta. rewrite issued_token, Ha by assumption.
  assert (He : expire_at cfg expires_delta utcnow
               = utcnow + timedelta_minutes (JWT_ACCESS_TOKEN_EXPIRE_MINUTES cfg))
    by (destruct Hd as [-> | ->]; reflexivity).
  rewrite He. pose proof (timegm_bounds (utcnow + timedelta_minutes
                                                    (JWT_ACCESS_TOKEN_EXPIRE_MINUTES cfg))).
  split; intros Hn;
    match goal with |- context [?a <=? now] => destruct (Z.leb_spec a now) end;
    try reflexivity; lia.
Qed.


(** After the deletion of a row no row has its id. *)
Lemma get_user_deleted db user :
  db_ok db -> In user (users db) ->
  user_crud.get_user (snd (user_crud.delete_user (uuid_str (User.id user)) db))
    (uuid_str (User.id user)) = None.
Proof.
  intros Hok Hin. unfold user_crud.delete_user. rewrite (get_user_of_row _ _ Hok Hin).
  cbn [snd]. unfold user_crud.get_user, user_crud.others; cbn [users].
  apply (find_name_None (fun u => uuid_str (User.id u))).
  intros Hi. apply in_map_iff in Hi as (x & Hx & Hf). apply filter_In in Hf as [_ Hf].
  apply uuid_str_inj in Hx. rewrite Hx, Z.eqb_refl in Hf. discriminate.
Qed.

(** Deleting a user revokes the user's tokens: a token issued for the
    user is refused with 401 at every instant after the deletion, expired
    or not. *)
Theorem deleted_user_token_rejected user expires_delta utcnow now db :
  db_ok db -> In user (users db) ->
  current_active_user cfg (issue user expires_delta utcnow) now
    (snd (user_crud.delete_user (uuid_str (User.id user)) db))
  = Err credentials_exception.
Proof.
  intros Hok Hin. unfold current_active_user. rewrite oauth2_scheme_bearer.
  unfold create_access_token. rewrite get_current_user_signed.
  destruct (expired _ now); [reflexivity|]. cbn [sub subject].
  now rewrite get_user_deleted.
Qed.

(** A request without the header, or with another scheme, is refused
    before any token is looked at. *)
Lemma no_bearer_rejected authorization now db :
  oauth2_scheme authorization = Err (http_error 401 "Not authenticated") ->
  current_active_user cfg authorization now db = Err (http_error 401 "Not authenticated").
Proof. unfold current_active_user. now intros ->. Qed.

(** Whatever the header, the dependency gives an active stored user or
    refuses with 400 or 401. *)
Lemma current_active_user_cases authorization now db :
  (exists status detail,
     current_active_user cfg authorization now db = Err (http_error status detail) /\
     (status = 400 \/ status = 401)) \/
  (exists user, In user (users db) /\ User.is_active user = true /\
     current_active_user cfg authorization now db = Ok (user_out user)).
Proof.
  unfold current_active_user, oauth2_scheme.
  destruct authorization as [value|]; [|left; eauto 6].
  destruct (partition_space value) as [scheme token].
  destruct (_ || _); [left; eauto 6|].
  destruct (get_current_user_cases cfg token now db) as [->|(user & Hin & ->)];
    [left; unfold credentials_exception; eauto 6|].
  unfold get_current_active_user. cbn.
  destruct (User.is_active user) eqn:Ha; cbn; [right; eauto | left; eauto 6].
Qed.

End Authentication.

(** ** A reference codec

    A codec that satisfies [Jwt] and [JwtSound], for the witnesses: the
    token spells out the algorithm, the key and the claims, and a token
    verifies when it is the spelling of the claims read from it.  The laws
    say nothing of secrecy, and neither does it. *)

Definition claim_exp (e : option Z) : string :=
  match e with
  | Some e => str_of_Z e
  | None => ""
  end.

Definition claim_sub (s : option string) : string :=
  match s with
  | Some s => String "S" s
  | None => "N"
  end.

Definition token_head (key algorithm : string) : string :=
  (algorithm ++ "." ++ key ++ ".")%string.

Definition reference_sign (payload : Claims) (key algorithm : string) : string :=
  (token_head key algorithm
   ++ claim_exp (exp payload) ++ String "~" (claim_sub (sub payload)))%string.

Definition parse_exp (s : string) : option (option Z) :=
  match s with
  | EmptyString => Some None
  | _ => option_map Some (Z_of_str s)
  end.

Definition parse_sub (s : string) : option (option string) :=
  match s with
  | String "S" rest => Some (Some rest)
  | String "N" EmptyString => Some None
  | _ => None
  end.

Definition reference_parse (body : string) : option Claims :=
  let (e, s) := partition_char "~" body in
  match parse_exp e, parse_sub s with
  | Some e, Some s => Some {| sub := s; exp := e |}
  | _, _ => None
  end.

Definition reference_verify_token (token key : string) (algorithms : list string)
  : option Claims :=
  match algorithms with
  | [algorithm] =>
      match strip_prefix (token_head key algorithm) token with
      | Some body =>
          match reference_parse body with
          | Some payload =>
              if String.eqb (reference_sign payload key algorithm) token
              then Some payload else None
          | None => None
          end
      | None => None
      end
  | _ => None
  end.

Lemma digits_no_tilde d : ~ In "~"%char (list_ascii_of_string (NilEmpty.string_of_uint d)).
Proof. induction d; cbn; intuition discriminate. Qed.

Lemma str_of_Z_no_tilde n : ~ In "~"%char (list_ascii_of_string (str_of_Z n)).
Proof.
  unfold str_of_Z, NilZero.string_of_int, NilZero.string_of_uint.
  destruct (Z.to_int n) as [d|d]; destruct d; cbn; intuition (try discriminate);
    eapply digits_no_tilde; eassumption.
Qed.

Lemma parse_exp_claim e : parse_exp (claim_exp e) = Some e.
Proof.
  destruct e as [e|]; [|reflexivity]. unfold parse_exp, claim_exp.
  pose proof (Z_of_str_of_Z e) as Hz. destruct (str_of_Z e); [discriminate Hz|].
  now rewrite Hz.
Qed.

Lemma parse_sub_claim s : parse_sub (claim_sub s) = Some s.
Proof. now destruct s. Qed.

Lemma reference_parse_claims payload :
  reference_parse (claim_exp (exp payload) ++ String "~" (claim_sub (sub payload)))%string
  = Some payload.
Proof.
  unfold reference_parse. rewrite partition_char_app.
  - rewrite parse_exp_claim, parse_sub_claim. now destruct payload.
  - destruct (exp payload); [apply str_of_Z_no_tilde | intros []].
Qed.

Lemma reference_verify_sign payload key algorithm :
  reference_verify_token (reference_sign payload key algorithm) key [algorithm] = Some payload.
Proof.
  unfold reference_verify_token, reference_sign.
  now rewrite strip_prefix_app, reference_parse_claims, String.eqb_refl.
Qed.

Lemma reference_verify_sound token key algorithm payload :
  reference_verify_token token key [algorithm] = Some payload ->
  token = reference_sign payload key algorithm.
Proof.
  unfold reference_verify_token.
  destruct (strip_prefix _ token) as [body|]; [|discriminate].
  destruct (reference_parse body) as [p|]; [|discriminate].
  destruct (String.eqb_spec (reference_sign p key algorithm) token); [|discriminate].
  now intros [= <-].
Qed.

Definition reference_jwt : Jwt :=
  {| jwt_sign := reference_sign;
     jwt_verify := reference_verify_token;
     jwt_verify_sign := reference_verify_sign |}.

Definition reference_jwt_sound : @JwtSound reference_jwt :=
  @Build_JwtSound reference_jwt reference_verify_sound.

(** ** Witnesses *)

Section Witnesses.
#[local] Existing Instance reference_jwt.

(** The token issued for the user of [demo_db] at instant 0. *)
Definition ann_token : string :=
  create_access_token default_settings (subject ann_row) None 0.

Lemma issued_token_authenticates_witness :
  current_active_user default_settings (bearer ann_token) 1000 demo_db = Ok ann.
Proof.
  apply (issued_token_authenticates default_settings ann_row None 0 1000 demo_db);
    [exact demo_db_ok | now left | zcompute].
Defined.

Lemma default_token_window_witness :
  (1799000 <= 0 + timedelta_minutes 30 - TICKS_PER_SECOND ->
   current_active_user default_settings (bearer ann_token) 1799000 demo_db = Ok ann) /\
  (0 + timedelta_minutes 30 <= 1800000 ->
   current_active_user default_settings (bearer ann_token) 1800000 demo_db
   = Err (credentials_exception)).
Proof.
  split.
  - apply (default_token_window default_settings ann_row None 0 1799000 demo_db);
      [exact demo_db_ok | now left | reflexivity | now left].
  - apply (default_token_window default_settings ann_row None 0 1800000 demo_db);
      [exact demo_db_ok | now left | reflexivity | now left].
Defined.


Lemma deleted_user_token_rejected_witness :
  current_active_user default_settings (bearer ann_token) 1000
    (snd (user_crud.delete_user "1" demo_db))
  = Err credentials_exception.
Proof.
  apply (deleted_user_token_rejected default_settings ann_row None 0 1000 demo_db);
    [exact demo_db_ok | now left].
Defined.

End Witnesses.
