(* ===== verification/AuthRoutes.v ===== *)
(** * AuthRoutes: the authentication and user handlers

    [app/api/routes/auth.py] (module [auth_routes]): registration, login
    and the current user, the router the application mounts under
    [/api/auth].  [app/api/endpoints/auth.py] (module [auth_endpoints]) and
    [app/api/endpoints/users.py] (module [users_endpoints]): an older
    registration and login and the user administration, which no router of
    [app/main.py] includes.

    A handler is a computation on the database.  What the environment
    draws for an insertion is a [UserDraw]; the clock readings of a login
    and the offset of the server's local time from UTC are arguments. *)

From Stdlib Require Import ZArith List Lia String Bool.
From S2P Require Import Prelude.
From S2P Require Import Settings.
From S2P Require Import Errors.
From S2P Require Import RateLimiter.
From S2P Require Import Models.
From S2P Require Import Http.
From S2P Require Import Users.
From S2P Require Import Fixtures.
From S2P Require Import Auth.
Import ListNotations.

Local Open Scope string_scope.
Local Open Scope Z_scope.
Local Open Scope list_scope.

(** The framework's login form. *)
Record OAuth2PasswordRequestForm : Type := {
  form_username : string;
  form_password : string
}.

(** What the environment draws when a user is inserted. *)
Record UserDraw : Type := {
  salt : string;
  new_id : UUID;
  created : Z
}.

(** The readings of a login: [utcnow] inside [create_access_token], the
    second [utcnow] for [expires_at], and the offset of local time. *)
Record LoginClock : Type := {
  issued : Z;
  stamped : Z;
  utc_offset : Z
}.

Definition incorrect_login : exn := http_error 401 "Incorrect email or password".

Section Handlers.
Context `{PasswordHasher} `{Jwt} (cfg : Settings).

(** The token of a login, the same in both login handlers. *)
Definition token_for (user : User.t) (clock : LoginClock) : Token :=
  let access_token_expires := timedelta_minutes (JWT_ACCESS_TOKEN_EXPIRE_MINUTES cfg) in
  let access_token :=
    create_access_token cfg (subject user) (Some access_token_expires) (issued clock) in
  let expires_at :=
    naive_timestamp (utc_offset clock) (stamped clock + access_token_expires) in
  {| access_token := access_token; token_type := "bearer"; expires_at := expires_at |}.

(** [if not user or not verify_password(...)]: 401; then the token. *)
Definition login (form_data : OAuth2PasswordRequestForm) (clock : LoginClock)
  : Eff Db exn Token :=
  (let* db := get in
   match user_crud.get_user_by_email db (form_username form_data) with
   | None => raise incorrect_login
   | Some user =>
       if negb (verify_password (form_password form_data) (User.hashed_password user))
       then raise incorrect_login
       else ret (token_for user clock)
   end)%eff.

End Handlers.

Module auth_routes.
Section Handlers.
Context `{PasswordHasher} `{Jwt} (cfg : Settings).

Definition register_user (user_data : UserCreate) (draw : UserDraw) : Eff Db exn UserSchema.t :=
  (let* db := get in
   match user_crud.get_user_by_email db (uc_email user_data) with
   | Some _ => raise (http_error 400 "Email already registered")
   | None =>
       try_except
         (let* db_user :=
            user_crud.create_user user_data (salt draw) (new_id draw) (created draw) in
          ret (user_out db_user))
         (fun e => raise (http_error 500 ("Error registering user: " ++ exn_str e)))
   end)%eff.

Definition login_for_access_token (form_data : OAuth2PasswordRequestForm) (clock : LoginClock)
  : Eff Db exn Token :=
  login cfg form_data clock.

Definition read_users_me (current_user : UserSchema.t) : Eff Db exn UserSchema.t :=
  ret current_user.

End Handlers.
End auth_routes.

Module auth_endpoints.
Section Handlers.
Context `{PasswordHasher} `{Jwt} (cfg : Settings).

Definition register (user : UserCreate) (draw : UserDraw) (clock : LoginClock)
  : Eff Db exn Token :=
  (let* db := get in
   match user_crud.get_user_by_email db (uc_email user) with
   | Some _ => raise (http_error 409 "Email already registered")
   | None =>
       let* db_user :=
         user_crud.create_user
           {| uc_email := uc_email user; uc_username := uc_username user;
              uc_password := uc_password user |}
           (salt draw) (new_id draw) (created draw) in
       ret (token_for cfg db_user clock)
   end)%eff.

Definition login_for_access_token (form_data : OAuth2PasswordRequestForm) (clock : LoginClock)
  : Eff Db exn Token :=
  login cfg form_data clock.

End Handlers.
End auth_endpoints.

Module users_endpoints.
Section Handlers.
Context `{PasswordHasher}.

Definition user_not_found {A} : Eff Db exn A := raise (http_error 404 "User not found").

(** A row, or 404. *)
Definition found (db_user : option User.t) : Eff Db exn User.t :=
  match db_user with
  | None => user_not_found
  | Some db_user => ret db_user
  end.

Definition create_user (user : UserCreate) (draw : UserDraw) : Eff Db exn User.t :=
  (let* db := get in
   match user_crud.get_user_by_email db (uc_email user) with
   | Some _ => raise (http_error 400 "Email already registered")
   | None =>
       match user_crud.get_user_by_username db (uc_username user) with
       | Some _ => raise (http_error 400 "Username already taken")
       | None => user_crud.create_user user (salt draw) (new_id draw) (created draw)
       end
   end)%eff.

Definition read_users (skip limit : nat) : Eff Db exn (list User.t) :=
  (let* db := get in ret (user_crud.get_users db skip limit))%eff.

Definition read_user (user_id : string) : Eff Db exn User.t :=
  (let* db := get in found (user_crud.get_user db user_id))%eff.

Definition update_user (user_id : string) (user : UserUpdate) (salt : string) (now : Z)
  : Eff Db exn User.t :=
  (let* db_user := user_crud.update_user user_id user salt now in found db_user)%eff.

Definition delete_user (user_id : string) : Eff Db exn User.t :=
  (let* db_user := user_crud.delete_user user_id in found db_user)%eff.

End Handlers.
End users_endpoints.

(** ** The router mounted under [/api/auth] *)

Inductive auth_request : Type :=
| RegisterUser (user_data : UserCreate) (draw : UserDraw)
| LoginForAccessToken (form_data : OAuth2PasswordRequestForm) (clock : LoginClock)
| ReadUsersMe.

Inductive auth_reply : Type :=
| RUser (user : UserSchema.t)
| RToken (token : Token).

Definition handle_auth `{PasswordHasher} `{Jwt} (cfg : Settings)
    (credentials : result exn UserSchema.t) (req : auth_request) : Eff Db exn auth_reply :=
  match req with
  | RegisterUser user_data draw =>
      (let* u := auth_routes.register_user user_data draw in ret (RUser u))%eff
  | LoginForAccessToken form_data clock =>
      (let* t := auth_routes.login_for_access_token cfg form_data clock in ret (RToken t))%eff
  | ReadUsersMe =>
      depends credentials (fun current_user =>
        let* u := auth_routes.read_users_me current_user in ret (RUser u))%eff
  end.

(** ** The handlers no router includes *)

Inductive endpoint_request : Type :=
| EpRegister (user : UserCreate) (draw : UserDraw) (clock : LoginClock)
| EpLogin (form_data : OAuth2PasswordRequestForm) (clock : LoginClock)
| EpCreateUser (user : UserCreate) (draw : UserDraw)
| EpReadUsers (skip limit : nat)
| EpReadUser (user_id : string)
| EpUpdateUser (user_id : string) (user : UserUpdate) (salt : string) (now : Z)
| EpDeleteUser (user_id : string).

Inductive endpoint_reply : Type :=
| EpToken (token : Token)
| EpUser (user : User.t)
| EpUsers (users : list User.t).

Definition handle_endpoint `{PasswordHasher} `{Jwt} (cfg : Settings) (req : endpoint_request)
  : Eff Db exn endpoint_reply :=
  match req with
  | EpRegister user draw clock =>
      (let* t := auth_endpoints.register cfg user draw clock in ret (EpToken t))%eff
  | EpLogin form_data clock =>
      (let* t := auth_endpoints.login_for_access_token cfg form_data clock in ret (EpToken t))%eff
  | EpCreateUser user draw =>
      (let* u := users_endpoints.create_user user draw in ret (EpUser u))%eff
  | EpReadUsers skip limit =>
      (let* l := users_endpoints.read_users skip limit in ret (EpUsers l))%eff
  | EpReadUser user_id =>
      (let* u := users_endpoints.read_user user_id in ret (EpUser u))%eff
  | EpUpdateUser user_id user salt now =>
      (let* u := users_endpoints.update_user user_id user salt now in ret (EpUser u))%eff
  | EpDeleteUser user_id =>
      (let* u := users_endpoints.delete_user user_id in ret (EpUser u))%eff
  end.

(** ** Tactics of this file *)

Ltac auth_routes_unfold :=
  unfold auth_routes.register_user, auth_routes.login_for_access_token,
    auth_routes.read_users_me, auth_endpoints.register, auth_endpoints.login_for_access_token,
    users_endpoints.create_user, users_endpoints.read_users, users_endpoints.read_user,
    users_endpoints.update_user, users_endpoints.delete_user, users_endpoints.found,
    users_endpoints.user_not_found, login, handle_auth, handle_endpoint, depends in *.

(** ** Login *)

Section Login.
Context `{PasswordHasher} `{Jwt} (cfg : Settings).

Abbreviation lifetime := (timedelta_minutes (JWT_ACCESS_TOKEN_EXPIRE_MINUTES cfg)).

Lemma login_snd form_data clock db : snd (login cfg form_data clock db) = db.
Proof.
  unfold login; eff_simpl. destruct (user_crud.get_user_by_email _ _); [|reflexivity].
  now destruct (verify_password _ _).
Qed.

Lemma login_ok form_data clock db user :
  user_crud.get_user_by_email db (form_username form_data) = Some user ->
  verify_password (form_password form_data) (User.hashed_password user) = true ->
  login cfg form_data clock db = (Ok (token_for cfg user clock), db).
Proof. unfold login; eff_simpl. now intros -> ->. Qed.

(** The lifetime the login handlers pass is the default one. *)
Lemma expire_at_lifetime t : expire_at cfg (Some lifetime) t = t + lifetime.
Proof. unfold expire_at. now destruct (lifetime =? 0). Qed.

(** A login with an e-mail address that is not registered and a login
    with a wrong password get the same answer, 401 with the same detail,
    and neither changes the database. *)
Theorem login_rejects_uniformly form_data clock db :
  (user_crud.get_user_by_email db (form_username form_data) = None \/
   exists user,
     user_crud.get_user_by_email db (form_username form_data) = Some user /\
     verify_password (form_password form_data) (User.hashed_password user) = false) ->
  auth_routes.login_for_access_token cfg form_data clock db = (Err incorrect_login, db).
Proof.
  unfold auth_routes.login_for_access_token, login; eff_simpl.
  intros [-> | (user & -> & ->)]; reflexivity.
Qed.

(** C38. The [expires_at] a login reports is computed from a naive UTC
    time read as local time: when the server's local time is [k] whole
    seconds ahead of UTC, it is [k] seconds before the [exp] claim of the
    token it comes with.  The two agree only on a server whose local time
    is UTC. *)
Theorem expires_at_off_by_utc_offset user clock k :
  stamped clock = issued clock ->
  utc_offset clock = k * TICKS_PER_SECOND ->
  0 <= issued clock + lifetime - utc_offset clock ->
  expires_at (token_for cfg user clock)
  = timegm (expire_at cfg (Some lifetime) (issued clock)) - k.
Proof.
  intros Hs Hk Hpos. unfold token_for; cbn [expires_at]. rewrite expire_at_lifetime, Hs.
  unfold naive_timestamp, py_int, timegm. rewrite Z.quot_div_nonneg by (unfold TICKS_PER_SECOND; lia).
  rewrite Hk. replace (issued clock + lifetime - k * TICKS_PER_SECOND)
    with (issued clock + lifetime + (- k) * TICKS_PER_SECOND) by lia.
  rewrite Z.div_add by (unfold TICKS_PER_SECOND; lia). lia.
Qed.

End Login.

(** ** Registration *)

Section Registration.
Context `{PasswordHasher} `{Jwt} (cfg : Settings).

Abbreviation lifetime := (timedelta_minutes (JWT_ACCESS_TOKEN_EXPIRE_MINUTES cfg)).
Abbreviation new_row user_data draw :=
  (user_crud.new_user user_data (salt draw) (new_id draw) (created draw)).
Abbreviation joined db user_data draw := (set_users db (users db ++ [new_row user_data draw])).

Lemma register_user_ok user_data draw db :
  ~ taken user_data (new_id draw) db ->
  auth_routes.register_user user_data draw db
  = (Ok (user_out (new_row user_data draw)), joined db user_data draw).
Proof.
  intros Hn. unfold auth_routes.register_user; eff_simpl.
  rewrite (proj2 (get_user_by_email_None _ _)) by (unfold taken in Hn; tauto).
  now rewrite create_user_ok.
Qed.

(** The row a registration stored is the one its e-mail address finds. *)
Lemma joined_by_email user_data draw db :
  ~ In (uc_email user_data) (emails db) ->
  user_crud.get_user_by_email (joined db user_data draw) (uc_email user_data)
  = Some (new_row user_data draw).
Proof.
  intros Hn. unfold user_crud.get_user_by_email; cbn [users set_users].
  rewrite find_app_r by now apply (find_name_None User.email).
  cbn. unfold user_crud.has_email; cbn. now rewrite String.eqb_refl.
Qed.

(** C18. Register, log in, authenticate: a registration with an id, an
    e-mail address and a user name that are free stores the user and
    answers with the user's public fields; a login with the same e-mail
    address and password then gives a token, and the token authenticates
    as that user at every instant before its expiry. *)
Theorem register_then_login user_data draw clock now db :
  store_ok db -> ~ taken user_data (new_id draw) db ->
  now < timegm (issued clock + lifetime) * TICKS_PER_SECOND ->
  let db1 := joined db user_data draw in
  let form_data :=
    {| form_username := uc_email user_data; form_password := uc_password user_data |} in
  auth_routes.register_user user_data draw db
  = (Ok (user_out (new_row user_data draw)), db1) /\
  auth_routes.login_for_access_token cfg form_data clock db1
  = (Ok (token_for cfg (new_row user_data draw) clock), db1) /\
  current_active_user cfg
    (bearer (access_token (token_for cfg (new_row user_data draw) clock))) now db1
  = Ok (user_out (new_row user_data draw)).
Proof.
  intros Hok Hn Hlt. cbv zeta. split; [now apply register_user_ok|].
  assert (Hok1 : store_ok (joined db user_data draw))
    by (unfold taken in Hn; apply set_users_snoc_ok; cbn; tauto).
  split.
  - apply login_ok; cbn [form_username form_password].
    + apply joined_by_email. unfold taken in Hn. tauto.
    + apply verify_password_hash.
  - unfold token_for; cbn [access_token].
    rewrite issued_token_authenticates; [reflexivity | apply Hok1 | |].
    + cbn [users set_users]. apply in_or_app. right. now left.
    + now rewrite expire_at_lifetime.
Qed.

(** A registration whose e-mail address is free and whose user name
    is taken is refused by the unique constraint, not by a check: the
    mounted route answers 500 with the database's message, the older
    registration lets the error escape, and only the user administration
    answers 400.  The database is as it was. *)
Theorem taken_username_statuses user_data draw clock db :
  ~ In (uc_email user_data) (emails db) ->
  In (uc_username user_data) (usernames db) ->
  (exists detail,
     auth_routes.register_user user_data draw db = (Err (http_error 500 detail), db)) /\
  (exists msg,
     auth_endpoints.register cfg user_data draw clock db = (Err (IntegrityError msg), db)) /\
  users_endpoints.create_user user_data draw db
  = (Err (http_error 400 "Username already taken"), db).
Proof.
  intros He Hu.
  pose proof (proj2 (get_user_by_email_None _ _) He) as Hge.
  destruct (create_user_taken user_data (salt draw) (new_id draw) (created draw) db)
    as [msg Hc]; [unfold taken; tauto|].
  split; [|split].
  - unfold auth_routes.register_user; eff_simpl. rewrite Hge, Hc. eauto.
  - unfold auth_endpoints.register; eff_simpl. rewrite Hge.
    destruct user_data. cbn in *. rewrite Hc. eauto.
  - unfold users_endpoints.create_user; eff_simpl. rewrite Hge.
    destruct (user_crud.get_user_by_username db (uc_username user_data)) eqn:Hgu;
      [reflexivity|]. now apply get_user_by_username_None in Hgu.
Qed.

End Registration.

(** ** The invariant *)

Section Invariant.
Context `{PasswordHasher} `{Jwt} (cfg : Settings).

Lemma found_snd db_user db : snd (users_endpoints.found db_user db) = db.
Proof. now destruct db_user. Qed.

(** One step of showing that a handler keeps [store_ok]. *)
Ltac store_step :=
  first
    [ eff_preserves_step store_ok
    | rewrite login_snd
    | rewrite found_snd
    | apply create_user_store_ok
    | apply update_user_store_ok
    | apply delete_user_store_ok ].

(** Every handler of the authentication router, with any arguments
    and whether it answers or raises, keeps the tables within their
    constraints: primary keys, unique e-mail addresses and user names,
    foreign keys. *)
Theorem handle_auth_preserves_store_ok credentials req db :
  store_ok db -> store_ok (snd (handle_auth cfg credentials req db)).
Proof.
  intros Hok. destruct req, credentials as [current_user|e]; cbn [handle_auth depends];
    unfold auth_routes.register_user, auth_routes.login_for_access_token,
      auth_routes.read_users_me;
    repeat store_step; assumption.
Qed.

(** The same for the handlers no router includes. *)
Lemma handle_endpoint_preserves_store_ok req db :
  store_ok db -> store_ok (snd (handle_endpoint cfg req db)).
Proof.
  intros Hok. destruct req; cbn [handle_endpoint];
    unfold auth_endpoints.register, auth_endpoints.login_for_access_token,
      users_endpoints.create_user, users_endpoints.read_users, users_endpoints.read_user,
      users_endpoints.update_user, users_endpoints.delete_user;
    repeat store_step; assumption.
Qed.

End Invariant.

(** ** Witnesses *)

Section Witnesses.
#[local] Existing Instance reference_hasher.
#[local] Existing Instance reference_jwt.

Definition carol_draw : UserDraw := {| salt := "s3"; new_id := 3; created := 50 |}.

(** Two hours after the epoch, on a server whose local time is one hour
    ahead of UTC. *)
Definition noon : LoginClock :=
  {| issued := 7200000; stamped := 7200000; utc_offset := 3600000 |}.

Definition ann_login (password : string) : OAuth2PasswordRequestForm :=
  {| form_username := "a@example.org"; form_password := password |}.

Lemma login_rejects_uniformly_witness :
  auth_routes.login_for_access_token default_settings (ann_login "wrong") noon demo_db
  = (Err incorrect_login, demo_db).
Proof.
  apply (login_rejects_uniformly default_settings (ann_login "wrong") noon demo_db).
  right. exists ann_row. split; reflexivity.
Defined.

Lemma expires_at_off_by_utc_offset_witness :
  expires_at (token_for default_settings ann_row noon) = 9000 - 3600.
Proof.
  apply (expires_at_off_by_utc_offset default_settings ann_row noon 3600);
    [reflexivity | reflexivity | zcompute].
Defined.

Lemma register_then_login_witness :
  let db1 := set_users demo_db (users demo_db ++ [user_crud.new_user carol "s3" 3 50]) in
  auth_routes.register_user carol carol_draw demo_db
  = (Ok (user_out (user_crud.new_user carol "s3" 3 50)), db1) /\
  auth_routes.login_for_access_token default_settings
    {| form_username := "c@example.org"; form_password := "open sesame" |} noon db1
  = (Ok (token_for default_settings (user_crud.new_user carol "s3" 3 50) noon), db1) /\
  current_active_user default_settings
    (bearer (access_token (token_for default_settings (user_crud.new_user carol "s3" 3 50) noon)))
    1000 db1
  = Ok (user_out (user_crud.new_user carol "s3" 3 50)).
Proof.
  apply (register_then_login default_settings carol carol_draw noon 1000 demo_db);
    [exact demo_store_ok | unfold taken; cbn; intuition discriminate | zcompute].
Defined.

Lemma taken_username_statuses_witness :
  let again := {| uc_email := "ann@example.org"; uc_username := "ann";
                  uc_password := "correct horse" |} in
  (exists detail,
     auth_routes.register_user again carol_draw demo_db = (Err (http_error 500 detail), demo_db)) /\
  (exists msg,
     auth_endpoints.register default_settings again carol_draw noon demo_db
     = (Err (IntegrityError msg), demo_db)) /\
  users_endpoints.create_user again carol_draw demo_db
  = (Err (http_error 400 "Username already taken"), demo_db).
Proof.
  apply (taken_username_statuses default_settings
           {| uc_email := "ann@example.org"; uc_username := "ann";
              uc_password := "correct horse" |} carol_draw noon demo_db);
    [cbn; intuition discriminate | now left].
Defined.

Lemma handle_auth_preserves_store_ok_witness :
  store_ok (snd (handle_auth default_settings (Ok ann) (RegisterUser carol carol_draw) demo_db)).
Proof.
  apply (handle_auth_preserves_store_ok default_settings (Ok ann) (RegisterUser carol carol_draw)).
  exact demo_store_ok.
Defined.

End Witnesses.
