(* ===== verification/ThreadService.v ===== *)
(** * ThreadService: [app/threads/thread_service.py]

    One definition per function, in the module [thread_service].  The
    message dicts the chat route builds are the record [Message].
    [add_messages_to_thread] commits once per inserted row and once more for
    the thread's timestamp, so it is an [Eff] computation: an insert that
    raises leaves the rows inserted before it. *)

From Stdlib Require Import ZArith List Lia String Bool Sorted Permutation.
From S2P Require Import Prelude.
From S2P Require Import Errors.
From S2P Require Import RateLimiter.
From S2P Require Import Models.
From S2P Require Import Crud.
From S2P Require Import Fixtures.
Import ListNotations.

Local Open Scope string_scope.
Local Open Scope Z_scope.
Local Open Scope list_scope.

(** A message dict: ["content"] is always there, the other keys may be
    missing ([dict.get] then gives [None]). *)
Record Message : Type := {
  msg_role : option string;
  msg_content : string;
  msg_token_count : option Z;
  msg_model : option string
}.

(** An entry of the history handed to the model:
    [{"role": role, "parts": [{"text": content}]}]. *)
Record HistoryItem : Type := {
  h_role : string;
  h_parts : list string
}.

Record ThreadPreview : Type := {
  p_id : UUID;
  p_title : string;
  p_last_message_content : option string;
  p_last_message_timestamp : option Z;
  p_updated_at : option Z
}.

Module thread_service.

Definition create_thread (title : string) (user_id new_id : UUID) (now : Z)
  : Eff Db exn Thread.t :=
  chat_crud.create_thread {| tc_title := title |} user_id new_id now.

Definition get_thread (db : Db) (thread_id : UUID) : option Thread.t :=
  chat_crud.get_thread db thread_id.

Definition get_all_threads (db : Db) (user_id : UUID) : list Thread.t :=
  chat_crud.get_user_threads db user_id.

Definition update_thread (thread_id : UUID) (thread_data : ThreadUpdate) (now : Z)
  : Eff Db exn (option Thread.t) :=
  chat_crud.update_thread thread_id thread_data now.

Definition delete_thread (thread_id : UUID) : Eff Db exn bool :=
  chat_crud.delete_thread thread_id.

(** The CRUD function's defaults: [skip=0], [limit=100]. *)
Definition get_thread_messages (db : Db) (thread_id : UUID) : list Conversation.t :=
  chat_crud.get_thread_conversations db thread_id 0 100.

(** [SUM(token_count)] over the rows whose count is not null: null when
    there is no such row. *)
Definition sum_token_count (rows : list Conversation.t) : option Z :=
  match filter (fun c => match Conversation.token_count c with Some _ => true | None => false end) rows with
  | [] => None
  | counted => Some (sumZ (fun c => match Conversation.token_count c with Some n => n | None => 0 end) counted)
  end.

Definition get_thread_token_count (db : Db) (thread_id : UUID) : Z :=
  py_or (sum_token_count (thread_rows db thread_id)) 0.

Definition history_item (row : Conversation.t) : HistoryItem :=
  {| h_role := Conversation.role row; h_parts := [Conversation.content row] |}.

Definition get_thread_messages_optimized (db : Db) (thread_id : UUID) : list HistoryItem :=
  map history_item (chat_crud.order_by_created_at (thread_rows db thread_id)).

(** [db.query(Thread).filter(Thread.id == thread_id).update({"updated_at": now})] *)
Definition touch_thread (thread_id : UUID) (now : Z) (db : Db) : Db :=
  set_threads db
    (map (fun th => if chat_crud.has_id thread_id th then Thread.set_updated_at th now else th)
         (threads db)).

Section WithTokenizer.
Context `{Tokenizer}.

Definition user_conversation (thread_id : UUID) (user_message : Message) : ConversationCreate :=
  {| cc_thread_id := thread_id;
     cc_role := "user";
     cc_content := msg_content user_message;
     cc_model := None;
     cc_token_count :=
       Some (py_or (msg_token_count user_message) (count_tokens (msg_content user_message))) |}.

Definition assistant_conversation (thread_id : UUID) (assistant_response : Message)
  : ConversationCreate :=
  {| cc_thread_id := thread_id;
     cc_role := "model";
     cc_content := msg_content assistant_response;
     cc_model := msg_model assistant_response;
     cc_token_count :=
       Some (py_or (msg_token_count assistant_response)
               (count_tokens (msg_content assistant_response))) |}.

(** [ids] are the two identifiers the inserts may draw, [times] the
    timestamps of the two inserts and the reading of [datetime.utcnow()]. *)
Definition add_messages_to_thread (thread_id : UUID)
    (user_message assistant_response : option Message)
    (ids : UUID * UUID) (times : Z * Z * Z) : Eff Db exn bool :=
  let '(id1, id2) := ids in
  let '(t1, t2, t3) := times in
  (let* db := get in
   match get_thread db thread_id with
   | None => ret false
   | Some _ =>
       (match user_message with
        | Some m =>
            let* _ := chat_crud.create_conversation (user_conversation thread_id m) id1 t1 in
            ret tt
        | None => ret tt
        end) ;;;
       (match assistant_response with
        | Some m =>
            let* _ := chat_crud.create_conversation (assistant_conversation thread_id m) id2 t2 in
            ret tt
        | None => ret tt
        end) ;;;
       modify (touch_thread thread_id t3) ;;;
       ret true
   end)%eff.

End WithTokenizer.

(** [.order_by(Conversation.created_at.desc()).first()]: among the rows of
    the latest timestamp, the one inserted last. *)
Definition last_conversation (db : Db) (thread_id : UUID) : option Conversation.t :=
  hd_error (rev (chat_crud.order_by_created_at (thread_rows db thread_id))).

Definition preview_of (db : Db) (thread : Thread.t) : ThreadPreview :=
  let last := last_conversation db (Thread.id thread) in
  {| p_id := Thread.id thread;
     p_title := Thread.title thread;
     p_last_message_content := option_map Conversation.content last;
     p_last_message_timestamp := option_map Conversation.created_at last;
     p_updated_at := Thread.updated_at thread |}.

Definition get_thread_preview (db : Db) (thread_id : UUID) : option ThreadPreview :=
  match get_thread db thread_id with
  | None => None
  | Some thread => Some (preview_of db thread)
  end.

Definition get_all_thread_previews (db : Db) (user_id : UUID) : list ThreadPreview :=
  map (preview_of db) (get_all_threads db user_id).

End thread_service.

(** The stored count of a row, zero when it is null. *)
Definition stored_tokens (c : Conversation.t) : Z :=
  match Conversation.token_count c with Some n => n | None => 0 end.

Import chat_crud.
Import thread_service.

(** ** Tactics of this file *)

Ltac ts_unfold :=
  unfold add_messages_to_thread, thread_service.get_thread in *; eff_simpl.

(** ** Touching a thread *)

Lemma touch_thread_ids thread_id now db :
  thread_ids (touch_thread thread_id now db) = thread_ids db.
Proof.
  unfold touch_thread, thread_ids; cbn. rewrite map_map. apply map_ext.
  intros th. now destruct (has_id thread_id th).
Qed.

Lemma touch_thread_conversations thread_id now db :
  conversations (touch_thread thread_id now db) = conversations db.
Proof. reflexivity. Qed.

Lemma touch_thread_get thread_id now db th :
  chat_crud.get_thread db thread_id = Some th ->
  chat_crud.get_thread (touch_thread thread_id now db) thread_id
  = Some (Thread.set_updated_at th now).
Proof.
  unfold chat_crud.get_thread, touch_thread; cbn.
  induction (threads db) as [|x ts IH]; cbn [map find]; [discriminate|].
  destruct (has_id thread_id x) eqn:Hx.
  - intros Heq. inv Heq. unfold has_id in *. cbn. now rewrite Hx.
  - rewrite Hx. exact IH.
Qed.

Lemma touch_thread_get_other thread_id other now db :
  other <> thread_id ->
  chat_crud.get_thread (touch_thread thread_id now db) other = chat_crud.get_thread db other.
Proof.
  intros Hne. unfold chat_crud.get_thread, touch_thread; cbn.
  induction (threads db) as [|x ts IH]; cbn [map find]; [reflexivity|].
  destruct (has_id thread_id x) eqn:Hx, (has_id other x) eqn:Ho;
    unfold has_id in *; cbn; rewrite ?Ho; auto.
  apply Z.eqb_eq in Hx, Ho. congruence.
Qed.

Lemma touch_thread_db_ok thread_id now db : db_ok db -> db_ok (touch_thread thread_id now db).
Proof.
  intros [Hupk Htpk Hcpk Htfk Hcfk].
  constructor; try assumption.
  - now rewrite touch_thread_ids.
  - intros th Hin. unfold touch_thread in Hin; cbn in Hin.
    apply in_map_iff in Hin as (x & Hx & Hin). apply Htfk in Hin.
    destruct (has_id thread_id x); subst; exact Hin.
  - intros c Hc. rewrite touch_thread_ids. now apply Hcfk.
Qed.

(** ** Token sums *)

(** [SUM(...) or 0] is the sum of the stored counts. *)
Lemma sum_token_count_or rows : py_or (sum_token_count rows) 0 = sumZ stored_tokens rows.
Proof.
  unfold sum_token_count.
  set (p := fun c => match Conversation.token_count c with Some _ => true | None => false end).
  assert (Hs : sumZ stored_tokens (filter p rows) = sumZ stored_tokens rows).
  { induction rows as [|c rows IH]; [reflexivity|]. cbn [filter]. unfold p at 1, stored_tokens at 2.
    rewrite sumZ_cons. destruct (Conversation.token_count c) eqn:Hc.
    - rewrite sumZ_cons, IH. unfold stored_tokens at 1. now rewrite Hc.
    - rewrite IH. reflexivity. }
  destruct (filter p rows) as [|c cs] eqn:Hf.
  - now rewrite <- Hs.
  - rewrite <- Hs. fold stored_tokens. unfold py_or.
    now destruct (Z.eqb_spec (sumZ stored_tokens (c :: cs)) 0) as [->|].
Qed.

Lemma get_thread_token_count_sum db thread_id :
  get_thread_token_count db thread_id = sumZ stored_tokens (thread_rows db thread_id).
Proof. apply sum_token_count_or. Qed.

Lemma sum_token_count_nil : sum_token_count [] = None.
Proof. reflexivity. Qed.

Lemma get_thread_token_count_empty db thread_id :
  thread_rows db thread_id = [] -> get_thread_token_count db thread_id = 0.
Proof. unfold get_thread_token_count. now intros ->. Qed.

(** ** Reads *)

Lemma get_thread_messages_limit db thread_id :
  (List.length (get_thread_messages db thread_id) <= 100)%nat.
Proof. apply get_thread_conversations_length. Qed.

Lemma get_thread_messages_optimized_length db thread_id :
  List.length (get_thread_messages_optimized db thread_id)
  = List.length (thread_rows db thread_id).
Proof.
  unfold get_thread_messages_optimized. rewrite length_map.
  apply Permutation_length, order_by_created_at_perm.
Qed.

Lemma get_thread_messages_optimized_chrono db thread_id :
  chrono (conversations db) ->
  get_thread_messages_optimized db thread_id = map history_item (thread_rows db thread_id).
Proof.
  intros Hc. unfold get_thread_messages_optimized.
  now rewrite order_by_created_at_id by now apply chrono_filter.
Qed.

Section AddMessages.
Context `{Tokenizer}.

(** *** The three shapes of a successful call *)

Lemma add_messages_user thread_id m a id1 id2 t1 t2 t3 db th :
  chat_crud.get_thread db thread_id = Some th ->
  ~ In id1 (conversation_ids db) ->
  add_messages_to_thread thread_id (Some m) a (id1, id2) (t1, t2, t3) db
  = add_messages_to_thread thread_id None a (id1, id2) (t1, t2, t3)
      (set_conversations db
         (conversations db ++ [new_conversation (user_conversation thread_id m) id1 t1])).
Proof.
  intros Hg Hid. ts_unfold. rewrite Hg.
  rewrite create_conversation_spec;
    [| assumption | cbn; apply mem_In, get_thread_mem; eauto].
  rewrite get_thread_set_conversations, Hg. reflexivity.
Qed.

Lemma add_messages_assistant thread_id m id1 id2 t1 t2 t3 db th :
  chat_crud.get_thread db thread_id = Some th ->
  ~ In id2 (conversation_ids db) ->
  add_messages_to_thread thread_id None (Some m) (id1, id2) (t1, t2, t3) db
  = (Ok true,
     touch_thread thread_id t3
       (set_conversations db
          (conversations db ++ [new_conversation (assistant_conversation thread_id m) id2 t2]))).
Proof.
  intros Hg Hid. ts_unfold. rewrite Hg.
  rewrite create_conversation_spec;
    [reflexivity | assumption | cbn; apply mem_In, get_thread_mem; eauto].
Qed.

Lemma add_messages_none thread_id id1 id2 t1 t2 t3 db th :
  chat_crud.get_thread db thread_id = Some th ->
  add_messages_to_thread thread_id None None (id1, id2) (t1, t2, t3) db
  = (Ok true, touch_thread thread_id t3 db).
Proof. intros Hg. ts_unfold. now rewrite Hg. Qed.

(** *** Well-formedness, whichever inserts succeed *)

Lemma add_messages_db_ok thread_id u a ids times db :
  db_ok db -> db_ok (snd (add_messages_to_thread thread_id u a ids times db)).
Proof.
  intros Hok. destruct ids as [id1 id2], times as [[t1 t2] t3].
  unfold add_messages_to_thread, thread_service.get_thread.
  apply bind_preserves; [exact Hok | intros d0 d Hd].
  destruct (chat_crud.get_thread d0 thread_id) as [th|]; [|exact Hd].
  destruct u as [m|], a as [m'|];
    repeat (apply bind_preserves; [| intros ? ? ?]);
    cbn [modify ret snd]; auto using create_conversation_db_ok, touch_thread_db_ok.
Qed.

Lemma add_messages_users thread_id u a ids times db :
  users (snd (add_messages_to_thread thread_id u a ids times db)) = users db.
Proof.
  destruct ids as [id1 id2], times as [[t1 t2] t3].
  unfold add_messages_to_thread, thread_service.get_thread.
  apply (bind_preserves (fun d => users d = users db)); [reflexivity | intros d0 d Hd].
  destruct (chat_crud.get_thread d0 thread_id) as [th|]; [|exact Hd].
  destruct u as [m|], a as [m'|];
    repeat (apply (bind_preserves (fun d => users d = users db)); [| intros ? ? ?]);
    cbn [modify ret snd]; autorewrite with gchat_rw; assumption.
Qed.

End AddMessages.

(** ** Writes of the service layer *)

Inductive write : Type :=
| WCreateThread (title : string) (user_id new_id : UUID) (now : Z)
| WUpdateThread (thread_id : UUID) (thread_data : ThreadUpdate) (now : Z)
| WDeleteThread (thread_id : UUID)
| WAddMessages (thread_id : UUID) (user_message assistant_response : option Message)
    (ids : UUID * UUID) (times : Z * Z * Z).

Definition apply_write `{Tokenizer} (w : write) (db : Db) : Db :=
  match w with
  | WCreateThread title user_id new_id now =>
      snd (thread_service.create_thread title user_id new_id now db)
  | WUpdateThread thread_id thread_data now =>
      snd (thread_service.update_thread thread_id thread_data now db)
  | WDeleteThread thread_id => snd (thread_service.delete_thread thread_id db)
  | WAddMessages thread_id u a ids times =>
      snd (add_messages_to_thread thread_id u a ids times db)
  end.

Section Main.
Context `{Tokenizer}.

(** [add_messages_to_thread] on a thread that does not exist returns
    [False] and leaves every table as it was: no row is inserted, no
    timestamp moves. *)
Theorem add_messages_missing_thread thread_id u a ids times db :
  chat_crud.get_thread db thread_id = None ->
  add_messages_to_thread thread_id u a ids times db = (Ok false, db).
Proof.
  intros Hg. destruct ids as [id1 id2], times as [[t1 t2] t3]. ts_unfold. now rewrite Hg.
Qed.

(** On an existing thread, with identifiers the table does not hold,
    [add_messages_to_thread] given both messages returns [True], appends
    the user row and then the model row to the conversations (role
    ["user"] with no model, role ["model"] with the response's model, token
    counts from the dict or else from [count_tokens]), and sets the
    thread's [updated_at] to the third clock reading. *)
Theorem add_messages_appends thread_id u a id1 id2 t1 t2 t3 db th :
  chat_crud.get_thread db thread_id = Some th ->
  ~ In id1 (conversation_ids db) -> ~ In id2 (conversation_ids db) -> id1 <> id2 ->
  let (r, db') :=
    add_messages_to_thread thread_id (Some u) (Some a) (id1, id2) (t1, t2, t3) db in
  r = Ok true /\
  conversations db' =
    conversations db ++
      [new_conversation (user_conversation thread_id u) id1 t1;
       new_conversation (assistant_conversation thread_id a) id2 t2] /\
  chat_crud.get_thread db' thread_id = Some (Thread.set_updated_at th t3) /\
  users db' = users db /\ thread_ids db' = thread_ids db.
Proof.
  intros Hg H1 H2 Hne.
  rewrite (@add_messages_user _ thread_id u (Some a) id1 id2 t1 t2 t3 db th Hg H1).
  rewrite (@add_messages_assistant _ thread_id a id1 id2 t1 t2 t3 _ th); [| exact Hg |].
  - repeat split.
    + rewrite touch_thread_conversations; cbn. now rewrite <- app_assoc.
    + now apply touch_thread_get.
    + now rewrite touch_thread_ids.
  - unfold conversation_ids; cbn. rewrite map_app, in_app_iff. cbn. intuition.
Qed.

(** C23. Every write of the service layer, with any arguments and whether
    it succeeds or raises, takes a well-formed database (unique primary
    keys, every thread owned by a user, every conversation in a thread) to
    a well-formed database. *)
Theorem writes_preserve_db_ok w db : db_ok db -> db_ok (apply_write w db).
Proof.
  intros Hok. destruct w as [title uid nid now|tid data now|tid|tid u a ids times];
    cbn [apply_write].
  - now apply create_thread_db_ok.
  - now apply update_thread_db_ok.
  - now apply delete_thread_db_ok.
  - now apply add_messages_db_ok.
Qed.

(** Deleting a thread removes the thread and every conversation that
    belongs to it, and leaves every other thread and its conversations, in
    their order, untouched. *)
Theorem delete_thread_cascades thread_id other db :
  db_ok db -> other <> thread_id ->
  let db' := snd (thread_service.delete_thread thread_id db) in
  thread_service.get_thread db' thread_id = None /\
  thread_rows db' thread_id = [] /\
  thread_service.get_thread db' other = thread_service.get_thread db other /\
  thread_rows db' other = thread_rows db other.
Proof.
  intros Hok Hne. cbv zeta.
  destruct (delete_thread_gone thread_id db Hok) as [Hg Hr].
  destruct (delete_thread_frame thread_id other db Hne) as [Hg' Hr'].
  unfold thread_service.delete_thread, thread_service.get_thread. auto.
Qed.

End Main.

(** ** Witnesses *)

Definition demo_message (s : string) : Message :=
  {| msg_role := None; msg_content := s; msg_token_count := None; msg_model := Some "gemini-2.0-flash" |}.

Lemma add_messages_missing_thread_witness :
  @add_messages_to_thread failing_tokenizer 99 (Some (demo_message "q")) None
    (30, 31) (200, 201, 202) demo_db
  = (Ok false, demo_db).
Proof. apply (@add_messages_missing_thread failing_tokenizer). reflexivity. Defined.

Lemma add_messages_appends_witness :
  let (r, db') :=
    @add_messages_to_thread char_tokenizer 10 (Some (demo_message "hi")) (Some (demo_message "hello!"))
      (30, 31) (200, 201, 202) demo_db in
  r = Ok true /\
  conversations db' =
    conversations demo_db ++
      [chat_crud.new_conversation (@user_conversation char_tokenizer 10 (demo_message "hi")) 30 200;
       chat_crud.new_conversation (@assistant_conversation char_tokenizer 10 (demo_message "hello!")) 31 201] /\
  chat_crud.get_thread db' 10
  = Some (Thread.set_updated_at (chat_crud.new_thread {| tc_title := "first" |} 1 10 100) 202) /\
  users db' = users demo_db /\ thread_ids db' = thread_ids demo_db.
Proof.
  apply (@add_messages_appends char_tokenizer 10 (demo_message "hi") (demo_message "hello!")
           30 31 200 201 202 demo_db);
    [reflexivity | cbn; intuition discriminate | cbn; intuition discriminate | discriminate].
Defined.

Lemma writes_preserve_db_ok_witness :
  db_ok (@apply_write failing_tokenizer
           (WAddMessages 10 (Some (demo_message "q")) (Some (demo_message "a")) (30, 30) (1, 2, 3))
           demo_db).
Proof. apply (@writes_preserve_db_ok failing_tokenizer). exact demo_db_ok. Defined.

Lemma delete_thread_cascades_witness :
  let db' := snd (thread_service.delete_thread 10 demo_db) in
  thread_service.get_thread db' 10 = None /\
  thread_rows db' 10 = [] /\
  thread_service.get_thread db' 11 = thread_service.get_thread demo_db 11 /\
  thread_rows db' 11 = thread_rows demo_db 11.
Proof. apply (delete_thread_cascades 10 11 demo_db); [exact demo_db_ok | discriminate]. Defined.
