(* ===== verification/ChatService.v ===== *)
(** * ChatService: [app/chat/chat_service.py]

    [stream_response] is an async generator: it pulls fragments from the
    model's stream, charges each one to the throttle, yields it as a
    server-sent event, and when the stream is exhausted writes the assembled
    reply to the thread and yields the terminal marker.

    The model's stream is a list of [upstream] items: a chunk (whose [text]
    may be missing or empty) together with the clock reading the throttle
    takes for it, or the exception the iterator raises at that point.  The
    state the generator acts on is the [World] of [State].

    The generator is given twice.
    - [stream_response] is the whole run, for a consumer that pulls until
      the generator returns: the events in order and the final world.
    - [step] is the generator as a machine, one rule per path between two
      suspension points; its executions are [run].  A consumer that goes
      away leaves the machine suspended in the configuration it had
      reached, so what holds of every reachable configuration holds of every
      cancelled run. *)

From Stdlib Require Import ZArith List Lia String Bool.
From S2P Require Import Prelude.
From S2P Require Import Settings.
From S2P Require Import Errors.
From S2P Require Import RateLimiter.
From S2P Require Import Models.
From S2P Require Import State.
From S2P Require Import Crud.
From S2P Require Import Fixtures.
From S2P Require Import ThreadService.
Import ListNotations.

Local Open Scope string_scope.
Local Open Scope Z_scope.
Local Open Scope list_scope.

(** ** Data *)

Inductive upstream : Type :=
| Chunk (text : option string) (now : Z)
| Fail (e : exn).

(** What the generator yields, before framing. *)
Inductive event : Type :=
| Content (content : string)
| Done.

Definition truncation_notice : string :=
  "⚠️ Token rate limit exceeded. Response truncated.".

Definition error_notice (e : exn) : string := ("⚠️ Error: " ++ exn_str e)%string.

(** [hasattr(chunk, "text") and chunk.text] *)
Definition chunk_text (text : option string) : option string :=
  match text with
  | Some s => if py_truthy s then Some s else None
  | None => None
  end.

(** The identifier and the clock readings the final write draws. *)
Record Draw : Type := {
  draw_ids : UUID * UUID;
  draw_times : Z * Z * Z
}.

(** What [process_chat_request] returns: the streaming response with the
    events its body yields, or the dict of the [except] clause. *)
Inductive chat_reply : Type :=
| StreamingResponse (body : list event)
| ErrorDict (role content : string).

(** [SUM(token_count)] of a thread, [0] when there is nothing to sum. *)
Definition get_total_tokens_from_db (d : Db) (thread_id : UUID) : Z :=
  py_or (thread_service.sum_token_count (thread_rows d thread_id)) 0.

(** The configurations of the generator between two resumptions. *)
Inductive gen : Type :=
| Loop (accumulated_text : string) (response : list upstream)
| Truncated
| Failed
| Finished.

Section WithContext.
Context (cfg : Settings) `{Tokenizer}.
Context (thread_id : UUID) (model : string) (draw : Draw).

Definition assistant_message (accumulated_text : string) : Message :=
  {| msg_role := Some "model";
     msg_content := accumulated_text;
     msg_token_count := Some (count_tokens accumulated_text);
     msg_model := Some model |}.

(** The statements after the loop: store the reply. *)
Definition persist (accumulated_text : string) : Eff Db exn bool :=
  thread_service.add_messages_to_thread thread_id None
    (Some (assistant_message accumulated_text)) (draw_ids draw) (draw_times draw).

(** ** The whole run *)

Fixpoint stream_loop (accumulated_text : string) (response : list upstream) (w : World)
  : list event * World :=
  match response with
  | [] =>
      match persist accumulated_text (db w) with
      | (Ok _, d) => ([Done], set_db w d)
      | (Err e, d) => ([Content (error_notice e); Done], set_db w d)
      end
  | Fail e :: _ => ([Content (error_notice e); Done], w)
  | Chunk text now :: rest =>
      match chunk_text text with
      | None => stream_loop accumulated_text rest w
      | Some new_text =>
          let accumulated_text := (accumulated_text ++ new_text)%string in
          let chunk_tokens := count_tokens new_text in
          let (ok, u) := check_token_rate_limit cfg now chunk_tokens (usage w) in
          if ok
          then let (evs, w') := stream_loop accumulated_text rest (set_usage w u) in
               (Content new_text :: evs, w')
          else ([Content truncation_notice; Done], set_usage w u)
      end
  end.

Definition stream_response (response : list upstream) (w : World) : list event * World :=
  stream_loop "" response w.

(** [chat] is what creating the client and the chat session gave: the
    stream the session will produce, or the exception raised. *)
Definition process_chat_request (chat : result exn (list upstream)) (w : World)
  : chat_reply * World :=
  match chat with
  | Ok response =>
      let (body, w') := stream_response response w in (StreamingResponse body, w')
  | Err e =>
      (ErrorDict "model" ("⚠️ Error processing request: " ++ exn_str e)%string, w)
  end.

(** What a suspended generator still does when it is pulled to the end. *)
Definition complete (c : gen * World) : list event * World :=
  match c with
  | (Loop accumulated_text response, w) => stream_loop accumulated_text response w
  | (Truncated, w) => ([Done], w)
  | (Failed, w) => ([Done], w)
  | (Finished, w) => ([], w)
  end.

(** The resumptions a suspended generator has left, at most. *)
Definition steps_left (g : gen) : nat :=
  match g with
  | Loop _ response => List.length response + 2
  | Truncated | Failed => 1
  | Finished => 0
  end.

(** ** The generator as a machine *)

Inductive step : gen * World -> option event -> gen * World -> Prop :=
| step_skip acc text now rest w :
    chunk_text text = None ->
    step (Loop acc (Chunk text now :: rest), w) None (Loop acc rest, w)
| step_forward acc text new_text now rest w u :
    chunk_text text = Some new_text ->
    check_token_rate_limit cfg now (count_tokens new_text) (usage w) = (true, u) ->
    step (Loop acc (Chunk text now :: rest), w)
         (Some (Content new_text))
         (Loop (acc ++ new_text)%string rest, set_usage w u)
| step_truncate acc text new_text now rest w u :
    chunk_text text = Some new_text ->
    check_token_rate_limit cfg now (count_tokens new_text) (usage w) = (false, u) ->
    step (Loop acc (Chunk text now :: rest), w)
         (Some (Content truncation_notice))
         (Truncated, set_usage w u)
| step_truncated_done w :
    step (Truncated, w) (Some Done) (Finished, w)
| step_fail acc e rest w :
    step (Loop acc (Fail e :: rest), w) (Some (Content (error_notice e))) (Failed, w)
| step_failed_done w :
    step (Failed, w) (Some Done) (Finished, w)
| step_persist acc w r d :
    persist acc (db w) = (Ok r, d) ->
    step (Loop acc [], w) (Some Done) (Finished, set_db w d)
| step_persist_raise acc w e d :
    persist acc (db w) = (Err e, d) ->
    step (Loop acc [], w) (Some (Content (error_notice e))) (Failed, set_db w d).

Definition run : gen * World -> list event -> gen * World -> Prop := lstar step.

End WithContext.

(** ** Observations on a stream *)

(** The fragments a stream carries, up to its first failure. *)
Fixpoint fragments (response : list upstream) : list string :=
  match response with
  | [] => []
  | Fail _ :: _ => []
  | Chunk text _ :: rest =>
      match chunk_text text with
      | Some s => s :: fragments rest
      | None => fragments rest
      end
  end.

Definition is_chunk (i : upstream) : bool :=
  match i with Chunk _ _ => true | Fail _ => false end.

(** The calls of [check_token_rate_limit] a stream gives rise to when none
    is rejected. *)
Fixpoint token_calls `{Tokenizer} (response : list upstream) : list op :=
  match response with
  | [] => []
  | Fail _ :: _ => []
  | Chunk text now :: rest =>
      match chunk_text text with
      | Some s => OpTokens now (count_tokens s) :: token_calls rest
      | None => token_calls rest
      end
  end.

(** The fragments put end to end. *)
Definition join (l : list string) : string := fold_right String.append "" l.

Definition is_done (e : event) : bool :=
  match e with Done => true | Content _ => false end.

(** The row the final write inserts for a reply. *)
Definition model_row `{Tokenizer} (thread_id : UUID) (model : string) (draw : Draw)
    (reply : string) : Conversation.t :=
  {| Conversation.id := snd (draw_ids draw);
     Conversation.thread_id := thread_id;
     Conversation.role := "model";
     Conversation.content := reply;
     Conversation.created_at := snd (fst (draw_times draw));
     Conversation.model := Some model;
     Conversation.token_count := Some (count_tokens reply) |}.

(** The world after the fragments of [pre] have all been admitted. *)
Definition charge `{Tokenizer} (w : World) (pre : list upstream) : World :=
  set_usage w
    (set_tokens_used (usage w) (tokens_used (usage w) + requested (token_calls pre))).

(** ** Tactics of this file *)

Ltac cs_simpl :=
  cbn [fst snd usage db set_usage set_db stream_loop fragments token_calls map app] in *.

(** ** The final write *)

Section Persist.
Context `{Tokenizer} (thread_id : UUID) (model : string) (draw : Draw).

Lemma persist_missing acc d :
  chat_crud.get_thread d thread_id = None ->
  persist thread_id model draw acc d = (Ok false, d).
Proof.
  intros Hg. unfold persist. destruct (draw_ids draw), (draw_times draw) as [[t1 t2] t3].
  ts_unfold. now rewrite Hg.
Qed.

Lemma persist_ok acc d th :
  chat_crud.get_thread d thread_id = Some th ->
  ~ In (snd (draw_ids draw)) (conversation_ids d) ->
  persist thread_id model draw acc d
  = (Ok true,
     thread_service.touch_thread thread_id (snd (draw_times draw))
       (set_conversations d
          (conversations d ++
             [chat_crud.new_conversation
                (thread_service.assistant_conversation thread_id (assistant_message model acc))
                (snd (draw_ids draw)) (snd (fst (draw_times draw)))]))).
Proof.
  intros Hg Hid. unfold persist.
  destruct draw as [[id1 id2] [[t1 t2] t3]]; cbn [draw_ids draw_times fst snd] in *.
  now apply add_messages_assistant with (th := th).
Qed.

(** A final write that raises has written nothing. *)
Lemma persist_err acc d e d' :
  persist thread_id model draw acc d = (Err e, d') -> d' = d.
Proof.
  unfold persist. destruct draw as [[id1 id2] [[t1 t2] t3]]; cbn [draw_ids draw_times].
  unfold thread_service.add_messages_to_thread, thread_service.get_thread; eff_simpl.
  destruct (chat_crud.get_thread d thread_id); [|discriminate].
  destruct (chat_crud.create_conversation _ id2 t2 d) as [[c|e'] d1] eqn:Hc; [discriminate|].
  intros Heq. inv Heq. now apply create_conversation_err in Hc as [-> _].
Qed.

Lemma persist_db_ok acc d :
  db_ok d -> db_ok (snd (persist thread_id model draw acc d)).
Proof. intros Hok. unfold persist. now apply add_messages_db_ok. Qed.

End Persist.

(** ** The machine and the whole run *)

Section Machine.
Context (cfg : Settings) `{Tokenizer}.
Context (thread_id : UUID) (model : string) (draw : Draw).

Abbreviation step := (step cfg thread_id model draw).
Abbreviation run := (run cfg thread_id model draw).
Abbreviation complete := (complete cfg thread_id model draw).
Abbreviation stream_loop := (stream_loop cfg thread_id model draw).

Definition label_events (l : option event) : list event :=
  match l with Some e => [e] | None => [] end.

(** One step of the machine peels its label off what is left of the run. *)
Lemma step_complete c l c' :
  step c l c' ->
  complete c = (label_events l ++ fst (complete c'), snd (complete c')).
Proof.
  destruct 1 as [acc text now rest w Ht|acc text s now rest w u Ht Hc
                |acc text s now rest w u Ht Hc|w|acc e rest w|w
                |acc w r d Hp|acc w e d Hp];
    cbn [complete ChatService.stream_loop label_events app fst snd];
    rewrite ?Ht, ?Hc, ?Hp; try reflexivity.
  - now destruct (stream_loop acc rest w).
  - now destruct (stream_loop (acc ++ s)%string rest (set_usage w u)).
Qed.

Lemma run_complete c evs c' :
  run c evs c' -> complete c = (evs ++ fst (complete c'), snd (complete c')).
Proof.
  induction 1 as [c|c c' c'' ls Hs _ IH|c l c' c'' ls Hs _ IH].
  - now destruct (complete c).
  - rewrite (step_complete _ _ _ Hs), IH. reflexivity.
  - rewrite (step_complete _ _ _ Hs), IH. reflexivity.
Qed.

(** The whole run is an execution of the machine, to [Finished]. *)
Lemma stream_loop_run acc response w :
  run (Loop acc response, w) (fst (stream_loop acc response w))
      (Finished, snd (stream_loop acc response w)).
Proof.
  revert acc w. induction response as [|[text now|e] rest IH]; intros acc w;
    cbn [ChatService.stream_loop].
  - destruct (persist thread_id model draw acc (db w)) as [[r|e] d] eqn:Hp; cbn [fst snd].
    + apply lstar_one_emit. apply step_persist with (r := r). exact Hp.
    + eapply lstar_emit; [eapply step_persist_raise; exact Hp|].
      apply lstar_one_emit, step_failed_done.
  - destruct (chunk_text text) as [s|] eqn:Ht.
    + destruct (check_token_rate_limit cfg now (count_tokens s) (usage w)) as [[] u] eqn:Hc.
      * specialize (IH (acc ++ s)%string (set_usage w u)).
        destruct (stream_loop (acc ++ s)%string rest (set_usage w u)). cbn [fst snd] in *.
        eapply lstar_emit; [eapply step_forward; [exact Ht | exact Hc] | exact IH].
      * cbn [fst snd]. eapply lstar_emit; [eapply step_truncate; [exact Ht | exact Hc]|].
        apply lstar_one_emit, step_truncated_done.
    + eapply lstar_tau; [apply step_skip; exact Ht | apply IH].
  - cbn [fst snd]. eapply lstar_emit; [apply step_fail|].
    apply lstar_one_emit, step_failed_done.
Qed.

Lemma step_deterministic c l1 c1 l2 c2 :
  step c l1 c1 -> step c l2 c2 -> l1 = l2 /\ c1 = c2.
Proof.
  intros H1 H2. inv H1; inv H2; try (split; congruence).
Qed.

Lemma finished_stuck w l c : ~ step (Finished, w) l c.
Proof. intros Hs. inv Hs. Qed.

End Machine.

(** ** Runs without rejection *)

Lemma set_tokens_used_twice u a b : set_tokens_used (set_tokens_used u a) b = set_tokens_used u b.
Proof. reflexivity. Qed.

Lemma set_tokens_used_same u : set_tokens_used u (tokens_used u) = u.
Proof. now destruct u. Qed.

Lemma charge_nil `{Tokenizer} w : charge w [] = w.
Proof.
  unfold charge, requested. cbn. rewrite Z.add_0_r, set_tokens_used_same. now destruct w.
Qed.

Lemma token_calls_wf `{Tokenizer} response : Forall op_wf (token_calls response).
Proof.
  induction response as [|[text now|e] rest IH]; cbn; try constructor.
  destruct (chunk_text text); [constructor; [apply count_tokens_nonneg|] |]; assumption.
Qed.

Lemma requested_nonneg os : Forall op_wf os -> 0 <= requested os.
Proof.
  unfold requested. intros Hwf. apply sumZ_nonneg.
  eapply Forall_impl; [|exact Hwf]. intros [now n|now|now now']; cbn; lia.
Qed.

Lemma model_row_persisted `{Tokenizer} thread_id model draw reply :
  chat_crud.new_conversation
    (thread_service.assistant_conversation thread_id (assistant_message model reply))
    (snd (draw_ids draw)) (snd (fst (draw_times draw)))
  = model_row thread_id model draw reply.
Proof.
  unfold model_row, chat_crud.new_conversation, thread_service.assistant_conversation; cbn.
  f_equal. unfold py_or. now destruct (Z.eqb_spec (count_tokens reply) 0) as [->|].
Qed.

Section Clean.
Context (cfg : Settings) `{Tokenizer}.
Context (thread_id : UUID) (model : string) (draw : Draw).

Abbreviation stream_loop := (stream_loop cfg thread_id model draw).

(** A prefix of chunks that fits in the budget is forwarded whole and
    charged whole; the loop then goes on with the rest. *)
Lemma stream_loop_prefix acc pre rest w :
  forallb is_chunk pre = true ->
  in_window (usage w) (token_calls pre) ->
  tokens_used (usage w) + requested (token_calls pre) <= TOKENS_PER_MINUTE cfg ->
  stream_loop acc (pre ++ rest) w
  = let (evs, w') := stream_loop (acc ++ join (fragments pre))%string rest (charge w pre) in
    (map Content (fragments pre) ++ evs, w').
Proof.
  revert acc w. induction pre as [|[text now|e] pre IH]; intros acc w Hc Hw Hr;
    cbn [forallb is_chunk andb] in Hc; [| |discriminate].
  - cbn [app fragments map join fold_right]. rewrite append_nil_r, charge_nil.
    now destruct (stream_loop acc rest w).
  - unfold charge in *. cbn [app]. cs_simpl.
    destruct (chunk_text text) as [s|] eqn:Ht; [|now apply IH].
    rewrite requested_cons in *. inv Hw. cbn [op_time] in *.
    pose proof (requested_nonneg _ (token_calls_wf pre)) as Hn.
    rewrite check_token_in_window by (assumption || lia).
    rewrite IH; cs_simpl; cbn [set_tokens_used tokens_used last_reset];
      [| assumption | assumption | lia].
    cbn [join fold_right]. rewrite append_assoc, Z.add_assoc.
    now destruct (stream_loop _ rest _).
Qed.

End Clean.

(** ** The orchestrator's guarantees *)

Section Orchestrator.
Context (cfg : Settings) `{Tokenizer}.
Context (thread_id : UUID) (model : string) (draw : Draw).

Abbreviation stream_response := (stream_response cfg thread_id model draw).
Abbreviation stream_loop := (stream_loop cfg thread_id model draw).
Abbreviation step := (step cfg thread_id model draw).
Abbreviation run := (run cfg thread_id model draw).
Abbreviation complete := (complete cfg thread_id model draw).


Lemma stream_loop_done acc response w :
  exists evs, fst (stream_loop acc response w) = evs ++ [Done] /\ existsb is_done evs = false.
Proof.
  revert acc w. induction response as [|[text now|e] rest IH]; intros acc w; cs_simpl.
  - destruct (persist _ _ _ acc (db w)) as [[r|e] d];
      [now exists [] | now exists [Content (error_notice e)]].
  - destruct (chunk_text text) as [s|]; [|apply IH].
    destruct (check_token_rate_limit cfg now (count_tokens s) (usage w)) as [[] u].
    + destruct (IH (acc ++ s)%string (set_usage w u)) as (evs & Heq & Hd).
      destruct (stream_loop _ rest _) as [evs' w']. cbn [fst] in *. subst evs'.
      now exists (Content s :: evs).
    + now exists [Content truncation_notice].
  - now exists [Content (error_notice e)].
Qed.

(** C22. Whatever the model's stream does (ends, fails, or runs over the
    budget) and whatever the final write does, [stream_response] returns,
    and what it yields is content events followed by exactly one terminal
    marker, the last event. *)
Theorem stream_ends_with_done response w :
  exists evs,
    fst (stream_response response w) = evs ++ [Done] /\ existsb is_done evs = false.
Proof. apply stream_loop_done. Qed.

Lemma step_db c l c' : step c l c' -> l <> Some Done -> db (snd c') = db (snd c).
Proof.
  destruct 1 as [| | | | | |acc w r d Hp|acc w e d Hp]; intros Hl;
    cbn [snd db set_usage set_db]; try congruence.
  now apply persist_err in Hp.
Qed.

(** C9. A consumer that stops pulling before the terminal marker leaves
    the database as it was: along every execution of the generator that has
    not yet yielded [Done], no row has been written. *)
Theorem no_write_before_done c evs c' :
  run c evs c' -> existsb is_done evs = false -> db (snd c') = db (snd c).
Proof.
  induction 1 as [c|c c' c'' ls Hs _ IH|c l c' c'' ls Hs _ IH]; intros Hd.
  - reflexivity.
  - rewrite IH by assumption. now apply (step_db _ _ _ Hs).
  - cbn [existsb] in Hd. apply orb_false_iff in Hd as [Hl Hd].
    rewrite IH by assumption. apply (step_db _ _ _ Hs). intros Heq. inv Heq. discriminate.
Qed.

(** C3. A stream of chunks that fits in the token budget is forwarded
    fragment by fragment, then one model row is appended to the thread,
    whose content is the fragments put end to end, and the thread's
    [updated_at] moves; every fragment has been charged once. *)
Theorem clean_run_persists_once response w th :
  forallb is_chunk response = true ->
  in_window (usage w) (token_calls response) ->
  tokens_used (usage w) + requested (token_calls response) <= TOKENS_PER_MINUTE cfg ->
  chat_crud.get_thread (db w) thread_id = Some th ->
  ~ In (snd (draw_ids draw)) (conversation_ids (db w)) ->
  let (evs, w') := stream_response response w in
  evs = map Content (fragments response) ++ [Done] /\
  conversations (db w')
  = conversations (db w) ++ [model_row thread_id model draw (join (fragments response))] /\
  chat_crud.get_thread (db w') thread_id
  = Some (Thread.set_updated_at th (snd (draw_times draw))) /\
  usage w' = usage (charge w response).
Proof.
  intros Hc Hw Hr Hg Hid. unfold ChatService.stream_response.
  pose proof (stream_loop_prefix cfg thread_id model draw "" response [] w Hc Hw Hr) as Hp.
  rewrite app_nil_r in Hp. rewrite Hp.
  cbn [ChatService.stream_loop append]. unfold charge at 1. cbn [db set_usage].
  rewrite persist_ok with (th := th) by assumption. rewrite model_row_persisted. cbn [set_db db usage].
  repeat split. now apply touch_thread_get.
Qed.

(** C4. When the fragments before a chunk fit in the budget and that
    chunk does not, the fragments before it are forwarded, then the
    truncation notice and the terminal marker; the chunk itself and
    everything after it are never forwarded, the chunk is not charged, and
    nothing is written to the database. *)
Theorem truncation_stops_forwarding pre text now s post w :
  forallb is_chunk pre = true ->
  in_window (usage w) (token_calls pre) ->
  chunk_text text = Some s ->
  now - last_reset (usage w) <= WINDOW ->
  tokens_used (usage w) + requested (token_calls pre) <= TOKENS_PER_MINUTE cfg ->
  tokens_used (usage w) + requested (token_calls pre) + count_tokens s
    > TOKENS_PER_MINUTE cfg ->
  stream_response (pre ++ Chunk text now :: post) w
  = (map Content (fragments pre) ++ [Content truncation_notice; Done], charge w pre).
Proof.
  intros Hc Hw Ht Hn Hr Ho. unfold ChatService.stream_response.
  rewrite stream_loop_prefix by assumption. cbn [ChatService.stream_loop]. rewrite Ht.
  rewrite check_token_over; [now destruct (charge w pre) | exact Hn | exact Ho].
Qed.

(** When the model's stream raises after some chunks that fit in the
    budget, those chunks are forwarded, then one error fragment carrying
    the exception's text and the terminal marker; nothing is written to
    the database. *)
Theorem upstream_failure_reported pre e post w :
  forallb is_chunk pre = true ->
  in_window (usage w) (token_calls pre) ->
  tokens_used (usage w) + requested (token_calls pre) <= TOKENS_PER_MINUTE cfg ->
  stream_response (pre ++ Fail e :: post) w
  = (map Content (fragments pre) ++ [Content (error_notice e); Done], charge w pre).
Proof.
  intros Hc Hw Hr. unfold ChatService.stream_response.
  now rewrite stream_loop_prefix by assumption.
Qed.

Lemma step_world_ok c l c' : step c l c' -> world_ok cfg (snd c) -> world_ok cfg (snd c').
Proof.
  unfold world_ok.
  destruct 1 as [|acc text s now rest w u Ht Hc|acc text s now rest w u Ht Hc| | |
                |acc w r d Hp|acc w e d Hp];
    cbn [snd usage db set_usage set_db]; intros [Hu Hd]; try (split; assumption).
  - split; [|assumption]. change u with (snd (true, u)). rewrite <- Hc.
    apply check_token_ok; solve [apply count_tokens_nonneg | assumption | apply usage_ok_limits in Hu; apply Hu].
  - split; [|assumption]. change u with (snd (false, u)). rewrite <- Hc.
    apply check_token_ok; solve [apply count_tokens_nonneg | assumption | apply usage_ok_limits in Hu; apply Hu].
  - split; [assumption|]. change d with (snd (Ok (E:=exn) r, d)). rewrite <- Hp.
    now apply persist_db_ok.
  - split; [assumption|]. change d with (snd (Err (A:=bool) e, d)). rewrite <- Hp.
    now apply persist_db_ok.
Qed.

(** Along every execution of the generator, complete or cut short,
    the counters stay within the configured limits and the database stays
    well-formed. *)
Theorem stream_preserves_invariants c evs c' :
  run c evs c' -> world_ok cfg (snd c) -> world_ok cfg (snd c').
Proof. intros Hr. exact (lstar_invariant (fun c => world_ok cfg (snd c)) step_world_ok Hr). Qed.

(** *** Progress *)

(** Pulled to the end from any configuration, the generator finishes. *)
Lemma complete_run c : run c (fst (complete c)) (Finished, snd (complete c)).
Proof.
  destruct c as [[acc response| | |] w]; cbn [ChatService.complete fst snd].
  - apply stream_loop_run.
  - apply lstar_one_emit, step_truncated_done.
  - apply lstar_one_emit, step_failed_done.
  - apply lstar_refl.
Qed.

(** Every resumption brings the generator nearer its end: a
    configuration with [n] resumptions left has fewer after a step, so no
    stream, however long, keeps the generator running for ever. *)
Theorem step_decreases c l c' :
  step c l c' -> (steps_left (fst c') < steps_left (fst c))%nat.
Proof. destruct 1; cbn [fst steps_left List.length]; lia. Qed.


(** *** What a whole run keeps *)

(** A relation between worlds that every step of the machine stays in
    holds between a world and the one the whole run leaves. *)
Lemma stream_loop_keeps (R : World -> World -> Prop) acc response w :
  (forall w0, R w0 w0) ->
  (forall w0 w1 w2, R w0 w1 -> R w1 w2 -> R w0 w2) ->
  (forall c l c', step c l c' -> R (snd c) (snd c')) ->
  R w (snd (stream_loop acc response w)).
Proof.
  intros Hrefl Htrans Hstep.
  exact (lstar_related (fun c c' => R (snd c) (snd c'))
           (fun c => Hrefl (snd c)) (fun c1 c2 c3 => Htrans (snd c1) (snd c2) (snd c3)) Hstep
           (stream_loop_run cfg thread_id model draw acc response w)).
Qed.

Lemma stream_loop_world_ok acc response w :
  world_ok cfg w -> world_ok cfg (snd (stream_loop acc response w)).
Proof.
  intros Hw.
  exact (lstar_invariant (fun c => world_ok cfg (snd c)) step_world_ok
           (stream_loop_run cfg thread_id model draw acc response w) Hw).
Qed.

Lemma stream_loop_requests_kept acc response w :
  requests_kept (usage w) (usage (snd (stream_loop acc response w))).
Proof.
  apply (stream_loop_keeps (fun w w' => requests_kept (usage w) (usage w')));
    eauto using requests_kept_refl, requests_kept_trans.
  destruct 1 as [|acc' text s now rest w0 u Ht Hc|acc' text s now rest w0 u Ht Hc| | | | |];
    cbn [snd usage set_usage set_db]; try apply requests_kept_refl.
  - change u with (snd (true, u)). rewrite <- Hc. apply check_token_requests_kept.
  - change u with (snd (false, u)). rewrite <- Hc. apply check_token_requests_kept.
Qed.

Lemma persist_appends acc d :
  exists rest, conversations (snd (persist thread_id model draw acc d)) = conversations d ++ rest.
Proof.
  destruct (chat_crud.get_thread d thread_id) as [th|] eqn:Hg.
  - destruct (persist thread_id model draw acc d) as [[r|e] d'] eqn:Hp.
    + unfold persist in Hp. destruct (draw_ids draw) as [i1 i2], (draw_times draw) as [[t1 t2] t3].
      ts_unfold. rewrite Hg in Hp.
      destruct (chat_crud.create_conversation _ i2 t2 d) as [[c|e] d1] eqn:Hc; inv Hp.
      unfold chat_crud.create_conversation in Hc.
      repeat break_match; inv Hc. now eexists.
    + apply persist_err in Hp as ->. exists []. now rewrite app_nil_r.
  - rewrite persist_missing by exact Hg. exists []. now rewrite app_nil_r.
Qed.

Lemma stream_loop_appends acc response w :
  exists rest,
    conversations (db (snd (stream_loop acc response w))) = conversations (db w) ++ rest.
Proof.
  apply (stream_loop_keeps
           (fun w w' => exists rest, conversations (db w') = conversations (db w) ++ rest)).
  - intros w0. exists []. now rewrite app_nil_r.
  - intros w0 w1 w2 [r1 H1] [r2 H2]. exists (r1 ++ r2). now rewrite H2, H1, app_assoc.
  - destruct 1 as [| | | | | |acc' w0 r d Hp|acc' w0 e d Hp];
      cbn [snd db set_usage set_db];
      try (exists []; now rewrite app_nil_r).
    + change d with (snd (Ok (E:=exn) r, d)). rewrite <- Hp. apply persist_appends.
    + change d with (snd (Err (A:=bool) e, d)). rewrite <- Hp. apply persist_appends.
Qed.

(** A run leaves the users table as it was. *)
Lemma stream_loop_users us acc response w :
  users_are us w -> users_are us (snd (stream_loop acc response w)).
Proof.
  unfold users_are. intros <-.
  apply (stream_loop_keeps (fun w w' => users (db w') = users (db w)));
    [reflexivity | congruence |].
  destruct 1 as [| | | | | |acc' w0 r d Hp|acc' w0 e d Hp];
    cbn [snd db set_usage set_db]; try reflexivity.
  - change d with (snd (Ok (E:=exn) r, d)). rewrite <- Hp. apply add_messages_users.
  - change d with (snd (Err (A:=bool) e, d)). rewrite <- Hp. apply add_messages_users.
Qed.

(** A run on a thread that does not exist writes nothing. *)
Lemma stream_loop_missing_db acc response w :
  chat_crud.get_thread (db w) thread_id = None ->
  db (snd (stream_loop acc response w)) = db w.
Proof.
  apply (stream_loop_keeps
           (fun w w' => chat_crud.get_thread (db w) thread_id = None -> db w' = db w)).
  - reflexivity.
  - intros w0 w1 w2 H1 H2 Hg. rewrite H2, H1; auto. now rewrite H1.
  - destruct 1 as [| | | | | |acc' w0 r d Hp|acc' w0 e d Hp];
      cbn [snd db set_usage set_db]; intros Hg; try reflexivity.
    + rewrite persist_missing in Hp by exact Hg. now inv Hp.
    + now apply persist_err in Hp.
Qed.

(** A reply streamed to a thread that does not exist is forwarded and
    charged like any other, and then dropped: the final write finds no
    thread, reports nothing, and the stream ends with the ordinary terminal
    marker. *)
Theorem reply_to_missing_thread_dropped response w :
  forallb is_chunk response = true ->
  in_window (usage w) (token_calls response) ->
  tokens_used (usage w) + requested (token_calls response) <= TOKENS_PER_MINUTE cfg ->
  chat_crud.get_thread (db w) thread_id = None ->
  stream_response response w
  = (map Content (fragments response) ++ [Done], charge w response).
Proof.
  intros Hc Hw Hr Hg. unfold ChatService.stream_response.
  pose proof (stream_loop_prefix cfg thread_id model draw "" response [] w Hc Hw Hr) as Hp.
  rewrite app_nil_r in Hp. rewrite Hp. cbn [ChatService.stream_loop].
  rewrite persist_missing by exact Hg. now destruct (charge w response).
Qed.

(** A failure to create the client or the session is answered with an
    error dict; nothing is charged and nothing is written. *)
Lemma process_chat_request_error e w :
  process_chat_request cfg thread_id model draw (Err e) w
  = (ErrorDict "model" ("⚠️ Error processing request: " ++ exn_str e)%string, w).
Proof. reflexivity. Qed.

Lemma process_chat_request_stream response w :
  process_chat_request cfg thread_id model draw (Ok response) w
  = (StreamingResponse (fst (stream_response response w)), snd (stream_response response w)).
Proof.
  unfold process_chat_request. now destruct (ChatService.stream_response _ _ _ _ response w).
Qed.

End Orchestrator.

(** The two token sums are the same query. *)
Lemma get_total_tokens_from_db_eq d thread_id :
  get_total_tokens_from_db d thread_id = thread_service.get_thread_token_count d thread_id.
Proof. reflexivity. Qed.

(** ** Witnesses *)

Definition demo_draw : Draw := {| draw_ids := (30, 31); draw_times := (200, 201, 202) |}.

(** The stream ["Hel"; "lo"; " world"], with a chunk that carries no text. *)
Definition hello_stream : list upstream :=
  [Chunk (Some "Hel") 1; Chunk (Some "lo") 2; Chunk None 3; Chunk (Some " world") 4].

Lemma no_write_before_done_witness :
  db (snd (Loop "Hello" [Chunk (Some " world") 4],
           set_usage demo_world {| last_reset := 0; tokens_used := 5; requests_used := 0 |}))
  = db (snd (Loop "" hello_stream, demo_world)).
Proof.
  apply (@no_write_before_done default_settings char_tokenizer 10 "gemini-2.0-flash" demo_draw
           (Loop "" hello_stream, demo_world) [Content "Hel"; Content "lo"]);
    [|reflexivity].
  eapply lstar_emit; [eapply step_forward; reflexivity|].
  eapply lstar_emit; [eapply step_forward; reflexivity|].
  eapply lstar_tau; [eapply step_skip; reflexivity|].
  apply lstar_refl.
Defined.

Lemma clean_run_persists_once_witness :
  let (evs, w') :=
    @ChatService.stream_response default_settings char_tokenizer 10 "gemini-2.0-flash"
      demo_draw hello_stream demo_world in
  evs = [Content "Hel"; Content "lo"; Content " world"; Done] /\
  conversations (db w')
  = conversations demo_db ++
      [ {| Conversation.id := 31; Conversation.thread_id := 10;
           Conversation.role := "model"; Conversation.content := "Hello world";
           Conversation.created_at := 201; Conversation.model := Some "gemini-2.0-flash";
           Conversation.token_count := Some 11 |} ] /\
  chat_crud.get_thread (db w') 10
  = Some (Thread.set_updated_at (chat_crud.new_thread {| tc_title := "first" |} 1 10 100) 202) /\
  usage w' = {| last_reset := 0; tokens_used := 11; requests_used := 0 |}.
Proof.
  apply (@clean_run_persists_once default_settings char_tokenizer 10 "gemini-2.0-flash"
           demo_draw hello_stream demo_world);
    [reflexivity | repeat constructor; zcompute | zcompute | reflexivity
    | cbn; intuition discriminate].
Defined.

Lemma truncation_stops_forwarding_witness :
  @ChatService.stream_response (settings_with_limits 60 5) char_tokenizer 10 "gemini-2.0-flash"
    demo_draw [Chunk (Some "aaaaa") 1; Chunk (Some "bbbbb") 2] demo_world
  = ([Content "aaaaa"; Content truncation_notice; Done],
     {| usage := {| last_reset := 0; tokens_used := 5; requests_used := 0 |};
        db := demo_db |}).
Proof.
  apply (@truncation_stops_forwarding (settings_with_limits 60 5) char_tokenizer 10
           "gemini-2.0-flash" demo_draw [Chunk (Some "aaaaa") 1] (Some "bbbbb") 2 "bbbbb" []
           demo_world);
    [reflexivity | repeat constructor; zcompute | reflexivity | zcompute | zcompute | zcompute].
Defined.

Lemma upstream_failure_reported_witness :
  @ChatService.stream_response default_settings char_tokenizer 10 "gemini-2.0-flash"
    demo_draw [Chunk (Some "Hel") 1; Fail (OtherExn "connection reset"); Chunk (Some "lo") 2]
    demo_world
  = ([Content "Hel"; Content "⚠️ Error: connection reset"; Done],
     {| usage := {| last_reset := 0; tokens_used := 3; requests_used := 0 |};
        db := demo_db |}).
Proof.
  apply (@upstream_failure_reported default_settings char_tokenizer 10 "gemini-2.0-flash"
           demo_draw [Chunk (Some "Hel") 1] (OtherExn "connection reset")
           [Chunk (Some "lo") 2] demo_world);
    [reflexivity | repeat constructor; zcompute | zcompute].
Defined.

Lemma stream_preserves_invariants_witness :
  world_ok default_settings (snd (Loop "Hel" (tl hello_stream),
     set_usage demo_world {| last_reset := 0; tokens_used := 3; requests_used := 0 |})).
Proof.
  apply (@stream_preserves_invariants default_settings char_tokenizer 10 "gemini-2.0-flash"
           demo_draw (Loop "" hello_stream, demo_world) [Content "Hel"]);
    [apply lstar_one_emit; eapply step_forward; reflexivity | exact demo_world_ok].
Defined.

Lemma reply_to_missing_thread_dropped_witness :
  @ChatService.stream_response default_settings char_tokenizer 99 "gemini-2.0-flash"
    demo_draw hello_stream demo_world
  = ([Content "Hel"; Content "lo"; Content " world"; Done],
     {| usage := {| last_reset := 0; tokens_used := 11; requests_used := 0 |};
        db := demo_db |}).
Proof.
  apply (@reply_to_missing_thread_dropped default_settings char_tokenizer 99
           "gemini-2.0-flash" demo_draw hello_stream demo_world);
    [reflexivity | repeat constructor; zcompute | zcompute | reflexivity].
Defined.

Lemma step_decreases_witness :
  (steps_left (fst (Finished, demo_world)) < steps_left (fst (Truncated, demo_world)))%nat.
Proof.
  apply (@step_decreases default_settings char_tokenizer 10 "gemini-2.0-flash" demo_draw
           (Truncated, demo_world) (Some Done) (Finished, demo_world)).
  apply step_truncated_done.
Defined.

(** A stream that fails at once, after its error notice has gone out. *)
Definition failing : gen * World := (Loop "" [Fail (OtherExn "boom")], demo_world).

