(* ===== verification/TokenUtils.v ===== *)
(** * TokenUtils: [app/utils/token_utils.py]

    The token sums over the conversations table and over a list of message
    dicts.  The aggregates are the sums the queries compute; a float
    quotient is the exact rational ([Q]), so the average is stated up to
    [==].  [calculate_input_tokens_for_messages] writes the counts it
    computes back into the dicts of the list it is given: it returns the
    total together with the list after the call. *)

From Stdlib Require Import ZArith QArith List Lia String Bool.
From S2P Require Import Prelude.
From S2P Require Import Errors.
From S2P Require Import RateLimiter.
From S2P Require Import Models.
From S2P Require Import Crud.
From S2P Require Import Fixtures.
From S2P Require Import ThreadService.
From S2P Require Import ChatService.
Import ListNotations.

Local Open Scope string_scope.
Local Open Scope Z_scope.
Local Open Scope list_scope.

Record TokenStats : Type := {
  total_tokens : Z;
  user_tokens : Z;
  assistant_tokens : Z;
  message_count : Z;
  average_tokens_per_message : Q
}.

Module token_utils.

(** [Conversation.id.in_(conversation_ids)] *)
Definition id_in (conversation_ids : list UUID) (c : Conversation.t) : bool :=
  mem (Conversation.id c) conversation_ids.

(** The rows the query of [get_messages_token_count] ranges over: a thread
    id, when given, wins over a list of ids; an empty list is as good as
    none, and then no filter is added. *)
Definition selected_rows (db : Db) (thread_id : option UUID)
    (conversation_ids : option (list UUID)) : list Conversation.t :=
  match thread_id with
  | Some t => thread_rows db t
  | None =>
      match conversation_ids with
      | Some (i :: ids) => filter (id_in (i :: ids)) (conversations db)
      | _ => conversations db
      end
  end.

Definition get_messages_token_count (db : Db) (thread_id : option UUID)
    (conversation_ids : option (list UUID)) : Z :=
  py_or (thread_service.sum_token_count (selected_rows db thread_id conversation_ids)) 0.

(** [msg.get("token_count") or count_tokens(msg["content"])] *)
Definition message_tokens `{Tokenizer} (msg : Message) : Z :=
  py_or (msg_token_count msg) (count_tokens (msg_content msg)).

(** [if msg.get("token_count") is None: msg["token_count"] = ...] *)
Definition cache_tokens `{Tokenizer} (msg : Message) : Message :=
  match msg_token_count msg with
  | None =>
      {| msg_role := msg_role msg; msg_content := msg_content msg;
         msg_token_count := Some (count_tokens (msg_content msg));
         msg_model := msg_model msg |}
  | Some _ => msg
  end.

Definition calculate_input_tokens_for_messages `{Tokenizer} (messages : list Message)
  : Z * list Message :=
  let total_tokens := sumZ message_tokens messages in
  (total_tokens, map cache_tokens messages).

(** [COALESCE(SUM(token_count), 0)] *)
Definition coalesce (a : option Z) (b : Z) : Z :=
  match a with Some v => v | None => b end.

Definition get_thread_total_tokens_optimized (db : Db) (thread_id : UUID) : Z :=
  py_or (Some (coalesce (thread_service.sum_token_count (thread_rows db thread_id)) 0)) 0.

Definition has_role (roles : list string) (c : Conversation.t) : bool :=
  existsb (String.eqb (Conversation.role c)) roles.

Definition get_thread_token_usage_stats (db : Db) (thread_id : UUID) : TokenStats :=
  let rows := thread_rows db thread_id in
  let user_tokens :=
    py_or (thread_service.sum_token_count (filter (has_role ["user"]) rows)) 0 in
  let assistant_tokens :=
    py_or (thread_service.sum_token_count (filter (has_role ["assistant"; "model"]) rows)) 0 in
  let total_tokens := user_tokens + assistant_tokens in
  let message_count := py_or (Some (Z.of_nat (List.length rows))) 0 in
  {| total_tokens := total_tokens;
     user_tokens := user_tokens;
     assistant_tokens := assistant_tokens;
     message_count := message_count;
     average_tokens_per_message :=
       if message_count >? 0 then (inject_Z total_tokens / inject_Z message_count)%Q else 0%Q |}.

End token_utils.

(** A row whose token count, where stored, is not negative. *)
Definition counted_ok (c : Conversation.t) : Prop := 0 <= stored_tokens c.

Import token_utils.

(** ** Shared lemmas *)

Lemma coalesce_or a : py_or (Some (coalesce a 0)) 0 = py_or a 0.
Proof.
  destruct a as [v|]; cbn [coalesce]; [|reflexivity].
  unfold py_or. now destruct (Z.eqb_spec v 0).
Qed.

Lemma sumZ_filter_disjoint {A} (f : A -> Z) (p q : A -> bool) l :
  Forall (fun a => 0 <= f a) l ->
  (forall a, p a && q a = false) ->
  sumZ f (filter p l) + sumZ f (filter q l) <= sumZ f l.
Proof.
  intros Hf Hd. induction Hf as [|a l Ha _ IH]; cbn [filter]; [reflexivity|].
  specialize (Hd a). rewrite sumZ_cons.
  destruct (p a), (q a); try discriminate; rewrite ?sumZ_cons; lia.
Qed.

Lemma sumZ_filter_cover {A} (f : A -> Z) (p q : A -> bool) l :
  (forall a, p a && q a = false) ->
  Forall (fun a => p a || q a = true) l ->
  sumZ f (filter p l) + sumZ f (filter q l) = sumZ f l.
Proof.
  intros Hd Hc. induction Hc as [|a l Ha _ IH]; cbn [filter]; [reflexivity|].
  specialize (Hd a). rewrite sumZ_cons.
  destruct (p a), (q a); try discriminate; rewrite ?sumZ_cons; lia.
Qed.

Lemma roles_disjoint c : has_role ["user"] c && has_role ["assistant"; "model"] c = false.
Proof.
  unfold has_role; cbn [existsb]. rewrite !orb_false_r.
  destruct (String.eqb_spec (Conversation.role c) "user") as [->|]; reflexivity.
Qed.

Section Messages.
Context `{Tokenizer}.

Lemma message_tokens_cached msg : message_tokens (cache_tokens msg) = message_tokens msg.
Proof.
  unfold message_tokens, cache_tokens. destruct (msg_token_count msg) eqn:Hc; cbn.
  - now rewrite Hc.
  - unfold py_or. now destruct (Z.eqb_spec (count_tokens (msg_content msg)) 0) as [->|].
Qed.

Lemma cache_tokens_idem msg : cache_tokens (cache_tokens msg) = cache_tokens msg.
Proof. unfold cache_tokens. destruct (msg_token_count msg) eqn:Hc; cbn; now rewrite ?Hc. Qed.

Lemma cache_tokens_set msg : msg_token_count (cache_tokens msg) <> None.
Proof. unfold cache_tokens. destruct (msg_token_count msg) eqn:Hc; cbn; congruence. Qed.

Lemma cache_tokens_content msg : msg_content (cache_tokens msg) = msg_content msg.
Proof. unfold cache_tokens. now destruct (msg_token_count msg). Qed.

Lemma message_tokens_nonneg msg :
  (forall n, msg_token_count msg = Some n -> 0 <= n) -> 0 <= message_tokens msg.
Proof.
  intros Hn. unfold message_tokens, py_or. pose proof (count_tokens_nonneg (msg_content msg)).
  destruct (msg_token_count msg) as [n|]; [|assumption].
  specialize (Hn n eq_refl). now destruct (Z.eqb_spec n 0).
Qed.

End Messages.

(** ** Main theorems *)

(** The four routines that total the stored token counts of a thread
    ([get_thread_token_count], [get_total_tokens_from_db],
    [get_thread_total_tokens_optimized], and [get_messages_token_count]
    given a thread id, whatever list of ids comes with it) return the same
    number: the sum of the counts that are not null. *)
Theorem token_sums_agree db thread_id conversation_ids :
  get_messages_token_count db (Some thread_id) conversation_ids
  = sumZ stored_tokens (thread_rows db thread_id) /\
  get_thread_total_tokens_optimized db thread_id
  = sumZ stored_tokens (thread_rows db thread_id) /\
  get_total_tokens_from_db db thread_id = sumZ stored_tokens (thread_rows db thread_id) /\
  thread_service.get_thread_token_count db thread_id
  = sumZ stored_tokens (thread_rows db thread_id).
Proof.
  unfold get_messages_token_count, get_thread_total_tokens_optimized,
    get_total_tokens_from_db, thread_service.get_thread_token_count; cbn [selected_rows].
  now rewrite coalesce_or, !sum_token_count_or.
Qed.


(** [calculate_input_tokens_for_messages] returns the sum, over the
    messages, of the stored count or else the computed one, and leaves
    every message with a count; a second call on the list it left returns
    the same total and changes nothing. *)
Theorem calculate_input_tokens_idempotent `{Tokenizer} messages :
  let (total, messages1) := calculate_input_tokens_for_messages messages in
  let (total', messages2) := calculate_input_tokens_for_messages messages1 in
  total = sumZ message_tokens messages /\
  total' = total /\ messages2 = messages1 /\
  Forall (fun msg => msg_token_count msg <> None) messages1 /\
  map msg_content messages1 = map msg_content messages.
Proof.
  unfold calculate_input_tokens_for_messages. split; [reflexivity|].
  induction messages as [|msg messages (Ht & Hm & Hc & Hk)]; cbn [map];
    [repeat split; constructor|].
  rewrite !sumZ_cons, message_tokens_cached, cache_tokens_idem, cache_tokens_content.
  repeat split; try congruence.
  constructor; [apply cache_tokens_set | assumption].
Qed.

Section Stats.
Context (db : Db) (thread_id : UUID).

Abbreviation stats := (get_thread_token_usage_stats db thread_id).
Abbreviation rows := (thread_rows db thread_id).

(** The statistics of a thread: the message count is the number of
    its rows; when no stored count is negative the total of the user and
    model rows is between zero and the thread's token count, and equals it
    when every row has one of the three roles the query names; the average
    times the message count is the total. *)
Theorem usage_stats_consistent :
  Forall counted_ok rows ->
  message_count stats = Z.of_nat (List.length rows) /\
  0 <= total_tokens stats <= thread_service.get_thread_token_count db thread_id /\
  (Forall (fun c => has_role ["user"; "assistant"; "model"] c = true) rows ->
   total_tokens stats = thread_service.get_thread_token_count db thread_id) /\
  (average_tokens_per_message stats * inject_Z (message_count stats)
   == inject_Z (if message_count stats >? 0 then total_tokens stats else 0))%Q.
Proof.
  intros Hok. rewrite get_thread_token_count_sum.
  unfold get_thread_token_usage_stats; cbn [message_count total_tokens average_tokens_per_message].
  rewrite !sum_token_count_or.
  assert (Hn : py_or (Some (Z.of_nat (List.length rows))) 0 = Z.of_nat (List.length rows)).
  { unfold py_or. now destruct (Z.eqb_spec (Z.of_nat (List.length rows)) 0) as [->|]. }
  rewrite Hn. split; [reflexivity|]. split; [|split].
  - split.
    + apply Z.add_nonneg_nonneg; apply sumZ_nonneg, incl_Forall with (2 := Hok), incl_filter.
    + apply sumZ_filter_disjoint; [exact Hok | exact roles_disjoint].
  - intros Hr. apply sumZ_filter_cover; [exact roles_disjoint|].
    eapply Forall_impl; [|exact Hr]. intros c. unfold has_role; cbn [existsb].
    now rewrite !orb_false_r, orb_assoc.
  - destruct (Z.gtb_spec (Z.of_nat (List.length rows)) 0) as [Hpos|Hz].
    + field. intros Hq. unfold Qeq in Hq; cbn in Hq. lia.
    + ring.
Qed.

End Stats.

(** ** The sums and the writes *)

Section Writes.
Context `{Tokenizer}.

Lemma thread_rows_touch thread_id now db other :
  thread_rows (thread_service.touch_thread thread_id now db) other = thread_rows db other.
Proof. reflexivity. Qed.

Lemma thread_rows_snoc db c thread_id :
  Conversation.thread_id c = thread_id ->
  thread_rows (set_conversations db (conversations db ++ [c])) thread_id
  = thread_rows db thread_id ++ [c].
Proof.
  intros Hc. rewrite thread_rows_app. cbn [filter].
  now rewrite (proj2 (of_thread_true thread_id c) Hc).
Qed.

(** Adding a question and its reply to a thread raises the thread's
    token count by the count of each message: the one its dict carries,
    or else the one [count_tokens] gives its content. *)
Theorem add_messages_token_count thread_id u a id1 id2 t1 t2 t3 db th :
  chat_crud.get_thread db thread_id = Some th ->
  ~ In id1 (conversation_ids db) -> ~ In id2 (conversation_ids db) -> id1 <> id2 ->
  thread_service.get_thread_token_count
    (snd (thread_service.add_messages_to_thread thread_id (Some u) (Some a)
            (id1, id2) (t1, t2, t3) db)) thread_id
  = thread_service.get_thread_token_count db thread_id + message_tokens u + message_tokens a.
Proof.
  intros Hg H1 H2 Hne.
  rewrite (add_messages_user thread_id u (Some a) id1 id2 t1 t2 t3 db th Hg H1).
  rewrite (add_messages_assistant thread_id a id1 id2 t1 t2 t3 _ th);
    [| now rewrite get_thread_set_conversations
     | unfold conversation_ids; cbn; rewrite map_app, in_app_iff; cbn; intuition ].
  cbn [snd]. rewrite !get_thread_token_count_sum, thread_rows_touch.
  rewrite !thread_rows_snoc by reflexivity. rewrite !sumZ_app, !sumZ_cons, !sumZ_nil.
  unfold stored_tokens, message_tokens; cbn. lia.
Qed.

End Writes.

(** ** Witnesses *)

Lemma usage_stats_consistent_witness :
  message_count (get_thread_token_usage_stats demo_db 10) = 1 /\
  0 <= total_tokens (get_thread_token_usage_stats demo_db 10)
    <= thread_service.get_thread_token_count demo_db 10 /\
  (Forall (fun c => has_role ["user"; "assistant"; "model"] c = true) (thread_rows demo_db 10) ->
   total_tokens (get_thread_token_usage_stats demo_db 10)
   = thread_service.get_thread_token_count demo_db 10) /\
  (average_tokens_per_message (get_thread_token_usage_stats demo_db 10)
   * inject_Z (message_count (get_thread_token_usage_stats demo_db 10))
   == inject_Z (if message_count (get_thread_token_usage_stats demo_db 10) >? 0
                then total_tokens (get_thread_token_usage_stats demo_db 10) else 0))%Q.
Proof.
  apply (usage_stats_consistent demo_db 10). repeat constructor. unfold counted_ok. cbn. lia.
Defined.

Lemma add_messages_token_count_witness :
  thread_service.get_thread_token_count
    (snd (@thread_service.add_messages_to_thread char_tokenizer 10
            (Some (demo_message "hi")) (Some (demo_message "hello!"))
            (30, 31) (200, 201, 202) demo_db)) 10
  = thread_service.get_thread_token_count demo_db 10 + 2 + 6.
Proof.
  apply (@add_messages_token_count char_tokenizer 10 (demo_message "hi") (demo_message "hello!")
           30 31 200 201 202 demo_db (chat_crud.new_thread {| tc_title := "first" |} 1 10 100));
    [reflexivity | cbn; intuition discriminate | cbn; intuition discriminate | discriminate].
Defined.
