(* ===== verification/Dict.v ===== *)
(** * Dict: a Python [dict] with string keys

    A dict keeps its keys in insertion order: assigning to a key that is
    there updates the value in place, assigning to a new key appends it, and
    [list(d.values())] follows that order.  The model is the association
    list of the items in order, without repeated keys ([dict_ok]).
    [DictSpec] shows that, order apart, it is a finite map. *)

From Stdlib Require Import List String Bool.
From S2P Require Import Prelude.
Import ListNotations.

Local Open Scope string_scope.
Local Open Scope list_scope.

Section Dict.
Context {V : Type}.

Definition dict : Type := list (string * V).

Definition dict_keys (d : dict) : list string := map fst d.

(** [list(d.values())] *)
Definition dict_values (d : dict) : list V := map snd d.

(** [d.get(k)] *)
Fixpoint dict_get (k : string) (d : dict) : option V :=
  match d with
  | [] => None
  | (k', v) :: d' => if String.eqb k k' then Some v else dict_get k d'
  end.

(** [k in d] *)
Definition dict_in (k : string) (d : dict) : bool :=
  match dict_get k d with Some _ => true | None => false end.

(** [d[k] = v] *)
Fixpoint dict_set (k : string) (v : V) (d : dict) : dict :=
  match d with
  | [] => [(k, v)]
  | (k', v') :: d' =>
      if String.eqb k k' then (k', v) :: d' else (k', v') :: dict_set k v d'
  end.

(** [del d[k]], for a key that is there; no change otherwise (the callers
    check first). *)
Fixpoint dict_del (k : string) (d : dict) : dict :=
  match d with
  | [] => []
  | (k', v') :: d' => if String.eqb k k' then d' else (k', v') :: dict_del k d'
  end.

Definition dict_ok (d : dict) : Prop := NoDup (dict_keys d).

(** ** Lookup after an update *)

Lemma dict_get_set_eq k v d : dict_get k (dict_set k v d) = Some v.
Proof.
  induction d as [|[k' v'] d IH]; cbn; [now rewrite String.eqb_refl|].
  destruct (String.eqb k k') eqn:Hk; cbn; now rewrite Hk.
Qed.

Lemma dict_get_set_ne k k' v d : k <> k' -> dict_get k' (dict_set k v d) = dict_get k' d.
Proof.
  intros Hne. induction d as [|[k0 v0] d IH]; cbn.
  - now rewrite (proj2 (String.eqb_neq k' k)) by congruence.
  - destruct (String.eqb_spec k k0) as [->|Hk]; cbn.
    + now rewrite (proj2 (String.eqb_neq k' k0)) by congruence.
    + now rewrite IH.
Qed.

Lemma dict_get_del_ne k k' d : k <> k' -> dict_get k' (dict_del k d) = dict_get k' d.
Proof.
  intros Hne. induction d as [|[k0 v0] d IH]; cbn; [reflexivity|].
  destruct (String.eqb_spec k k0) as [->|Hk]; cbn.
  - now rewrite (proj2 (String.eqb_neq k' k0)) by congruence.
  - now rewrite IH.
Qed.

Lemma dict_get_None k d : dict_get k d = None <-> ~ In k (dict_keys d).
Proof.
  induction d as [|[k' v'] d IH]; cbn; [tauto|].
  destruct (String.eqb_spec k k') as [->|Hk].
  - split; [discriminate | tauto].
  - rewrite IH. split; [intros H [?|?]; congruence || auto | tauto].
Qed.

Lemma dict_get_Some_In k v d : dict_get k d = Some v -> In (k, v) d.
Proof.
  induction d as [|[k' v'] d IH]; cbn; [discriminate|].
  destruct (String.eqb_spec k k') as [->|Hk]; [intros [= ->]; now left | auto].
Qed.

Lemma dict_get_del_eq k d : dict_ok d -> dict_get k (dict_del k d) = None.
Proof.
  unfold dict_ok. induction d as [|[k' v'] d IH]; cbn; intros Hn; [reflexivity|].
  inv Hn. destruct (String.eqb_spec k k') as [->|Hk]; cbn.
  - now apply dict_get_None.
  - rewrite (proj2 (String.eqb_neq k k')) by assumption. auto.
Qed.

Lemma dict_in_spec k d : dict_in k d = true <-> In k (dict_keys d).
Proof.
  unfold dict_in. pose proof (dict_get_None k d) as Hn.
  destruct (dict_get k d), (in_dec string_dec k (dict_keys d)); intuition congruence.
Qed.

(** ** Keys and order *)

Lemma dict_keys_set_old k v d :
  In k (dict_keys d) -> dict_keys (dict_set k v d) = dict_keys d.
Proof.
  unfold dict_keys. induction d as [|[k' v'] d IH]; cbn; [tauto|].
  destruct (String.eqb_spec k k') as [->|Hk]; cbn; [reflexivity|].
  intros [?|Hin]; [congruence | now rewrite IH].
Qed.

Lemma dict_set_new k v d : ~ In k (dict_keys d) -> dict_set k v d = d ++ [(k, v)].
Proof.
  unfold dict_keys. induction d as [|[k' v'] d IH]; cbn; [reflexivity|].
  intros Hn. destruct (String.eqb_spec k k') as [->|Hk]; [tauto|].
  now rewrite IH by tauto.
Qed.

Lemma dict_keys_del k d :
  dict_ok d ->
  dict_keys (dict_del k d) = filter (fun k' => negb (String.eqb k k')) (dict_keys d).
Proof.
  unfold dict_ok, dict_keys. induction d as [|[k' v'] d IH]; cbn; intros Hn; [reflexivity|].
  inv Hn. destruct (String.eqb_spec k k') as [->|Hk]; cbn.
  - symmetry. apply filter_id, Forall_forall. intros x Hx.
    apply negb_true_iff, String.eqb_neq. congruence.
  - now rewrite IH.
Qed.

Lemma dict_del_In k d x : In x (dict_del k d) -> In x d.
Proof.
  induction d as [|[k' v'] d IH]; cbn; [tauto|].
  destruct (String.eqb k k'); cbn; tauto.
Qed.

Lemma dict_set_ok k v d : dict_ok d -> dict_ok (dict_set k v d).
Proof.
  intros Hok. destruct (in_dec string_dec k (dict_keys d)) as [Hin|Hn].
  - unfold dict_ok. now rewrite dict_keys_set_old.
  - rewrite dict_set_new by assumption. unfold dict_ok, dict_keys in *.
    rewrite map_app. now apply NoDup_snoc.
Qed.

Lemma dict_del_ok k d : dict_ok d -> dict_ok (dict_del k d).
Proof.
  unfold dict_ok, dict_keys. induction d as [|[k' v'] d IH]; cbn; intros Hn; [constructor|].
  inv Hn. destruct (String.eqb k k'); [assumption|]. cbn. constructor; [|auto].
  intros Hin. apply in_map_iff in Hin as ([k0 v0] & Heq & Hin). cbn in Heq. subst k0.
  apply dict_del_In in Hin. apply (in_map fst) in Hin. auto.
Qed.

(** Deleting a key that was just added as new gives the dict back. *)
Lemma dict_del_set_new k v d : ~ In k (dict_keys d) -> dict_del k (dict_set k v d) = d.
Proof.
  unfold dict_keys. induction d as [|[k' v'] d IH]; cbn; intros Hn.
  - now rewrite String.eqb_refl.
  - destruct (String.eqb_spec k k') as [->|Hk]; [tauto|]. cbn.
    rewrite (proj2 (String.eqb_neq k k')) by assumption. now rewrite IH by tauto.
Qed.

End Dict.

Arguments dict V : clear implicits.
