(* ===== verification/DictSpec.v ===== *)
(** * DictSpec: an ordered dict is a finite map

    The abstraction [to_gmap] forgets the order of the items.  Lookup,
    assignment and deletion on the association list are lookup, insert and
    delete on the finite map, and the values listed are, order apart, the
    values of the map.  What the code observes of a dict beyond this is the
    order of [values()], which [Dict] keeps. *)

From stdpp Require Import gmap strings list fin_maps.
From S2P Require Import Dict.

Section Refinement.
Context {V : Type}.

Definition to_gmap (d : dict V) : gmap string V := list_to_map d.

Lemma to_gmap_lookup (d : dict V) (k : string) : to_gmap d !! k = dict_get k d.
Proof.
  unfold to_gmap. induction d as [|[k' v] d IH]; [done|].
  cbn [dict_get]. rewrite list_to_map_cons. cbn.
  destruct (String.eqb_spec k k') as [->|Hne].
  - by rewrite lookup_insert_eq.
  - by rewrite lookup_insert_ne.
Qed.

Lemma to_gmap_set (d : dict V) (k : string) (v : V) :
  to_gmap (dict_set k v d) = <[k:=v]> (to_gmap d).
Proof.
  apply map_eq. intros k'. rewrite to_gmap_lookup.
  destruct (decide (k = k')) as [->|Hne].
  - by rewrite dict_get_set_eq, lookup_insert_eq.
  - by rewrite dict_get_set_ne, lookup_insert_ne, to_gmap_lookup.
Qed.

Lemma to_gmap_del (d : dict V) (k : string) :
  dict_ok d -> to_gmap (dict_del k d) = delete k (to_gmap d).
Proof.
  intros Hok. apply map_eq. intros k'. rewrite to_gmap_lookup.
  destruct (decide (k = k')) as [->|Hne].
  - by rewrite dict_get_del_eq, lookup_delete_eq.
  - by rewrite dict_get_del_ne, lookup_delete_ne, to_gmap_lookup.
Qed.

Lemma to_gmap_in (d : dict V) (k : string) :
  dict_in k d = true <-> k ∈ dom (to_gmap d).
Proof.
  rewrite elem_of_dom, to_gmap_lookup. unfold dict_in.
  destruct (dict_get k d); split; intros H; done.
Qed.

(** The items of the dict are, order apart, the items of the map. *)
Lemma to_gmap_items (d : dict V) : dict_ok d -> map_to_list (to_gmap d) ≡ₚ d.
Proof.
  intros Hok. apply map_to_list_to_map. by apply NoDup_ListNoDup.
Qed.

Lemma to_gmap_values (d : dict V) :
  dict_ok d -> (map_to_list (to_gmap d)).*2 ≡ₚ dict_values d.
Proof. intros Hok. unfold dict_values. by rewrite (to_gmap_items d Hok). Qed.

Lemma to_gmap_size (d : dict V) : dict_ok d -> size (to_gmap d) = length d.
Proof.
  intros Hok. rewrite <- (length_map_to_list (to_gmap d)).
  by rewrite (to_gmap_items d Hok).
Qed.

End Refinement.
