(* ===== verification/FileService.v ===== *)
(** * FileService: [app/file_management/file_service.py]

    The module keeps two things: the dict [uploaded_files] (file id to
    metadata, in insertion order: [Dict]) and the files it writes under
    [UPLOAD_DIR], here a finite map from path to content.  An upload is the
    sequence of what [file.read] returns: chunks, the end of the data, or an
    exception.  What the environment chooses for an upload (the timestamp,
    the id hashed from it, what [mimetypes] guesses, the order in which the
    set of allowed extensions is listed) is an argument.  Operating-system
    errors of [open], [write] and [remove] are not modelled. *)

From stdpp Require Import gmap strings.
From Stdlib Require Import ZArith List Lia String Bool.
From S2P Require Import Prelude.
From S2P Require Import Settings.
From S2P Require Import Errors.
From S2P Require Import Dict.
From S2P Require Import Paths.
Import ListNotations.

Local Open Scope string_scope.
Local Open Scope Z_scope.
Local Open Scope list_scope.

Abbreviation bytes := (list Byte.byte).

(** [app/models/base.py]: [UploadedFile] *)
Record UploadedFile : Type := {
  file_id : string;
  filename : string;
  content_type : string;
  size : Z;
  upload_time : string
}.

(** What one [await file.read(chunk_size)] gives. *)
Inductive read : Type :=
| Data (chunk : bytes)
| ReadError (e : exn).

(** The framework's [UploadFile]. *)
Record UploadFile : Type := {
  uf_filename : string;
  uf_content_type : option string;
  uf_reads : list read
}.

Record FileState : Type := {
  uploaded_files : dict UploadedFile;
  disk : gmap string bytes
}.

(** What the environment chooses for one upload. *)
Record UploadDraw : Type := {
  timestamp : string;
  unique_id : string;
  guessed_type : option string;
  extension_order : list string
}.

(** A part of a chat request built from a file. *)
Inductive part : Type :=
| ImagePart (mime_type : string) (data : bytes)
| TextPart (text : string).

Definition set_uploaded_files (s : FileState) (d : dict UploadedFile) : FileState :=
  {| uploaded_files := d; disk := disk s |}.

Definition set_disk (s : FileState) (m : gmap string bytes) : FileState :=
  {| uploaded_files := uploaded_files s; disk := m |}.

(** [open(path, "wb")]: the file is created, or emptied. *)
Definition open_wb (path : string) (s : FileState) : FileState :=
  set_disk s (<[path := []]> (disk s)).

(** [buffer.write(chunk)] *)
Definition buffer_write (path : string) (chunk : bytes) (s : FileState) : FileState :=
  set_disk s (<[path := default [] (disk s !! path) ++ chunk]> (disk s)).

(** [os.remove(path)] *)
Definition os_remove (path : string) (s : FileState) : FileState :=
  set_disk s (delete path (disk s)).

(** [os.path.exists(path)] *)
Definition os_path_exists (path : string) (s : FileState) : bool :=
  bool_decide (is_Some (disk s !! path)).

(** [a or b] on strings that may be missing. *)
Definition str_or (a : option string) (b : string) : string :=
  match a with
  | Some s => if py_truthy s then s else b
  | None => b
  end.

Definition len (chunk : bytes) : Z := Z.of_nat (List.length chunk).

Section WithSettings.
Context (cfg : Settings).

(** [os.path.splitext(filename)[1].lower()] *)
Definition extension_of (filename : string) : string := lower (snd (splitext filename)).

(** [os.path.join(UPLOAD_DIR, f"{file_id}{file_extension}")] *)
Definition stored_path (file_id file_extension : string) : string :=
  path_join (UPLOAD_DIR cfg) (file_id ++ file_extension).

Definition too_large : exn :=
  http_error 413
    ("File too large. Maximum size: "
     ++ format_1f (MAX_UPLOAD_SIZE cfg) (1024 * 1024) ++ " MB").

(** The loop [while chunk := await file.read(chunk_size)]. *)
Fixpoint write_chunks (file_path : string) (reads : list read) (file_size : Z)
  : Eff FileState exn Z :=
  match reads with
  | [] => ret file_size
  | ReadError e :: _ => raise e
  | Data [] :: _ => ret file_size
  | Data chunk :: rest =>
      let file_size := file_size + len chunk in
      if file_size >? MAX_UPLOAD_SIZE cfg
      then (modify (os_remove file_path) ;;; raise too_large)%eff
      else (modify (buffer_write file_path chunk) ;;; write_chunks file_path rest file_size)%eff
  end.

Definition save_uploaded_file (file : UploadFile) (draw : UploadDraw)
  : Eff FileState exn UploadedFile :=
  let filename := uf_filename file in
  let file_extension := extension_of filename in
  if negb (str_in file_extension (ALLOWED_EXTENSIONS cfg))
  then raise (http_error 400
                ("File type not allowed. Allowed types: "
                 ++ str_join ", " (extension_order draw)))
  else
    let safe_path := stored_path (unique_id draw) file_extension in
    (modify (open_wb safe_path) ;;;
     let* file_size := write_chunks safe_path (uf_reads file) 0 in
     let content_type :=
       str_or (uf_content_type file) (str_or (guessed_type draw) "application/octet-stream") in
     let file_data :=
       {| file_id := unique_id draw;
          filename := filename;
          content_type := content_type;
          size := file_size;
          upload_time := timestamp draw |} in
     modify (fun s => set_uploaded_files s (dict_set (unique_id draw) file_data (uploaded_files s))) ;;;
     ret file_data)%eff.

Definition get_file_info (s : FileState) (file_id : string) : option UploadedFile :=
  dict_get file_id (uploaded_files s).

Definition list_files (s : FileState) : list UploadedFile :=
  dict_values (uploaded_files s).

Definition delete_file (file_id : string) : Eff FileState exn bool :=
  (let* s := get in
   match dict_get file_id (uploaded_files s) with
   | None => ret false
   | Some file_data =>
       let file_extension := extension_of (filename file_data) in
       let file_path := stored_path file_id file_extension in
       (if os_path_exists file_path s then modify (os_remove file_path) else ret tt) ;;;
       modify (fun s => set_uploaded_files s (dict_del file_id (uploaded_files s))) ;;;
       ret true
   end)%eff.

Fixpoint prepare_loop (s : FileState) (file_ids : list string) (file_parts : list part)
  : result exn (list part) :=
  match file_ids with
  | [] => Ok file_parts
  | file_id :: rest =>
      match dict_get file_id (uploaded_files s) with
      | None => Err (http_error 404 ("File with ID " ++ file_id ++ " not found"))
      | Some file_data =>
          let file_extension := extension_of (filename file_data) in
          let file_path := stored_path file_id file_extension in
          match disk s !! file_path with
          | None => Err (http_error 404 ("File with ID " ++ file_id ++ " is missing"))
          | Some image_bytes =>
              let mime_type := content_type file_data in
              if startswith "image/" mime_type
              then prepare_loop s rest (file_parts ++ [ImagePart mime_type image_bytes])
              else prepare_loop s rest
                     (file_parts
                      ++ [TextPart ("[Reference to uploaded file: " ++ filename file_data ++ "]")])
          end
      end
  end.

Definition prepare_file_parts (s : FileState) (file_ids : list string)
  : result exn (list part) :=
  prepare_loop s file_ids [].

End WithSettings.

(** ** Observations on an upload *)

(** The chunks read before the data ends. *)
Fixpoint incoming (reads : list read) : list bytes :=
  match reads with
  | Data (b :: chunk) :: rest => (b :: chunk) :: incoming rest
  | _ => []
  end.

(** No read raises before the data ends. *)
Fixpoint reads_complete (reads : list read) : bool :=
  match reads with
  | Data (_ :: _) :: rest => reads_complete rest
  | ReadError _ :: _ => false
  | _ => true
  end.

(** A read that gives data. *)
Definition is_data (r : read) : bool :=
  match r with Data (_ :: _) => true | _ => false end.

Definition total_size (chunks : list bytes) : Z := sumZ len chunks.

(** The metadata of an upload of [n] bytes. *)
Definition metadata (file : UploadFile) (draw : UploadDraw) (n : Z) : UploadedFile :=
  {| file_id := unique_id draw;
     filename := uf_filename file;
     content_type :=
       str_or (uf_content_type file) (str_or (guessed_type draw) "application/octet-stream");
     size := n;
     upload_time := timestamp draw |}.

(** Every registered file is filed under its own id and is within the
    size limit; no id is registered twice. *)
Definition files_ok (cfg : Settings) (s : FileState) : Prop :=
  dict_ok (uploaded_files s) /\
  Forall (fun kv => file_id (snd kv) = fst kv /\ 0 <= size (snd kv) <= MAX_UPLOAD_SIZE cfg)
         (uploaded_files s).

(** A call of the service that writes. *)
Inductive file_op : Type :=
| OpSave (file : UploadFile) (draw : UploadDraw)
| OpDelete (file_id : string).

Definition apply_file_op (cfg : Settings) (op : file_op) (s : FileState) : FileState :=
  match op with
  | OpSave file draw => snd (save_uploaded_file cfg file draw s)
  | OpDelete file_id => snd (delete_file cfg file_id s)
  end.

(** The state after a sequence of calls, each on the state the one before
    left, whether it returned or raised. *)
Fixpoint run_file_ops (cfg : Settings) (ops : list file_op) (s : FileState) : FileState :=
  match ops with
  | [] => s
  | op :: rest => run_file_ops cfg rest (apply_file_op cfg op s)
  end.

(** ** Tactics of this file *)

Ltac fs_simpl :=
  cbn [uploaded_files disk set_uploaded_files set_disk open_wb buffer_write os_remove fst snd] in *.

(** ** The file system *)

Lemma len_nonneg chunk : 0 <= len chunk.
Proof. unfold len. lia. Qed.

Lemma total_size_nonneg chunks : 0 <= total_size chunks.
Proof.
  unfold total_size. apply sumZ_nonneg, Forall_forall. intros. apply len_nonneg.
Qed.

Lemma total_size_concat chunks : total_size chunks = len (List.concat chunks).
Proof.
  unfold total_size, len. induction chunks as [|c chunks IH]; [reflexivity|].
  rewrite sumZ_cons, IH. cbn [List.concat]. rewrite length_app. unfold len. lia.
Qed.

Lemma write_open path chunk s b :
  disk s !! path = Some b ->
  buffer_write path chunk s = set_disk s (<[path := b ++ chunk]> (disk s)).
Proof. unfold buffer_write. now intros ->. Qed.

Lemma remove_open_wb path s : os_remove path (open_wb path s) = os_remove path s.
Proof. unfold os_remove, open_wb; fs_simpl. now rewrite delete_insert_eq. Qed.

Lemma exists_spec path s : os_path_exists path s = true <-> is_Some (disk s !! path).
Proof. unfold os_path_exists. apply bool_decide_eq_true. Qed.

(** ** The write loop *)

Section Loop.
Context (cfg : Settings) (path : string).

Abbreviation write_chunks := (write_chunks cfg path).

Lemma write_chunks_registry reads n s :
  uploaded_files (snd (write_chunks reads n s)) = uploaded_files s.
Proof.
  revert n s. induction reads as [|[[|b chunk]|e] rest IH]; intros n s;
    cbn [FileService.write_chunks]; try reflexivity.
  destruct (_ >? _); eff_simpl; [reflexivity|]. now rewrite IH.
Qed.

(** With every read served and the total within the limit, the file holds
    what it held followed by every chunk. *)
Lemma write_chunks_complete reads n s b :
  reads_complete reads = true ->
  disk s !! path = Some b ->
  n + total_size (incoming reads) <= MAX_UPLOAD_SIZE cfg ->
  write_chunks reads n s
  = (Ok (n + total_size (incoming reads)),
     set_disk s (<[path := b ++ List.concat (incoming reads)]> (disk s))).
Proof.
  revert n s b. induction reads as [|[[|x chunk]|e] rest IH]; intros n s b Hc Hd Hn;
    cbn [FileService.write_chunks incoming reads_complete List.concat] in *; try discriminate.
  1-2: unfold total_size; cbn; rewrite Z.add_0_r, app_nil_r, insert_id by exact Hd;
       now destruct s.
  unfold total_size in *. rewrite sumZ_cons in *.
  pose proof (total_size_nonneg (incoming rest)) as Hr. unfold total_size in Hr.
  destruct (Z.gtb_spec (n + len (x :: chunk)) (MAX_UPLOAD_SIZE cfg)); [lia|].
  eff_simpl. rewrite (write_open _ _ _ _ Hd).
  rewrite (IH _ _ (b ++ x :: chunk)); fs_simpl;
    [| assumption | apply lookup_insert_eq | lia].
  now rewrite insert_insert_eq, Z.add_assoc, <- app_assoc.
Qed.

(** With every read served and the total over the limit, the loop raises,
    and the file is gone. *)
Lemma write_chunks_too_large reads n s b :
  reads_complete reads = true ->
  disk s !! path = Some b ->
  n <= MAX_UPLOAD_SIZE cfg ->
  n + total_size (incoming reads) > MAX_UPLOAD_SIZE cfg ->
  write_chunks reads n s = (Err (too_large cfg), set_disk s (delete path (disk s))).
Proof.
  revert n s b. induction reads as [|[[|x chunk]|e] rest IH]; intros n s b Hc Hd Hle Hn;
    cbn [FileService.write_chunks incoming reads_complete] in *; try discriminate;
    unfold total_size in *; rewrite ?sumZ_cons, ?sumZ_nil in *; try lia.
  destruct (Z.gtb_spec (n + len (x :: chunk)) (MAX_UPLOAD_SIZE cfg)); eff_simpl;
    [reflexivity|].
  rewrite (write_open _ _ _ _ Hd).
  rewrite (IH _ _ (b ++ x :: chunk)); fs_simpl;
    [| assumption | apply lookup_insert_eq | lia | lia].
  now rewrite delete_insert_eq.
Qed.

(** A read that raises after chunks within the limit leaves the file with
    the chunks read so far. *)
Lemma write_chunks_read_error pre e post n s b :
  forallb is_data pre = true ->
  disk s !! path = Some b ->
  n + total_size (incoming pre) <= MAX_UPLOAD_SIZE cfg ->
  write_chunks (pre ++ ReadError e :: post) n s
  = (Err e, set_disk s (<[path := b ++ List.concat (incoming pre)]> (disk s))).
Proof.
  revert n s b. induction pre as [|[[|x chunk]|e'] pre IH]; intros n s b Hc Hd Hn;
    cbn [app FileService.write_chunks incoming forallb is_data andb List.concat] in *;
    try discriminate.
  - eff_simpl. rewrite app_nil_r, insert_id by exact Hd. now destruct s.
  - unfold total_size in *. rewrite sumZ_cons in *.
    pose proof (total_size_nonneg (incoming pre)) as Hr. unfold total_size in Hr.
    destruct (Z.gtb_spec (n + len (x :: chunk)) (MAX_UPLOAD_SIZE cfg)); [lia|].
    eff_simpl. rewrite (write_open _ _ _ _ Hd).
    rewrite (IH _ _ (b ++ x :: chunk)); fs_simpl;
      [| assumption | apply lookup_insert_eq | lia].
    now rewrite insert_insert_eq, <- app_assoc.
Qed.

End Loop.

(** ** Uploads *)

Section Upload.
Context (cfg : Settings) (file : UploadFile) (draw : UploadDraw).

Abbreviation save := (save_uploaded_file cfg file draw).
Abbreviation ext := (extension_of (uf_filename file)).
Abbreviation path := (stored_path cfg (unique_id draw) ext).
Abbreviation allowed := (str_in ext (ALLOWED_EXTENSIONS cfg)).

Abbreviation metadata := (metadata file draw).

(** A file whose extension is not in the allowed set is refused with
    400 before anything is written: the registry and the disk are as they
    were. *)
Theorem upload_rejects_extension s :
  allowed = false ->
  exists detail, save s = (Err (http_error 400 detail), s).
Proof. intros Ha. unfold save_uploaded_file. rewrite Ha. now eexists. Qed.

(** What a served upload within the limit returns and leaves. *)
Lemma save_complete s :
  allowed = true ->
  reads_complete (uf_reads file) = true ->
  total_size (incoming (uf_reads file)) <= MAX_UPLOAD_SIZE cfg ->
  let data := List.concat (incoming (uf_reads file)) in
  save s
  = (Ok (metadata (len data)),
     {| uploaded_files := dict_set (unique_id draw) (metadata (len data)) (uploaded_files s);
        disk := <[path := data]> (disk s) |}).
Proof.
  intros Ha Hc Hn. cbv zeta. unfold save_uploaded_file. rewrite Ha. cbn [negb]. eff_simpl.
  rewrite (write_chunks_complete cfg path (uf_reads file) 0 (open_wb path s) []);
    [| assumption | apply lookup_insert_eq | lia ].
  fs_simpl. now rewrite insert_insert_eq, Z.add_0_l, total_size_concat.
Qed.

(** C14. An upload with an allowed extension whose reads are all served and
    whose size is within [MAX_UPLOAD_SIZE] is stored: the metadata is
    returned, with the size the number of bytes received; the registry has
    it under the upload's id; the file at its path holds the chunks in
    order; every other id and every other path is as it was. *)
Theorem upload_stores_file s :
  allowed = true ->
  reads_complete (uf_reads file) = true ->
  total_size (incoming (uf_reads file)) <= MAX_UPLOAD_SIZE cfg ->
  let data := List.concat (incoming (uf_reads file)) in
  let (r, s') := save s in
  r = Ok (metadata (len data)) /\
  dict_get (unique_id draw) (uploaded_files s') = Some (metadata (len data)) /\
  disk s' !! path = Some data /\
  (forall other, other <> unique_id draw ->
     dict_get other (uploaded_files s') = dict_get other (uploaded_files s)) /\
  (forall other, other <> path -> disk s' !! other = disk s !! other).
Proof.
  intros Ha Hc Hn. cbv zeta. rewrite save_complete by assumption. fs_simpl.
  split; [reflexivity|]. split; [apply dict_get_set_eq|]. split; [apply lookup_insert_eq|].
  split; intros other Hne; [now apply dict_get_set_ne | now apply lookup_insert_ne].
Qed.

(** An exception of the write loop leaves [save_uploaded_file] with the
    state the loop left. *)
Lemma save_loop_failure s e s1 :
  allowed = true ->
  write_chunks cfg path (uf_reads file) 0 (open_wb path s) = (Err e, s1) ->
  save s = (Err e, s1).
Proof. intros Ha Hw. unfold save_uploaded_file. rewrite Ha. cbn [negb]. eff_simpl. now rewrite Hw. Qed.

(** The loop on a fresh file whose read raises after chunks within the
    limit. *)
Lemma write_open_error pre e post s :
  uf_reads file = pre ++ ReadError e :: post ->
  forallb is_data pre = true ->
  total_size (incoming pre) <= MAX_UPLOAD_SIZE cfg ->
  write_chunks cfg path (uf_reads file) 0 (open_wb path s)
  = (Err e, set_disk s (<[path := List.concat (incoming pre)]> (disk s))).
Proof.
  intros Hr Hd Hn. rewrite Hr.
  rewrite (write_chunks_read_error cfg path pre e post 0 (open_wb path s) []);
    [| assumption | apply lookup_insert_eq | lia ].
  fs_simpl. now rewrite insert_insert_eq.
Qed.

(** The loop on a fresh file whose reads are served and exceed the limit. *)
Lemma write_open_too_large s :
  reads_complete (uf_reads file) = true ->
  0 <= MAX_UPLOAD_SIZE cfg ->
  total_size (incoming (uf_reads file)) > MAX_UPLOAD_SIZE cfg ->
  write_chunks cfg path (uf_reads file) 0 (open_wb path s)
  = (Err (too_large cfg), set_disk s (delete path (disk s))).
Proof.
  intros Hc H0 Hn.
  rewrite (write_chunks_too_large cfg path (uf_reads file) 0 (open_wb path s) []);
    [| assumption | apply lookup_insert_eq | lia | lia ].
  fs_simpl. now rewrite delete_insert_eq.
Qed.

(** C17. An upload whose reads are all served and whose size exceeds
    [MAX_UPLOAD_SIZE] is refused with 413; nothing is registered and no
    file is left at its path. *)
Theorem upload_too_large_leaves_nothing s :
  allowed = true ->
  reads_complete (uf_reads file) = true ->
  0 <= MAX_UPLOAD_SIZE cfg ->
  total_size (incoming (uf_reads file)) > MAX_UPLOAD_SIZE cfg ->
  save s = (Err (too_large cfg), set_disk s (delete path (disk s))).
Proof.
  intros Ha Hc H0 Hn. exact (save_loop_failure s _ _ Ha (write_open_too_large s Hc H0 Hn)).
Qed.

(** C37. When a read raises after chunks that are within the limit, the
    exception leaves [save_uploaded_file]; nothing is registered, and the
    file written so far stays on the disk with no entry that names it. *)
Theorem failed_read_leaves_partial_file pre e post s :
  allowed = true ->
  uf_reads file = pre ++ ReadError e :: post ->
  forallb is_data pre = true ->
  total_size (incoming pre) <= MAX_UPLOAD_SIZE cfg ->
  save s = (Err e, set_disk s (<[path := List.concat (incoming pre)]> (disk s))).
Proof.
  intros Ha Hr Hd Hn. rewrite (save_loop_failure s e _ Ha (write_open_error pre e post s Hr Hd Hn)).
  reflexivity.
Qed.

(** Whatever the upload, a failure registers nothing. *)
Lemma save_failure_registry s e s' :
  save s = (Err e, s') -> uploaded_files s' = uploaded_files s.
Proof.
  unfold save_uploaded_file. destruct (negb allowed); eff_simpl; [now intros [= _ <-]|].
  pose proof (write_chunks_registry cfg path (uf_reads file) 0 (open_wb path s)) as Hw.
  destruct (FileService.write_chunks cfg path (uf_reads file) 0 (open_wb path s)) as [[n|e'] s1];
    [discriminate|].
  intros [= _ <-]. exact Hw.
Qed.

End Upload.

(** ** Where a file is stored *)

Lemma ascii_lower_sep c : ascii_lower c = sep -> c = sep.
Proof.
  destruct c as [[] [] [] [] [] [] [] []]; vm_compute; intros H;
    first [reflexivity | discriminate H].
Qed.

Lemma lower_no_sep s :
  ~ In sep (list_ascii_of_string s) -> ~ In sep (list_ascii_of_string (lower s)).
Proof.
  induction s as [|c s IH]; cbn [lower list_ascii_of_string]; [auto|].
  intros Hn [Hc|Hin]; [apply ascii_lower_sep in Hc; subst; apply Hn; now left|].
  apply IH; [|exact Hin]. intros H. apply Hn. now right.
Qed.

Section StoredPath.
Context (cfg : Settings).

(** Whatever name the client gives the file, separators and parent
    directories included, the file is stored directly in [UPLOAD_DIR]: its
    path is the directory, one separator, and a name that holds none, made
    of the upload's id and the lowered extension. *)
Theorem stored_path_in_upload_dir filename file_id :
  ~ In sep (list_ascii_of_string file_id) ->
  py_truthy (UPLOAD_DIR cfg) = true ->
  endswith_char sep (UPLOAD_DIR cfg) = false ->
  let name := (file_id ++ extension_of filename)%string in
  stored_path cfg file_id (extension_of filename) = (UPLOAD_DIR cfg ++ "/" ++ name)%string /\
  ~ In sep (list_ascii_of_string name).
Proof.
  intros Hid Ht He. cbv zeta.
  assert (Hn : ~ In sep (list_ascii_of_string (file_id ++ extension_of filename)%string)).
  { rewrite list_ascii_of_string_app, in_app_iff. intros [H|H]; [exact (Hid H)|].
    exact (lower_no_sep _ (splitext_ext_no_sep filename) H). }
  split; [|exact Hn]. unfold stored_path.
  now apply path_join_relative; [apply startswith_no_sep | |].
Qed.

End StoredPath.

(** ** Deleting, and the registry's invariant *)

Section Delete.
Context (cfg : Settings).

Lemma delete_file_unknown file_id s :
  get_file_info s file_id = None -> delete_file cfg file_id s = (Ok false, s).
Proof. unfold get_file_info, delete_file; eff_simpl. now intros ->. Qed.

(** A registered file is unregistered and its file removed; the other
    entries and the other files stay. *)
Lemma delete_file_known file_id file_data s :
  get_file_info s file_id = Some file_data ->
  delete_file cfg file_id s
  = (Ok true,
     {| uploaded_files := dict_del file_id (uploaded_files s);
        disk := delete (stored_path cfg file_id (extension_of (filename file_data))) (disk s) |}).
Proof.
  unfold get_file_info, delete_file; eff_simpl. intros ->.
  destruct (os_path_exists _ s) eqn:He; eff_simpl; fs_simpl; [reflexivity|].
  rewrite delete_id; [reflexivity|].
  apply eq_None_not_Some. rewrite <- exists_spec. congruence.
Qed.

Lemma files_ok_set file_id file_data s :
  FileService.file_id file_data = file_id ->
  0 <= size file_data <= MAX_UPLOAD_SIZE cfg ->
  files_ok cfg s ->
  files_ok cfg (set_uploaded_files s (dict_set file_id file_data (uploaded_files s))).
Proof.
  intros Hid Hsz [Hok Hall]. split; fs_simpl; [now apply dict_set_ok|].
  clear Hok. induction Hall as [|[k v] d Hkv Hd IH]; cbn [dict_set].
  - constructor; [split; [exact Hid | exact Hsz] | constructor].
  - destruct (String.eqb_spec file_id k) as [Heq|Hne]; constructor; cbn [fst snd] in *;
      try assumption.
    split; [congruence | exact Hsz].
Qed.

Lemma files_ok_del file_id s :
  files_ok cfg s -> files_ok cfg (set_uploaded_files s (dict_del file_id (uploaded_files s))).
Proof.
  intros [Hok Hall]. split; fs_simpl; [now apply dict_del_ok|].
  apply Forall_forall. intros kv Hin. apply dict_del_In in Hin.
  now apply (proj1 (Forall_forall _ _) Hall).
Qed.

Lemma files_ok_disk s m : files_ok cfg s -> files_ok cfg (set_disk s m).
Proof. now intros [Hok Hall]. Qed.

Lemma write_chunks_size path reads n s :
  0 <= n <= MAX_UPLOAD_SIZE cfg ->
  forall m s', write_chunks cfg path reads n s = (Ok m, s') -> 0 <= m <= MAX_UPLOAD_SIZE cfg.
Proof.
  revert n s. induction reads as [|[[|b chunk]|e] rest IH]; intros n s Hn m s';
    cbn [write_chunks]; eff_simpl; try (intros [= <- _]; exact Hn); try discriminate.
  destruct (Z.gtb_spec (n + len (b :: chunk)) (MAX_UPLOAD_SIZE cfg)); [discriminate|].
  apply IH. pose proof (len_nonneg (b :: chunk)). lia.
Qed.

Lemma save_uploaded_file_ok file draw s :
  0 <= MAX_UPLOAD_SIZE cfg ->
  files_ok cfg s -> files_ok cfg (snd (save_uploaded_file cfg file draw s)).
Proof.
  intros H0 Hok. unfold save_uploaded_file. destruct (negb _); [exact Hok|]. eff_simpl.
  set (path := stored_path cfg (unique_id draw) (extension_of (uf_filename file))).
  pose proof (write_chunks_registry cfg path (uf_reads file) 0 (open_wb path s)) as Hr.
  pose proof (write_chunks_size path (uf_reads file) 0 (open_wb path s) (conj (Z.le_refl 0) H0))
    as Hs.
  destruct (write_chunks cfg path (uf_reads file) 0 (open_wb path s)) as [[n|e] [d m]];
    fs_simpl; subst d.
  - apply (files_ok_set _ _ (set_disk s m)); [reflexivity | exact (Hs n _ eq_refl) |].
    now apply files_ok_disk.
  - now apply (files_ok_disk s m).
Qed.

Lemma delete_file_ok file_id s :
  files_ok cfg s -> files_ok cfg (snd (delete_file cfg file_id s)).
Proof.
  intros Hok. destruct (get_file_info s file_id) as [file_data|] eqn:Hg.
  - rewrite (delete_file_known _ _ _ Hg). cbn [snd].
    apply (files_ok_disk (set_uploaded_files s _)). now apply files_ok_del.
  - now rewrite (delete_file_unknown _ _ Hg).
Qed.

(** Every registered file is filed under its own id, no id is
    registered twice, and every registered size is between zero and
    [MAX_UPLOAD_SIZE]: a sequence of uploads, whatever they carry and
    however they end, and of deletions keeps it so. *)
Theorem files_ok_preserved ops s :
  0 <= MAX_UPLOAD_SIZE cfg ->
  files_ok cfg s ->
  files_ok cfg (run_file_ops cfg ops s).
Proof.
  intros H0. revert s. induction ops as [|[file draw|file_id] ops IH]; intros s Hok;
    cbn [run_file_ops apply_file_op]; [exact Hok | apply IH ..].
  - now apply save_uploaded_file_ok.
  - now apply delete_file_ok.
Qed.

(** After a deletion the id is not registered, and every other id is
    registered as before. *)
Lemma delete_file_lookup file_id other s :
  files_ok cfg s ->
  let s' := snd (delete_file cfg file_id s) in
  get_file_info s' file_id = None /\
  (other <> file_id -> get_file_info s' other = get_file_info s other).
Proof.
  intros [Hok _]. cbv zeta. destruct (get_file_info s file_id) as [file_data|] eqn:Hg.
  - rewrite (delete_file_known _ _ _ Hg). unfold get_file_info; cbn [snd uploaded_files].
    split; [now apply dict_get_del_eq | intros Hne; now apply dict_get_del_ne].
  - rewrite (delete_file_unknown _ _ Hg). auto.
Qed.

End Delete.

(** ** Upload, then look up, list, prepare, delete *)

Section RoundTrip.
Context (cfg : Settings) (file : UploadFile) (draw : UploadDraw) (s : FileState).
Context (Hallowed : str_in (extension_of (uf_filename file)) (ALLOWED_EXTENSIONS cfg) = true).
Context (Hreads : reads_complete (uf_reads file) = true).
Context (Hsize : total_size (incoming (uf_reads file)) <= MAX_UPLOAD_SIZE cfg).

Abbreviation data := (List.concat (incoming (uf_reads file))).
Abbreviation stored := (metadata file draw (len data)).
Abbreviation after := (snd (save_uploaded_file cfg file draw s)).
Abbreviation path := (stored_path cfg (unique_id draw) (extension_of (uf_filename file))).

Lemma after_upload :
  after = {| uploaded_files := dict_set (unique_id draw) stored (uploaded_files s);
             disk := <[path := data]> (disk s) |}.
Proof using Hallowed Hreads Hsize. now rewrite save_complete. Qed.

(** A stored upload can be looked up under its id, is listed last
    when its id is new, and is handed to a chat as its bytes when its type
    is an image type, as a reference to its name otherwise. *)
Theorem upload_then_read :
  get_file_info after (unique_id draw) = Some stored /\
  (get_file_info s (unique_id draw) = None -> list_files after = list_files s ++ [stored]) /\
  prepare_file_parts cfg after [unique_id draw]
  = Ok [if startswith "image/" (content_type stored)
        then ImagePart (content_type stored) data
        else TextPart ("[Reference to uploaded file: " ++ uf_filename file ++ "]")].
Proof using Hallowed Hreads Hsize.
  rewrite after_upload. unfold get_file_info, list_files, prepare_file_parts; fs_simpl.
  split; [apply dict_get_set_eq|]. split.
  - intros Hn. apply dict_get_None in Hn. rewrite dict_set_new by exact Hn.
    unfold dict_values. now rewrite map_app.
  - cbn [prepare_loop uploaded_files disk]. rewrite dict_get_set_eq. cbn [filename].
    rewrite lookup_insert_eq. now destruct (startswith "image/" (content_type stored)).
Qed.

(** Deleting an upload whose id was new and whose path was free gives
    back the registry and the disk as they were before the upload. *)
Theorem upload_then_delete :
  get_file_info s (unique_id draw) = None ->
  disk s !! path = None ->
  delete_file cfg (unique_id draw) after = (Ok true, s).
Proof using Hallowed Hreads Hsize.
  intros Hn Hd. rewrite after_upload.
  rewrite (delete_file_known cfg _ stored) by apply dict_get_set_eq.
  fs_simpl. cbn [filename]. apply dict_get_None in Hn.
  rewrite dict_del_set_new by exact Hn. rewrite delete_insert_id by exact Hd.
  now destruct s.
Qed.

End RoundTrip.

(** ** Witnesses *)

Definition photo : UploadFile :=
  {| uf_filename := "photo.PNG";
     uf_content_type := None;
     uf_reads := [Data [Byte.x89; Byte.x50]; Data [Byte.x4e]; Data []] |}.

Definition script : UploadFile :=
  {| uf_filename := "run.exe"; uf_content_type := None; uf_reads := [Data [Byte.x4d]] |}.

Definition broken : UploadFile :=
  {| uf_filename := "notes.txt";
     uf_content_type := Some "text/plain";
     uf_reads := [Data [Byte.x68; Byte.x69]; ReadError (OtherExn "connection lost")] |}.

Definition demo_upload : UploadDraw :=
  {| timestamp := "20240101_120000";
     unique_id := "0f3a";
     guessed_type := Some "image/png";
     extension_order := allowed_extensions |}.

Definition no_files : FileState := {| uploaded_files := []; disk := ∅ |}.

(** Settings in which an upload may hold two bytes. *)
Definition tiny_uploads : Settings :=
  load_settings
    {| env_PORT := None; env_HOST := None; env_DEBUG := None; env_DEFAULT_MODEL := None;
       env_GOOGLE_API_KEY := None; env_REQUESTS_PER_MINUTE := None;
       env_TOKENS_PER_MINUTE := None; env_JWT_SECRET_KEY := None; env_UPLOAD_DIR := None;
       env_MAX_UPLOAD_SIZE := Some 2 |}.

Lemma upload_rejects_extension_witness :
  exists detail,
    save_uploaded_file default_settings script demo_upload no_files
    = (Err (http_error 400 detail), no_files).
Proof. apply (upload_rejects_extension default_settings script demo_upload). reflexivity. Defined.

Lemma upload_stores_file_witness :
  let (r, s') := save_uploaded_file default_settings photo demo_upload no_files in
  r = Ok (metadata photo demo_upload 3) /\
  dict_get "0f3a" (uploaded_files s') = Some (metadata photo demo_upload 3) /\
  disk s' !! "uploads/0f3a.png" = Some [Byte.x89; Byte.x50; Byte.x4e] /\
  (forall other, other <> "0f3a" ->
     dict_get other (uploaded_files s') = dict_get other (uploaded_files no_files)) /\
  (forall other, other <> "uploads/0f3a.png" -> disk s' !! other = disk no_files !! other).
Proof.
  apply (upload_stores_file default_settings photo demo_upload no_files);
    [reflexivity | reflexivity | zcompute].
Defined.

Lemma upload_too_large_leaves_nothing_witness :
  save_uploaded_file tiny_uploads photo demo_upload no_files
  = (Err (http_error 413 "File too large. Maximum size: 0.0 MB"),
     set_disk no_files (delete "uploads/0f3a.png" ∅)).
Proof.
  apply (upload_too_large_leaves_nothing tiny_uploads photo demo_upload no_files);
    [reflexivity | reflexivity | zcompute | zcompute].
Defined.

Lemma failed_read_leaves_partial_file_witness :
  save_uploaded_file default_settings broken demo_upload no_files
  = (Err (OtherExn "connection lost"),
     set_disk no_files (<["uploads/0f3a.txt" := [Byte.x68; Byte.x69]]> ∅)).
Proof.
  apply (failed_read_leaves_partial_file default_settings broken demo_upload
           [Data [Byte.x68; Byte.x69]] (OtherExn "connection lost") [] no_files);
    [reflexivity | reflexivity | reflexivity | zcompute].
Defined.

Lemma stored_path_in_upload_dir_witness :
  stored_path default_settings "0f3a" (extension_of "../../etc/passwd.PNG")
  = "uploads/0f3a.png" /\
  ~ In sep (list_ascii_of_string "0f3a.png").
Proof.
  apply (stored_path_in_upload_dir default_settings "../../etc/passwd.PNG" "0f3a");
    [cbn; intuition discriminate | reflexivity | reflexivity].
Defined.

Lemma no_files_ok cfg : files_ok cfg no_files.
Proof. split; constructor. Qed.

Lemma files_ok_preserved_witness :
  files_ok default_settings
    (run_file_ops default_settings
       [OpSave photo demo_upload; OpSave broken demo_upload; OpDelete "0f3a"] no_files).
Proof. apply (files_ok_preserved default_settings); [zcompute | apply no_files_ok]. Defined.

Lemma upload_then_read_witness :
  let after := snd (save_uploaded_file default_settings photo demo_upload no_files) in
  get_file_info after "0f3a" = Some (metadata photo demo_upload 3) /\
  (get_file_info no_files "0f3a" = None ->
   list_files after = list_files no_files ++ [metadata photo demo_upload 3]) /\
  prepare_file_parts default_settings after ["0f3a"]
  = Ok [ImagePart "image/png" [Byte.x89; Byte.x50; Byte.x4e]].
Proof.
  apply (upload_then_read default_settings photo demo_upload no_files);
    [reflexivity | reflexivity | zcompute].
Defined.

Lemma upload_then_delete_witness :
  delete_file default_settings "0f3a"
    (snd (save_uploaded_file default_settings photo demo_upload no_files))
  = (Ok true, no_files).
Proof.
  apply (upload_then_delete default_settings photo demo_upload no_files);
    [reflexivity | reflexivity | zcompute | reflexivity | reflexivity].
Defined.
