(* ===== verification/FileRoutes.v ===== *)
(** * FileRoutes: [app/api/routes/files.py]

    The four routes of the file store, on the pair of the throttle's
    counters and the file service's state.  Two of the routes declare
    [Depends(get_current_active_user)]; the outcome of the dependency is an
    argument ([credentials]), and a route that declares it runs its body
    only when the dependency gave a user.  The other two never look at the
    credentials. *)

From stdpp Require Import gmap strings.
From Stdlib Require Import ZArith List Lia String Bool.
From S2P Require Import Prelude.
From S2P Require Import Settings.
From S2P Require Import Errors.
From S2P Require Import RateLimiter.
From S2P Require Import Models.
From S2P Require Import Users.
From S2P Require Import Http.
From S2P Require Import Dict.
From S2P Require Import Paths.
From S2P Require Import FileService.
From S2P Require Import Fixtures.
From S2P Require Import Auth.
Import ListNotations.

Local Open Scope string_scope.
Local Open Scope Z_scope.
Local Open Scope list_scope.

(** What a file route acts on. *)
Record FileWorld : Type := {
  counters : UsageTracking;
  files : FileState
}.

Definition set_counters (w : FileWorld) (u : UsageTracking) : FileWorld :=
  {| counters := u; files := files w |}.

Definition set_files (w : FileWorld) (s : FileState) : FileWorld :=
  {| counters := counters w; files := s |}.

Definition on_counters {A} (m : Eff UsageTracking exn A) : Eff FileWorld exn A :=
  zoom counters set_counters m.

Definition on_files {A} (m : Eff FileState exn A) : Eff FileWorld exn A :=
  zoom files set_files m.

(** ** The routes *)

Inductive file_request : Type :=
| UploadFileTo (file : UploadFile) (draw : UploadDraw)
| GetFiles
| GetFileById (file_id : string)
| RemoveFile (file_id : string).

Inductive file_reply : Type :=
| RFile (file_data : UploadedFile)
| RFiles (all : list UploadedFile)
| RDeleted (message : string).

(** The routes that declare the dependency on the current user. *)
Definition needs_user (req : file_request) : bool :=
  match req with
  | UploadFileTo _ _ | GetFiles => true
  | GetFileById _ | RemoveFile _ => false
  end.

(** The file a route names in its path. *)
Definition named_file (req : file_request) : option string :=
  match req with
  | GetFileById file_id | RemoveFile file_id => Some file_id
  | _ => None
  end.

Section Handlers.
Context (cfg : Settings).

(** [track_request()] *)
Definition file_tracked (now : Z) : Eff FileWorld exn unit :=
  on_counters (track_request cfg now).

Definition not_found {A} (file_id : string) : Eff FileWorld exn A :=
  raise (http_error 404 ("File with ID " ++ file_id ++ " not found")).

Definition upload_file (file : UploadFile) (current_user : UserSchema.t) (now : Z)
    (draw : UploadDraw) : Eff FileWorld exn UploadedFile :=
  try_except
    (file_tracked now ;;;
     on_files (save_uploaded_file cfg file draw))%eff
    (fun e =>
       if is_http e then raise e
       else raise (http_error 500 ("Error uploading file: " ++ exn_str e))).

Definition get_files (current_user : UserSchema.t) (now : Z) : Eff FileWorld exn (list UploadedFile) :=
  (file_tracked now ;;;
   let* w := get in
   ret (list_files (files w)))%eff.

Definition get_file_by_id (file_id : string) (now : Z) : Eff FileWorld exn UploadedFile :=
  (file_tracked now ;;;
   let* w := get in
   match get_file_info (files w) file_id with
   | None => not_found file_id
   | Some file_data => ret file_data
   end)%eff.

Definition remove_file (file_id : string) (now : Z) : Eff FileWorld exn string :=
  (file_tracked now ;;;
   let* w := get in
   match get_file_info (files w) file_id with
   | None => not_found file_id
   | Some _ =>
       try_except
         (let* w := get in
          let file_data := get_file_info (files w) file_id in
          let* success := on_files (delete_file cfg file_id) in
          if success : bool
          then match file_data with
               | Some file_data =>
                   ret ("File " ++ filename file_data ++ " deleted successfully")%string
               | None => raise (OtherExn "'NoneType' object has no attribute 'filename'")
               end
          else raise (http_error 500 "Failed to delete file"))
         (fun e =>
            if is_http e then raise e
            else raise (http_error 500 ("Error deleting file: " ++ exn_str e)))
   end)%eff.

(** The router. *)
Definition handle_file (credentials : result exn UserSchema.t) (now : Z) (req : file_request)
  : Eff FileWorld exn file_reply :=
  match req with
  | UploadFileTo file draw =>
      depends credentials (fun current_user =>
        let* f := upload_file file current_user now draw in ret (RFile f))%eff
  | GetFiles =>
      depends credentials (fun current_user =>
        let* l := get_files current_user now in ret (RFiles l))%eff
  | GetFileById file_id =>
      (let* f := get_file_by_id file_id now in ret (RFile f))%eff
  | RemoveFile file_id =>
      (let* m := remove_file file_id now in ret (RDeleted m))%eff
  end.

End Handlers.

(** Counters within their limits, registry well formed. *)
Definition file_world_ok (cfg : Settings) (w : FileWorld) : Prop :=
  usage_ok cfg (counters w) /\ files_ok cfg (files w).

(** ** Tactics of this file *)

Ltac file_unfold :=
  unfold handle_file, depends, upload_file, get_files, get_file_by_id, remove_file, not_found,
    file_tracked, on_counters, on_files in *.

(** Unfolds the handler of the goal and evaluates [track_request] by the
    given equation. *)
Ltac file_with Htrack :=
  file_unfold; eff_simpl; rewrite Htrack;
  cbn [fst snd counters files set_counters set_files is_http].

(** ** The request counter in front of every route *)

Section Tracking.
Context (cfg : Settings).

Lemma file_tracked_admits now w :
  let u0 := check_and_reset_counters now (counters w) in
  requests_used u0 < REQUESTS_PER_MINUTE cfg ->
  file_tracked cfg now w
  = (Ok tt, set_counters w (set_requests_used u0 (requests_used u0 + 1))).
Proof.
  cbv zeta. intros Hlt. unfold file_tracked, on_counters. now apply zoom_ok, track_request_admits.
Qed.

Lemma file_tracked_rejects now w :
  let u0 := check_and_reset_counters now (counters w) in
  requests_used u0 >= REQUESTS_PER_MINUTE cfg ->
  file_tracked cfg now w
  = (Err (ApiExn (RateLimitError "Request" (REQUESTS_PER_MINUTE cfg))), set_counters w u0).
Proof.
  cbv zeta. intros Hge. unfold file_tracked, on_counters. now apply zoom_err, track_request_rejects.
Qed.

Lemma file_tracked_files now w : files (snd (file_tracked cfg now w)) = files w.
Proof. unfold file_tracked, on_counters, zoom. now destruct (track_request _ _ _). Qed.

Lemma file_tracked_ok now w :
  file_world_ok cfg w -> file_world_ok cfg (snd (file_tracked cfg now w)).
Proof.
  intros [Hu Hf]. split; [|now rewrite file_tracked_files].
  unfold file_tracked, on_counters, zoom.
  pose proof (track_request_ok cfg) as Ht.
  specialize (Ht (proj1 (usage_ok_limits _ _ Hu)) (proj2 (usage_ok_limits _ _ Hu)) now _ Hu).
  now destruct (track_request _ _ _).
Qed.

Lemma on_files_ok {A} (m : Eff FileState exn A) w :
  files_ok cfg (snd (m (files w))) -> file_world_ok cfg w ->
  file_world_ok cfg (snd (on_files m w)).
Proof. unfold on_files, zoom, file_world_ok. destruct (m (files w)); cbn. tauto. Qed.

End Tracking.

(** ** The routes *)

Section Routes.
Context (cfg : Settings).

Abbreviation handle_file := (handle_file cfg).
Abbreviation admitted_at now w :=
  (requests_used (check_and_reset_counters now (counters w)) < REQUESTS_PER_MINUTE cfg).
Abbreviation counted_at now w :=
  (let u0 := check_and_reset_counters now (counters w) in
   set_requests_used u0 (requests_used u0 + 1)).

(** With the request counter at its limit, every file route answers
    500 to an authenticated caller, and the file store is as it was: the
    upload route wraps the rate-limit error in its own 500, the others let
    it leave the handler, and no handler is registered for it. *)
Theorem file_routes_rate_limited current_user now req w :
  requests_used (check_and_reset_counters now (counters w)) >= REQUESTS_PER_MINUTE cfg ->
  let (r, w') := handle_file (Ok current_user) now req w in
  respond r = 500 /\ files w' = files w.
Proof.
  intros Hge. pose proof (file_tracked_rejects cfg now w Hge) as Hk.
  destruct req; file_with Hk; auto.
Qed.

(** A route that names a file id that is not registered answers 404,
    whoever calls, and the file store is as it was. *)
Theorem unknown_file_not_found credentials now req file_id w :
  named_file req = Some file_id ->
  get_file_info (files w) file_id = None ->
  admitted_at now w ->
  let (r, w') := handle_file credentials now req w in
  respond r = 404 /\ files w' = files w.
Proof.
  intros Hn Hg Hlt. pose proof (file_tracked_admits cfg now w Hlt) as Hk.
  destruct req; try discriminate; injection Hn as ->; file_with Hk; rewrite Hg; auto.
Qed.

(** C19. The delete route removes a registered file for any caller, with
    or without credentials: the entry leaves the registry, the file leaves
    the disk, the request is counted, and the answer names the file. *)
Theorem anyone_removes_file credentials now file_id file_data w :
  get_file_info (files w) file_id = Some file_data ->
  admitted_at now w ->
  handle_file credentials now (RemoveFile file_id) w
  = (Ok (RDeleted ("File " ++ filename file_data ++ " deleted successfully")),
     {| counters := counted_at now w;
        files :=
          {| uploaded_files := dict_del file_id (uploaded_files (files w));
             disk := delete (stored_path cfg file_id (extension_of (filename file_data)))
                       (disk (files w)) |} |}).
Proof.
  intros Hg Hlt. pose proof (file_tracked_admits cfg now w Hlt) as Hk.
  file_with Hk. rewrite Hg. cbn [files set_counters].
  now rewrite Hg, (delete_file_known cfg _ _ _ Hg).
Qed.

(** What the dependency on the current user raised is the answer of
    the upload and the listing routes, which then count no request and
    change nothing; the lookup and the delete routes answer the same with
    and without credentials. *)
Theorem credentials_checked_where_declared e current_user now req w :
  if needs_user req
  then handle_file (Err e) now req w = (Err e, w)
  else handle_file (Err e) now req w = handle_file (Ok current_user) now req w.
Proof. now destruct req. Qed.

(** A served upload within the limit through the route is stored and
    counted; the answer is its metadata. *)
Theorem upload_route_stores current_user now file draw w :
  admitted_at now w ->
  str_in (extension_of (uf_filename file)) (ALLOWED_EXTENSIONS cfg) = true ->
  reads_complete (uf_reads file) = true ->
  total_size (incoming (uf_reads file)) <= MAX_UPLOAD_SIZE cfg ->
  let data := List.concat (incoming (uf_reads file)) in
  handle_file (Ok current_user) now (UploadFileTo file draw) w
  = (Ok (RFile (metadata file draw (len data))),
     {| counters := counted_at now w;
        files :=
          {| uploaded_files :=
               dict_set (unique_id draw) (metadata file draw (len data))
                 (uploaded_files (files w));
             disk := <[stored_path cfg (unique_id draw) (extension_of (uf_filename file)) := data]>
                       (disk (files w)) |} |}).
Proof.
  intros Hlt Ha Hc Hn. pose proof (file_tracked_admits cfg now w Hlt) as Hk.
  file_with Hk. now rewrite save_complete.
Qed.

(** The statuses of a refused upload: 400 for an extension that is
    not allowed, 413 for a served upload over the limit, and 500 with the
    text of the exception when a read raises something that is not an HTTP
    exception. *)
Theorem upload_route_statuses current_user now file draw w :
  admitted_at now w ->
  0 <= MAX_UPLOAD_SIZE cfg ->
  let r := fst (handle_file (Ok current_user) now (UploadFileTo file draw) w) in
  let allowed := str_in (extension_of (uf_filename file)) (ALLOWED_EXTENSIONS cfg) in
  (allowed = false -> respond r = 400) /\
  (allowed = true -> reads_complete (uf_reads file) = true ->
   total_size (incoming (uf_reads file)) > MAX_UPLOAD_SIZE cfg -> respond r = 413) /\
  (forall pre e post,
     allowed = true -> uf_reads file = pre ++ ReadError e :: post ->
     forallb is_data pre = true -> total_size (incoming pre) <= MAX_UPLOAD_SIZE cfg ->
     is_http e = false ->
     r = Err (http_error 500 ("Error uploading file: " ++ exn_str e))).
Proof.
  intros Hlt H0. pose proof (file_tracked_admits cfg now w Hlt) as Hk. cbv zeta.
  split; [|split].
  - intros Ha. file_with Hk. unfold save_uploaded_file. now rewrite Ha.
  - intros Ha Hc Hn. file_with Hk.
    now rewrite (save_loop_failure cfg file draw _ _ _ Ha (write_open_too_large cfg file draw _ Hc H0 Hn)).
  - intros pre e post Ha Hr Hd Hn He. file_with Hk.
    rewrite (save_loop_failure cfg file draw _ _ _ Ha (write_open_error cfg file draw pre e post _ Hr Hd Hn)).
    cbn [fst snd is_http]. now rewrite He.
Qed.

(** Counters within their limits and a well-formed registry stay so
    under every file route, whoever calls and whatever is uploaded. *)
Theorem handle_file_preserves_ok credentials now req w :
  0 <= MAX_UPLOAD_SIZE cfg ->
  file_world_ok cfg w ->
  file_world_ok cfg (snd (handle_file credentials now req w)).
Proof.
  intros H0 Hw. pose proof (file_tracked_ok cfg now w Hw) as Hk.
  destruct req, credentials as [current_user|e]; cbn [FileRoutes.handle_file depends];
    try exact Hw;
    unfold upload_file, get_files, get_file_by_id, remove_file, not_found;
    repeat first
      [ eff_preserves_step (file_world_ok cfg)
      | apply file_tracked_ok
      | apply on_files_ok; [|assumption] ];
    try assumption;
    match goal with H : file_world_ok cfg _ |- files_ok cfg _ =>
      destruct H; auto using save_uploaded_file_ok, delete_file_ok end.
Qed.

End Routes.

(** ** Witnesses *)

Definition fresh_files : FileWorld := {| counters := initial_usage 0; files := no_files |}.

Definition busy_files : FileWorld :=
  {| counters := {| last_reset := 0; tokens_used := 0; requests_used := 60 |};
     files := no_files |}.

Definition with_photo : FileWorld :=
  {| counters := initial_usage 0;
     files := snd (save_uploaded_file default_settings photo demo_upload no_files) |}.

Definition no_token : exn := http_error 401 "Could not validate credentials".

Lemma file_routes_rate_limited_witness :
  let (r, w') := handle_file default_settings (Ok ann) 100 (UploadFileTo photo demo_upload)
                   busy_files in
  respond r = 500 /\ files w' = files busy_files.
Proof.
  apply (file_routes_rate_limited default_settings ann 100 (UploadFileTo photo demo_upload)
           busy_files).
  zcompute.
Defined.

Lemma unknown_file_not_found_witness :
  let (r, w') := handle_file default_settings (Err no_token) 100 (RemoveFile "ffff") with_photo in
  respond r = 404 /\ files w' = files with_photo.
Proof.
  apply (unknown_file_not_found default_settings (Err no_token) 100 (RemoveFile "ffff") "ffff"
           with_photo);
    [reflexivity | reflexivity | zcompute].
Defined.

Lemma anyone_removes_file_witness :
  handle_file default_settings (Err no_token) 100 (RemoveFile "0f3a") with_photo
  = (Ok (RDeleted "File photo.PNG deleted successfully"),
     {| counters := {| last_reset := 0; tokens_used := 0; requests_used := 1 |};
        files := {| uploaded_files := [];
                    disk := delete "uploads/0f3a.png" (disk (files with_photo)) |} |}).
Proof.
  apply (anyone_removes_file default_settings (Err no_token) 100 "0f3a"
           (metadata photo demo_upload 3) with_photo);
    [reflexivity | zcompute].
Defined.

Lemma upload_route_stores_witness :
  handle_file default_settings (Ok ann) 100 (UploadFileTo photo demo_upload) fresh_files
  = (Ok (RFile (metadata photo demo_upload 3)),
     {| counters := {| last_reset := 0; tokens_used := 0; requests_used := 1 |};
        files := {| uploaded_files := [("0f3a", metadata photo demo_upload 3)];
                    disk := <["uploads/0f3a.png" := [Byte.x89; Byte.x50; Byte.x4e]]> ∅ |} |}).
Proof.
  apply (upload_route_stores default_settings ann 100 photo demo_upload fresh_files);
    [zcompute | reflexivity | reflexivity | zcompute].
Defined.

Lemma upload_route_statuses_witness :
  respond (fst (handle_file default_settings (Ok ann) 100 (UploadFileTo script demo_upload)
                  fresh_files)) = 400 /\
  fst (handle_file default_settings (Ok ann) 100 (UploadFileTo broken demo_upload) fresh_files)
  = Err (http_error 500 "Error uploading file: connection lost").
Proof.
  pose proof (upload_route_statuses default_settings ann 100 script demo_upload fresh_files
                ltac:(zcompute) ltac:(zcompute)) as [Hs _].
  pose proof (upload_route_statuses default_settings ann 100 broken demo_upload fresh_files
                ltac:(zcompute) ltac:(zcompute)) as (_ & _ & Hb).
  split; [apply Hs; reflexivity|].
  apply (Hb [Data [Byte.x68; Byte.x69]] (OtherExn "connection lost") []);
    [reflexivity | reflexivity | reflexivity | zcompute | reflexivity].
Defined.

Lemma fresh_files_ok : file_world_ok default_settings fresh_files.
Proof. split; [apply usage_okb_spec; reflexivity | apply no_files_ok]. Qed.

Lemma handle_file_preserves_ok_witness :
  file_world_ok default_settings
    (snd (handle_file default_settings (Ok ann) 100 (UploadFileTo broken demo_upload)
            fresh_files)).
Proof.
  apply (handle_file_preserves_ok default_settings (Ok ann) 100); [zcompute | apply fresh_files_ok].
Defined.
