(* ===== verification/ThreadRoutes.v ===== *)
(** * ThreadRoutes: [app/api/routes/threads.py]

    One definition per handler.  A handler is a computation on the [World];
    what it raises is what leaves the function, before the framework turns
    it into a response ([Http.respond]).  The authenticated user
    ([Depends(get_current_active_user)]) is an argument, and so are the
    clock reading of [track_request] and what the database draws.

    [request] and [handle] are the router: one constructor per route, and
    the dispatch to its handler, so that what holds of every route is one
    statement. *)

From Stdlib Require Import ZArith List Lia String Bool.
From S2P Require Import Prelude.
From S2P Require Import Settings.
From S2P Require Import Errors.
From S2P Require Import RateLimiter.
From S2P Require Import Models.
From S2P Require Import Users.
From S2P Require Import State.
From S2P Require Import Http.
From S2P Require Import Crud.
From S2P Require Import Fixtures.
From S2P Require Import ThreadService.
Import ListNotations.

Local Open Scope string_scope.
Local Open Scope Z_scope.
Local Open Scope list_scope.

(** ** The routes *)

Inductive request : Type :=
| CreateNewThread (thread_data : ThreadCreate) (new_id : UUID) (created : Z)
| ListAllThreads
| GetThreadPreviews
| GetThreadById (thread_id : UUID)
| UpdateThreadById (thread_id : UUID) (thread_data : ThreadUpdate) (updated : Z)
| DeleteThreadById (thread_id : UUID)
| GetMessagesForThread (thread_id : UUID)
| ClearThreadMessages (thread_id : UUID).

Inductive reply : Type :=
| RThread (thread : Thread.t)
| RThreads (threads : list Thread.t)
| RPreviews (previews : list ThreadPreview)
| RMessages (messages : list Conversation.t)
| RMessage (message : string).

(** The thread a route names in its path. *)
Definition target (req : request) : option UUID :=
  match req with
  | CreateNewThread _ _ _ | ListAllThreads | GetThreadPreviews => None
  | GetThreadById t | UpdateThreadById t _ _ | DeleteThreadById t
  | GetMessagesForThread t | ClearThreadMessages t => Some t
  end.

(** The routes that only read. *)
Definition is_read (req : request) : bool :=
  match req with
  | ListAllThreads | GetThreadPreviews | GetThreadById _ | GetMessagesForThread _ => true
  | _ => false
  end.

(** [db.query(Conversation).filter(Conversation.thread_id == thread_id).delete()] *)
Definition delete_conversations (thread_id : UUID) (d : Db) : Db :=
  set_conversations d (filter (fun c => negb (of_thread thread_id c)) (conversations d)).

Section Handlers.
Context (cfg : Settings).

(** [track_request()] *)
Definition tracked (now : Z) : Eff World exn unit := on_usage (track_request cfg now).

(** The lookup and the two checks every route on one thread starts with;
    [action] is what the 403 says the caller may not do. *)
Definition owned_thread (thread_id : UUID) (current_user : UserSchema.t) (action : string)
  : Eff World exn Thread.t :=
  (let* w := get in
   match thread_service.get_thread (db w) thread_id with
   | None => raise (http_error 404 ("Thread with ID " ++ uuid_str thread_id ++ " not found"))
   | Some thread =>
       if negb (Thread.user_id thread =? UserSchema.id current_user)
       then raise (http_error 403 ("You don't have permission to " ++ action ++ " this thread"))
       else ret thread
   end)%eff.

(** [except HTTPException: raise] then [except Exception as e: raise
    HTTPException(500, str(e))] *)
Definition reraise_http {A} (e : exn) : Eff World exn A :=
  if is_http e then raise e else raise (http_error 500 (exn_str e)).

Definition create_new_thread (thread_data : ThreadCreate) (current_user : UserSchema.t)
    (now : Z) (new_id : UUID) (created : Z) : Eff World exn Thread.t :=
  try_except
    (tracked now ;;;
     let* thread :=
       on_db (thread_service.create_thread (tc_title thread_data) (UserSchema.id current_user)
                new_id created) in
     ret thread)%eff
    (fun e => raise (http_error 500 ("Error creating thread: " ++ exn_str e))).

Definition list_all_threads (current_user : UserSchema.t) (now : Z) : Eff World exn (list Thread.t) :=
  (tracked now ;;;
   let* w := get in
   ret (thread_service.get_all_threads (db w) (UserSchema.id current_user)))%eff.

Definition get_thread_previews (current_user : UserSchema.t) (now : Z)
  : Eff World exn (list ThreadPreview) :=
  (tracked now ;;;
   let* w := get in
   ret (thread_service.get_all_thread_previews (db w) (UserSchema.id current_user)))%eff.

Definition get_thread_by_id (thread_id : UUID) (current_user : UserSchema.t) (now : Z)
  : Eff World exn Thread.t :=
  (tracked now ;;;
   owned_thread thread_id current_user "access")%eff.

Definition update_thread_by_id (thread_id : UUID) (thread_data : ThreadUpdate)
    (current_user : UserSchema.t) (now : Z) (updated : Z) : Eff World exn Thread.t :=
  try_except
    (tracked now ;;;
     let* thread := owned_thread thread_id current_user "update" in
     let* updated_thread := on_db (thread_service.update_thread thread_id thread_data updated) in
     match updated_thread with
     | None => raise (http_error 500 ("Error updating thread " ++ uuid_str thread_id))
     | Some t => ret t
     end)%eff
    reraise_http.

Definition delete_thread_by_id (thread_id : UUID) (current_user : UserSchema.t) (now : Z)
  : Eff World exn string :=
  try_except
    (tracked now ;;;
     let* thread := owned_thread thread_id current_user "delete" in
     let* success := on_db (thread_service.delete_thread thread_id) in
     if negb success
     then raise (http_error 500 ("Error deleting thread " ++ uuid_str thread_id))
     else ret ("Thread '" ++ Thread.title thread ++ "' deleted successfully")%string)%eff
    reraise_http.

Definition get_messages_for_thread (thread_id : UUID) (current_user : UserSchema.t) (now : Z)
  : Eff World exn (list Conversation.t) :=
  (tracked now ;;;
   let* thread := owned_thread thread_id current_user "access" in
   let* w := get in
   ret (thread_service.get_thread_messages (db w) thread_id))%eff.

Definition clear_thread_messages (thread_id : UUID) (current_user : UserSchema.t) (now : Z)
  : Eff World exn string :=
  (tracked now ;;;
   let* thread := owned_thread thread_id current_user "clear messages in" in
   on_db (modify (delete_conversations thread_id)) ;;;
   ret "Messages cleared successfully")%eff.

(** The router. *)
Definition handle (current_user : UserSchema.t) (now : Z) (req : request) : Eff World exn reply :=
  match req with
  | CreateNewThread thread_data new_id created =>
      (let* t := create_new_thread thread_data current_user now new_id created in
       ret (RThread t))%eff
  | ListAllThreads =>
      (let* l := list_all_threads current_user now in ret (RThreads l))%eff
  | GetThreadPreviews =>
      (let* l := get_thread_previews current_user now in ret (RPreviews l))%eff
  | GetThreadById thread_id =>
      (let* t := get_thread_by_id thread_id current_user now in ret (RThread t))%eff
  | UpdateThreadById thread_id thread_data updated =>
      (let* t := update_thread_by_id thread_id thread_data current_user now updated in
       ret (RThread t))%eff
  | DeleteThreadById thread_id =>
      (let* m := delete_thread_by_id thread_id current_user now in ret (RMessage m))%eff
  | GetMessagesForThread thread_id =>
      (let* l := get_messages_for_thread thread_id current_user now in ret (RMessages l))%eff
  | ClearThreadMessages thread_id =>
      (let* m := clear_thread_messages thread_id current_user now in ret (RMessage m))%eff
  end.

End Handlers.

(** ** Tactics of this file *)

Ltac route_unfold :=
  unfold handle, create_new_thread, list_all_threads, get_thread_previews, get_thread_by_id,
    update_thread_by_id, delete_thread_by_id, get_messages_for_thread, clear_thread_messages,
    owned_thread, reraise_http, tracked, on_usage, on_db in *.

(** Unfolds the handler of the goal and evaluates [track_request] by the
    given equation. *)
Ltac route_with Htrack :=
  route_unfold; eff_simpl; rewrite Htrack; cbn [fst snd usage db set_usage set_db is_http].

(** ** The request counter in front of every route *)

Section Tracking.
Context (cfg : Settings).

Lemma tracked_admits now w :
  let u0 := check_and_reset_counters now (usage w) in
  requests_used u0 < REQUESTS_PER_MINUTE cfg ->
  tracked cfg now w = (Ok tt, set_usage w (set_requests_used u0 (requests_used u0 + 1))).
Proof. cbv zeta. intros Hlt. unfold tracked, on_usage. now apply zoom_ok, track_request_admits. Qed.

Lemma tracked_rejects now w :
  let u0 := check_and_reset_counters now (usage w) in
  requests_used u0 >= REQUESTS_PER_MINUTE cfg ->
  tracked cfg now w
  = (Err (ApiExn (RateLimitError "Request" (REQUESTS_PER_MINUTE cfg))), set_usage w u0).
Proof. cbv zeta. intros Hge. unfold tracked, on_usage. now apply zoom_err, track_request_rejects. Qed.

Lemma tracked_db now w : db (snd (tracked cfg now w)) = db w.
Proof. apply on_usage_db. Qed.

Lemma tracked_ok now w : world_ok cfg w -> world_ok cfg (snd (tracked cfg now w)).
Proof.
  intros Hw. apply on_usage_ok; [|exact Hw]. destruct Hw as [Hu _].
  apply track_request_ok; solve [assumption | apply usage_ok_limits in Hu; apply Hu].
Qed.

End Tracking.

(** ** Clearing a thread *)

Lemma delete_conversations_db_ok thread_id d : db_ok d -> db_ok (delete_conversations thread_id d).
Proof.
  intros [Hu Ht Hc Htf Hcf]. constructor; try assumption.
  - unfold conversation_ids, delete_conversations; cbn. now apply NoDup_map_filter.
  - intros c Hin. apply filter_In in Hin as [Hin _]. now apply Hcf.
Qed.

Lemma delete_conversations_rows thread_id d :
  thread_rows (delete_conversations thread_id d) thread_id = [].
Proof. unfold thread_rows, delete_conversations; cbn. apply filter_filter_negb_nil. Qed.

Lemma delete_conversations_frame thread_id other d :
  other <> thread_id ->
  thread_rows (delete_conversations thread_id d) other = thread_rows d other.
Proof.
  intros Hne. unfold thread_rows, delete_conversations; cbn.
  rewrite filter_comm. apply filter_id, Forall_forall. intros c Hin.
  apply filter_In in Hin as [_ Ho]. apply of_thread_true in Ho.
  unfold of_thread. rewrite Ho. apply negb_true_iff, Z.eqb_neq, Hne.
Qed.

(** ** The routes *)

Section Routes.
Context (cfg : Settings) (current_user : UserSchema.t).

Abbreviation handle := (handle cfg current_user).
Abbreviation admitted_at now w :=
  (requests_used (check_and_reset_counters now (usage w)) < REQUESTS_PER_MINUTE cfg).
Abbreviation counted_at now w :=
  (let u0 := check_and_reset_counters now (usage w) in
   set_requests_used u0 (requests_used u0 + 1)).

Lemma owned_thread_snd thread_id action w :
  snd (owned_thread thread_id current_user action w) = w.
Proof.
  unfold owned_thread; eff_simpl.
  destruct (thread_service.get_thread (db w) thread_id) as [th|]; [|reflexivity].
  now destruct (negb (Thread.user_id th =? UserSchema.id current_user)).
Qed.

Lemma reraise_http_snd A e w : snd (reraise_http (A:=A) e w) = w.
Proof. unfold reraise_http. now destruct (is_http e). Qed.

(** C11. When the request counter is at its limit, every route of the
    thread router answers with status 500, not 429: the rate-limit error
    is either wrapped by the handler's own [except Exception] or escapes
    to the framework, which has no handler registered for it.  The
    database is not touched. *)
Theorem rate_limit_surfaces_as_500 now req w :
  requests_used (check_and_reset_counters now (usage w)) >= REQUESTS_PER_MINUTE cfg ->
  let (r, w') := handle now req w in
  respond r = 500 /\ db w' = db w /\ usage w' = check_and_reset_counters now (usage w).
Proof.
  intros Hge. pose proof (track_request_rejects cfg now (usage w) Hge) as Ht.
  destruct req; route_with Ht; auto.
Qed.

(** C5. Ownership enforcement: a request to read, update, delete, list the
    messages of, or clear a thread that exists and belongs to another user
    fails and leaves the database as it was; when the request is admitted
    by the request counter the failure is a 403. *)
Theorem ownership_enforced now req thread_id th w :
  target req = Some thread_id ->
  thread_service.get_thread (db w) thread_id = Some th ->
  Thread.user_id th <> UserSchema.id current_user ->
  let (r, w') := handle now req w in
  db w' = db w /\ is_ok r = false /\ (admitted_at now w -> respond r = 403).
Proof.
  intros Ht Hg Hne. apply Z.eqb_neq in Hne.
  destruct (Z.lt_ge_cases (requests_used (check_and_reset_counters now (usage w)))
              (REQUESTS_PER_MINUTE cfg)) as [Hlt|Hge].
  - pose proof (track_request_admits cfg now (usage w) Hlt) as Hk.
    destruct req; inv Ht; route_with Hk; rewrite Hg; cbn; rewrite Hne; cbn; auto.
  - apply Z.le_ge in Hge. pose proof (track_request_rejects cfg now (usage w) Hge) as Hk.
    destruct req; inv Ht; route_with Hk; repeat split; lia.
Qed.

(** An admitted request on a thread that does not exist is answered
    with 404 and leaves the database as it was. *)
Theorem missing_thread_not_found now req thread_id w :
  target req = Some thread_id ->
  thread_service.get_thread (db w) thread_id = None ->
  admitted_at now w ->
  let (r, w') := handle now req w in
  respond r = 404 /\ db w' = db w.
Proof.
  intros Ht Hg Hlt. pose proof (track_request_admits cfg now (usage w) Hlt) as Hk.
  destruct req; inv Ht; route_with Hk; rewrite Hg; cbn; auto.
Qed.

(** The four reading routes never write to the database, whatever
    they answer. *)
Theorem reads_leave_db now req w :
  is_read req = true -> db (snd (handle now req w)) = db w.
Proof.
  intros Hr. destruct (track_request cfg now (usage w)) as [[[]|e] u] eqn:Hk;
    destruct req; try discriminate; route_with Hk; try reflexivity;
    (destruct (thread_service.get_thread (db w) _) as [th|]; [|reflexivity]);
    now destruct (negb _).
Qed.

Lemma service_write_db_ok w :
  world_ok cfg w ->
  (forall title user_id new_id now,
     db_ok (snd (thread_service.create_thread title user_id new_id now (db w)))) /\
  (forall thread_id data now,
     db_ok (snd (thread_service.update_thread thread_id data now (db w)))) /\
  (forall thread_id, db_ok (snd (thread_service.delete_thread thread_id (db w)))) /\
  (forall thread_id, db_ok (snd (modify (E:=exn) (delete_conversations thread_id) (db w)))).
Proof.
  intros [_ Hd]. split; [|split; [|split]]; intros.
  - now apply create_thread_db_ok.
  - now apply update_thread_db_ok.
  - now apply delete_thread_db_ok.
  - now apply delete_conversations_db_ok.
Qed.

(** Every route, with any arguments and whether it returns or raises,
    takes a world whose counters are within their limits and whose database
    is well-formed to such a world. *)
Theorem handle_preserves_world_ok now req w :
  world_ok cfg w -> world_ok cfg (snd (handle now req w)).
Proof.
  intros Hw.
  destruct req;
    unfold ThreadRoutes.handle, create_new_thread, list_all_threads, get_thread_previews,
      get_thread_by_id, update_thread_by_id, delete_thread_by_id, get_messages_for_thread,
      clear_thread_messages;
    repeat first
      [ eff_preserves_step (world_ok cfg)
      | rewrite reraise_http_snd
      | rewrite owned_thread_snd
      | apply tracked_ok
      | apply on_db_ok; [|assumption] ];
    try assumption;
    match goal with H : world_ok cfg ?s |- _ => apply (service_write_db_ok s H) end.
Qed.

(** No thread route writes the users table. *)
Lemma handle_users us now req w : users_are us w -> users_are us (snd (handle now req w)).
Proof.
  intros Hw.
  destruct req;
    unfold ThreadRoutes.handle, create_new_thread, list_all_threads, get_thread_previews,
      get_thread_by_id, update_thread_by_id, delete_thread_by_id, get_messages_for_thread,
      clear_thread_messages;
    repeat first
      [ eff_preserves_step (users_are us)
      | rewrite reraise_http_snd
      | rewrite owned_thread_snd
      | apply on_usage_users
      | apply on_db_users; [|assumption] ];
    try assumption; unfold thread_service.create_thread, thread_service.update_thread,
      thread_service.delete_thread; autorewrite with gchat_rw; reflexivity.
Qed.

(** What the owner's admitted request finds after the checks. *)
Lemma owned_thread_owner thread_id action th w :
  thread_service.get_thread (db w) thread_id = Some th ->
  Thread.user_id th = UserSchema.id current_user ->
  owned_thread thread_id current_user action w = (Ok th, w).
Proof.
  intros Hg Ho. unfold owned_thread; eff_simpl. rewrite Hg.
  now rewrite (proj2 (Z.eqb_eq _ _) Ho).
Qed.

(** The owner's admitted request to delete a thread is answered with
    the confirmation that names the thread's title; the request is counted
    and the database is the one [delete_thread] leaves: the thread and its
    conversations are gone. *)
Theorem owner_deletes_thread now thread_id th w :
  admitted_at now w ->
  thread_service.get_thread (db w) thread_id = Some th ->
  Thread.user_id th = UserSchema.id current_user ->
  handle now (DeleteThreadById thread_id) w
  = (Ok (RMessage ("Thread '" ++ Thread.title th ++ "' deleted successfully")),
     {| usage := counted_at now w;
        db := snd (thread_service.delete_thread thread_id (db w)) |}).
Proof.
  intros Hlt Hg Ho. pose proof (track_request_admits cfg now (usage w) Hlt) as Hk.
  apply Z.eqb_eq in Ho. route_with Hk. rewrite Hg, Ho. cbn [negb].
  unfold thread_service.delete_thread, chat_crud.delete_thread.
  unfold thread_service.get_thread in Hg. cbn [db set_usage]. now rewrite Hg.
Qed.

(** The owner's admitted request to clear a thread removes every
    conversation of that thread and nothing else: the threads table and
    the conversations of every other thread are as before. *)
Theorem owner_clears_messages now thread_id th w :
  admitted_at now w ->
  thread_service.get_thread (db w) thread_id = Some th ->
  Thread.user_id th = UserSchema.id current_user ->
  let (r, w') := handle now (ClearThreadMessages thread_id) w in
  r = Ok (RMessage "Messages cleared successfully") /\
  usage w' = counted_at now w /\
  threads (db w') = threads (db w) /\
  thread_rows (db w') thread_id = [] /\
  forall other, other <> thread_id -> thread_rows (db w') other = thread_rows (db w) other.
Proof.
  intros Hlt Hg Ho. pose proof (track_request_admits cfg now (usage w) Hlt) as Hk.
  apply Z.eqb_eq in Ho. route_with Hk. rewrite Hg, Ho. cbn [negb db set_usage set_db usage].
  repeat split; auto using delete_conversations_rows, delete_conversations_frame.
Qed.

(** An admitted request for the list of threads is answered with
    exactly the threads the caller owns, in table order. *)
Theorem list_shows_own_threads now w :
  admitted_at now w ->
  exists l,
    fst (handle now ListAllThreads w) = Ok (RThreads l) /\
    forall th, In th l <-> In th (threads (db w)) /\ Thread.user_id th = UserSchema.id current_user.
Proof.
  intros Hlt. pose proof (track_request_admits cfg now (usage w) Hlt) as Hk.
  route_with Hk. eexists; split; [reflexivity|].
  intros th. apply get_user_threads_owner.
Qed.

End Routes.

(** ** Witnesses *)

Lemma rate_limit_surfaces_as_500_witness :
  let (r, w') := handle default_settings ann 100 ListAllThreads full_world in
  respond r = 500 /\ db w' = db full_world /\
  usage w' = check_and_reset_counters 100 (usage full_world).
Proof. apply (rate_limit_surfaces_as_500 default_settings ann 100 ListAllThreads). zcompute. Defined.

Lemma ownership_enforced_witness :
  let (r, w') := handle default_settings bob 100 (DeleteThreadById 10) demo_world in
  db w' = db demo_world /\ is_ok r = false /\
  (requests_used (check_and_reset_counters 100 (usage demo_world))
     < REQUESTS_PER_MINUTE default_settings -> respond r = 403).
Proof.
  apply (ownership_enforced default_settings bob 100 (DeleteThreadById 10) 10
           (chat_crud.new_thread {| tc_title := "first" |} 1 10 100));
    [reflexivity | reflexivity | discriminate].
Defined.

Lemma missing_thread_not_found_witness :
  let (r, w') := handle default_settings ann 100 (GetMessagesForThread 99) demo_world in
  respond r = 404 /\ db w' = db demo_world.
Proof.
  apply (missing_thread_not_found default_settings ann 100 (GetMessagesForThread 99) 99);
    [reflexivity | reflexivity | zcompute].
Defined.

Lemma reads_leave_db_witness :
  db (snd (handle default_settings ann 100 GetThreadPreviews demo_world)) = db demo_world.
Proof. apply (reads_leave_db default_settings ann 100 GetThreadPreviews). reflexivity. Defined.

Lemma handle_preserves_world_ok_witness :
  world_ok default_settings
    (snd (handle default_settings ann 100
            (UpdateThreadById 10 {| tu_title := Some (Some "renamed"); tu_is_archived := None |} 150)
            demo_world)).
Proof.
  apply (handle_preserves_world_ok default_settings ann). apply world_okb_spec. reflexivity.
Defined.

Lemma owner_deletes_thread_witness :
  handle default_settings ann 100 (DeleteThreadById 10) demo_world
  = (Ok (RMessage "Thread 'first' deleted successfully"),
     {| usage := {| last_reset := 0; tokens_used := 0; requests_used := 1 |};
        db := {| users := users demo_db;
                 threads := [chat_crud.new_thread {| tc_title := "second" |} 1 11 110];
                 conversations :=
                   [ {| Conversation.id := 21; Conversation.thread_id := 11;
                        Conversation.role := "user"; Conversation.content := "bye";
                        Conversation.created_at := 130; Conversation.model := None;
                        Conversation.token_count := Some 1 |} ] |} |}).
Proof.
  apply (owner_deletes_thread default_settings ann 100 10
           (chat_crud.new_thread {| tc_title := "first" |} 1 10 100) demo_world);
    [zcompute | reflexivity | reflexivity].
Defined.

Lemma owner_clears_messages_witness :
  let (r, w') := handle default_settings ann 100 (ClearThreadMessages 10) demo_world in
  r = Ok (RMessage "Messages cleared successfully") /\
  usage w' = {| last_reset := 0; tokens_used := 0; requests_used := 1 |} /\
  threads (db w') = threads demo_db /\
  thread_rows (db w') 10 = [] /\
  forall other, other <> 10 -> thread_rows (db w') other = thread_rows demo_db other.
Proof.
  apply (owner_clears_messages default_settings ann 100 10
           (chat_crud.new_thread {| tc_title := "first" |} 1 10 100) demo_world);
    [zcompute | reflexivity | reflexivity].
Defined.

Lemma list_shows_own_threads_witness :
  exists l,
    fst (handle default_settings bob 100 ListAllThreads demo_world) = Ok (RThreads l) /\
    forall th, In th l <-> In th (threads demo_db) /\ Thread.user_id th = 2.
Proof. apply (list_shows_own_threads default_settings bob 100 demo_world). zcompute. Defined.
