(* ===== verification/Schemas.v ===== *)
(** * Schemas: what a thread route answers with

    The response schemas of [app/schemas/chat.py].  A thread handler
    returns rows (or the dictionaries of the previews, or a message); the
    [response_model] of its decorator selects the fields the client
    receives, read from the attributes of the row ([from_attributes]).
    [body_of] is that selection on a [ThreadRoutes.reply].  The two
    deleting routes declare no response model and answer a message. *)

From Stdlib Require Import ZArith List Lia String Bool.
From S2P Require Import Prelude.
From S2P Require Import Settings.
From S2P Require Import Errors.
From S2P Require Import RateLimiter.
From S2P Require Import Models.
From S2P Require Import Users.
From S2P Require Import State.
From S2P Require Import Http.
From S2P Require Import Crud.
From S2P Require Import Fixtures.
From S2P Require Import ThreadService.
From S2P Require Import ThreadRoutes.
Import ListNotations.

Local Open Scope string_scope.
Local Open Scope Z_scope.
Local Open Scope list_scope.

(** ** The schemas *)

(** [ConversationBase] and [ConversationResponse] *)
Record ConversationResponse : Type := {
  cr_role : string;
  cr_content : string;
  cr_model : option string;
  cr_token_count : option Z;
  cr_id : UUID;
  cr_thread_id : UUID;
  cr_created_at : Z;
  cr_updated_at : option Z
}.

(** [Conversation], the schema. *)
Record ConversationSchema : Type := {
  cs_role : string;
  cs_content : string;
  cs_model : option string;
  cs_token_count : option Z;
  cs_id : UUID;
  cs_thread_id : UUID;
  cs_created_at : Z
}.

(** [ThreadBase] and [ThreadResponse] *)
Record ThreadResponse : Type := {
  tr_title : string;
  tr_id : UUID;
  tr_user_id : UUID;
  tr_created_at : Z;
  tr_updated_at : option Z
}.

(** [Thread], the schema: the one that carries the archive flag and the
    conversations.  No route answers with it. *)
Record ThreadSchema : Type := {
  ts_title : option string;
  ts_id : UUID;
  ts_user_id : UUID;
  ts_created_at : Z;
  ts_updated_at : option Z;
  ts_is_archived : bool;
  ts_conversations : list ConversationSchema
}.

(** [ThreadPreviewResponse] *)
Record ThreadPreviewResponse : Type := {
  pr_id : UUID;
  pr_title : string;
  pr_last_message_content : option string;
  pr_last_message_timestamp : option Z;
  pr_updated_at : option Z
}.

(** ** The models of [app/models/base.py]

    The module declares a second family of user and thread models.  The
    route modules import [Token], [UploadedFile], [ChatRequestWithThread]
    and [RateLimitStatus] from it (they are with the components that
    build them) and name [User] in annotations; nothing builds the
    others. *)

Module base.

Record Message : Type := {
  role : string;
  content : string
}.

(** [UserBase] and [UserCreate]; [username] is populated from [name]. *)
Record UserCreate : Type := {
  uc_email : string;
  uc_username : string;
  uc_password : string
}.

(** The length constraints of the fields. *)
Definition user_create_ok (u : UserCreate) : bool :=
  (3 <=? py_len (uc_username u)) && (py_len (uc_username u) <=? 50)
  && (8 <=? py_len (uc_password u)).

(** [UserBase], [User] and [UserInDB] *)
Record User : Type := {
  email : string;
  username : string;
  user_id : string;
  created_at : string;
  is_active : bool;
  is_admin : bool
}.

Record UserInDB : Type := {
  user : User;
  hashed_password : string
}.

Record Thread : Type := {
  thread_id : UUID;
  title : string;
  thread_created_at : string;
  updated_at : string;
  message_count : Z;
  last_message_preview : option string;
  owner_id : option string
}.

Record ThreadCreate : Type := {
  create_title : string
}.

Record ThreadUpdate : Type := {
  update_title : string
}.

End base.

(** ** Reading a row into a schema *)

(** The table has no [updated_at] column: the field takes its default. *)
Definition conversation_response (row : Conversation.t) : ConversationResponse :=
  {| cr_role := Conversation.role row;
     cr_content := Conversation.content row;
     cr_model := Conversation.model row;
     cr_token_count := Conversation.token_count row;
     cr_id := Conversation.id row;
     cr_thread_id := Conversation.thread_id row;
     cr_created_at := Conversation.created_at row;
     cr_updated_at := None |}.

Definition thread_response (row : Thread.t) : ThreadResponse :=
  {| tr_title := Thread.title row;
     tr_id := Thread.id row;
     tr_user_id := Thread.user_id row;
     tr_created_at := Thread.created_at row;
     tr_updated_at := Thread.updated_at row |}.

(** The keys of the preview dictionary are the fields of the schema. *)
Definition preview_response (preview : ThreadPreview) : ThreadPreviewResponse :=
  {| pr_id := p_id preview;
     pr_title := p_title preview;
     pr_last_message_content := p_last_message_content preview;
     pr_last_message_timestamp := p_last_message_timestamp preview;
     pr_updated_at := p_updated_at preview |}.

(** ** The body of a response *)

Inductive body : Type :=
| BThread (thread : ThreadResponse)
| BThreads (threads : list ThreadResponse)
| BPreviews (previews : list ThreadPreviewResponse)
| BMessages (messages : list ConversationResponse)
| BMessage (message : string).

(** The selection the decorators of [app/api/routes/threads.py] declare. *)
Definition body_of (r : reply) : body :=
  match r with
  | RThread thread => BThread (thread_response thread)
  | RThreads threads => BThreads (map thread_response threads)
  | RPreviews previews => BPreviews (map preview_response previews)
  | RMessages messages => BMessages (map conversation_response messages)
  | RMessage message => BMessage message
  end.

(** ** What the selection forgets *)

(** The answer for a thread holds the row but for its archive flag. *)
Lemma thread_response_eq a b :
  thread_response a = thread_response b <->
  Thread.set_is_archived a None = Thread.set_is_archived b None.
Proof.
  destruct a, b; unfold thread_response, Thread.set_is_archived; cbn.
  split; intros [= -> -> -> -> ->]; reflexivity.
Qed.

Lemma thread_response_flag th b :
  thread_response (Thread.set_is_archived th b) = thread_response th.
Proof. reflexivity. Qed.

Lemma thread_response_touched th now :
  thread_response (Thread.set_updated_at th now)
  = {| tr_title := Thread.title th; tr_id := Thread.id th; tr_user_id := Thread.user_id th;
       tr_created_at := Thread.created_at th; tr_updated_at := Some now |}.
Proof. reflexivity. Qed.

(** The [updated_at] of a message is null in every answer. *)
Lemma messages_never_updated r messages :
  body_of r = BMessages messages -> Forall (fun m => cr_updated_at m = None) messages.
Proof.
  destruct r; cbn [body_of]; try discriminate. intros [= <-].
  apply Forall_forall. intros m [row [<- _]]%in_map_iff. reflexivity.
Qed.

(** ** The archive flag *)

Section Archive.
Context (cfg : Settings) (current_user : UserSchema.t).

(** The request that sets the archive flag and nothing else. *)
Definition archive (thread_id : UUID) (flag : option bool) (updated : Z) : request :=
  UpdateThreadById thread_id {| tu_title := None; tu_is_archived := Some flag |} updated.


End Archive.

(** ** Witnesses *)

(** Ann's first thread, as stored. *)
Definition first_thread : Thread.t := chat_crud.new_thread {| tc_title := "first" |} 1 10 100.


(** Archiving Ann's first thread is answered with the thread and the time
    of the update; the flag is in the table and not in the answer. *)
Example archive_answer :
  option_map body_of
    (match fst (handle default_settings ann 100 (archive 10 (Some true) 150) demo_world) with
     | Ok r => Some r
     | Err _ => None
     end)
  = Some (BThread {| tr_title := "first"; tr_id := 10; tr_user_id := 1; tr_created_at := 100;
                     tr_updated_at := Some 150 |}).
Proof. reflexivity. Qed.
