(* ===== verification/ChatRoutes.v ===== *)
(** * ChatRoutes: [app/api/routes/chat.py], [rate_limits.py], [models.py]

    [chat_with_thread] reads the thread's history, stores the user's turn,
    and hands the question to [process_chat_request].  What lies outside
    the program is an argument: whether the limiter library's decorator
    rejects the call ([limited]), and the model client ([client]: the
    stream a chat session gives for a model, a history and a question, or
    the exception its creation raises).  The body of the streaming response
    runs after the handler returns; here the handler's result carries the
    events of the whole run and the world after it. *)

From Stdlib Require Import ZArith List Lia String Bool.
From S2P Require Import Prelude.
From S2P Require Import Settings.
From S2P Require Import Errors.
From S2P Require Import RateLimiter.
From S2P Require Import Models.
From S2P Require Import State.
From S2P Require Import Http.
From S2P Require Import Crud.
From S2P Require Import Fixtures.
From S2P Require Import ThreadService.
From S2P Require Import ChatService.
From S2P Require Import ThreadRoutes.
Import ListNotations.

Local Open Scope string_scope.
Local Open Scope Z_scope.
Local Open Scope list_scope.

Record ChatRequestWithThread : Type := {
  model : string;
  question : string
}.

(** The model client: [genai.Client(...).chats.create(model, history)] and
    the stream [send_message_stream(question)] will give. *)
Definition Client : Type := string -> list HistoryItem -> string -> result exn (list upstream).

(** What one call of the chat route draws: the identifier and timestamps of
    the user's row, and those of the reply's. *)
Record ChatDraw : Type := {
  user_ids : UUID * UUID;
  user_times : Z * Z * Z;
  reply_draw : Draw
}.

Section Handlers.
Context (cfg : Settings) `{Tokenizer}.

(** The [except] clauses of [chat_with_thread]. *)
Definition chat_except {A} (e : exn) : Eff World exn A :=
  match e with
  | ApiExn a =>
      if status_code a =? 429
      then raise (http_error (status_code a) (message a))
      else raise (http_error 500 (exn_str e))
  | _ => if is_http e then raise e else raise (http_error 500 (exn_str e))
  end.

Definition chat_with_thread (limited : option string) (client : Client)
    (chat_request : ChatRequestWithThread) (thread_id : UUID) (draw : ChatDraw)
  : Eff World exn chat_reply :=
  match limited with
  | Some detail => raise (LimiterExn detail)
  | None =>
      try_except
        (let question := question chat_request in
         let* w := get in
         let existing_conversation_history :=
           thread_service.get_thread_messages_optimized (db w) thread_id in
         let complete_messages := existing_conversation_history in
         let new_user_message :=
           {| msg_role := Some "user";
              msg_content := question;
              msg_token_count := Some (count_tokens question);
              msg_model := None |} in
         let* _ :=
           on_db (thread_service.add_messages_to_thread thread_id (Some new_user_message) None
                    (user_ids draw) (user_times draw)) in
         total (process_chat_request cfg thread_id (model chat_request) (reply_draw draw)
                  (client (model chat_request) complete_messages question)))%eff
        chat_except
  end.

(** [GET /rate-limits] *)
Definition get_rate_limits (now now1 now2 : Z) : Eff World exn RateLimitStatus :=
  (tracked cfg now ;;;
   let* w := get in
   let (status, u) := get_rate_limit_status cfg now1 now2 (usage w) in
   put (set_usage w u) ;;;
   ret status)%eff.

(** [GET /models] *)
Definition get_models : list ModelInfo := AVAILABLE_MODELS cfg.

End Handlers.

(** The row the chat route stores for the question. *)
Definition user_row `{Tokenizer} (thread_id : UUID) (question : string) (draw : ChatDraw)
  : Conversation.t :=
  {| Conversation.id := fst (user_ids draw);
     Conversation.thread_id := thread_id;
     Conversation.role := "user";
     Conversation.content := question;
     Conversation.created_at := fst (fst (user_times draw));
     Conversation.model := None;
     Conversation.token_count := Some (count_tokens question) |}.

(** ** Tactics of this file *)

Ltac chat_unfold :=
  unfold chat_with_thread, chat_except, get_rate_limits, tracked, on_usage, on_db in *;
  eff_simpl.

(** ** What [process_chat_request] keeps *)

Section Process.
Context (cfg : Settings) `{Tokenizer}.
Context (thread_id : UUID) (model : string) (draw : Draw) (chat : result exn (list upstream)).

Abbreviation process := (process_chat_request cfg thread_id model draw chat).

Lemma process_snd w :
  snd (process w)
  = match chat with
    | Ok response => snd (stream_response cfg thread_id model draw response w)
    | Err _ => w
    end.
Proof.
  unfold process_chat_request. destruct chat as [response|e]; [|reflexivity].
  now destruct (stream_response cfg thread_id model draw response w).
Qed.

Lemma process_world_ok w : world_ok cfg w -> world_ok cfg (snd (process w)).
Proof.
  rewrite process_snd. destruct chat; [|trivial]. apply stream_loop_world_ok.
Qed.

Lemma process_requests_kept w : requests_kept (usage w) (usage (snd (process w))).
Proof.
  rewrite process_snd. destruct chat; [|apply requests_kept_refl].
  apply stream_loop_requests_kept.
Qed.

Lemma process_appends w :
  exists rest, conversations (db (snd (process w))) = conversations (db w) ++ rest.
Proof.
  rewrite process_snd. destruct chat; [apply stream_loop_appends|].
  exists []. now rewrite app_nil_r.
Qed.

Lemma process_users us w : users_are us w -> users_are us (snd (process w)).
Proof. rewrite process_snd. destruct chat; [apply stream_loop_users | trivial]. Qed.

Lemma process_missing_db w :
  chat_crud.get_thread (db w) thread_id = None -> db (snd (process w)) = db w.
Proof.
  rewrite process_snd. destruct chat; [|reflexivity]. apply stream_loop_missing_db.
Qed.

End Process.

(** ** The chat route *)

Section Chat.
Context (cfg : Settings) `{Tokenizer}.
Context (client : Client) (chat_request : ChatRequestWithThread) (thread_id : UUID).
Context (draw : ChatDraw).

Abbreviation chat_with_thread limited := (chat_with_thread cfg limited client chat_request thread_id draw).

Lemma user_row_stored :
  chat_crud.new_conversation
    (thread_service.user_conversation thread_id
       {| msg_role := Some "user"; msg_content := question chat_request;
          msg_token_count := Some (count_tokens (question chat_request));
          msg_model := None |})
    (fst (user_ids draw)) (fst (fst (user_times draw)))
  = user_row thread_id (question chat_request) draw.
Proof.
  unfold user_row, chat_crud.new_conversation, thread_service.user_conversation; cbn.
  f_equal. unfold py_or. now destruct (Z.eqb_spec (count_tokens (question chat_request)) 0) as [->|].
Qed.

(** The handler on a thread that exists: the user's row is stored, the
    thread is touched, and the model is asked with the history as it was
    before the question. *)
Lemma chat_on_thread th w :
  chat_crud.get_thread (db w) thread_id = Some th ->
  ~ In (fst (user_ids draw)) (conversation_ids (db w)) ->
  chat_with_thread None w
  = total (process_chat_request cfg thread_id (model chat_request) (reply_draw draw)
             (client (model chat_request)
                (thread_service.get_thread_messages_optimized (db w) thread_id)
                (question chat_request)))
      (set_db w
         (thread_service.touch_thread thread_id (snd (user_times draw))
            (set_conversations (db w)
               (conversations (db w) ++ [user_row thread_id (question chat_request) draw])))).
Proof.
  intros Hg Hid. chat_unfold.
  destruct (user_ids draw) as [i1 i2] eqn:Hi, (user_times draw) as [[t1 t2] t3] eqn:Ht.
  cbn [fst snd] in *.
  rewrite (add_messages_user thread_id _ None i1 i2 t1 t2 t3 (db w) th Hg Hid).
  erewrite add_messages_none
    by (rewrite get_thread_set_conversations; exact Hg).
  cbn [fst snd]. rewrite <- user_row_stored, Hi, Ht. cbn [fst snd].
  now destruct (process_chat_request _ _ _ _ _ _) as [r w'].
Qed.

Lemma chat_except_snd A e w : snd (chat_except (A:=A) e w) = w.
Proof.
  unfold chat_except. destruct e as [a|h|d|m]; cbn [is_http];
    try reflexivity. now destruct (status_code a =? 429).
Qed.

Lemma total_snd S E A (f : S -> A * S) s : snd (total (E:=E) f s) = snd (f s).
Proof. unfold total. now destruct (f s). Qed.

(** The handler keeps a predicate of the world that the user's insert and
    [process_chat_request] keep. *)
Lemma chat_preserves (P : World -> Prop) limited w :
  P w ->
  (forall m w0, P w0 ->
     P (snd (on_db (thread_service.add_messages_to_thread thread_id (Some m) None
                      (user_ids draw) (user_times draw)) w0))) ->
  (forall chat w0, P w0 ->
     P (snd (process_chat_request cfg thread_id (model chat_request) (reply_draw draw) chat w0))) ->
  P (snd (chat_with_thread limited w)).
Proof.
  intros Hw Hadd Hproc. unfold ChatRoutes.chat_with_thread.
  destruct limited as [detail|]; [exact Hw|].
  repeat first [eff_preserves_step P | rewrite chat_except_snd | rewrite total_snd]; auto.
Qed.

(** On a thread that exists, whoever owns it, the chat route stores
    the question as a user row (role ["user"], no model, the token count of
    the question) before anything is streamed, and answers without raising;
    whatever the stream then does, that row stays and at most the reply
    follows it. *)
Theorem chat_stores_user_turn th w :
  chat_crud.get_thread (db w) thread_id = Some th ->
  ~ In (fst (user_ids draw)) (conversation_ids (db w)) ->
  exists r w' rest,
    chat_with_thread None w = (Ok r, w') /\
    conversations (db w')
    = conversations (db w) ++ user_row thread_id (question chat_request) draw :: rest.
Proof.
  intros Hg Hid. rewrite (chat_on_thread th w Hg Hid). unfold total.
  match goal with |- context [process_chat_request ?c ?t ?m ?d ?ch ?w0] =>
    destruct (process_appends c t m d ch w0) as [rest Hrest];
    destruct (process_chat_request c t m d ch w0) as [r w'] end.
  exists r, w', rest. split; [reflexivity|].
  cbn [snd db set_db] in Hrest. rewrite Hrest.
  rewrite touch_thread_conversations. cbn [conversations set_conversations].
  now rewrite <- app_assoc.
Qed.

(** C39. On a thread that does not exist the chat route does not answer
    404: when the model client gives a stream, the route answers with the
    streaming response, and neither the question nor the reply is
    stored. *)
Theorem chat_missing_thread_streams response w :
  chat_crud.get_thread (db w) thread_id = None ->
  client (model chat_request)
    (thread_service.get_thread_messages_optimized (db w) thread_id) (question chat_request)
  = Ok response ->
  exists body w',
    chat_with_thread None w = (Ok (StreamingResponse body), w') /\ db w' = db w.
Proof.
  intros Hg Hc. chat_unfold.
  destruct (user_ids draw) as [i1 i2], (user_times draw) as [[t1 t2] t3].
  unfold thread_service.add_messages_to_thread, thread_service.get_thread; eff_simpl.
  rewrite Hg. cbn [fst snd]. rewrite set_db_same, Hc.
  pose proof (stream_loop_missing_db cfg thread_id (model chat_request) (reply_draw draw)
                "" response w Hg) as Hdb.
  unfold process_chat_request, stream_response.
  destruct (stream_loop _ _ _ _ "" response w) as [body w']. now exists body, w'.
Qed.

(** The chat route never counts a request: whatever it is given and
    however it ends, the requests counter is where it was, or was zeroed by
    a window reset during the stream. *)
Theorem chat_never_counts_request limited w :
  requests_kept (usage w) (usage (snd (chat_with_thread limited w))).
Proof.
  apply (chat_preserves (fun w' => requests_kept (usage w) (usage w'))).
  - apply requests_kept_refl.
  - intros m w0 Hk. now rewrite on_db_usage.
  - intros chat w0 Hk. eapply requests_kept_trans; [exact Hk|]. apply process_requests_kept.
Qed.

(** The chat route, with any arguments and whether it returns or
    raises, keeps the counters within their limits and the database
    well-formed. *)
Theorem chat_preserves_world_ok limited w :
  world_ok cfg w -> world_ok cfg (snd (chat_with_thread limited w)).
Proof.
  intros Hw. apply chat_preserves; [exact Hw| |].
  - intros m w0 Hw0. apply on_db_ok; [|exact Hw0]. apply add_messages_db_ok, Hw0.
  - intros chat w0 Hw0. now apply process_world_ok.
Qed.

(** The chat route leaves the users table as it was. *)
Lemma chat_users us limited w : users_are us w -> users_are us (snd (chat_with_thread limited w)).
Proof.
  intros Hw. apply chat_preserves; [exact Hw| |].
  - intros m w0 Hw0. apply on_db_users; [apply add_messages_users | exact Hw0].
  - intros chat w0 Hw0. now apply process_users.
Qed.

(** A call the limiter library rejects is answered with 429 by the
    registered handler; the handler's body does not run. *)
Lemma chat_limited detail w :
  chat_with_thread (Some detail) w = (Err (LimiterExn detail), w) /\
  respond (fst (chat_with_thread (Some detail) w)) = 429.
Proof. split; reflexivity. Qed.

End Chat.

(** ** The status route *)

Section Status.
Context (cfg : Settings).

(** The status route counts itself: an admitted call inside the
    window reports one more used request than there were before it, and
    leaves the counter there. *)
Theorem status_route_counts_itself now now1 now2 w :
  let u0 := check_and_reset_counters now (usage w) in
  requests_used u0 < REQUESTS_PER_MINUTE cfg ->
  now1 - last_reset u0 <= WINDOW ->
  let (r, w') := get_rate_limits cfg now now1 now2 w in
  (exists status, r = Ok status /\ used (requests status) = requests_used u0 + 1) /\
  requests_used (usage w') = requests_used u0 + 1 /\ db w' = db w.
Proof.
  cbv zeta. intros Hlt Hw1.
  pose proof (track_request_admits cfg now (usage w) Hlt) as Hk.
  chat_unfold. rewrite Hk. cbn [fst snd usage set_usage].
  unfold get_rate_limit_status. rewrite reset_idle by exact Hw1.
  cbn. split; [eexists; split; [reflexivity|reflexivity] | split; reflexivity].
Qed.

Lemma get_rate_limits_db now now1 now2 w : db (snd (get_rate_limits cfg now now1 now2 w)) = db w.
Proof.
  chat_unfold. destruct (track_request cfg now (usage w)) as [[[]|e] u]; reflexivity.
Qed.

Lemma get_rate_limits_ok now now1 now2 w :
  world_ok cfg w -> world_ok cfg (snd (get_rate_limits cfg now now1 now2 w)).
Proof.
  intros Hw. pose proof (tracked_ok cfg now w Hw) as [Hu Hd].
  pose proof (usage_ok_limits _ _ Hu) as [Ht Hr].
  split; [|rewrite get_rate_limits_db; apply Hw].
  chat_unfold. unfold tracked, on_usage, zoom in Hu.
  destruct (track_request cfg now (usage w)) as [[[]|e] u]; cbn in *;
    [now apply reset_ok | assumption].
Qed.

End Status.

(** ** Witnesses *)

Definition demo_chat_draw : ChatDraw :=
  {| user_ids := (30, 30); user_times := (190, 190, 191); reply_draw := demo_draw |}.

(** A client that answers every question with the stream of [hello_stream]. *)
Definition hello_client : Client := fun _ _ _ => Ok hello_stream.

Definition demo_request : ChatRequestWithThread :=
  {| model := "gemini-2.0-flash"; question := "hi" |}.

Lemma chat_stores_user_turn_witness :
  exists r w' rest,
    @ChatRoutes.chat_with_thread default_settings char_tokenizer None hello_client
      demo_request 10 demo_chat_draw demo_world = (Ok r, w') /\
    conversations (db w')
    = conversations demo_db ++
        {| Conversation.id := 30; Conversation.thread_id := 10;
           Conversation.role := "user"; Conversation.content := "hi";
           Conversation.created_at := 190; Conversation.model := None;
           Conversation.token_count := Some 2 |} :: rest.
Proof.
  apply (@chat_stores_user_turn default_settings char_tokenizer hello_client demo_request 10
           demo_chat_draw (chat_crud.new_thread {| tc_title := "first" |} 1 10 100) demo_world);
    [reflexivity | cbn; intuition discriminate].
Defined.

Lemma chat_missing_thread_streams_witness :
  exists body w',
    @ChatRoutes.chat_with_thread default_settings char_tokenizer None hello_client
      demo_request 99 demo_chat_draw demo_world = (Ok (StreamingResponse body), w') /\
    db w' = db demo_world.
Proof.
  apply (@chat_missing_thread_streams default_settings char_tokenizer hello_client demo_request
           99 demo_chat_draw hello_stream demo_world); reflexivity.
Defined.

Lemma chat_preserves_world_ok_witness :
  world_ok default_settings
    (snd (@ChatRoutes.chat_with_thread default_settings char_tokenizer None hello_client
            demo_request 10 demo_chat_draw demo_world)).
Proof.
  apply (@chat_preserves_world_ok default_settings char_tokenizer). exact demo_world_ok.
Defined.

Lemma status_route_counts_itself_witness :
  let (r, w') := get_rate_limits default_settings 100 101 102 demo_world in
  (exists status, r = Ok status /\ used (requests status) = 0 + 1) /\
  requests_used (usage w') = 0 + 1 /\ db w' = db demo_world.
Proof.
  apply (status_route_counts_itself default_settings 100 101 102 demo_world); zcompute.
Defined.
