(* ===== verification/App.v ===== *)
(** * App: the application of [app/main.py], one request at a time

    The routers of [Router] and the handlers of [ThreadRoutes],
    [ChatRoutes], [FileRoutes] and [AuthRoutes] on one state: the
    throttle's counters (one module-level dictionary, shared by every
    route), the database, and the file store.  A request is looked up in
    the table; the endpoint's dependency on the current user, where it
    declares one, is resolved from the [Authorization] header against the
    database of the moment; the path parameters and the body are checked;
    the handler runs.  What the handler raises becomes the status of the
    response. *)

From stdpp Require Import gmap strings.
From Stdlib Require Import ZArith List Lia String Bool Ascii.
From S2P Require Import Prelude.
From S2P Require Import Settings.
From S2P Require Import Errors.
From S2P Require Import RateLimiter.
From S2P Require Import Models.
From S2P Require Import State.
From S2P Require Import Paths.
From S2P Require Import Http.
From S2P Require Import Router.
From S2P Require Import Crud.
From S2P Require Import Users.
From S2P Require Import Fixtures.
From S2P Require Import Auth.
From S2P Require Import AuthRoutes.
From S2P Require Import ThreadService.
From S2P Require Import ChatService.
From S2P Require Import Dict.
From S2P Require Import FileService.
From S2P Require Import FileRoutes.
From S2P Require Import ThreadRoutes.
From S2P Require Import ChatRoutes.
Import ListNotations.

Local Open Scope string_scope.
Local Open Scope Z_scope.
Local Open Scope list_scope.

(** ** The state of the process *)

Record AppState : Type := {
  world : World;
  store : FileState
}.

Definition set_world (s : AppState) (w : World) : AppState :=
  {| world := w; store := store s |}.

Definition database (s : AppState) : Db := db (world s).

Definition set_database (s : AppState) (d : Db) : AppState :=
  set_world s (set_db (world s) d).

(** What the file routes act on: the shared counters and the file store. *)
Definition file_world (s : AppState) : FileWorld :=
  {| counters := usage (world s); files := store s |}.

Definition set_file_world (s : AppState) (fw : FileWorld) : AppState :=
  {| world := set_usage (world s) (counters fw); store := files fw |}.

Definition on_world {A} (m : Eff World exn A) : Eff AppState exn A :=
  zoom world set_world m.

Definition on_database {A} (m : Eff Db exn A) : Eff AppState exn A :=
  zoom database set_database m.

Definition on_file_world {A} (m : Eff FileWorld exn A) : Eff AppState exn A :=
  zoom file_world set_file_world m.

(** ** Requests and replies *)

(** The body of a request, already decoded, with what the handler that
    takes it will draw from its environment. *)
Inductive Body : Type :=
| NoBody
| ThreadCreateBody (thread_data : ThreadCreate) (new_id : UUID) (created : Z)
| ThreadUpdateBody (thread_data : ThreadUpdate) (updated : Z)
| ChatBody (chat_request : ChatRequestWithThread) (draw : ChatDraw)
| UploadBody (file : UploadFile) (draw : UploadDraw)
| UserCreateBody (user_data : UserCreate) (draw : UserDraw)
| LoginForm (form_data : OAuth2PasswordRequestForm) (clock : LoginClock).

Record Request : Type := {
  req_method : Method;
  req_path : string;
  req_authorization : option string;
  req_body : Body;
  (** the clock when the request arrives, and at the two later readings
      of the status route *)
  req_now : Z;
  req_later : Z * Z;
  (** what the limiter library decided for the request *)
  req_limited : option string
}.

Inductive Reply : Type :=
| ThreadReply (r : reply)
| FileReply (r : file_reply)
| AuthReply (r : auth_reply)
| ChatReply (r : chat_reply)
| ModelsReply (models : list ModelInfo)
| StatusReply (status : RateLimitStatus)
| JsonReply (content : list (string * string))
| DocsReply
| Redirected (url : string).

(** ** Arguments *)

(** The routes that declare [Depends(get_current_active_user)]. *)
Definition declares_user (e : Endpoint.t) : bool :=
  match e with
  | Endpoint.upload_file | Endpoint.get_files
  | Endpoint.create_new_thread | Endpoint.list_all_threads | Endpoint.get_thread_previews
  | Endpoint.get_thread_by_id | Endpoint.update_thread_by_id | Endpoint.delete_thread_by_id
  | Endpoint.get_messages_for_thread | Endpoint.clear_thread_messages
  | Endpoint.read_users_me => true
  | _ => false
  end.

Definition path_param (name : string) (path_params : list (string * string)) : option string :=
  option_map snd (find (fun p => String.eqb (fst p) name) path_params).

(** A parameter declared [uuid.UUID]. *)
Definition uuid_param (name : string) (path_params : list (string * string)) : option UUID :=
  match path_param name path_params with
  | Some s => Z_of_str s
  | None => None
  end.

(** The arguments of a thread route, when the request has them. *)
Definition thread_args (e : Endpoint.t) (path_params : list (string * string)) (body : Body)
  : option request :=
  let thread_id := uuid_param "thread_id" path_params in
  match e, body with
  | Endpoint.create_new_thread, ThreadCreateBody thread_data new_id created =>
      Some (CreateNewThread thread_data new_id created)
  | Endpoint.list_all_threads, _ => Some ListAllThreads
  | Endpoint.get_thread_previews, _ => Some GetThreadPreviews
  | Endpoint.get_thread_by_id, _ => option_map GetThreadById thread_id
  | Endpoint.update_thread_by_id, ThreadUpdateBody thread_data updated =>
      option_map (fun t => UpdateThreadById t thread_data updated) thread_id
  | Endpoint.delete_thread_by_id, _ => option_map DeleteThreadById thread_id
  | Endpoint.get_messages_for_thread, _ => option_map GetMessagesForThread thread_id
  | Endpoint.clear_thread_messages, _ => option_map ClearThreadMessages thread_id
  | _, _ => None
  end.

Definition file_args (e : Endpoint.t) (path_params : list (string * string)) (body : Body)
  : option file_request :=
  match e, body with
  | Endpoint.upload_file, UploadBody file draw => Some (UploadFileTo file draw)
  | Endpoint.get_files, _ => Some GetFiles
  | Endpoint.get_file_by_id, _ => option_map GetFileById (path_param "file_id" path_params)
  | Endpoint.remove_file, _ => option_map RemoveFile (path_param "file_id" path_params)
  | _, _ => None
  end.

Definition auth_args `{EmailValidator} (e : Endpoint.t) (body : Body) : option auth_request :=
  match e, body with
  | Endpoint.register_user, UserCreateBody user_data draw =>
      if user_create_valid user_data then Some (RegisterUser user_data draw) else None
  | Endpoint.login_for_access_token, LoginForm form_data clock =>
      Some (LoginForAccessToken form_data clock)
  | Endpoint.read_users_me, _ => Some ReadUsersMe
  | _, _ => None
  end.

(** ** Serving *)

Section Serve.
Context `{Tokenizer} `{PasswordHasher} `{Jwt} `{EmailValidator}.
Context (cfg : Settings) (client : Client).

(** [RequestValidationError] *)
Definition unprocessable {A} : Eff AppState exn A :=
  raise (http_error 422 "Unprocessable Entity").

(** The arguments are looked at once the dependencies are resolved: a
    route that declares the current user answers what the dependency
    raised before it answers 422. *)
Definition invalid {A} (e : Endpoint.t) (credentials : result exn UserSchema.t)
  : Eff AppState exn A :=
  if declares_user e then depends credentials (fun _ => unprocessable) else unprocessable.

(** The call of a path operation function with the arguments the
    framework resolves for it. *)
Definition call (e : Endpoint.t) (path_params : list (string * string)) (req : Request)
  : Eff AppState exn Reply :=
  (let* s := get in
   let now := req_now req in
   let credentials := current_active_user cfg (req_authorization req) now (database s) in
   match e with
   | Endpoint.openapi | Endpoint.swagger_ui_html | Endpoint.swagger_ui_redirect
   | Endpoint.redoc_html => ret DocsReply
   | Endpoint.root =>
       ret (JsonReply [("message", "AI Chat API is running"); ("status", "healthy")])
   | Endpoint.health_check =>
       ret (JsonReply [("status", "healthy"); ("message", "AI Chat API is running")])
   | Endpoint.get_models => ret (ModelsReply (get_models cfg))
   | Endpoint.get_rate_limits =>
       let* status :=
         on_world (get_rate_limits cfg now (fst (req_later req)) (snd (req_later req))) in
       ret (StatusReply status)
   | Endpoint.chat_with_thread =>
       match uuid_param "thread_id" path_params, req_body req with
       | Some thread_id, ChatBody chat_request draw =>
           let* r :=
             on_world (chat_with_thread cfg (req_limited req) client chat_request
                         thread_id draw) in
           ret (ChatReply r)
       | _, _ => unprocessable
       end
   | Endpoint.upload_file | Endpoint.get_files | Endpoint.get_file_by_id
   | Endpoint.remove_file =>
       match file_args e path_params (req_body req) with
       | Some args =>
           let* r := on_file_world (handle_file cfg credentials now args) in ret (FileReply r)
       | None => invalid e credentials
       end
   | Endpoint.register_user | Endpoint.login_for_access_token | Endpoint.read_users_me =>
       match auth_args e (req_body req) with
       | Some args =>
           let* r := on_database (handle_auth cfg credentials args) in ret (AuthReply r)
       | None => invalid e credentials
       end
   | _ =>
       depends credentials (fun current_user =>
         match thread_args e path_params (req_body req) with
         | Some args =>
             let* r := on_world (handle cfg current_user now args) in ret (ThreadReply r)
         | None => unprocessable
         end)
   end)%eff.

(** One request: the lookup, then the call. *)
Definition serve (req : Request) : Eff AppState exn Reply :=
  match route_for app_routes (req_method req) (req_path req) with
  | Found r path_params => call (endpoint r) path_params req
  | MethodNotAllowed => raise (http_error 405 "Method Not Allowed")
  | Redirect url => ret (Redirected url)
  | NotFound => raise (http_error 404 "Not Found")
  end.

(** The status line of the response. *)
Definition status_of (r : result exn Reply) : Z :=
  match r with
  | Ok (Redirected _) => 307
  | _ => respond r
  end.

(** A sequence of requests, one after the other: the responses, and the
    state they leave. *)
Fixpoint serve_all (reqs : list Request) (s : AppState) : list (result exn Reply) * AppState :=
  match reqs with
  | [] => ([], s)
  | req :: rest =>
      let (r, s1) := serve req s in
      let (rs, s2) := serve_all rest s1 in
      (r :: rs, s2)
  end.

End Serve.

(** Counters within their limits, tables within their constraints, users
    told apart by e-mail and by name, registry and disk in step. *)
Definition app_ok (cfg : Settings) (s : AppState) : Prop :=
  world_ok cfg (world s) /\ users_ok (database s) /\ files_ok cfg (store s).

(** ** Tactics of this file *)

Ltac app_unfold :=
  unfold serve, call, invalid, unprocessable, depends, on_world, on_database, on_file_world in *.

(** ** The invariant *)

Section Lenses.
Context (cfg : Settings) {A : Type}.

Lemma on_world_app_ok (m : Eff World exn A) s :
  world_ok cfg (snd (m (world s))) ->
  users_are (users (database s)) (snd (m (world s))) ->
  app_ok cfg s -> app_ok cfg (snd (on_world m s)).
Proof.
  unfold on_world, zoom, app_ok, users_are, database.
  destruct (m (world s)) as [r w]; cbn. intros Hw Hu (_ & Hus & Hf).
  eauto using users_ok_ext.
Qed.

Lemma on_database_app_ok (m : Eff Db exn A) s :
  store_ok (snd (m (database s))) -> app_ok cfg s -> app_ok cfg (snd (on_database m s)).
Proof.
  unfold on_database, zoom, app_ok, store_ok, world_ok, database.
  destruct (m (db (world s))) as [r d]; cbn. tauto.
Qed.

Lemma on_file_world_app_ok (m : Eff FileWorld exn A) s :
  file_world_ok cfg (snd (m (file_world s))) -> app_ok cfg s ->
  app_ok cfg (snd (on_file_world m s)).
Proof.
  unfold on_file_world, zoom, app_ok, file_world_ok, world_ok, database.
  destruct (m (file_world s)) as [r fw]; cbn. tauto.
Qed.

Lemma app_ok_file_world s : app_ok cfg s -> file_world_ok cfg (file_world s).
Proof. unfold app_ok, file_world_ok, world_ok. cbn. tauto. Qed.

Lemma app_ok_store s : app_ok cfg s -> store_ok (database s).
Proof. unfold app_ok, store_ok, world_ok, database. tauto. Qed.

Lemma app_ok_world s : app_ok cfg s -> world_ok cfg (world s).
Proof. now intros []. Qed.

End Lenses.

Section Invariant.
Context `{Tokenizer} `{PasswordHasher} `{Jwt} `{EmailValidator}.
Context (cfg : Settings) (client : Client).
Hypothesis upload_limit_nonneg : 0 <= MAX_UPLOAD_SIZE cfg.

(** One step of showing that a call keeps [app_ok]. *)
Ltac app_step :=
  first
    [ eff_preserves_step (app_ok cfg)
    | assumption
    | apply on_world_app_ok; [| |assumption]
    | apply on_database_app_ok; [|assumption]
    | apply on_file_world_app_ok; [|assumption]
    | apply handle_preserves_world_ok
    | apply handle_users
    | apply chat_preserves_world_ok
    | apply chat_users
    | apply get_rate_limits_ok
    | apply handle_file_preserves_ok
    | apply handle_auth_preserves_store_ok
    | apply (app_ok_world cfg)
    | apply (app_ok_file_world cfg)
    | apply (app_ok_store cfg)
    | reflexivity ].

Lemma call_app_ok e path_params req s :
  app_ok cfg s -> app_ok cfg (snd (call cfg client e path_params req s)).
Proof.
  intros Hs. unfold call, invalid, unprocessable, depends.
  apply (bind_preserves (app_ok cfg)); [exact Hs | intros s0 s1 Hs1].
  destruct e; cbn [declares_user]; repeat app_step.
  unfold users_are. now rewrite get_rate_limits_db.
Qed.


Lemma serve_app_ok req s : app_ok cfg s -> app_ok cfg (snd (serve cfg client req s)).
Proof.
  intros Hs. unfold serve. destruct (route_for _ _ _); auto using call_app_ok.
Qed.


End Invariant.

(** ** Credentials *)

Lemma set_world_same s : set_world s (world s) = s.
Proof. now destruct s. Qed.

Lemma set_database_same s : set_database s (database s) = s.
Proof. destruct s as [[u d] f]. reflexivity. Qed.

Lemma set_file_world_same s : set_file_world s (file_world s) = s.
Proof. destruct s as [[u d] f]. reflexivity. Qed.

(** The request with another [Authorization] header, or none. *)
Definition with_authorization (req : Request) (authorization : option string) : Request :=
  {| req_method := req_method req; req_path := req_path req;
     req_authorization := authorization; req_body := req_body req;
     req_now := req_now req; req_later := req_later req; req_limited := req_limited req |}.

Section Credentials.
Context `{Tokenizer} `{PasswordHasher} `{Jwt} `{EmailValidator}.
Context (cfg : Settings) (client : Client).

Abbreviation serve := (serve cfg client).
Abbreviation call := (call cfg client).
Abbreviation credentials_of req s :=
  (current_active_user cfg (req_authorization req) (req_now req) (database s)).

Lemma serve_found req r path_params s :
  route_for app_routes (req_method req) (req_path req) = Found r path_params ->
  serve req s = call (endpoint r) path_params req s.
Proof. unfold App.serve. now intros ->. Qed.

(** A file route that declares the user does not run without one. *)
Lemma handle_file_refused e now args s :
  needs_user args = true ->
  on_file_world (handle_file cfg (Err e) now args) s = (Err e, s).
Proof.
  destruct args; try discriminate; intros _; unfold on_file_world, zoom; cbn;
    now rewrite set_file_world_same.
Qed.

Lemma file_args_needs_user e path_params body args :
  file_args e path_params body = Some args -> needs_user args = declares_user e.
Proof.
  destruct e, body; cbn; try discriminate; try destruct (path_param _ _); cbn;
    try discriminate; now intros [= <-].
Qed.


(** The file routes that do not declare the user do not look at the
    credentials. *)
Lemma handle_file_public c1 c2 now args :
  needs_user args = false -> handle_file cfg c1 now args = handle_file cfg c2 now args.
Proof. now destruct args. Qed.

Lemma handle_auth_public c1 c2 args :
  args <> ReadUsersMe -> handle_auth cfg c1 args = handle_auth cfg c2 args.
Proof. destruct args; [reflexivity | reflexivity | congruence]. Qed.

Lemma auth_args_public e body args :
  declares_user e = false -> auth_args e body = Some args -> args <> ReadUsersMe.
Proof.
  destruct e, body; cbn; try discriminate; intros _;
    try destruct (user_create_valid _); try discriminate; now intros [= <-].
Qed.


End Credentials.

(** ** From the request to the handler *)

Lemma uuid_str_piece thread_id :
  uuid_str thread_id <> "" /\ uuid_str thread_id <> "previews" /\
  ~ In "/"%char (list_ascii_of_string (uuid_str thread_id)).
Proof.
  unfold uuid_str. split; [apply str_of_Z_not_nil|].
  split; [intros He; pose proof (str_of_Z_chars thread_id "p") as Hc; rewrite He in Hc
         |intros Hin; apply str_of_Z_chars in Hin as Hc];
    cbn in Hc; intuition discriminate.
Qed.

Lemma uuid_param_str name thread_id :
  uuid_param name [(name, uuid_str thread_id)] = Some thread_id.
Proof.
  unfold uuid_param, path_param. cbn. rewrite String.eqb_refl. cbn. apply Z_of_str_of_Z.
Qed.

Section EndToEnd.
Context `{Tokenizer} `{PasswordHasher} `{Jwt} `{EmailValidator}.
Context (cfg : Settings) (client : Client).

(** The call of a thread route for a request the dependency accepts. *)
Lemma call_thread e path_params req s current_user args :
  current_active_user cfg (req_authorization req) (req_now req) (database s) = Ok current_user ->
  thread_args e path_params (req_body req) = Some args ->
  call cfg client e path_params req s
  = (let* r := on_world (handle cfg current_user (req_now req) args) in
     ret (ThreadReply r))%eff s.
Proof.
  intros Hc Ha. unfold call; eff_simpl. rewrite Hc.
  destruct e; try (destruct (req_body req); discriminate); cbn [depends]; now rewrite Ha.
Qed.

(** C21. The identifier a client writes into the path of a thread route is
    the identifier the handler receives, and the token the client sends
    is the user the handler runs as: a [GET] for [/api/threads/<id>] that
    carries a token issued to a stored, active user, before the token's
    expiry, is the call of [get_thread_by_id] with that identifier as that
    user, whatever the identifier. *)
Theorem thread_request_reaches_handler user expires_delta utcnow thread_id req s :
  db_ok (database s) -> In user (users (database s)) -> User.is_active user = true ->
  req_now req < timegm (expire_at cfg expires_delta utcnow) * TICKS_PER_SECOND ->
  req_method req = GET ->
  req_path req = ("/api/threads/" ++ uuid_str thread_id)%string ->
  req_authorization req
  = bearer (create_access_token cfg (subject user) expires_delta utcnow) ->
  serve cfg client req s
  = (let* r := on_world (handle cfg (user_out user) (req_now req) (GetThreadById thread_id)) in
     ret (ThreadReply r))%eff s.
Proof.
  intros Hok Hin Ha Hlt Hm Hp Hauth.
  destruct (uuid_str_piece thread_id) as (Hne & Hpre & Hsl).
  unfold serve. rewrite Hm, Hp.
  change ("/api/threads/" ++ uuid_str thread_id)%string
    with ("/api/threads" ++ String "/" (uuid_str thread_id))%string.
  rewrite (thread_path_routed _ Hne Hpre Hsl). cbn [endpoint thread_route api_route].
  apply call_thread.
  - rewrite Hauth, issued_token, Ha by assumption.
    now destruct (Z.leb_spec (timegm (expire_at cfg expires_delta utcnow) * TICKS_PER_SECOND)
                    (req_now req)); [lia|].
  - unfold thread_args. now rewrite uuid_param_str.
Qed.

End EndToEnd.

(** ** Witnesses *)

Section Witnesses.
#[local] Existing Instance char_tokenizer.
#[local] Existing Instance reference_hasher.
#[local] Existing Instance reference_jwt.
#[local] Existing Instance reference_emails.

Definition demo_app : AppState := {| world := demo_world; store := no_files |}.

Definition request_of (method : Method) (path : string) (authorization : option string)
    (body : Body) (now : Z) : Request :=
  {| req_method := method; req_path := path; req_authorization := authorization;
     req_body := body; req_now := now; req_later := (now, now); req_limited := None |}.

(** Ann's token, issued at 0 with the default lifetime. *)
Definition ann_bearer : option string :=
  bearer (create_access_token default_settings (subject ann_row) None 0).

Lemma demo_app_ok : app_ok default_settings demo_app.
Proof.
  split; [exact demo_world_ok | split; [apply demo_store_ok | apply fresh_files_ok]].
Qed.




Lemma thread_request_reaches_handler_witness :
  serve default_settings hello_client (request_of GET "/api/threads/10" ann_bearer NoBody 300)
    demo_app
  = (let* r := on_world (handle default_settings (user_out ann_row) 300 (GetThreadById 10)) in
     ret (ThreadReply r))%eff demo_app.
Proof.
  apply (thread_request_reaches_handler default_settings hello_client ann_row None 0 10
           (request_of GET "/api/threads/10" ann_bearer NoBody 300) demo_app);
    try reflexivity; [exact demo_db_ok | now left].
Defined.

End Witnesses.
