(* ===== verification/Wiring.v ===== *)
(** * Wiring: start-up, entry points and the logging middleware

    What surrounds the application of [App]: the start-up hook of
    [app/main.py] and the two scripts that create the tables
    ([app/database/init_db.py], [scripts/create_tables.py]), the entry
    point [main.py] that hands the settings to the server, and the
    request logging middleware of [app/utils/middleware.py], which the
    application defines and does not install, and the two calls that
    configure the root logger.

    Whether [create_all] succeeds is an argument.  The middleware is a
    transformer of the computation that answers a request; its state is
    the state of that computation and the log. *)

From Stdlib Require Import ZArith List String Bool.
From S2P Require Import Prelude.
From S2P Require Import Settings.
From S2P Require Import Errors.
Import ListNotations.

Local Open Scope string_scope.
Local Open Scope Z_scope.
Local Open Scope list_scope.

(** ** Creating the tables *)

(** [init_db]: [Base.metadata.create_all(bind=engine)]. *)
Definition init_db (create_all : result exn unit) : result exn unit := create_all.

Inductive Printed : Type :=
| CreatingTables
| TablesCreated.

(** [create_tables] of the script: what it prints, and how it ends. *)
Definition create_tables (create_all : result exn unit) : result exn unit * list Printed :=
  match init_db create_all with
  | Ok _ => (Ok tt, [CreatingTables; TablesCreated])
  | Err e => (Err e, [CreatingTables])
  end.

Inductive LogRecord : Type :=
| Info (message : string)
| Error (message : string).

(** [startup_event]: the hook logs and swallows a failure. *)
Definition startup_event (create_all : result exn unit) : result exn unit * list LogRecord :=
  match create_all with
  | Ok _ => (Ok tt, [Info "Creating database tables..."; Info "Database tables created successfully"])
  | Err e =>
      (Ok tt, [Info "Creating database tables...";
               Error ("Error creating database tables: " ++ exn_str e)%string])
  end.

(** ** The entry point *)

Record Uvicorn : Type := {
  app : string;
  host : string;
  port : Z;
  reload : bool
}.

(** [uvicorn.run("app.main:app", host=HOST, port=PORT, reload=DEBUG)] *)
Definition uvicorn_run (cfg : Settings) : Uvicorn :=
  {| app := "app.main:app"; host := HOST cfg; port := PORT cfg; reload := DEBUG cfg |}.

(** ** The configuration of the root logger *)

Module logging.

Record BasicConfig : Type := {
  level : string;
  format : string;
  datefmt : option string
}.

(** [logging.basicConfig(...)]: the root logger is configured when it
    has no handler yet, and the call does nothing otherwise. *)
Definition basicConfig (root : option BasicConfig) (config : BasicConfig)
  : option BasicConfig :=
  match root with
  | Some _ => root
  | None => Some config
  end.

(** The call of [app/config/settings.py]. *)
Definition of_settings : BasicConfig :=
  {| level := "INFO";
     format := "%(asctime)s - %(name)s - %(levelname)s - %(message)s";
     datefmt := Some "%Y-%m-%d %H:%M:%S" |}.

(** The call of [app/main.py]. *)
Definition of_main : BasicConfig :=
  {| level := "INFO";
     format := "%(asctime)s - %(name)s - %(levelname)s - %(message)s";
     datefmt := None |}.

(** The root logger once [app/main.py] is imported: the module imports
    the settings before it makes its own call. *)
Definition root_logger : option BasicConfig := basicConfig (basicConfig None of_settings) of_main.

End logging.

(** ** The request logging middleware *)

Module RequestLoggingMiddleware.

Inductive Entry : Type :=
| Started (request_id method path : string)
| Completed (request_id : string) (status_code process_time : Z)
| Failed (request_id : string) (process_time : Z) (error : string).

Section Dispatch.
Context {S R : Type}.
Variable status_code : R -> Z.

(** A response and the headers the middleware has added to it. *)
Definition Response : Type := R * list (string * string).

Definition log (r : Entry) : Eff (S * list Entry) exn unit :=
  modify (fun st => (fst st, snd st ++ [r])).

(** [call_next(request)], on the state of the application. *)
Definition inner (call_next : Eff S exn R) : Eff (S * list Entry) exn R :=
  zoom fst (fun st s => (s, snd st)) call_next.

(** [dispatch]: [request_id] is the identifier drawn for the request,
    [start_time] and [end_time] the two readings of the clock. *)
Definition dispatch (request_id method path : string) (start_time end_time : Z)
    (call_next : Eff S exn R) : Eff (S * list Entry) exn Response :=
  (log (Started request_id method path) ;;;
   try_except
     (let* response := inner call_next in
      let process_time := end_time - start_time in
      log (Completed request_id (status_code response) process_time) ;;;
      ret (response, [("X-Request-ID", request_id)]))
     (fun e =>
        let process_time := end_time - start_time in
        log (Failed request_id process_time (exn_str e)) ;;;
        raise e))%eff.

End Dispatch.

End RequestLoggingMiddleware.

Import RequestLoggingMiddleware.

(** ** Properties *)

(** The start-up hook never fails: when the tables cannot be created
    the error is logged and the application starts all the same, where the
    two scripts that create the tables end with the exception. *)
Theorem startup_swallows_failure create_all :
  fst (startup_event create_all) = Ok tt /\
  fst (create_tables create_all) = create_all /\
  (forall e, create_all = Err e ->
     exists message, snd (startup_event create_all)
                     = [Info "Creating database tables..."; Error message]).
Proof.
  unfold startup_event, create_tables, init_db.
  destruct create_all as [[]|e]; (split; [reflexivity | split; [reflexivity|]]).
  - discriminate.
  - intros e' [= <-]. eexists. reflexivity.
Qed.

Section Transparent.
Context {S R : Type}.
Variables (status_code : R -> Z) (call_next : Eff S exn R).
Variables (request_id method path : string) (start_time end_time : Z).

Abbreviation logged := (dispatch status_code request_id method path start_time end_time call_next).

(** The logging middleware is transparent: the application is left in
    the state the handler leaves it in, the response is the handler's with
    the request identifier as a header, an exception of the handler is
    raised again as it is, and the log gains exactly two records, the first
    of which says that the request started. *)
Theorem dispatch_transparent s records :
  match call_next s with
  | (Ok response, s') =>
      logged (s, records)
      = (Ok (response, [("X-Request-ID", request_id)]),
         (s', records ++ [Started request_id method path;
                          Completed request_id (status_code response) (end_time - start_time)]))
  | (Err e, s') =>
      logged (s, records)
      = (Err e,
         (s', records ++ [Started request_id method path;
                          Failed request_id (end_time - start_time) (exn_str e)]))
  end.
Proof.
  unfold dispatch, inner, log, try_except, bind, zoom, modify, ret, raise. cbn [fst snd].
  destruct (call_next s) as [[response|e] s']; cbn [fst snd]; now rewrite <- app_assoc.
Qed.

End Transparent.

(** The second call has no effect: the application logs with the date
    format of the settings, whatever [app/main.py] asks for. *)
Lemma basicConfig_once first second :
  logging.basicConfig (logging.basicConfig None first) second = Some first.
Proof. reflexivity. Qed.

Example main_configuration_unused : logging.root_logger = Some logging.of_settings.
Proof. apply basicConfig_once. Qed.

(** The server is started on the address and port of the settings, and
    reloads only in debug mode. *)
Example default_entry_point :
  uvicorn_run default_settings
  = {| app := "app.main:app"; host := "0.0.0.0"; port := 8000; reload := false |}.
Proof. reflexivity. Qed.
