(* ===== verification/Monitor.v ===== *)
(** * Monitor: [monitor_free_tier.py]

    The script asks five AWS services what the deployment uses and prints a
    report with a verdict per resource.  What the services answer is the
    record [Aws]: one field per client call, holding the answer or the
    exception the call raises.  What is printed is the state: the list of
    the lines so far, one constructor of [Line] per [print] statement with
    the values it interpolates (sizes in bytes and durations in
    microseconds where the script prints their quotients with a format).
    Each check is the body of its method, [try] and [except] included.

    [datetime] is the naive date and time of the standard library; its
    ordinal is the proleptic Gregorian day count the library computes.  One
    reading of the clock serves the whole run. *)

From Stdlib Require Import ZArith QArith List Lia String Bool Ascii.
From S2P Require Import Prelude.
From S2P Require Import Settings.
From S2P Require Import Dict.
Import ListNotations.

Local Open Scope string_scope.
Local Open Scope Z_scope.
Local Open Scope list_scope.

Module monitor_free_tier.

(** ** Dates and times *)

Record datetime : Type := {
  year : Z;
  month : Z;
  day : Z;
  hour : Z;
  minute : Z;
  second : Z;
  microsecond : Z
}.

Definition is_leap (y : Z) : bool :=
  (y mod 4 =? 0) && (negb (y mod 100 =? 0) || (y mod 400 =? 0)).

Definition days_in_month (y m : Z) : Z :=
  if m =? 2 then (if is_leap y then 29 else 28)
  else if existsb (Z.eqb m) [4; 6; 9; 11] then 30 else 31.

Definition days_before_year (y : Z) : Z :=
  let y := y - 1 in y * 365 + y / 4 - y / 100 + y / 400.

Definition days_before_month (y m : Z) : Z :=
  sumZ (days_in_month y) (map Z.of_nat (seq 1 (Z.to_nat (m - 1)))).

Definition toordinal (d : datetime) : Z :=
  days_before_year (year d) + days_before_month (year d) (month d) + day d.

(** The instant of a date and time, in microseconds. *)
Definition micros (d : datetime) : Z :=
  (((toordinal d * 24 + hour d) * 60 + minute d) * 60 + second d) * 1000000 + microsecond d.

Definition HOUR : Z := 3600 * 1000000.

Definition datetime_ok (d : datetime) : bool :=
  (1 <=? month d) && (month d <=? 12) &&
  (1 <=? day d) && (day d <=? days_in_month (year d) (month d)) &&
  (0 <=? hour d) && (hour d <=? 23) &&
  (0 <=? minute d) && (minute d <=? 59) &&
  (0 <=? second d) && (second d <=? 59) &&
  (0 <=? microsecond d) && (microsecond d <=? 999999).

(** [now.replace(day=1, hour=0, minute=0, second=0, microsecond=0)] *)
Definition start_of_month (now : datetime) : datetime :=
  {| year := year now; month := month now; day := 1;
     hour := 0; minute := 0; second := 0; microsecond := 0 |}.

(** [d.strftime("%Y-%m-%d")]: the date of a date and time. *)
Definition date (d : datetime) : Z * Z * Z := (year d, month d, day d).

(** ** What the services answer *)

Inductive AwsError : Type :=
| NoCredentialsError
| ClientError (message : string)
| OtherError (message : string).

Record Service : Type := {
  desiredCount : Z;
  runningCount : Z;
  status : string;
  taskDefinition : string
}.

Record TaskDefinition : Type := {
  cpu : string;
  memory : string
}.

Record Repository : Type := {
  repositoryName : string;
  repositorySizeInBytes : option Z;
  imageTagMutability : option string
}.

Record LoadBalancer : Type := {
  LoadBalancerName : string;
  State_Code : string;
  Scheme : string;
  CreatedTime : datetime
}.

Record LogGroup : Type := {
  logGroupName : string;
  storedBytes : option Z;
  retentionInDays : option Z
}.

(** A group of a cost report: [group["Keys"][0]] and
    [float(group["Metrics"]["BlendedCost"]["Amount"])]. *)
Record Group : Type := {
  Keys0 : string;
  Amount : Q
}.

Record Aws : Type := {
  get_caller_identity : result AwsError string;
  region_name : option string;
  list_clusters : result AwsError (list string);
  list_services : string -> result AwsError (list string);
  describe_services : string -> string -> result AwsError (list Service);
  describe_task_definition : string -> result AwsError TaskDefinition;
  describe_repositories : result AwsError (list Repository);
  describe_load_balancers : result AwsError (list LoadBalancer);
  describe_log_groups : string -> result AwsError (list LogGroup);
  get_cost_and_usage : Z * Z * Z -> Z * Z * Z -> result AwsError (list (list Group));
  clock : datetime
}.

(** ** What is printed *)

Inductive Line : Type :=
| CredentialsMissing
| InitError (e : AwsError)
| Title
| Rule
| Account (account_id : string)
| Region (region : option string)
| Date (now : datetime)
| EcsHeading
| NoClusters
| ClusterLine (cluster_name : string)
| ServiceLine (service_name : string)
| Desired (tasks : Z)
| Running (tasks : Z)
| Status (status : string)
| CpuMemory (cpu memory : string)
| MonthlyHours (hours : Z)
| EcsWarning
| EcsWithin
| EcsError (e : AwsError)
| EcrHeading
| NoRepositories
| RepositoryLine (repo_name : string)
| RepositorySize (bytes : Z)
| Images (mutability : string)
| EcrTotal (bytes : Z)
| EcrWarning
| EcrWithin (remaining_bytes : Z)
| EcrError (e : AwsError)
| AlbHeading
| NoLoadBalancers
| LoadBalancerLine (name : string)
| AlbState (state : string)
| AlbScheme (scheme : string)
| Created (created : datetime)
| HoursThisMonth (microseconds : Z)
| AlbWarning
| AlbWithin (remaining_microseconds : Z)
| AlbError (e : AwsError)
| LogsHeading
| NoLogGroups
| LogGroupLine (name : string)
| Stored (bytes : Z)
| Retention (days : option Z)
| LogsTotal (bytes : Z)
| IngestionNote
| LogsError (e : AwsError)
| CostHeading
| CostFetchFailed (e : AwsError)
| NoCostData
| TotalCost (total_cost : Q)
| ServiceCost (service : string) (cost : Q)
| AllFree
| LowCost
| CostDetected
| TipsHeading
| Tip (n : nat).

Definition Out : Type := list Line.

Definition print {E} (l : Line) : Eff Out E unit := modify (fun out => out ++ [l]).

(** A client call: its answer, or its exception. *)
Definition aws {A} (answer : result AwsError A) : Eff Out AwsError A :=
  fun out => (answer, out).

(** ** Python idioms of the script *)

(** [sub in s] *)
Fixpoint contains (sub s : string) : bool :=
  String.prefix sub s ||
  match s with
  | EmptyString => false
  | String _ s' => contains sub s'
  end.

(** [arn.split("/")[-1]] *)
Definition last_piece (arn : string) : string := last (split_char "/" arn) "".

(** [not l] on a list *)
Definition is_empty {A} (l : list A) : bool :=
  match l with [] => true | _ :: _ => false end.

Definition is_ai_chat (name : string) : bool := contains "ai-chat" (lower name).

Definition MB : Z := 1024 * 1024.

(** ** The checks *)

Definition estimated_monthly_hours (service : Service) : Z :=
  let running_hours_per_day := runningCount service * 24 in
  running_hours_per_day * 30.

Definition report_service (cloud : Aws) (cluster_arn service_arn : string)
  : Eff Out AwsError unit :=
  let service_name := last_piece service_arn in
  (let* service_details := aws (describe_services cloud cluster_arn service_arn) in
   match service_details with
  | [] => raise (OtherError "list index out of range")
  | service :: _ =>
      print (ServiceLine service_name) ;;;
      print (Desired (desiredCount service)) ;;;
      print (Running (runningCount service)) ;;;
      print (Status (status service)) ;;;
      let* task_def := aws (describe_task_definition cloud (taskDefinition service)) in
      print (CpuMemory (cpu task_def) (memory task_def)) ;;;
      print (MonthlyHours (estimated_monthly_hours service)) ;;;
      if estimated_monthly_hours service >? 750 then print EcsWarning else print EcsWithin
   end)%eff.

Definition report_cluster (cloud : Aws) (cluster_arn : string) : Eff Out AwsError unit :=
  (print (ClusterLine (last_piece cluster_arn)) ;;;
   let* services := aws (list_services cloud cluster_arn) in
   for_each (report_service cloud cluster_arn) services)%eff.

Definition check_ecs_usage (cloud : Aws) : Eff Out AwsError unit :=
  (print EcsHeading ;;;
   try_except
     (let* clusters := aws (list_clusters cloud) in
      let ai_chat_clusters := filter is_ai_chat clusters in
      if is_empty ai_chat_clusters then print NoClusters
      else for_each (report_cluster cloud) ai_chat_clusters)
     (fun e => print (EcsError e)))%eff.

(** [repo.get("repositorySizeInBytes", 0)] *)
Definition repo_size_bytes (repo : Repository) : Z :=
  match repositorySizeInBytes repo with Some n => n | None => 0 end.

Definition report_repository (repo : Repository) : Eff Out AwsError unit :=
  (print (RepositoryLine (repositoryName repo)) ;;;
   print (RepositorySize (repo_size_bytes repo)) ;;;
   print (Images (match imageTagMutability repo with Some t => t | None => "Unknown" end)))%eff.

Definition check_ecr_usage (cloud : Aws) : Eff Out AwsError unit :=
  (print EcrHeading ;;;
   try_except
     (let* repositories := aws (describe_repositories cloud) in
      let ai_chat_repos := filter (fun r => is_ai_chat (repositoryName r)) repositories in
      if is_empty ai_chat_repos then print NoRepositories
      else
        for_each report_repository ai_chat_repos ;;;
        let total_size := sumZ repo_size_bytes ai_chat_repos in
        print (EcrTotal total_size) ;;;
        if total_size >? 500 * MB then print EcrWarning
        else print (EcrWithin (500 * MB - total_size)))
     (fun e => print (EcrError e)))%eff.

(** The time a load balancer has run this month, in microseconds. *)
Definition hours_this_month (now created : datetime) : Z :=
  if micros created <? micros (start_of_month now)
  then micros now - micros (start_of_month now)
  else micros now - micros created.

Definition report_load_balancer (now : datetime) (alb : LoadBalancer) : Eff Out AwsError unit :=
  (print (LoadBalancerLine (LoadBalancerName alb)) ;;;
   print (AlbState (State_Code alb)) ;;;
   print (AlbScheme (Scheme alb)) ;;;
   print (Created (CreatedTime alb)) ;;;
   let hours := hours_this_month now (CreatedTime alb) in
   print (HoursThisMonth hours) ;;;
   if hours >? 750 * HOUR then print AlbWarning
   else print (AlbWithin (750 * HOUR - hours)))%eff.

Definition check_alb_usage (cloud : Aws) : Eff Out AwsError unit :=
  (print AlbHeading ;;;
   try_except
     (let* load_balancers := aws (describe_load_balancers cloud) in
      let ai_chat_albs := filter (fun lb => is_ai_chat (LoadBalancerName lb)) load_balancers in
      if is_empty ai_chat_albs then print NoLoadBalancers
      else for_each (report_load_balancer (clock cloud)) ai_chat_albs)
     (fun e => print (AlbError e)))%eff.

(** [log_group.get("storedBytes", 0)] *)
Definition stored_bytes (log_group : LogGroup) : Z :=
  match storedBytes log_group with Some n => n | None => 0 end.

Definition report_log_group (log_group : LogGroup) : Eff Out AwsError unit :=
  (print (LogGroupLine (logGroupName log_group)) ;;;
   print (Stored (stored_bytes log_group)) ;;;
   print (Retention (retentionInDays log_group)))%eff.

Definition check_cloudwatch_logs (cloud : Aws) : Eff Out AwsError unit :=
  (print LogsHeading ;;;
   try_except
     (let* log_groups := aws (describe_log_groups cloud "/ecs/ai-chat") in
      if is_empty log_groups then print NoLogGroups
      else
        for_each report_log_group log_groups ;;;
        print (LogsTotal (sumZ stored_bytes log_groups)) ;;;
        print IngestionNote)
     (fun e => print (LogsError e)))%eff.

(** ** The cost summary *)

(** The loop over the groups of every result: a later group of a service
    replaces an earlier one. *)
Definition services_cost (response : list (list Group)) : dict Q :=
  fold_left (fun costs group => dict_set (Keys0 group) (Amount group) costs)
            (List.concat response) [].

Definition get_current_month_usage (cloud : Aws) : Eff Out AwsError (dict Q) :=
  let now := clock cloud in
  try_except
    (let* response := aws (get_cost_and_usage cloud (date (start_of_month now)) (date now)) in
     ret (services_cost response))%eff
    (fun e =>
       match e with
       | ClientError _ => (print (CostFetchFailed e) ;;; ret [])%eff
       | _ => raise e
       end).

Definition relevant_services : list string :=
  [ "Amazon Elastic Container Service";
    "Amazon EC2-Instance";
    "Amazon Elastic Load Balancing";
    "Amazon EC2 Container Registry (ECR)";
    "Amazon CloudWatch Logs" ].

(** [sum(costs.values())] *)
Definition sum_values (costs : dict Q) : Q :=
  fold_left Qplus (dict_values costs) 0%Q.

(** [costs.get(service, 0)] *)
Definition cost_of (costs : dict Q) (service : string) : Q :=
  match dict_get service costs with Some c => c | None => 0%Q end.

(** [a < b] on costs *)
Definition Qlt_bool (a b : Q) : bool := negb (Qle_bool b a).

Definition report_cost (costs : dict Q) (service : string) : Eff Out AwsError unit :=
  if Qlt_bool 0 (cost_of costs service)
  then print (ServiceCost service (cost_of costs service))
  else ret tt.

Definition cost_verdict (total_cost : Q) : Line :=
  if Qeq_bool total_cost 0 then AllFree
  else if Qlt_bool total_cost 5 then LowCost
  else CostDetected.

Definition get_cost_summary (cloud : Aws) : Eff Out AwsError unit :=
  (print CostHeading ;;;
   let* costs := get_current_month_usage cloud in
   if is_empty costs then print NoCostData
   else
     let total_cost := sum_values costs in
     print (TotalCost total_cost) ;;;
     for_each (report_cost costs) relevant_services ;;;
     print (cost_verdict total_cost))%eff.

(** ** The run *)

Record FreeTierMonitor : Type := {
  account_id : string;
  region : option string
}.

(** [FreeTierMonitor.__init__]: the clients and the caller's identity, or
    a message and [exit(1)]. *)
Definition init (cloud : Aws) : Eff Out ending FreeTierMonitor :=
  match get_caller_identity cloud with
  | Ok account => ret {| account_id := account; region := region_name cloud |}
  | Err NoCredentialsError => (print CredentialsMissing ;;; raise (Exit 1))%eff
  | Err e => (print (InitError e) ;;; raise (Exit 1))%eff
  end.

Definition tips : list Line := [TipsHeading; Tip 1; Tip 2; Tip 3; Tip 4; Tip 5].

Definition run_full_check (cloud : Aws) (self : FreeTierMonitor) : Eff Out AwsError unit :=
  (print Title ;;;
   print Rule ;;;
   print (Account (account_id self)) ;;;
   print (Region (region self)) ;;;
   print (Date (clock cloud)) ;;;
   check_ecs_usage cloud ;;;
   check_ecr_usage cloud ;;;
   check_alb_usage cloud ;;;
   check_cloudwatch_logs cloud ;;;
   get_cost_summary cloud ;;;
   print Rule ;;;
   for_each print tips)%eff.

(** How the process ends: as the script says, or with the traceback of an
    exception nothing caught. *)
Inductive process_end : Type :=
| Ended (e : ending)
| Uncaught (e : AwsError).

Definition main (cloud : Aws) : process_end * Out :=
  match init cloud [] with
  | (Err e, out) => (Ended e, out)
  | (Ok monitor, out) =>
      match run_full_check cloud monitor out with
      | (Ok _, out') => (Ended Completed, out')
      | (Err e, out') => (Uncaught e, out')
      end
  end.

End monitor_free_tier.

Import monitor_free_tier.

(** ** Tactics of this file *)

(** A line is not in the output. *)
Definition never (l : Line) (out : Out) : Prop := ~ In l out.

Lemma print_never {E} l l' out : l <> l' -> never l out -> never l (snd (@print E l' out)).
Proof.
  unfold never, print, modify; cbn. intros Hne Hout Hin.
  apply in_app_or in Hin as [Hin|[Hin|[]]]; [now apply Hout | now apply Hne].
Qed.

Lemma print_ok {E} l out : @print E l out = (Ok tt, out ++ [l]).
Proof. reflexivity. Qed.

Lemma aws_snd {A} (answer : result AwsError A) out : snd (aws answer out) = out.
Proof. reflexivity. Qed.

Lemma aws_ok {A} (answer : result AwsError A) a out : answer = Ok a -> aws answer out = (Ok a, out).
Proof. now intros ->. Qed.

(** One step of showing that a check never prints the line [l]. *)
Ltac never_step l :=
  first
    [ eff_preserves_step (never l)
    | apply print_never; [discriminate | assumption]
    | rewrite aws_snd; assumption
    | assumption ].

(** ** The calendar *)

Lemma days_in_month_le y m : days_in_month y m <= 31.
Proof.
  unfold days_in_month. destruct (m =? 2); [destruct (is_leap y); lia|].
  destruct (existsb _ _); lia.
Qed.

Lemma datetime_ok_bounds d :
  datetime_ok d = true ->
  1 <= day d <= 31 /\ 0 <= hour d <= 23 /\ 0 <= minute d <= 59 /\
  0 <= second d <= 59 /\ 0 <= microsecond d <= 999999.
Proof.
  unfold datetime_ok. rewrite !andb_true_iff, !Z.leb_le.
  pose proof (days_in_month_le (year d) (month d)). lia.
Qed.

(** The time since the month began is what the day and the time of day
    say. *)
Lemma since_start_of_month now :
  micros now - micros (start_of_month now) =
  ((((day now - 1) * 24 + hour now) * 60 + minute now) * 60 + second now) * 1000000
  + microsecond now.
Proof. unfold micros, toordinal, start_of_month; cbn. lia. Qed.

Lemma hours_this_month_le now created :
  hours_this_month now created <= micros now - micros (start_of_month now).
Proof. unfold hours_this_month. destruct (_ <? _) eqn:Hlt; zbool; lia. Qed.

Lemma hours_this_month_bound now created :
  datetime_ok now = true -> hours_this_month now created < 744 * HOUR.
Proof.
  intros Hok. apply datetime_ok_bounds in Hok.
  pose proof (hours_this_month_le now created) as Hle.
  rewrite since_start_of_month in Hle. unfold HOUR. lia.
Qed.

(** ** The load balancer check *)

Lemma report_load_balancer_never now alb out :
  datetime_ok now = true ->
  never AlbWarning out -> never AlbWarning (snd (report_load_balancer now alb out)).
Proof.
  intros Hok Hout. pose proof (hours_this_month_bound now (CreatedTime alb) Hok) as Hb.
  assert (Hgt : (hours_this_month now (CreatedTime alb) >? 750 * HOUR) = false)
    by (rewrite Z.gtb_ltb; apply Z.ltb_ge; unfold HOUR in *; lia).
  unfold report_load_balancer. cbv zeta. rewrite Hgt. repeat never_step AlbWarning.
Qed.

(** C27. The load balancer check never prints its warning: the hours it
    compares with 750 are hours of the current month, and no month has more
    than 744.  A load balancer that runs the whole month, every month, is
    always reported as within the free tier. *)
Theorem alb_warning_unreachable cloud out :
  datetime_ok (clock cloud) = true ->
  never AlbWarning out -> never AlbWarning (snd (check_alb_usage cloud out)).
Proof.
  intros Hok Hout. unfold check_alb_usage. repeat never_step AlbWarning.
  apply for_each_preserves; [|assumption].
  intros alb out' _. now apply report_load_balancer_never.
Qed.

(** ** The checks contain their failures *)

Lemma print_is_ok {E} l out : is_ok (fst (@print E l out)) = true.
Proof. reflexivity. Qed.

Lemma guarded_is_ok {E} (body : Eff Out AwsError unit) (heading : Line) (failed : AwsError -> Line) out :
  fst (bind (@print E heading) (fun _ => try_except body (fun e => print (failed e))) out)
  = Ok tt.
Proof.
  apply is_ok_unit, bind_is_ok; [reflexivity|].
  intros _ out'. apply try_except_is_ok. intros e s. reflexivity.
Qed.

(** No failure of a client call ends the run inside one of the four
    resource checks: whatever the services answer or raise, each check
    returns, having printed its error line at most. *)
Theorem checks_contain_failures cloud out :
  fst (check_ecs_usage cloud out) = Ok tt /\
  fst (check_ecr_usage cloud out) = Ok tt /\
  fst (check_alb_usage cloud out) = Ok tt /\
  fst (check_cloudwatch_logs cloud out) = Ok tt.
Proof. repeat split; apply guarded_is_ok. Qed.

(** ** The container service check *)

Lemma monthly_hours_warning service :
  (estimated_monthly_hours service >? 750) = (2 <=? runningCount service).
Proof.
  unfold estimated_monthly_hours. rewrite Z.gtb_ltb.
  destruct (2 <=? runningCount service) eqn:H; zbool; [apply Z.ltb_lt | apply Z.ltb_ge]; lia.
Qed.

(** What the check prints for a service, and its verdict: the service
    is reported as exceeding the free tier exactly when it runs two tasks
    or more, since the estimate is thirty days of twenty-four hours per
    running task, whatever the service has run so far and whatever the
    other services of the account run. *)
Theorem service_verdict_by_task_count cloud cluster_arn service_arn service rest task_def out :
  describe_services cloud cluster_arn service_arn = Ok (service :: rest) ->
  describe_task_definition cloud (taskDefinition service) = Ok task_def ->
  report_service cloud cluster_arn service_arn out =
  (Ok tt,
   out ++ [ServiceLine (last_piece service_arn);
           Desired (desiredCount service); Running (runningCount service);
           Status (status service); CpuMemory (cpu task_def) (memory task_def);
           MonthlyHours (720 * runningCount service);
           if 2 <=? runningCount service then EcsWarning else EcsWithin]).
Proof.
  intros Hs Ht. unfold report_service.
  cbv [bind aws print modify]. rewrite Hs, Ht, monthly_hours_warning.
  replace (estimated_monthly_hours service) with (720 * runningCount service)
    by (unfold estimated_monthly_hours; lia).
  destruct (2 <=? runningCount service); rewrite <- !app_assoc; reflexivity.
Qed.

(** ** The cost summary *)

Lemma get_current_month_usage_cases cloud out :
  match get_cost_and_usage cloud (date (start_of_month (clock cloud))) (date (clock cloud)) with
  | Ok response => get_current_month_usage cloud out = (Ok (services_cost response), out)
  | Err (ClientError m) =>
      get_current_month_usage cloud out = (Ok [], out ++ [CostFetchFailed (ClientError m)])
  | Err e => get_current_month_usage cloud out = (Err e, out)
  end.
Proof.
  unfold get_current_month_usage, try_except, bind, aws.
  destruct (get_cost_and_usage _ _ _) as [response|[]]; reflexivity.
Qed.

Lemma for_each_print {E} lines out : for_each (@print E) lines out = (Ok tt, out ++ lines).
Proof.
  revert out. induction lines as [|l lines IH]; intros out; cbn [for_each].
  - now rewrite app_nil_r.
  - unfold bind. rewrite print_ok, IH, <- app_assoc. reflexivity.
Qed.

Lemma report_cost_is_ok costs service out : is_ok (fst (report_cost costs service out)) = true.
Proof. unfold report_cost. destruct (Qlt_bool _ _); reflexivity. Qed.

Lemma get_cost_summary_cases cloud out :
  match get_cost_and_usage cloud (date (start_of_month (clock cloud))) (date (clock cloud)) with
  | Ok response => fst (get_cost_summary cloud out) = Ok tt
  | Err (ClientError m) =>
      get_cost_summary cloud out =
      (Ok tt, out ++ [CostHeading; CostFetchFailed (ClientError m); NoCostData])
  | Err e => get_cost_summary cloud out = (Err e, out ++ [CostHeading])
  end.
Proof.
  pose proof (get_current_month_usage_cases cloud (out ++ [CostHeading])) as H.
  destruct (get_cost_and_usage _ _ _) as [response|[]];
    unfold get_cost_summary; unfold bind at 1; rewrite print_ok; unfold bind at 1;
    rewrite H; try reflexivity.
  - destruct (is_empty _); [reflexivity|]. apply is_ok_unit.
    apply bind_is_ok; [reflexivity|]. intros _ s.
    apply bind_is_ok; [|reflexivity]. apply for_each_is_ok. intros. apply report_cost_is_ok.
  - cbn [is_empty]. rewrite print_ok, <- !app_assoc. reflexivity.
Qed.

(** An account whose cost report has no group at all, which is what a
    month without any usage looks like, is told that the cost data could
    not be retrieved: the summary tests the dictionary of costs by truth
    value, and the empty dictionary is also what a failed call leaves. *)
Theorem empty_cost_report_reads_as_failure cloud response out :
  get_cost_and_usage cloud (date (start_of_month (clock cloud))) (date (clock cloud))
    = Ok response ->
  List.concat response = [] ->
  get_cost_summary cloud out = (Ok tt, out ++ [CostHeading; NoCostData]).
Proof.
  intros Hr He. pose proof (get_current_month_usage_cases cloud (out ++ [CostHeading])) as H.
  rewrite Hr in H. unfold get_cost_summary. unfold bind at 1. rewrite print_ok.
  unfold bind. rewrite H. unfold services_cost. rewrite He. cbn [fold_left is_empty].
  rewrite print_ok, <- app_assoc. reflexivity.
Qed.

(** On the first day of a month the period the cost report is asked for
    begins and ends on the same date. *)
Lemma cost_period_first_day now : day now = 1 -> date (start_of_month now) = date now.
Proof. unfold date, start_of_month; cbn. now intros ->. Qed.

(** ** The run *)

Lemma guarded_returns (body : Eff Out AwsError unit) heading failed out :
  exists out',
    bind (@print AwsError heading) (fun _ => try_except body (fun e => print (failed e))) out
    = (Ok tt, out').
Proof.
  pose proof (@guarded_is_ok AwsError body heading failed out) as H.
  destruct (bind _ _ out) as [r out']. cbn in H. subst r. now exists out'.
Qed.

Lemma run_full_check_cost cloud self out :
  exists out',
    run_full_check cloud self out =
    bind (get_cost_summary cloud) (fun _ => for_each print (Rule :: tips)) out'.
Proof.
  unfold run_full_check. do 5 (unfold bind at 1; rewrite print_ok).
  unfold check_ecs_usage, check_ecr_usage, check_alb_usage, check_cloudwatch_logs.
  do 4 (unfold bind at 1;
        match goal with
        | |- context [bind (print ?h) (fun _ => try_except ?b (fun e => print (@?f e))) ?o] =>
            destruct (guarded_returns b h f o) as [? ->]
        end).
  eexists. reflexivity.
Qed.

(** How a run ends.  Without credentials it exits with status 1.
    Otherwise the only call whose failure ends the run is the cost report,
    and only when its exception is not a client error: the process then
    dies with that exception and the tips are not printed.  In every other
    case the run completes and the report ends with the rule and the
    tips. *)
Theorem run_outcome cloud :
  match get_caller_identity cloud with
  | Err _ => fst (main cloud) = Ended (Exit 1)
  | Ok _ =>
      match get_cost_and_usage cloud (date (start_of_month (clock cloud))) (date (clock cloud)) with
      | Err NoCredentialsError => fst (main cloud) = Uncaught NoCredentialsError
      | Err (OtherError m) => fst (main cloud) = Uncaught (OtherError m)
      | _ =>
          fst (main cloud) = Ended Completed /\
          exists lines, snd (main cloud) = lines ++ Rule :: tips
      end
  end.
Proof.
  unfold main, init. destruct (get_caller_identity cloud) as [account|[]]; try reflexivity.
  cbn [ret]. destruct (run_full_check_cost cloud
    {| account_id := account; region := region_name cloud |} []) as [out ->].
  pose proof (get_cost_summary_cases cloud out) as H. unfold bind.
  destruct (get_cost_and_usage _ _ _) as [response|[]];
    destruct (get_cost_summary cloud out) as [[[]|e] out']; cbn in H; try discriminate;
    try (inv H; reflexivity); rewrite for_each_print; cbn [fst snd]; eauto.
Qed.

(** ** The registry check *)

Definition repository_lines (repo : Repository) : list Line :=
  [RepositoryLine (repositoryName repo); RepositorySize (repo_size_bytes repo);
   Images (match imageTagMutability repo with Some t => t | None => "Unknown" end)].

(** A loop whose body only prints is the concatenation of what it prints. *)
Lemma for_each_lines {A E} (f : A -> Eff Out E unit) (g : A -> list Line) l out :
  (forall x out', f x out' = (Ok tt, out' ++ g x)) ->
  for_each f l out = (Ok tt, out ++ flat_map g l).
Proof.
  intros Hf. revert out. induction l as [|x l IH]; intros out; cbn [for_each flat_map].
  - now rewrite app_nil_r.
  - unfold bind. rewrite Hf, IH, <- app_assoc. reflexivity.
Qed.

Lemma report_repository_lines repo out :
  report_repository repo out = (Ok tt, out ++ repository_lines repo).
Proof. unfold report_repository, repository_lines, bind, print, modify. now rewrite <- !app_assoc. Qed.

Lemma is_empty_false {A} (l : list A) : l <> [] -> is_empty l = false.
Proof. destruct l; [congruence | reflexivity]. Qed.

Lemma check_ecr_usage_found cloud repositories out :
  describe_repositories cloud = Ok repositories ->
  let ai_chat_repos := filter (fun r => is_ai_chat (repositoryName r)) repositories in
  let total_size := sumZ repo_size_bytes ai_chat_repos in
  ai_chat_repos <> [] ->
  check_ecr_usage cloud out =
  (Ok tt, out ++ EcrHeading :: flat_map repository_lines ai_chat_repos
              ++ [EcrTotal total_size;
                  if total_size >? 500 * MB then EcrWarning else EcrWithin (500 * MB - total_size)]).
Proof.
  intros Hr repos total_size Hne. unfold check_ecr_usage, try_except.
  unfold bind at 1. rewrite print_ok. unfold bind at 1, aws. rewrite Hr.
  fold repos. rewrite (is_empty_false _ Hne). unfold bind.
  rewrite (for_each_lines _ repository_lines) by apply report_repository_lines.
  rewrite !print_ok. fold total_size.
  destruct (total_size >? 500 * MB); rewrite !print_ok, <- !app_assoc; reflexivity.
Qed.

Lemma sumZ_zero {A} (f : A -> Z) l : (forall x, In x l -> f x = 0) -> sumZ f l = 0.
Proof.
  induction l as [|x l IH]; intros H; [reflexivity|].
  rewrite sumZ_cons, H, IH; [reflexivity | | now left].
  intros y Hy. apply H. now right.
Qed.

(** The registry check reads the size of a repository from a field of
    the repository description and takes zero when the field is absent.
    When no description carries the field, the check reports a total of
    zero and the whole allowance as remaining, whatever the repositories
    hold. *)
Theorem unsized_repositories_report_zero cloud repositories out :
  describe_repositories cloud = Ok repositories ->
  (forall r, In r repositories -> repositorySizeInBytes r = None) ->
  filter (fun r => is_ai_chat (repositoryName r)) repositories <> [] ->
  exists lines,
    check_ecr_usage cloud out = (Ok tt, out ++ lines ++ [EcrTotal 0; EcrWithin (500 * MB)]).
Proof.
  intros Hr Hnone Hne. rewrite (check_ecr_usage_found cloud repositories out Hr Hne).
  rewrite sumZ_zero.
  - eexists (EcrHeading :: _). reflexivity.
  - intros r [Hin _]%filter_In. unfold repo_size_bytes. now rewrite Hnone.
Qed.

(** ** Witnesses *)

Section Witnesses.

Definition backend_service : Service :=
  {| desiredCount := 1; runningCount := 1; status := "ACTIVE";
     taskDefinition := "AiChatEcsStackTaskDef:1" |}.

Definition fargate_task : TaskDefinition := {| cpu := "256"; memory := "512" |}.

Definition backend_repository : Repository :=
  {| repositoryName := "ai-chat-backend"; repositorySizeInBytes := None;
     imageTagMutability := Some "MUTABLE" |}.

Definition new_year : datetime :=
  {| year := 2026; month := 1; day := 1; hour := 0; minute := 0; second := 0;
     microsecond := 0 |}.

Definition end_of_october : datetime :=
  {| year := 2026; month := 10; day := 31; hour := 23; minute := 59; second := 59;
     microsecond := 999999 |}.

Definition backend_balancer : LoadBalancer :=
  {| LoadBalancerName := "ai-chat-alb"; State_Code := "active";
     Scheme := "internet-facing"; CreatedTime := new_year |}.

(** An account that runs two services of one task each since the new
    year, at the last microsecond of October. *)
Definition demo_cloud : Aws :=
  {| get_caller_identity := Ok "123456789012";
     region_name := Some "us-east-1";
     list_clusters := Ok ["arn:aws:ecs:us-east-1:123456789012:cluster/ai-chat-app-cluster";
                          "arn:aws:ecs:us-east-1:123456789012:cluster/billing"];
     list_services := fun _ =>
       Ok ["arn:aws:ecs:us-east-1:123456789012:service/ai-chat-app-cluster/backend";
           "arn:aws:ecs:us-east-1:123456789012:service/ai-chat-app-cluster/worker"];
     describe_services := fun _ _ => Ok [backend_service];
     describe_task_definition := fun _ => Ok fargate_task;
     describe_repositories := Ok [backend_repository];
     describe_load_balancers := Ok [backend_balancer];
     describe_log_groups := fun _ => Ok [];
     get_cost_and_usage := fun _ _ => Ok [[]];
     clock := end_of_october |}.

Lemma alb_warning_unreachable_witness : never AlbWarning (snd (check_alb_usage demo_cloud [])).
Proof. apply alb_warning_unreachable; [reflexivity | intros []]. Defined.

Lemma service_verdict_by_task_count_witness :
  report_service demo_cloud "cluster/ai-chat-app-cluster" "service/ai-chat-app-cluster/backend" [] =
  (Ok tt, [ServiceLine "backend"; Desired 1; Running 1; Status "ACTIVE"; CpuMemory "256" "512";
           MonthlyHours 720; EcsWithin]).
Proof.
  exact (service_verdict_by_task_count demo_cloud "cluster/ai-chat-app-cluster"
           "service/ai-chat-app-cluster/backend" backend_service [] fargate_task []
           eq_refl eq_refl).
Defined.

Lemma empty_cost_report_reads_as_failure_witness :
  get_cost_summary demo_cloud [] = (Ok tt, [CostHeading; NoCostData]).
Proof. exact (empty_cost_report_reads_as_failure demo_cloud [[]] [] eq_refl eq_refl). Defined.

Lemma unsized_repositories_report_zero_witness :
  exists lines,
    check_ecr_usage demo_cloud [] = (Ok tt, [] ++ lines ++ [EcrTotal 0; EcrWithin (500 * MB)]).
Proof.
  apply (unsized_repositories_report_zero demo_cloud [backend_repository] [] eq_refl).
  - intros r [<-|[]]. reflexivity.
  - discriminate.
Defined.

(** The load balancer has run every hour of a month of thirty-one days:
    744 hours less a microsecond, and six hours of the allowance are
    reported as remaining. *)
Example whole_month_within :
  snd (check_alb_usage demo_cloud []) =
  [AlbHeading; LoadBalancerLine "ai-chat-alb"; AlbState "active";
   AlbScheme "internet-facing"; Created new_year;
   HoursThisMonth (744 * HOUR - 1); AlbWithin (6 * HOUR + 1)].
Proof. vm_compute. reflexivity. Qed.

(** The filter is on the literal name: a load balancer named after the
    identifiers of the stack, in capitals and without the hyphen, is not
    looked at. *)
Example name_filter :
  is_ai_chat "AI-Chat-alb" = true /\ is_ai_chat "AiChat-AiCha-1ABCDEFGHIJKL" = false.
Proof. split; reflexivity. Qed.

(** The two services together are estimated at 1440 task hours a month,
    and neither is reported. *)
Example services_judged_one_by_one :
  In EcsWithin (snd (check_ecs_usage demo_cloud [])) /\
  never EcsWarning (snd (check_ecs_usage demo_cloud [])) /\
  2 * estimated_monthly_hours backend_service = 1440.
Proof.
  vm_compute. repeat split; [tauto|]. intros H.
  repeat (destruct H as [H|H]; [discriminate|]). exact H.
Qed.

(** A run of the demo account completes. *)
Example demo_run_completes : fst (main demo_cloud) = Ended Completed.
Proof. vm_compute. reflexivity. Qed.

End Witnesses.
