(* ===== verification/Cors.v ===== *)
(** * Cors: the application behind its CORS middleware

    [app/main.py] adds the CORS middleware last, so it is the outermost
    of the middlewares the application adds: a request with an [Origin]
    header is either a preflight request, which the middleware answers
    itself, or is handed to the application of [App], whose response
    leaves with the headers the middleware adds.  A response to an
    exception no handler is registered for is written by the server error
    middleware, which is outside every added middleware: it leaves without
    them.

    The middleware is Starlette's; its decisions are in [Config], and this
    file has the headers and the composition.  Of a response only the
    headers the middleware adds are kept. *)

From stdpp Require Import gmap strings.
From Stdlib Require Import ZArith List Lia String Bool Ascii.
From S2P Require Import Prelude.
From S2P Require Import Settings.
From S2P Require Import Errors.
From S2P Require Import RateLimiter.
From S2P Require Import Models.
From S2P Require Import State.
From S2P Require Import Paths.
From S2P Require Import Http.
From S2P Require Import Router.
From S2P Require Import Users.
From S2P Require Import Fixtures.
From S2P Require Import Auth.
From S2P Require Import ChatService.
From S2P Require Import ChatRoutes.
From S2P Require Import Dict.
From S2P Require Import FileService.
From S2P Require Import FileRoutes.
From S2P Require Import App.
From S2P Require Import Config.
Import ListNotations.

Local Open Scope string_scope.
Local Open Scope Z_scope.
Local Open Scope list_scope.

(** ** Headers *)

(** The headers of a request the middleware reads. *)
Record RequestHeaders : Type := {
  origin : option string;
  access_control_request_method : option string;
  access_control_request_headers : option string;
  cookie : option string
}.

(** [headers.update(other)] *)
Definition headers_update (headers : dict string) (other : list (string * string))
  : dict string :=
  fold_left (fun d kv => dict_set (fst kv) (snd kv) d) other headers.

(** [sorted(set(...))] on strings: insertion, an equal string once. *)
Fixpoint insert_sorted (x : string) (l : list string) : list string :=
  match l with
  | [] => [x]
  | y :: rest =>
      match String.compare x y with
      | Lt => x :: l
      | Eq => l
      | Gt => y :: insert_sorted x rest
      end
  end.

Definition sorted_set (l : list string) : list string := fold_right insert_sorted [] l.

(** What the constructor prepares for every response to a request that
    names its origin. *)
Definition simple_headers (m : CORSMiddleware) : dict string :=
  headers_update []
    ((if allow_all_origins m then [("Access-Control-Allow-Origin", "*")] else []) ++
     (if allow_credentials m then [("Access-Control-Allow-Credentials", "true")] else [])).

Definition preflight_explicit_allow_origin (m : CORSMiddleware) : bool :=
  negb (allow_all_origins m) || allow_credentials m.

(** What the constructor prepares for every answer to a preflight
    request. *)
Definition preflight_headers (m : CORSMiddleware) : dict string :=
  let allow_headers := sorted_set (SAFELISTED_HEADERS ++ allow_headers m) in
  headers_update []
    ((if preflight_explicit_allow_origin m then [("Vary", "Origin")]
      else [("Access-Control-Allow-Origin", "*")]) ++
     [("Access-Control-Allow-Methods", String.concat ", " (allow_methods m));
      ("Access-Control-Max-Age", str_of_Z (max_age m))] ++
     (match allow_headers with
      | [] => []
      | _ => if allow_all_headers m then []
             else [("Access-Control-Allow-Headers", String.concat ", " allow_headers)]
      end) ++
     (if allow_credentials m then [("Access-Control-Allow-Credentials", "true")] else [])).

(** [headers.add_vary_header(vary)] *)
Definition add_vary_header (vary : string) (headers : dict string) : dict string :=
  match dict_get "Vary" headers with
  | Some existing => dict_set "Vary" (String.concat ", " [existing; vary]) headers
  | None => dict_set "Vary" vary headers
  end.

Definition allow_explicit_origin (headers : dict string) (origin : string) : dict string :=
  add_vary_header "Origin" (dict_set "Access-Control-Allow-Origin" origin headers).

(** ** The two answers *)

(** What leaves the middleware: the application's outcome with the
    headers added to its response, or the plain text the middleware
    answers a preflight request with. *)
Inductive Answer : Type :=
| FromApp (r : result exn Reply) (headers : dict string)
| Plain (status_code : Z) (text : string) (headers : dict string).

Definition answer_status (a : Answer) : Z :=
  match a with
  | FromApp r _ => status_of r
  | Plain status_code _ _ => status_code
  end.

Definition answer_headers (a : Answer) : dict string :=
  match a with
  | FromApp _ headers | Plain _ _ headers => headers
  end.

(** [preflight_response]: the status and text are [Config]'s. *)
Definition preflight_answer (m : CORSMiddleware) (request_headers : RequestHeaders)
    (requested_origin requested_method : string) : Answer :=
  let requested_headers := access_control_request_headers request_headers in
  let headers := preflight_headers m in
  let headers :=
    if is_allowed_origin m requested_origin && preflight_explicit_allow_origin m
    then dict_set "Access-Control-Allow-Origin" requested_origin headers
    else headers in
  let headers :=
    match requested_headers with
    | Some asked =>
        if allow_all_headers m then dict_set "Access-Control-Allow-Headers" asked headers
        else headers
    | None => headers
    end in
  let (status_code, text) :=
    preflight_response m requested_origin requested_method requested_headers in
  Plain status_code text headers.

(** [send]: the headers added when the response starts. *)
Definition send (m : CORSMiddleware) (request_headers : RequestHeaders) (origin : string)
  : dict string :=
  let headers := simple_headers m in
  let has_cookie := match cookie request_headers with Some _ => true | None => false end in
  if allow_all_origins m && has_cookie then allow_explicit_origin headers origin
  else if negb (allow_all_origins m) && is_allowed_origin m origin
       then allow_explicit_origin headers origin
       else headers.

(** ** The application behind the middleware *)

(** The outcomes the exception middleware does not turn into a response:
    neither a returned value, nor an [HTTPException], nor the exception of
    the limiter, for which [main.py] registers a handler. *)
Definition escapes {A} (r : result exn A) : bool :=
  match r with
  | Ok _ | Err (HttpExn _) | Err (LimiterExn _) => false
  | Err _ => true
  end.

Section Stack.
Context `{Tokenizer} `{PasswordHasher} `{Jwt} `{EmailValidator}.
Context (cfg : Settings) (client : Client).

(** [simple_response]: the application runs; the headers are added to the
    response it starts, and the response to an exception that escapes is
    not started inside the middleware. *)
Definition simple_response (m : CORSMiddleware) (request_headers : RequestHeaders)
    (origin : string) (req : Request) (s : AppState) : Answer * AppState :=
  let (r, s') := serve cfg client req s in
  (FromApp r (if escapes r then [] else send m request_headers origin), s').

(** [CORSMiddleware.__call__] around the application. *)
Definition cors_app (m : CORSMiddleware) (request_headers : RequestHeaders) (req : Request)
    (s : AppState) : Answer * AppState :=
  match origin request_headers with
  | None => let (r, s') := serve cfg client req s in (FromApp r [], s')
  | Some requested_origin =>
      match req_method req, access_control_request_method request_headers with
      | OPTIONS, Some requested_method =>
          (preflight_answer m request_headers requested_origin requested_method, s)
      | _, _ => simple_response m request_headers requested_origin req s
      end
  end.

End Stack.

(** The requests the middleware answers itself. *)
Definition is_preflight (request_headers : RequestHeaders) (req : Request) : bool :=
  match origin request_headers, req_method req, access_control_request_method request_headers with
  | Some _, OPTIONS, Some _ => true
  | _, _, _ => false
  end.

(** ** Properties *)

Lemma escapes_respond {A} (r : result exn A) : escapes r = true -> respond r = 500.
Proof. destruct r as [a|[]]; cbn; congruence. Qed.

Lemma escapes_status (r : result exn Reply) : escapes r = true -> status_of r = 500.
Proof. destruct r as [a|[]]; cbn; congruence. Qed.

(** The headers of the installed middleware on a response it lets
    through. *)
Lemma send_cors request_headers origin :
  send cors request_headers origin
  = if str_in origin settings.CORS_ORIGINS
    then [("Access-Control-Allow-Credentials", "true");
          ("Access-Control-Allow-Origin", origin); ("Vary", "Origin")]
    else [("Access-Control-Allow-Credentials", "true")].
Proof.
  unfold send. rewrite cors_allowed_origin.
  change (allow_all_origins cors) with false. cbn [andb negb].
  now destruct (str_in origin settings.CORS_ORIGINS).
Qed.

Lemma preflight_headers_cors :
  preflight_headers cors
  = [("Vary", "Origin");
     ("Access-Control-Allow-Methods", "GET, POST, PUT, DELETE, OPTIONS, PATCH");
     ("Access-Control-Max-Age", "6000");
     ("Access-Control-Allow-Credentials", "true")].
Proof. reflexivity. Qed.

Section Composition.
Context `{Tokenizer} `{PasswordHasher} `{Jwt} `{EmailValidator}.
Context (cfg : Settings) (client : Client).

Abbreviation behind := (cors_app cfg client cors).
Abbreviation bare := (serve cfg client).

Lemma cors_app_passes request_headers req s :
  is_preflight request_headers req = false ->
  exists headers,
    behind request_headers req s = (FromApp (fst (bare req s)) headers, snd (bare req s)).
Proof.
  unfold is_preflight, cors_app, simple_response. intros Hp.
  destruct (origin request_headers) as [o|]; destruct (bare req s) as [r s'];
    [|eexists; reflexivity].
  destruct (req_method req); try (eexists; reflexivity).
  destruct (access_control_request_method request_headers); [discriminate | eexists; reflexivity].
Qed.

(** The origin of a request decides which headers the response carries
    and nothing else.  A request that is not a preflight request reaches
    the application whatever origin it names, allowed or not: the
    application's outcome and the state it leaves are those of the
    application without the middleware.  The list of origins is a
    statement to browsers, not a check of the caller. *)
Theorem origin_not_checked request_headers req s :
  is_preflight request_headers req = false ->
  snd (behind request_headers req s) = snd (bare req s) /\
  exists headers, fst (behind request_headers req s) = FromApp (fst (bare req s)) headers.
Proof.
  intros Hp. destruct (cors_app_passes request_headers req s Hp) as [headers ->].
  split; [reflexivity | now exists headers].
Qed.

(** A preflight request never reaches the application: the state is
    as it was, no route is looked up and no request is counted.  It is
    answered 200 exactly when the origin is one of CORS_ORIGINS and the
    method asked for one of CORS_METHODS, and the answer then repeats the
    origin, allows credentials, and allows every header the request asks
    for. *)
Theorem preflight_answered_outside requested_origin requested_method request_headers req s :
  origin request_headers = Some requested_origin ->
  req_method req = OPTIONS ->
  access_control_request_method request_headers = Some requested_method ->
  let (answer, s') := behind request_headers req s in
  s' = s /\
  (answer_status answer = 200 <->
   In requested_origin settings.CORS_ORIGINS /\ In requested_method settings.CORS_METHODS) /\
  (answer_status answer = 200 ->
   dict_get "Access-Control-Allow-Origin" (answer_headers answer) = Some requested_origin /\
   dict_get "Access-Control-Allow-Credentials" (answer_headers answer) = Some "true" /\
   dict_get "Access-Control-Allow-Headers" (answer_headers answer)
   = access_control_request_headers request_headers).
Proof.
  intros Ho Hm Ha. unfold cors_app. rewrite Ho, Hm, Ha. unfold preflight_answer.
  pose proof (preflight_allowed_iff requested_origin requested_method
                (access_control_request_headers request_headers)) as Hiff.
  destruct (preflight_response cors _ _ _) as [status_code text]. cbn [fst] in Hiff.
  split; [reflexivity|]. split; [exact Hiff|]. cbn [answer_status answer_headers].
  intros [Hin _]%Hiff. rewrite cors_allowed_origin, (proj2 (str_in_In _ _) Hin).
  rewrite preflight_headers_cors.
  now destruct (access_control_request_headers request_headers).
Qed.


End Composition.

(** ** Methods allowed and not declared *)

Definition declares (method : Method) (routes : APIRouter Endpoint.t) : bool :=
  existsb (fun r => existsb (method_eqb method) (route_methods r)) routes.

Lemma undeclared_never_found method path :
  declares method app_routes = false ->
  forall r path_params, route_for app_routes method path <> Found r path_params.
Proof.
  intros Hd r path_params Hf.
  apply route_for_sound in Hf as (Hin & Hm & _).
  assert (declares method app_routes = true); [|congruence].
  apply existsb_exists. exists r. split; [exact Hin|]. now apply existsb_method.
Qed.

(** Two of the six methods the middleware allows have no route.  A
    preflight request for PATCH or OPTIONS from an allowed origin is
    answered 200, and the request it announces finds no route on any
    path: the application answers it 405, 307 or 404. *)
Theorem allowed_methods_without_route method name path :
  (method, name) = (PATCH, "PATCH") \/ (method, name) = (OPTIONS, "OPTIONS") ->
  In name settings.CORS_METHODS /\
  forall r path_params, route_for app_routes method path <> Found r path_params.
Proof.
  intros [[= -> ->]|[= -> ->]];
    (split; [cbn; tauto | now apply undeclared_never_found]).
Qed.

(** ** Witnesses *)

Section Witnesses.
#[local] Existing Instance char_tokenizer.
#[local] Existing Instance reference_hasher.
#[local] Existing Instance reference_jwt.
#[local] Existing Instance reference_emails.

(** The headers of a request a page of [origin] makes. *)
Definition from_origin (o : string) : RequestHeaders :=
  {| origin := Some o; access_control_request_method := None;
     access_control_request_headers := None; cookie := None |}.

(** The preflight request a browser sends before [method] with
    [headers]. *)
Definition preflight_of (o method : string) (headers : option string) : RequestHeaders :=
  {| origin := Some o; access_control_request_method := Some method;
     access_control_request_headers := headers; cookie := None |}.

(** A state in which the window's requests are used up. *)
Definition full_app : AppState := {| world := full_world; store := no_files |}.

Lemma origin_not_checked_witness :
  snd (cors_app default_settings hello_client cors (from_origin "https://elsewhere.example")
         (request_of DELETE "/api/files/abc" None NoBody 300) demo_app)
  = snd (serve default_settings hello_client
           (request_of DELETE "/api/files/abc" None NoBody 300) demo_app) /\
  exists headers,
    fst (cors_app default_settings hello_client cors (from_origin "https://elsewhere.example")
           (request_of DELETE "/api/files/abc" None NoBody 300) demo_app)
    = FromApp (fst (serve default_settings hello_client
                      (request_of DELETE "/api/files/abc" None NoBody 300) demo_app)) headers.
Proof.
  apply (origin_not_checked default_settings hello_client
           (from_origin "https://elsewhere.example")
           (request_of DELETE "/api/files/abc" None NoBody 300) demo_app).
  reflexivity.
Defined.

Lemma preflight_answered_outside_witness :
  let (answer, s') :=
    cors_app default_settings hello_client cors
      (preflight_of "http://localhost:5173" "DELETE" (Some "authorization"))
      (request_of OPTIONS "/api/threads/10" None NoBody 300) demo_app in
  s' = demo_app /\
  (answer_status answer = 200 <->
   In "http://localhost:5173" settings.CORS_ORIGINS /\ In "DELETE" settings.CORS_METHODS) /\
  (answer_status answer = 200 ->
   dict_get "Access-Control-Allow-Origin" (answer_headers answer)
   = Some "http://localhost:5173" /\
   dict_get "Access-Control-Allow-Credentials" (answer_headers answer) = Some "true" /\
   dict_get "Access-Control-Allow-Headers" (answer_headers answer) = Some "authorization").
Proof.
  apply (preflight_answered_outside default_settings hello_client
           "http://localhost:5173" "DELETE"
           (preflight_of "http://localhost:5173" "DELETE" (Some "authorization"))
           (request_of OPTIONS "/api/threads/10" None NoBody 300) demo_app);
    reflexivity.
Defined.


Lemma allowed_methods_without_route_witness :
  In "PATCH" settings.CORS_METHODS /\
  forall r path_params, route_for app_routes PATCH "/api/threads/10" <> Found r path_params.
Proof.
  apply (allowed_methods_without_route PATCH "PATCH" "/api/threads/10"). now left.
Defined.

(** The status route over the limit, asked from the front end: the rate
    limit error escapes, and the 500 has no CORS header. *)
Example over_limit_status_from_front_end :
  fst (cors_app default_settings hello_client cors (from_origin "http://localhost:5173")
         (request_of GET "/api/rate-limits" None NoBody 100) full_app)
  = FromApp (Err (ApiExn (RateLimitError "Request" 60))) [].
Proof. vm_compute. reflexivity. Qed.

(** The same route within the limit, asked from a page of another site:
    the request is served and counted; the response allows credentials
    and names no origin. *)
Example other_origin_is_served :
  let (answer, s') :=
    cors_app default_settings hello_client cors (from_origin "https://elsewhere.example")
      (request_of GET "/api/rate-limits" None NoBody 100) demo_app in
  answer_status answer = 200 /\
  answer_headers answer = [("Access-Control-Allow-Credentials", "true")] /\
  requests_used (usage (world s')) = requests_used (usage (world demo_app)) + 1.
Proof. vm_compute. repeat split. Qed.

(** A request without an [Origin] header passes untouched. *)
Example no_origin_no_headers :
  answer_headers
    (fst (cors_app default_settings hello_client cors
            {| origin := None; access_control_request_method := None;
               access_control_request_headers := None; cookie := None |}
            (request_of GET "/health" None NoBody 100) demo_app))
  = [].
Proof. reflexivity. Qed.

(** A middleware that allows every origin names the origin only to a
    request with a cookie. *)
Example wildcard_and_cookie :
  let open := {| allow_origins := ["*"]; allow_credentials := false;
                 allow_methods := ["GET"]; allow_headers := ["X-Token"]; max_age := 600 |} in
  send open (from_origin "https://elsewhere.example") "https://elsewhere.example"
  = [("Access-Control-Allow-Origin", "*")] /\
  send open {| origin := Some "https://elsewhere.example";
               access_control_request_method := None;
               access_control_request_headers := None; cookie := Some "session=1" |}
       "https://elsewhere.example"
  = [("Access-Control-Allow-Origin", "https://elsewhere.example"); ("Vary", "Origin")] /\
  preflight_headers open
  = [("Access-Control-Allow-Origin", "*");
     ("Access-Control-Allow-Methods", "GET");
     ("Access-Control-Max-Age", "600");
     ("Access-Control-Allow-Headers",
      "Accept, Accept-Language, Content-Language, Content-Type, X-Token")].
Proof. repeat split. Qed.

End Witnesses.
