(* ===== verification/Sse.v ===== *)
(** * Sse: the events of a chat on the wire

    [stream_response] yields each event as a line of a server-sent event
    stream: [data: ] followed by [json.dumps({'content': text})] and a blank
    line, or [data: [DONE]] and a blank line ([app/chat/chat_service.py]).
    [ChatService] holds the events before framing; this file holds the
    framing, character for character, and the reading a client makes of
    the stream.

    [json.dumps] escapes with [ensure_ascii]: the quote, the backslash and
    the five control characters that have a short form, every other
    character outside the printable ASCII range as [\u] and four
    hexadecimal digits.  The model's characters are the code points below
    256; the reader is the inverse on those. *)

From Stdlib Require Import ZArith List Lia String Bool Ascii Arith.
From S2P Require Import Prelude.
From S2P Require Import Errors.
From S2P Require Import Settings.
From S2P Require Import RateLimiter.
From S2P Require Import State.
From S2P Require Import ChatService.
Import ListNotations.

Local Open Scope string_scope.
Local Open Scope list_scope.

(** ** Characters *)

Definition dquote : ascii := "034"%char.
Definition backslash : ascii := "092"%char.
Definition newline : ascii := "010"%char.

Definition hex_digits : list ascii := list_ascii_of_string "0123456789abcdef".

Definition hex_digit (n : nat) : ascii := nth n hex_digits "0"%char.

(** ** [json.dumps] of a string *)

(** The replacement of one character ([ESCAPE_ASCII] and [ESCAPE_DCT] of
    the encoder). *)
Definition escape_char (c : ascii) : string :=
  let n := nat_of_ascii c in
  if Nat.eqb n 34 then String backslash (String dquote "")
  else if Nat.eqb n 92 then String backslash (String backslash "")
  else if Nat.eqb n 10 then String backslash "n"
  else if Nat.eqb n 13 then String backslash "r"
  else if Nat.eqb n 9 then String backslash "t"
  else if Nat.eqb n 8 then String backslash "b"
  else if Nat.eqb n 12 then String backslash "f"
  else if Nat.leb 32 n && Nat.leb n 126 then String c ""
  else String backslash
         ("u00" ++ String (hex_digit (n / 16)) (String (hex_digit (n mod 16)) ""))%string.

Fixpoint escape (s : string) : string :=
  match s with
  | EmptyString => EmptyString
  | String c s' => (escape_char c ++ escape s')%string
  end.

(** [json.dumps(s)] *)
Definition json_dumps_str (s : string) : string :=
  String dquote (escape s ++ String dquote "")%string.

(** What comes before the text in [json.dumps({'content': text})]. *)
Definition content_open : string :=
  String "{" (String dquote ("content" ++ String dquote (": " ++ String dquote "")))%string.

(** [json.dumps({'content': text})] *)
Definition json_dumps_content (text : string) : string :=
  (content_open ++ escape text ++ String dquote "}")%string.

(** ** Framing *)

Definition blank_line : string := String newline (String newline "").

(** [f"data: {...}\n\n"] and ["data: [DONE]\n\n"] *)
Definition sse (e : event) : string :=
  match e with
  | Content text => ("data: " ++ json_dumps_content text ++ blank_line)%string
  | Done => ("data: [DONE]" ++ blank_line)%string
  end.

(** The body of the streaming response: the frames one after the other. *)
Fixpoint body_text (events : list event) : string :=
  match events with
  | [] => EmptyString
  | e :: rest => (sse e ++ body_text rest)%string
  end.

(** ** The body of a chat response *)

(** The replacement of one character when the framework renders a
    dictionary: [json.dumps] without [ensure_ascii], which escapes the
    quote, the backslash and the control characters only. *)
Definition escape_char_plain (c : ascii) : string :=
  let n := nat_of_ascii c in
  if Nat.leb 32 n && negb (Nat.eqb n 34) && negb (Nat.eqb n 92) then String c ""
  else escape_char c.

Fixpoint escape_plain (s : string) : string :=
  match s with
  | EmptyString => EmptyString
  | String c s' => (escape_char_plain c ++ escape_plain s')%string
  end.

Definition quoted (s : string) : string := String dquote (s ++ String dquote "")%string.

(** What the client receives: the frames of the stream, or the dictionary
    the handler returns when the request could not be started, rendered
    with compact separators. *)
Definition wire (r : chat_reply) : string :=
  match r with
  | StreamingResponse body => body_text body
  | ErrorDict role content =>
      ("{" ++ quoted "role" ++ ":" ++ quoted (escape_plain role) ++ ","
           ++ quoted "content" ++ ":" ++ quoted (escape_plain content) ++ "}")%string
  end.

(** ** The reader *)

Definition hex_value (c : ascii) : option nat :=
  let n := nat_of_ascii c in
  if Nat.leb 48 n && Nat.leb n 57 then Some (n - 48)
  else if Nat.leb 97 n && Nat.leb n 102 then Some (n - 87)
  else if Nat.leb 65 n && Nat.leb n 70 then Some (n - 55)
  else None.

(** The character of a backslash, [u] and four hexadecimal digits, for a
    code point below 256. *)
Definition unicode_escape (a b c d : ascii) : option ascii :=
  match hex_value a, hex_value b, hex_value c, hex_value d with
  | Some 0, Some 0, Some h, Some l => Some (ascii_of_nat (16 * h + l))
  | _, _, _, _ => None
  end.

(** The character of a short escape. *)
Definition short_escape (e : ascii) : option ascii :=
  let n := nat_of_ascii e in
  if Nat.eqb n 34 then Some dquote
  else if Nat.eqb n 92 then Some backslash
  else if Nat.eqb n 47 then Some "/"%char
  else if Nat.eqb n 110 then Some newline
  else if Nat.eqb n 114 then Some "013"%char
  else if Nat.eqb n 116 then Some "009"%char
  else if Nat.eqb n 98 then Some "008"%char
  else if Nat.eqb n 102 then Some "012"%char
  else None.

Definition push (c : ascii) (r : option (string * string)) : option (string * string) :=
  match r with
  | Some (text, rest) => Some (String c text, rest)
  | None => None
  end.

(** A JSON string, read from after its opening quote: the text, and what
    follows the closing quote.  A control character inside the string is
    not JSON. *)
Fixpoint read_string (s : string) : option (string * string) :=
  match s with
  | EmptyString => None
  | String c rest =>
      if Ascii.eqb c dquote then Some (EmptyString, rest)
      else if Ascii.eqb c backslash then
        match rest with
        | String e rest' =>
            if Ascii.eqb e "u" then
              match rest' with
              | String a (String b (String c' (String d rest''))) =>
                  match unicode_escape a b c' d with
                  | Some ch => push ch (read_string rest'')
                  | None => None
                  end
              | _ => None
              end
            else
              match short_escape e with
              | Some ch => push ch (read_string rest')
              | None => None
              end
        | EmptyString => None
        end
      else if Nat.leb 32 (nat_of_ascii c) then push c (read_string rest)
      else None
  end.

(** The event of a [data:] payload. *)
Definition parse_data (payload : string) : option event :=
  if String.eqb payload "[DONE]" then Some Done
  else
    match strip_prefix content_open payload with
    | Some rest =>
        match read_string rest with
        | Some (text, after) => if String.eqb after "}" then Some (Content text) else None
        | None => None
        end
    | None => None
    end.

(** The events of the lines of a stream: each event is a [data:] line and
    an empty line; after the last there is nothing. *)
Fixpoint parse_lines (lines : list string) : option (list event) :=
  match lines with
  | [] => None
  | [last] => if String.eqb last "" then Some [] else None
  | line :: blank :: rest =>
      match strip_prefix "data: " line with
      | Some payload =>
          match parse_data payload, parse_lines rest with
          | Some e, Some es => if String.eqb blank "" then Some (e :: es) else None
          | _, _ => None
          end
      | None => None
      end
  end.

Definition parse_stream (text : string) : option (list event) :=
  parse_lines (split_char newline text).

(** ** The encoder and the reader *)

Lemma escape_app s1 s2 : escape (s1 ++ s2) = (escape s1 ++ escape s2)%string.
Proof.
  induction s1 as [|c s1 IH]; cbn [escape append]; [reflexivity|].
  now rewrite IH, append_assoc.
Qed.

(** Reading the replacement of a character gives the character. *)
Lemma read_escape_char c t :
  read_string (escape_char c ++ t) = push c (read_string t).
Proof. destruct c as [[] [] [] [] [] [] [] []]; reflexivity. Qed.

Lemma read_escape s rest :
  read_string (escape s ++ String dquote rest) = Some (s, rest).
Proof.
  induction s as [|c s IH]; cbn [escape append].
  - reflexivity.
  - now rewrite append_assoc, read_escape_char, IH.
Qed.

(** No replacement holds a line break. *)
Lemma escape_char_one_line c : ~ In newline (list_ascii_of_string (escape_char c)).
Proof.
  destruct c as [[] [] [] [] [] [] [] []]; vm_compute;
    intros H; repeat (destruct H as [H|H]; [discriminate H|]); exact H.
Qed.

Lemma In_list_ascii_app c s1 s2 :
  In c (list_ascii_of_string (s1 ++ s2)) <->
  In c (list_ascii_of_string s1) \/ In c (list_ascii_of_string s2).
Proof.
  induction s1 as [|a s1 IH]; cbn [append list_ascii_of_string In]; [tauto|].
  rewrite IH. tauto.
Qed.

Lemma escape_one_line s : ~ In newline (list_ascii_of_string (escape s)).
Proof.
  induction s as [|c s IH]; cbn [escape]; [intros []|].
  rewrite In_list_ascii_app. intros [H|H]; [exact (escape_char_one_line c H) | exact (IH H)].
Qed.

(** ** Frames *)

(** The line of an event: what stands before its blank line. *)
Definition data_line (e : event) : string :=
  match e with
  | Content text => ("data: " ++ json_dumps_content text)%string
  | Done => "data: [DONE]"
  end.

Lemma sse_data_line e : sse e = (data_line e ++ blank_line)%string.
Proof. destruct e; cbn [sse data_line]; [now rewrite !append_assoc | reflexivity]. Qed.

Lemma data_line_one_line e : ~ In newline (list_ascii_of_string (data_line e)).
Proof.
  destruct e as [text|]; cbn [data_line].
  - unfold json_dumps_content. rewrite !In_list_ascii_app.
    intros [H|[H|[H|H]]]; [| |exact (escape_one_line text H)|];
      vm_compute in H; repeat (destruct H as [H|H]; [discriminate H|]); exact H.
  - vm_compute. intros H. repeat (destruct H as [H|H]; [discriminate H|]). exact H.
Qed.

Lemma parse_data_line e :
  exists payload, strip_prefix "data: " (data_line e) = Some payload /\ parse_data payload = Some e.
Proof.
  destruct e as [text|]; cbn [data_line].
  - rewrite strip_prefix_app. eexists. split; [reflexivity|].
    unfold parse_data, json_dumps_content.
    replace (String.eqb (content_open ++ escape text ++ String dquote "}") "[DONE]")
      with false by reflexivity.
    now rewrite strip_prefix_app, read_escape.
  - now exists "[DONE]".
Qed.

(** The lines of a frame followed by more: its data line, an empty line,
    and the lines of what follows. *)
Lemma split_frame e rest :
  split_char newline (sse e ++ rest)
  = data_line e :: EmptyString :: split_char newline rest.
Proof.
  rewrite sse_data_line. unfold blank_line. rewrite append_assoc. cbn [append].
  rewrite split_char_app, (split_char_none _ _ (data_line_one_line e)).
  change (String newline rest) with ("" ++ String newline rest)%string.
  now rewrite split_char_app.
Qed.

(** Reading what was framed gives the events. *)
Lemma parse_body_text events : parse_stream (body_text events) = Some events.
Proof.
  unfold parse_stream. induction events as [|e events IH]; cbn [body_text]; [reflexivity|].
  rewrite split_frame. cbn [parse_lines].
  destruct (parse_data_line e) as (payload & -> & ->). now rewrite IH.
Qed.

(** C35. A client that reads the body of a streaming response line by line
    gets back exactly the events the generator yielded, in order, whatever
    the model wrote: a fragment that holds line breaks, quotes, the text
    [data: [DONE]] or a whole frame is one event with that text, since the
    encoder leaves no line break in a payload.  Two runs that put the same
    characters on the wire therefore yielded the same events. *)
Theorem sse_roundtrip :
  (forall events, parse_stream (body_text events) = Some events) /\
  (forall es1 es2, body_text es1 = body_text es2 -> es1 = es2).
Proof.
  split; [exact parse_body_text|]. intros es1 es2 H.
  apply (f_equal parse_stream) in H. rewrite !parse_body_text in H. congruence.
Qed.

Lemma body_text_app es1 es2 : body_text (es1 ++ es2) = (body_text es1 ++ body_text es2)%string.
Proof.
  induction es1 as [|e es1 IH]; cbn [body_text app]; [reflexivity|].
  now rewrite IH, append_assoc.
Qed.

(** ** What a client sees of a chat *)

Section Wire.
Context `{Tokenizer} (cfg : Settings).

(** Whatever the model streams, a client that reads the response of a
    chat sees content events and then the terminal marker, once and last:
    nothing the model writes, the text of the marker included, is read as
    the end of the stream before the generator has ended it. *)
Theorem client_sees_one_marker thread_id model draw response w :
  exists evs,
    parse_stream (wire (fst (process_chat_request cfg thread_id model draw (Ok response) w)))
    = Some (evs ++ [Done]) /\
    existsb is_done evs = false.
Proof.
  destruct (stream_loop_done cfg thread_id model draw "" response w) as (evs & Hevs & Hd).
  exists evs. split; [|exact Hd].
  unfold process_chat_request, stream_response in *.
  destruct (stream_loop _ _ _ _ _ _ _) as [body w']. cbn [fst wire] in *. subst body.
  apply parse_body_text.
Qed.

End Wire.

(** A request that could not be started is answered with a dictionary,
    which a reader of events cannot read: it finds no [data:] line and no
    terminal marker. *)
Lemma error_dict_not_a_stream role content :
  parse_stream (wire (ErrorDict role content)) = None.
Proof.
  unfold parse_stream. cbn [wire append]. cbn [split_char].
  replace (Ascii.eqb "{" newline) with false by reflexivity.
  destruct (split_char newline _) as [|first more]; [reflexivity|].
  destruct more as [|blank rest]; reflexivity.
Qed.

(** ** Examples *)

(** A fragment that holds the text of a whole frame and of the marker is
    one line on the wire. *)
Example forged_marker_escaped :
  sse (Content (String dquote "}" ++ blank_line ++ "data: [DONE]" ++ blank_line))
  = ("data: " ++ content_open ++ String backslash (String dquote "}")
     ++ String backslash "n" ++ String backslash "n" ++ "data: [DONE]"
     ++ String backslash "n" ++ String backslash "n" ++ String dquote "}" ++ blank_line)%string.
Proof. reflexivity. Qed.

(** Characters outside the printable ASCII range are written with their
    code in a stream and as they are in a dictionary. *)
Example two_encoders :
  escape (String "233"%char "") = String backslash "u00e9" /\
  escape_plain (String "233"%char "") = String "233"%char "" /\
  escape_plain (String newline "") = String backslash "n".
Proof. repeat split. Qed.
