(* ===== verification/TestRunner.v ===== *)
(** * TestRunner: [run_tests.py]

    The script that runs the test suite: it asks the test loader for the
    modules of the directory whose names fit a pattern, runs them, and
    exits with 0 when the run was successful and 1 otherwise.  The
    directory is the list of its test modules with the verdict of each;
    the loader's choice is the file name match of [fnmatch], of which the
    patterns of the script use the wildcard [*]. *)

From Stdlib Require Import ZArith List String Bool Ascii.
From S2P Require Import Prelude.
Import ListNotations.

Local Open Scope string_scope.
Local Open Scope Z_scope.
Local Open Scope list_scope.

Module run_tests.

(** ** The loader *)

(** [fnmatch(name, pat)]: [*] stands for any text and [?] for any one
    character; any other character stands for itself. *)
Fixpoint fnmatch (name pat : string) {struct pat} : bool :=
  match pat with
  | EmptyString => match name with EmptyString => true | String _ _ => false end
  | String c rest =>
      if Ascii.eqb c "*" then
        (fix star (name : string) : bool :=
           fnmatch name rest ||
           match name with
           | String _ name' => star name'
           | EmptyString => false
           end) name
      else
        match name with
        | String d name' => (Ascii.eqb c "?" || Ascii.eqb c d) && fnmatch name' rest
        | EmptyString => false
        end
  end.

(** A module of tests of the directory, and whether its tests pass (a
    module that cannot be imported counts as a failure). *)
Record TestModule : Type := {
  file_name : string;
  passes : bool
}.

(** [unittest.defaultTestLoader.discover(".", pattern=...)] *)
Definition discover (pattern : string) (directory : list TestModule) : list TestModule :=
  filter (fun m => fnmatch (file_name m) pattern) directory.

(** [unittest.TextTestRunner().run(test_suite).wasSuccessful()] *)
Definition wasSuccessful (test_suite : list TestModule) : bool := forallb passes test_suite.

(** ** The script *)

Definition run_unittest_tests (directory : list TestModule) : Z :=
  if wasSuccessful (discover "test_*_unittest.py" directory) then 0 else 1.

Definition run_fastapi_tests (directory : list TestModule) : Z :=
  if wasSuccessful (discover "test_fastapi.py" directory) then 0 else 1.

Definition run_all_tests (directory : list TestModule) : Z :=
  if wasSuccessful (discover "test_*.py" directory) then 0 else 1.

Inductive Line : Type :=
| UnknownTestType.

(** The body under [if __name__ == "__main__"]: the exit code and what
    is printed. *)
Definition main (argv : list string) (directory : list TestModule) : ending * list Line :=
  match argv with
  | _ :: kind :: _ =>
      if String.eqb kind "unittest" then (Exit (run_unittest_tests directory), [])
      else if String.eqb kind "fastapi" then (Exit (run_fastapi_tests directory), [])
      else (Exit 1, [UnknownTestType])
  | _ => (Exit (run_all_tests directory), [])
  end.

End run_tests.

Import run_tests.

(** ** The match *)

(** No wildcard in the text. *)
Fixpoint literal (p : string) : bool :=
  match p with
  | EmptyString => true
  | String c rest => negb (Ascii.eqb c "*") && negb (Ascii.eqb c "?") && literal rest
  end.

Lemma fnmatch_empty name : fnmatch name "" = true <-> name = "".
Proof. destruct name; cbn; split; congruence. Qed.

Lemma fnmatch_star name rest :
  fnmatch name (String "*" rest)
  = fnmatch name rest ||
    match name with
    | String _ name' => fnmatch name' (String "*" rest)
    | EmptyString => false
    end.
Proof. destruct name; reflexivity. Qed.

(** The wildcard takes a prefix of the name, and the rest of the pattern
    the rest of the name. *)
Lemma fnmatch_star_iff name rest :
  fnmatch name (String "*" rest) = true <->
  exists taken name', name = (taken ++ name')%string /\ fnmatch name' rest = true.
Proof.
  induction name as [|c name IH]; rewrite fnmatch_star, orb_true_iff.
  - split.
    + intros [Hm | Hf]; [|discriminate]. now exists "", "".
    + intros (taken & name' & Hn & Hm). left.
      destruct taken; [cbn in Hn; now subst | discriminate].
  - rewrite IH. split.
    + intros [Hm | (taken & name' & -> & Hm)].
      * now exists "", (String c name).
      * now exists (String c taken), name'.
    + intros (taken & name' & Hn & Hm). destruct taken as [|d taken]; cbn in Hn.
      * left. now subst.
      * right. injection Hn as -> ->. now exists taken, name'.
Qed.

(** A literal start of the pattern is the start of the name. *)
Lemma fnmatch_literal p rest name :
  literal p = true ->
  fnmatch name (p ++ rest)
  = match strip_prefix p name with
    | Some name' => fnmatch name' rest
    | None => false
    end.
Proof.
  revert name. induction p as [|c p IH]; intros name Hl.
  - now destruct name.
  - cbn [literal] in Hl. apply andb_true_iff in Hl as [[Hs Hq]%andb_true_iff Hl].
    apply negb_true_iff in Hs, Hq. cbn [append fnmatch strip_prefix]. rewrite Hs.
    destruct name as [|d name]; [reflexivity|]. rewrite Hq. cbn [orb].
    destruct (Ascii.eqb c d); [apply IH, Hl | reflexivity].
Qed.

Lemma append_cancel_l (p a b : string) : (p ++ a)%string = (p ++ b)%string -> a = b.
Proof. induction p as [|c p IH]; cbn; [congruence|]. intros [= Hs]. now apply IH. Qed.

Lemma fnmatch_exact p name : literal p = true -> fnmatch name p = true <-> name = p.
Proof.
  intros Hl. rewrite <- (append_nil_r p) at 1. rewrite (fnmatch_literal p "" name Hl).
  destruct (strip_prefix p name) as [name'|] eqn:Hs.
  - apply strip_prefix_Some in Hs. rewrite fnmatch_empty. split.
    + intros ->. now rewrite Hs, append_nil_r.
    + intros ->. rewrite <- (append_nil_r p) in Hs at 1. now apply append_cancel_l in Hs.
  - split; [discriminate|]. intros ->.
    rewrite <- (append_nil_r p) in Hs at 2. now rewrite strip_prefix_app in Hs.
Qed.

(** The patterns of the script: text, the wildcard, text. *)
Lemma fnmatch_glob p q name :
  literal p = true -> literal q = true ->
  fnmatch name (p ++ String "*" q) = true <->
  exists taken, name = (p ++ taken ++ q)%string.
Proof.
  intros Hp Hq. rewrite (fnmatch_literal p _ name Hp).
  destruct (strip_prefix p name) as [name'|] eqn:Hs.
  - apply strip_prefix_Some in Hs. rewrite fnmatch_star_iff. split.
    + intros (taken & rest & -> & Hm). apply (fnmatch_exact q rest Hq) in Hm. subst.
      now exists taken.
    + intros (taken & Hn). exists taken, q. split; [|now apply fnmatch_exact].
      rewrite Hs in Hn. now apply append_cancel_l in Hn.
  - split; [discriminate|]. intros (taken & ->). now rewrite strip_prefix_app in Hs.
Qed.

(** ** The three runs *)

Lemma unittest_names_fit_all name :
  fnmatch name "test_*_unittest.py" = true -> fnmatch name "test_*.py" = true.
Proof.
  intros (taken & ->)%(fnmatch_glob "test_" "_unittest.py"); [|reflexivity..].
  apply (fnmatch_glob "test_" ".py"); [reflexivity..|].
  exists (taken ++ "_unittest")%string. now rewrite append_assoc.
Qed.

Lemma fastapi_name_fits_all name :
  fnmatch name "test_fastapi.py" = true -> fnmatch name "test_*.py" = true.
Proof.
  intros ->%fnmatch_exact; reflexivity.
Qed.

Lemma wasSuccessful_narrower (chosen wider : TestModule -> bool) directory :
  (forall m, chosen m = true -> wider m = true) ->
  wasSuccessful (filter wider directory) = true ->
  wasSuccessful (filter chosen directory) = true.
Proof.
  intros Hsub. unfold wasSuccessful. rewrite !forallb_forall.
  intros Hw m [Hin Hc]%filter_In. apply Hw, filter_In. auto.
Qed.

Lemma exit_code_zero (ok : bool) : (if ok then 0 else 1) = 0 <-> ok = true.
Proof. destruct ok; split; congruence. Qed.

(** The run of all the tests covers the two others: when it exits with
    0, so does each of them on the same directory. *)
Theorem all_tests_cover_the_others directory :
  run_all_tests directory = 0 ->
  run_unittest_tests directory = 0 /\ run_fastapi_tests directory = 0.
Proof.
  unfold run_all_tests, run_unittest_tests, run_fastapi_tests, discover.
  rewrite !exit_code_zero. intros Hall.
  split; revert Hall; apply wasSuccessful_narrower; intros m;
    [apply unittest_names_fit_all | apply fastapi_name_fits_all].
Qed.

(** The script always exits, with 0 or 1; it prints only when it is
    given a kind of test it does not know, and then exits with 1 without
    running a test. *)
Theorem main_exit_codes argv directory :
  exists code printed,
    main argv directory = (Exit code, printed) /\ (code = 0 \/ code = 1) /\
    (printed <> [] -> code = 1 /\ exists kind, nth_error argv 1 = Some kind /\
                                   kind <> "unittest" /\ kind <> "fastapi").
Proof.
  unfold main, run_all_tests, run_unittest_tests, run_fastapi_tests.
  destruct argv as [|script [|kind argv]].
  1,2: destruct (wasSuccessful _); eexists _, []; (split; [reflexivity|]); split; tauto.
  destruct (String.eqb_spec kind "unittest") as [->|Hu];
    [destruct (wasSuccessful _); eexists _, []; (split; [reflexivity|]); split; tauto|].
  destruct (String.eqb_spec kind "fastapi") as [->|Hf];
    [destruct (wasSuccessful _); eexists _, []; (split; [reflexivity|]); split; tauto|].
  exists 1, [UnknownTestType]. split; [reflexivity|]. split; [now right|].
  intros _. split; [reflexivity|]. now exists kind.
Qed.

(** A run that finds no module is a successful run. *)
Lemma nothing_found_succeeds pattern directory :
  discover pattern directory = [] -> wasSuccessful (discover pattern directory) = true.
Proof. now intros ->. Qed.

(** ** Witnesses *)

(** The test modules of the repository, with one that fails. *)
Definition backend_tests (main_passes : bool) : list TestModule :=
  [ {| file_name := "test_fastapi.py"; passes := true |};
    {| file_name := "test_main.py"; passes := main_passes |};
    {| file_name := "test_main_unittest.py"; passes := true |} ].

Lemma all_tests_cover_the_others_witness :
  run_unittest_tests (backend_tests true) = 0 /\ run_fastapi_tests (backend_tests true) = 0.
Proof. apply (all_tests_cover_the_others (backend_tests true)). reflexivity. Defined.

Lemma fnmatch_glob_witness :
  fnmatch "test_main_unittest.py" ("test_" ++ String "*" "_unittest.py") = true <->
  exists taken, "test_main_unittest.py" = ("test_" ++ taken ++ "_unittest.py")%string.
Proof. apply (fnmatch_glob "test_" "_unittest.py" "test_main_unittest.py"); reflexivity. Defined.

(** [test_main.py] is run by the run of all the tests only: when it
    fails, the two other runs still exit with 0. *)
Example main_tests_only_in_all :
  map file_name (discover "test_*_unittest.py" (backend_tests false)) = ["test_main_unittest.py"] /\
  map file_name (discover "test_fastapi.py" (backend_tests false)) = ["test_fastapi.py"] /\
  main ["run_tests.py"; "unittest"] (backend_tests false) = (Exit 0, []) /\
  main ["run_tests.py"; "fastapi"] (backend_tests false) = (Exit 0, []) /\
  main ["run_tests.py"] (backend_tests false) = (Exit 1, []).
Proof. repeat split. Qed.

(** A kind that is not known runs nothing, and a directory without the
    module asked for passes. *)
Example unknown_kind_and_empty_run :
  main ["run_tests.py"; "all"] (backend_tests true) = (Exit 1, [UnknownTestType]) /\
  main ["run_tests.py"; "fastapi"] [ {| file_name := "test_main.py"; passes := false |} ]
  = (Exit 0, []).
Proof. split; reflexivity. Qed.
